(** * TallyPrime JavaScript SDK: the XML request/response translation layer

    A shallow embedding of the class [XmlBuilder], of the connector of
    [src/connector/TallyConnector.js], of the operations and the
    interpreters of the voucher, ledger, stock item and company services,
    and of the quick methods of the SDK, followed by the properties of the
    specification and by further properties of the code.

    Layout:
    - [Str]      : string helpers of the JavaScript runtime ([replace],
                   [padStart], the global one-character replacements);
    - [Num]      : JavaScript numbers as IEEE 754 binary64 values
                   ([spec_float] of the Standard Library), with decimal
                   reading ([parseFloat]) and printing ([toString]);
    - [Js]       : dynamically typed values, truthiness, [||], exceptions,
                   and the tree that xml2js hands to the interpreters;
    - [XmlBuilder], [UtilsXmlBuilder], [TallyConnector], [VoucherService],
      [LedgerService], [StockItemService], [CompanyService],
      [TallyPrimeSDK] : the code, function by function;
    - [Numeral], [Spec] : the vocabulary in which the properties are
                   stated;
    - the lemmas on strings, numbers and values, and then the properties
      C5 to C10, one block per property, with the lemmas on validation,
      on the entry parser and on the interpreters;
    - the further properties of the code, X1 to X29: the connector, the
      operations of the services, the interpreters of the responses, and
      the reading back of the messages;
    - among them, where their lemmas are at hand, the properties that
      speak of all the operations and of all the interpreters (C3 after
      the deletions, C4 after the lists), and at the end those that read
      the message of a voucher back (C1 and C2). *)

From Stdlib Require Import ZArith List String Ascii Bool Lia SpecFloat.
Import ListNotations.

Set Warnings "-register-all".

Local Open Scope string_scope.

(* ===================================================================== *)
(** * Strings *)
(* ===================================================================== *)

(** A text is held as a Rocq string literal holds it: the bytes of its
    UTF-8 encoding, so a character up to U+007F is one byte and any other
    two to four.  The operations below compare, search and replace byte by
    byte, which on encoded texts is the same as doing so character by
    character; the only lengths the code takes are those of decimal
    numerals ([padStart]), where bytes and characters agree. *)

Module Str.

(** The double quote, which the templates of the builder use around
    attribute values. *)
Definition dq_char : ascii := Ascii false true false false false true false false.
Definition dq : string := String dq_char EmptyString.

(** Line feed: the templates span several lines. *)
Definition nl_char : ascii := Ascii false true false true false false false false.
Definition nl : string := String nl_char EmptyString.

Fixpoint drop (n : nat) (s : string) : string :=
  match n, s with
  | O, _ => s
  | S _, EmptyString => EmptyString
  | S k, String _ r => drop k r
  end.

Fixpoint take (n : nat) (s : string) : string :=
  match n, s with
  | O, _ => EmptyString
  | S _, EmptyString => EmptyString
  | S k, String c r => String c (take k r)
  end.

Fixpoint repeat (c : ascii) (n : nat) : string :=
  match n with
  | O => EmptyString
  | S k => String c (repeat c k)
  end.

(** [s.startsWith(pat)]. *)
Fixpoint startsWith (pat s : string) : bool :=
  match pat, s with
  | EmptyString, _ => true
  | String _ _, EmptyString => false
  | String a p, String b r => Ascii.eqb a b && startsWith p r
  end.

(** [s.replace(pat, rep)] with a string pattern: only the first occurrence
    is replaced.  (The replacement texts of the code contain no [$], so the
    special replacement patterns of JavaScript do not come into play.) *)
Fixpoint replace (pat rep s : string) : string :=
  if startsWith pat s then rep ++ drop (length pat) s
  else match s with
       | EmptyString => EmptyString
       | String c r => String c (replace pat rep r)
       end.

(** [s.replace(/c/g, rep)] for a one-character pattern: every occurrence. *)
Fixpoint replaceAll (c : ascii) (rep : string) (s : string) : string :=
  match s with
  | EmptyString => EmptyString
  | String a r =>
      if Ascii.eqb a c then rep ++ replaceAll c rep r
      else String a (replaceAll c rep r)
  end.

(** [s.includes(pat)]. *)
Fixpoint includes (pat s : string) : bool :=
  if startsWith pat s then true
  else match s with
       | EmptyString => false
       | String _ r => includes pat r
       end.

(** [s.padStart(n, c)] with a one-character filler. *)
Definition padStart (n : nat) (c : ascii) (s : string) : string :=
  repeat c (n - length s) ++ s.

(** [arr.join(sep)] on strings. *)
Fixpoint join (sep : string) (l : list string) : string :=
  match l with
  | [] => EmptyString
  | [x] => x
  | x :: r => x ++ sep ++ join sep r
  end.

Definition concat (l : list string) : string := join EmptyString l.

End Str.

(* ===================================================================== *)
(** * Numbers *)
(* ===================================================================== *)

(** A JavaScript number is an IEEE 754 binary64 value.  The arithmetic is
    that of [SpecFloat] at precision 53 and maximal exponent 1024, which
    rounds to nearest, ties to even, as ECMAScript prescribes. *)

Module Num.

Local Open Scope Z_scope.

Definition number := spec_float.

Definition prec : Z := 53.
Definition emax : Z := 1024.

Definition NaN : number := S754_nan.
Definition add : number -> number -> number := SFadd prec emax.
Definition mul : number -> number -> number := SFmul prec emax.
Definition div : number -> number -> number := SFdiv prec emax.
Definition abs : number -> number := SFabs.
Definition neg : number -> number := SFopp.

(** [a < b], [a > b], [a === b] on numbers; all are false on NaN. *)
Definition lt (a b : number) : bool := SFltb a b.
Definition gt (a b : number) : bool := SFltb b a.
Definition strict_eq (a b : number) : bool := SFeqb a b.

Definition is_nan (x : number) : bool :=
  match x with S754_nan => true | _ => false end.

Definition is_zero (x : number) : bool :=
  match x with S754_zero _ => true | _ => false end.

(** The doubles that exist: every finite one has a canonical mantissa and
    exponent. *)
Definition valid (x : number) : bool := valid_binary prec emax x.

(** Structural equality (it tells +0 from -0 and equates NaN with itself);
    used by the printer, never by the modelled code. *)
Definition same (a b : number) : bool :=
  match a, b with
  | S754_zero s, S754_zero t => Bool.eqb s t
  | S754_infinity s, S754_infinity t => Bool.eqb s t
  | S754_nan, S754_nan => true
  | S754_finite s m e, S754_finite t n f =>
      Bool.eqb s t && Pos.eqb m n && Z.eqb e f
  | _, _ => false
  end.

(** The double nearest to [m * 10^e], for a natural number [m]: what a
    decimal literal or [parseFloat] denotes. *)
Definition of_decimal (sign : bool) (m : Z) (e : Z) : number :=
  match m with
  | Zpos p =>
      if 0 <=? e then
        match Zpos p * 10 ^ e with
        | Zpos q => binary_round prec emax sign q 0
        | _ => S754_zero sign
        end
      else
        let '(mz, ez, lz) :=
          SFdiv_core_binary prec emax (Zpos p) 0 (10 ^ (- e)) 0 in
        binary_round_aux prec emax sign mz ez lz
  | _ => S754_zero sign
  end.

(** ** Reading decimal text: [parseFloat] on a string *)

Definition digit_val (c : ascii) : option Z :=
  let n := Z.of_nat (nat_of_ascii c) in
  if (48 <=? n) && (n <=? 57) then Some (n - 48) else None.

(** Reads the longest run of digits: the number read after [acc], how many
    digits were read after [count], and the rest of the text. *)
Fixpoint read_digits (s : string) (acc : Z) (count : nat) : Z * nat * string :=
  match s with
  | EmptyString => (acc, count, s)
  | String c r =>
      match digit_val c with
      | Some d => read_digits r (10 * acc + d) (S count)
      | None => (acc, count, s)
      end
  end.

(** The white space and the line terminators of the language, which
    [parseFloat] and [parseInt] skip at the start of a text.  In one byte:
    U+0009 to U+000D and U+0020.  In two bytes: U+00A0 (C2 A0).  In three
    bytes: U+1680 (E1 9A 80), U+2000 to U+200A (E2 80 80 to E2 80 8A),
    U+2028 and U+2029 (E2 80 A8, E2 80 A9), U+202F (E2 80 AF), U+205F
    (E2 81 9F), U+3000 (E3 80 80) and U+FEFF (EF BB BF). *)
Definition is_white (c : ascii) : bool :=
  let n := nat_of_ascii c in
  Nat.eqb n 32 || (Nat.leb 9 n && Nat.leb n 13).

Definition is_white2 (c d : ascii) : bool :=
  Nat.eqb (nat_of_ascii c) 194 && Nat.eqb (nat_of_ascii d) 160.

Definition is_white3 (c d e : ascii) : bool :=
  let a := nat_of_ascii c in
  let b := nat_of_ascii d in
  let n := nat_of_ascii e in
  (Nat.eqb a 225 && Nat.eqb b 154 && Nat.eqb n 128)
  || (Nat.eqb a 226 && Nat.eqb b 128
      && ((Nat.leb 128 n && Nat.leb n 138) || Nat.eqb n 168 || Nat.eqb n 169 || Nat.eqb n 175))
  || (Nat.eqb a 226 && Nat.eqb b 129 && Nat.eqb n 159)
  || (Nat.eqb a 227 && Nat.eqb b 128 && Nat.eqb n 128)
  || (Nat.eqb a 239 && Nat.eqb b 187 && Nat.eqb n 191).

Fixpoint trim_start (s : string) : string :=
  match s with
  | EmptyString => s
  | String c r =>
      if is_white c then trim_start r
      else
        match r with
        | String d r2 =>
            if is_white2 c d then trim_start r2
            else
              match r2 with
              | String e r3 => if is_white3 c d e then trim_start r3 else s
              | EmptyString => s
              end
        | EmptyString => s
        end
  end.

Definition read_sign (s : string) : bool * string :=
  match s with
  | String "-"%char r => (true, r)
  | String "+"%char r => (false, r)
  | _ => (false, s)
  end.

(** An exponent part counts only when at least one digit follows. *)
Definition read_exponent (s : string) : Z :=
  match s with
  | String c r =>
      if Ascii.eqb c "e"%char || Ascii.eqb c "E"%char then
        let (minus, r') := read_sign r in
        let '(v, n, _) := read_digits r' 0 O in
        match n with
        | O => 0
        | S _ => if minus then - v else v
        end
      else 0
  | EmptyString => 0
  end.

Definition parseFloat_string (s : string) : number :=
  let (sign, s1) := read_sign (trim_start s) in
  if Str.startsWith "Infinity" s1 then S754_infinity sign
  else
    let '(ip, n1, r1) := read_digits s1 0 O in
    let '(m, n2, r2) :=
      match r1 with
      | String "."%char r => read_digits r ip O
      | _ => (ip, O, r1)
      end in
    match (n1 + n2)%nat with
    | O => NaN
    | S _ => of_decimal sign m (read_exponent r2 - Z.of_nat n2)
    end.

(** A numeric literal of the source text. *)
Definition lit (s : string) : number := parseFloat_string s.

(** ** Reading an integer: [parseInt] on a string, without a radix *)

Definition hex_val (c : ascii) : option Z :=
  let n := Z.of_nat (nat_of_ascii c) in
  if (48 <=? n) && (n <=? 57) then Some (n - 48)
  else if (97 <=? n) && (n <=? 102) then Some (n - 87)
  else if (65 <=? n) && (n <=? 70) then Some (n - 55)
  else None.

(** Reads the longest run of hexadecimal digits: the number read after
    [acc], and how many digits were read after [count]. *)
Fixpoint read_hex (s : string) (acc : Z) (count : nat) : Z * nat :=
  match s with
  | EmptyString => (acc, count)
  | String c r =>
      match hex_val c with
      | Some d => read_hex r (16 * acc + d) (S count)
      | None => (acc, count)
      end
  end.

(** After white space and a sign, the text is read in base 16 when it
    goes on with [0x] or [0X], and in base 10 otherwise; it is NaN when no
    digit is found.  The integer read is rounded to the nearest double. *)
Definition parseInt_string (s : string) : number :=
  let (sign, s1) := read_sign (trim_start s) in
  let (v, n) :=
    if Str.startsWith "0x" s1 || Str.startsWith "0X" s1 then read_hex (Str.drop 2 s1) 0 O
    else let '(v, n, _) := read_digits s1 0 O in (v, n) in
  match n with
  | O => NaN
  | S _ => of_decimal sign v 0
  end.

(** An integer of the engine (a length, a count) as a number. *)
Definition of_Z (n : Z) : number :=
  if n <? 0 then of_decimal true (- n) 0 else of_decimal false n 0.

(** ** Printing: [Number.prototype.toString], radix 10 *)

Definition digit_char (d : Z) : ascii := ascii_of_nat (48 + Z.to_nat d).

Fixpoint digits_loop (fuel : nat) (n : Z) (acc : string) : string :=
  match fuel with
  | O => acc
  | S f =>
      let acc' := String (digit_char (n mod 10)) acc in
      if n <? 10 then acc' else digits_loop f (n / 10) acc'
  end.

(** The decimal digits of a natural number; "0" for 0. *)
Definition digits (n : Z) : string :=
  digits_loop (S (Z.to_nat (Z.log2 n))) n EmptyString.

(** Integers print as their digits, with a minus sign when negative. *)
Definition Z_toString (n : Z) : string :=
  if n <? 0 then "-" ++ digits (- n) else digits n.

Fixpoint strip_zeros (fuel : nat) (s e : Z) : Z * Z :=
  match fuel with
  | O => (s, e)
  | S f => if (s mod 10 =? 0) && (0 <? s) then strip_zeros f (s / 10) (e + 1) else (s, e)
  end.

(** [s * 10^e] written without zeros at the end of [s]. *)
Definition strip (s e : Z) : Z * Z :=
  strip_zeros (S (Z.to_nat (Z.log2 s))) s e.

(** The exact value of a finite double [m * 2^e] as [v * 10^(-d)]. *)
Definition exact_decimal (m : positive) (e : Z) : Z * Z :=
  if 0 <=? e then (Zpos m * 2 ^ e, 0) else (Zpos m * 5 ^ (- e), - e).

(** [s * 10^e] reads as [x]. *)
Definition reads_as (x : number) (c : Z * Z) : bool :=
  same (of_decimal false (fst c) (snd c)) x.

(** The candidates with [k] significant digits around [v * 10^(-d)] (the
    value of [x], with [len] digits in [v]) that read back as [x]; the
    nearer one first, and on a tie the even one. *)
Definition candidates (x : number) (v d : Z) (len k : Z) : list (Z * Z) :=
  if len <=? k then [strip v (- d)]
  else
    let p := 10 ^ (len - k) in
    let lo := v / p in
    let hi := lo + 1 in
    let e := len - k - d in
    let lo_first :=
      match Z.compare (v - lo * p) (hi * p - v) with
      | Lt => true
      | Gt => false
      | Eq => Z.even lo
      end in
    let order := if lo_first then [lo; hi] else [hi; lo] in
    filter (reads_as x) (map (fun s => strip s e) order).

Fixpoint shortest (fuel : nat) (x : number) (v d len k : Z) : Z * Z :=
  match fuel with
  | O => strip v (- d)
  | S f =>
      match candidates x v d len k with
      | c :: _ => c
      | [] => shortest f x v d len (k + 1)
      end
  end.

(** Lays out the digits [ds] of a number in [[10^(n-1), 10^n)], as
    [Number::toString] does. *)
Definition layout (ds : string) (n : Z) : string :=
  let k := Z.of_nat (length ds) in
  if (k <=? n) && (n <=? 21) then
    ds ++ Str.repeat "0"%char (Z.to_nat (n - k))
  else if (0 <? n) && (n <=? 21) then
    Str.take (Z.to_nat n) ds ++ "." ++ Str.drop (Z.to_nat n) ds
  else if (-6 <? n) && (n <=? 0) then
    "0." ++ Str.repeat "0"%char (Z.to_nat (- n)) ++ ds
  else
    let e := n - 1 in
    let es := (if e <? 0 then "-" else "+") ++ digits (Z.abs e) in
    match ds with
    | EmptyString => EmptyString
    | String c EmptyString => String c ("e" ++ es)
    | String c r => String c ("." ++ r ++ "e" ++ es)
    end.

Definition toString (x : number) : string :=
  match x with
  | S754_nan => "NaN"
  | S754_zero _ => "0"
  | S754_infinity s => if s then "-Infinity" else "Infinity"
  | S754_finite s m e =>
      let (v, d) := exact_decimal m e in
      let len := Z.of_nat (length (digits v)) in
      let (s1, e1) := shortest 17 (S754_finite false m e) v d len 1 in
      let ds := digits s1 in
      (if s then "-" else EmptyString) ++ layout ds (Z.of_nat (length ds) + e1)
  end.

(** ** Comparison and integer conversion *)

(** [a >= b] and [a <= b]; false on NaN. *)
Definition ge (a b : number) : bool := SFleb b a.
Definition le (a b : number) : bool := SFleb a b.

(** [ToIntegerOrInfinity]: NaN reads as 0, and a finite number loses its
    fraction. *)
Inductive integer :=
| NegInfinity
| Finite (n : Z)
| PosInfinity.

Definition toIntegerOrInfinity (x : number) : integer :=
  match x with
  | S754_nan | S754_zero _ => Finite 0
  | S754_infinity false => PosInfinity
  | S754_infinity true => NegInfinity
  | S754_finite s m e =>
      let a := if 0 <=? e then Zpos m * 2 ^ e else Zpos m / 2 ^ (- e) in
      Finite (if s then - a else a)
  end.

End Num.

(* ===================================================================== *)
(** * Values *)
(* ===================================================================== *)

Module Js.

(** A [Date] object, as far as the code looks at it: invalid, or the
    local calendar fields read by [getFullYear], [getMonth] (0 to 11) and
    [getDate], together with the text the engine prints for it. *)
Inductive date :=
| InvalidDate
| Date (year : Z) (month : nat) (day : nat) (shown : string).

(** Dynamically typed values.  An object is the list of its own
    properties in insertion order, the order [Object.entries] follows. *)
Inductive value :=
| VUndef
| VNull
| VBool (b : bool)
| VNum (x : Num.number)
| VStr (s : string)
| VDate (d : date)
| VArr (items : list value)
| VObj (fields : list (string * value)).

Definition obj := list (string * value).

Fixpoint lookup {A : Type} (k : string) (l : list (string * A)) : option A :=
  match l with
  | [] => None
  | (k', v) :: r => if String.eqb k k' then Some v else lookup k r
  end.

(** [v.k] or [v[k]] on a receiver that is neither [undefined] nor [null]:
    a missing property reads as [undefined], and the primitives and arrays
    of this model have none of the properties the code asks for. *)
Definition get (v : value) (k : string) : value :=
  match v with
  | VObj fields =>
      match lookup k fields with
      | Some x => x
      | None => VUndef
      end
  | _ => VUndef
  end.

Definition truthy (v : value) : bool :=
  match v with
  | VUndef | VNull => false
  | VBool b => b
  | VNum x => negb (Num.is_nan x || Num.is_zero x)
  | VStr s => negb (String.eqb s EmptyString)
  | VDate _ | VArr _ | VObj _ => true
  end.

(** [a || b] and [a && b]. *)
Definition or (a b : value) : value := if truthy a then a else b.
Definition and (a b : value) : value := if truthy a then b else a.

(** [v === 'text']. *)
Definition is_text (v : value) (t : string) : bool :=
  match v with
  | VStr s => String.eqb s t
  | _ => false
  end.

(** [typeof v === 'number']. *)
Definition is_number (v : value) : bool :=
  match v with
  | VNum _ => true
  | _ => false
  end.

(** [Array.isArray(v)]. *)
Definition isArray (v : value) : bool :=
  match v with
  | VArr _ => true
  | _ => false
  end.

(** [ToString]: what a template literal or a string concatenation puts in
    place of a value. *)
Fixpoint toString (v : value) : string :=
  match v with
  | VUndef => "undefined"
  | VNull => "null"
  | VBool true => "true"
  | VBool false => "false"
  | VNum x => Num.toString x
  | VStr s => s
  | VDate InvalidDate => "Invalid Date"
  | VDate (Date _ _ _ shown) => shown
  | VArr items =>
      Str.join ","
        (map (fun e => match e with
                       | VUndef | VNull => EmptyString
                       | _ => toString e
                       end) items)
  | VObj _ => "[object Object]"
  end.

(** [ToNumber] on the values that reach arithmetic in the code. *)
Definition parseFloat (v : value) : Num.number :=
  Num.parseFloat_string (toString v).

(** [parseInt(v)]: the argument is made a string first. *)
Definition parseInt (v : value) : Num.number :=
  Num.parseInt_string (toString v).

(** ** Exceptions *)

Inductive error :=
| Error (message : string)
| TypeError (message : string).

Definition message (e : error) : string :=
  match e with
  | Error m => m
  | TypeError m => m
  end.

Definition result (A : Type) : Type := (error + A)%type.

Definition ret {A : Type} (a : A) : result A := inr a.
Definition throw {A : Type} (e : error) : result A := inl e.

Definition bind {A B : Type} (m : result A) (k : A -> result B) : result B :=
  match m with
  | inl e => inl e
  | inr a => k a
  end.

Definition succeeds {A : Type} (m : result A) : bool :=
  match m with
  | inr _ => true
  | inl _ => false
  end.

(** [v.k] on any receiver: reading a property of [undefined] or [null]
    raises a [TypeError] (with the message Node prints). *)
Definition getM (v : value) (k : string) : result value :=
  match v with
  | VUndef =>
      throw (TypeError ("Cannot read properties of undefined (reading '" ++ k ++ "')"))
  | VNull =>
      throw (TypeError ("Cannot read properties of null (reading '" ++ k ++ "')"))
  | _ => ret (get v k)
  end.

(** [a || b] where evaluating [b] can raise: [b] is evaluated only when
    [a] is falsy. *)
Definition orM (a : value) (b : result value) : result value :=
  if truthy a then ret a else b.

(** [v.j.k]. *)
Definition getM2 (v : value) (j k : string) : result value :=
  bind (getM v j) (fun w => getM w k).

Fixpoint mapM {A B : Type} (f : A -> result B) (l : list A) : result (list B) :=
  match l with
  | [] => ret []
  | x :: r =>
      bind (f x) (fun y => bind (mapM f r) (fun ys => ret (y :: ys)))
  end.

(** ** The engine

    What lies outside the values of this model: the calendar date that
    [new Date(v)] reads for a value that is not a [Date] (it depends on the
    engine and on the local time zone), [ToNumber] on a value that is not a
    number, [a + b] when the operands are not two numbers, and the date of
    [new Date()]. *)
Record runtime := {
  dateOf : value -> date;
  numberOf : value -> Num.number;
  plusOf : value -> value -> value;
  now : date
}.

(** ** The tree of a parsed response

    xml2js, called with [explicitArray: false] and [mergeAttrs: true],
    yields text for a leaf, an object for an element with children or
    attributes, and an array where a tag repeats under one parent. *)
Inductive xml :=
| XText (s : string)
| XNode (kids : list (string * xml))
| XList (items : list xml).

Fixpoint of_xml (x : xml) : value :=
  match x with
  | XText s => VStr s
  | XNode kids => VObj (map (fun kv : string * xml => let (k, v) := kv in (k, of_xml v)) kids)
  | XList items => VArr (map of_xml items)
  end.

(** ** Further operations of the language *)

(** [v?.k]. *)
Definition optGet (v : value) (k : string) : value :=
  match v with
  | VUndef | VNull => VUndef
  | _ => get v k
  end.

(** [v !== false]. *)
Definition is_not_false (v : value) : bool :=
  match v with
  | VBool false => false
  | _ => true
  end.

(** The elements of an array (none for a value that is no array). *)
Definition elements (v : value) : list value :=
  match v with
  | VArr items => items
  | _ => []
  end.

(** [arr.length] as a number. *)
Definition lengthOf {A : Type} (l : list A) : Num.number :=
  Num.of_Z (Z.of_nat (List.length l)).

(** [arr.slice(0, end)] for a number [end]. *)
Definition slice_to {A : Type} (last : Num.number) (l : list A) : list A :=
  let len := Z.of_nat (List.length l) in
  let final :=
    match Num.toIntegerOrInfinity last with
    | Num.NegInfinity => 0%Z
    | Num.Finite k => if (k <? 0)%Z then Z.max (len + k) 0 else Z.min k len
    | Num.PosInfinity => len
    end in
  firstn (Z.to_nat final) l.

(** [o[k] = v]: an existing property keeps its place, a new one goes to
    the end. *)
Fixpoint set (k : string) (v : value) (o : obj) : obj :=
  match o with
  | [] => [(k, v)]
  | (k', v') :: r => if String.eqb k k' then (k, v) :: r else (k', v') :: set k v r
  end.

(** [{ ...o, ...more }]: the own properties of [more], in their order, are
    set on a copy of [o]. *)
Definition spread (o more : obj) : obj :=
  fold_left (fun acc kv => set (fst kv) (snd kv) acc) more o.

(** The own properties that [{ ...v }] copies from an object; a value that
    is [undefined], [null], a boolean, a number or a date has none.  (A
    string and an array would give their indices: the code spreads
    neither.) *)
Definition properties (v : value) : obj :=
  match v with
  | VObj o => o
  | _ => []
  end.

(** [arr.filter(p)] with a predicate that can raise. *)
Fixpoint filterM {A : Type} (p : A -> result bool) (l : list A) : result (list A) :=
  match l with
  | [] => ret []
  | x :: r =>
      bind (p x) (fun keep =>
        bind (filterM p r) (fun kept => ret (if keep then x :: kept else kept)))
  end.

End Js.

Declare Scope js_scope.
Delimit Scope js_scope with js.
Notation "x <- m ;; k" := (Js.bind m (fun x => k))
  (at level 61, m at next level, right associativity) : js_scope.

(* ===================================================================== *)
(** * The message builder: [XmlBuilder] *)
(* ===================================================================== *)

(** The sources hold the class [XmlBuilder] twice.  The one embedded here
    is the one the services are written for, which stands after
    [TallyConnector] in [src/connector/TallyConnector.js] (lines 279 to
    755): [buildImportRequest] takes options and falls back on the
    environment for the company, and the [LEDGER] element carries an
    [ACTION] attribute; it also has [buildGroupXml] and
    [buildTDLCollectionRequest].  The other one, in
    [src/utils/XmlBuilder.js] (lines 1 to 447), has neither of these two,
    and its own [buildImportRequest] and [buildLedgerXml], which are
    embedded in [UtilsXmlBuilder] below; the other functions are the same
    in both.  Template literals are copied with their line breaks and
    indentation. *)

Module XmlBuilder.

Import Js Str.

Definition zero : Num.number := S754_zero false.

(** [escapeXml(text)]: five global replacements, the ampersand first. *)
Definition escapeXml_string (text : string) : string :=
  replaceAll "'"%char "&apos;"
    (replaceAll dq_char "&quot;"
       (replaceAll ">"%char "&gt;"
          (replaceAll "<"%char "&lt;"
             (replaceAll "&"%char "&amp;" text)))).

Definition escapeXml (text : value) : value :=
  match text with
  | VStr s => VStr (escapeXml_string s)
  | _ => text
  end.

(** [buildEnvelope(requestType, bodyContent)]. *)
Definition buildEnvelope (requestType bodyContent : string) : string :=
"<?xml version=" ++ dq ++ "1.0" ++ dq ++ " encoding=" ++ dq ++ "UTF-8" ++ dq ++ "?>
<ENVELOPE>
    <HEADER>
        <TALLYREQUEST>" ++ requestType ++ "</TALLYREQUEST>
    </HEADER>
    <BODY>
        " ++ bodyContent ++ "
    </BODY>
</ENVELOPE>".

(** [buildExportRequest(reportName, filters)]; the separator of the join
    is a backslash followed by the letter n, as the source writes it. *)
Definition buildExportRequest (reportName : string) (filters : obj) : string :=
  let filterXml :=
    match filters with
    | [] => EmptyString
    | _ =>
        join "\n"
          (map (fun entry : string * value =>
                  let (key, value) := entry in
"                <" ++ key ++ ">" ++ (toString (escapeXml value)) ++ "</" ++ key ++ ">")
             filters)
    end in
  let bodyContent :=
"<EXPORTDATA>
            <REQUESTDESC>
                <REPORTNAME>" ++ reportName ++ "</REPORTNAME>
" ++ filterXml ++ "
            </REQUESTDESC>
        </EXPORTDATA>" in
  buildEnvelope "Export Data" bodyContent.

(** [buildImportRequest(dataXml, options = {})]; [env] is
    [process.env.TALLY_COMPANY], [undefined] when the variable is unset. *)
Definition buildImportRequest (env : value) (dataXml : string) (options : obj) : string :=
  let reportName := or (get (VObj options) "reportName") (VStr "All Masters") in
  let companyName := or (or (get (VObj options) "companyName") env) (VStr EmptyString) in
  let staticVars :=
    if truthy companyName then
"
                <STATICVARIABLES>
                    <SVCURRENTCOMPANY>" ++ (toString (escapeXml companyName)) ++ "</SVCURRENTCOMPANY>
                </STATICVARIABLES>"
    else EmptyString in
  let bodyContent :=
"<IMPORTDATA>
            <REQUESTDESC>
                <REPORTNAME>" ++ toString reportName ++ "</REPORTNAME>" ++ staticVars ++ "
            </REQUESTDESC>
            <REQUESTDATA>
                " ++ dataXml ++ "
            </REQUESTDATA>
        </IMPORTDATA>" in
  buildEnvelope "Import Data" bodyContent.

(** [buildLedgerXml(ledgerData)]. *)
Definition buildLedgerXml (ledgerData : obj) : string :=
  let name := get (VObj ledgerData) "name" in
  let parent := get (VObj ledgerData) "parent" in
  let alias := get (VObj ledgerData) "alias" in
  let openingBalance := get (VObj ledgerData) "openingBalance" in
  let openingBalanceXml :=
    if truthy openingBalance then
"
                <OPENINGBALANCE>" ++ toString (or (get openingBalance "amount") (VNum zero)) ++ "</OPENINGBALANCE>
                <ISBILLWISEON>" ++ (if truthy (get openingBalance "isBillWise") then "Yes" else "No") ++ "</ISBILLWISEON>
                <ISCOSTCENTRESON>" ++ (if truthy (get openingBalance "isCostCentre") then "Yes" else "No") ++ "</ISCOSTCENTRESON>"
    else EmptyString in
"<TALLYMESSAGE xmlns:UDF=" ++ dq ++ "TallyUDF" ++ dq ++ ">
            <LEDGER NAME=" ++ dq ++ (toString (escapeXml name)) ++ dq ++ " ACTION=" ++ dq ++ "Create" ++ dq ++ " RESERVEDNAME=" ++ dq ++ dq ++ ">
                <NAME>" ++ (toString (escapeXml name)) ++ "</NAME>
                <PARENT>" ++ (toString (escapeXml parent)) ++ "</PARENT>
                <ALIAS>" ++ (toString (escapeXml (or alias (VStr EmptyString)))) ++ "</ALIAS>
                <ISBILLWISEON>" ++ (if truthy (and openingBalance (get openingBalance "isBillWise")) then "Yes" else "No") ++ "</ISBILLWISEON>
                <AFFECTSSTOCK>No</AFFECTSSTOCK>
                <USEFORVAT>No</USEFORVAT>
                " ++ openingBalanceXml ++ "
            </LEDGER>
        </TALLYMESSAGE>".

(** The templates of [buildStockItemXml], with the interpolated texts as
    arguments: the opening balance block, and the message. *)
Definition openingStockTemplate (quantity rate value : string) : string :=
"
                <OPENINGBALANCE>" ++ quantity ++ "</OPENINGBALANCE>
                <OPENINGRATE>" ++ rate ++ "</OPENINGRATE>
                <OPENINGVALUE>" ++ value ++ "</OPENINGVALUE>".

Definition stockItemTemplate (name parent alias baseUnits openingBalanceXml : string) : string :=
"<TALLYMESSAGE xmlns:UDF=" ++ dq ++ "TallyUDF" ++ dq ++ ">
            <STOCKITEM NAME=" ++ dq ++ name ++ dq ++ " RESERVEDNAME=" ++ dq ++ dq ++ ">
                <OLDAUDITENTRYIDS.LIST TYPE=" ++ dq ++ "Number" ++ dq ++ ">
                    <OLDAUDITENTRYIDS>-1</OLDAUDITENTRYIDS>
                </OLDAUDITENTRYIDS.LIST>
                <GUID></GUID>
                <PARENT>" ++ parent ++ "</PARENT>
                <ALIAS>" ++ alias ++ "</ALIAS>
                <BASEUNITS>" ++ baseUnits ++ "</BASEUNITS>
                <ADDITIONALUNITS/>
                <VAT.VATCLASSIFICATIONNAME/>
                <VAT.VATASSESSABLEVALUE/>
                <GST.APPLICABLE/>
                <GST.HSNCODE/>
                <GST.TAXABILITY/>
                <GST.GSTTYPEOFSUPPLY/>
                <ISCOSTCENTRESON>No</ISCOSTCENTRESON>
                <ISENTRYTAXAPPLICABLE>No</ISENTRYTAXAPPLICABLE>
                <ISCOSTTRACKINGON>No</ISCOSTTRACKINGON>
                <ISUPDATINGTARGETID>No</ISUPDATINGTARGETID>
                <ASORIGINAL>Yes</ASORIGINAL>
                <IGNOREPHYSICALDIFFERENCE>No</IGNOREPHYSICALDIFFERENCE>
                <IGNORENEGATIVESTOCK>No</IGNORENEGATIVESTOCK>
                <TREATSALESASMANUFACTURED>No</TREATSALESASMANUFACTURED>
                <TREATPURCHASESASCONSUMED>No</TREATPURCHASESASCONSUMED>
                <TREATRECEIPTSASREVENUE>No</TREATRECEIPTSASREVENUE>
                <HASMFGDATE>No</HASMFGDATE>
                <ALLOWUSEOFEXPIREDITEMS>No</ALLOWUSEOFEXPIREDITEMS>
                <IGNOREBATCHES>No</IGNOREBATCHES>
                <IGNOREGODOWNS>No</IGNOREGODOWNS>
                <CALCONMRP>No</CALCONMRP>
                <EXCLUDEJRNLFORVALUATION>No</EXCLUDEJRNLFORVALUATION>
                <ISMAINTAINEDINNATIONALCURRENCY>No</ISMAINTAINEDINNATIONALCURRENCY>
                <AUDITED>No</AUDITED>
                <FORPURCHASETAX>No</FORPURCHASETAX>
                <FORSERVICETAX>No</FORSERVICETAX>
                <FORVAT>No</FORVAT>
                <FORROYALTY>No</FORROYALTY>
                <FOREXCISE>No</FOREXCISE>
                <FORTDS>No</FORTDS>
                <FORTCS>No</FORTCS>
                <FORPURCHASETAX>No</FORPURCHASETAX>
                <FORSERVICETAX>No</FORSERVICETAX>
                <FORVAT>No</FORVAT>
                <FORROYALTY>No</FORROYALTY>
                <FOREXCISE>No</FOREXCISE>
                <FORTDS>No</FORTDS>
                <FORTCS>No</FORTCS>" ++ openingBalanceXml ++ "
            </STOCKITEM>
        </TALLYMESSAGE>".

(** [buildStockItemXml(stockData)]. *)
Definition buildStockItemXml (stockData : obj) : string :=
  let name := get (VObj stockData) "name" in
  let parent := get (VObj stockData) "parent" in
  let baseUnits := get (VObj stockData) "baseUnits" in
  let openingBalance := get (VObj stockData) "openingBalance" in
  let alias := get (VObj stockData) "alias" in
  let openingBalanceXml :=
    if truthy openingBalance then
      openingStockTemplate
        (toString (or (get openingBalance "quantity") (VNum zero)))
        (toString (or (get openingBalance "rate") (VNum zero)))
        (toString (or (get openingBalance "value") (VNum zero)))
    else EmptyString in
  stockItemTemplate
    (toString (escapeXml name))
    (toString (escapeXml parent))
    (toString (escapeXml (or alias (VStr EmptyString))))
    (toString (escapeXml baseUnits))
    openingBalanceXml.

(** [buildCompanyXml(companyData)]. *)
Definition buildCompanyXml (companyData : obj) : string :=
  let name := get (VObj companyData) "name" in
  let mailingName := get (VObj companyData) "mailingName" in
  let address := get (VObj companyData) "address" in
  let state := get (VObj companyData) "state" in
  let country := get (VObj companyData) "country" in
  let pincode := get (VObj companyData) "pincode" in
"<TALLYMESSAGE xmlns:UDF=" ++ dq ++ "TallyUDF" ++ dq ++ ">
            <COMPANY NAME=" ++ dq ++ (toString (escapeXml name)) ++ dq ++ " RESERVEDNAME=" ++ dq ++ dq ++ ">
                <REMOTECMPINFO.LIST>
                </REMOTECMPINFO.LIST>
                <MAILINGNAME>" ++ (toString (escapeXml (or mailingName name))) ++ "</MAILINGNAME>
                <ADDRESS>" ++ (toString (escapeXml (or address (VStr EmptyString)))) ++ "</ADDRESS>
                <STATE>" ++ (toString (escapeXml (or state (VStr EmptyString)))) ++ "</STATE>
                <COUNTRY>" ++ (toString (escapeXml (or country (VStr EmptyString)))) ++ "</COUNTRY>
                <PINCODE>" ++ (toString (escapeXml (or pincode (VStr EmptyString)))) ++ "</PINCODE>
                <CURRENCYSYMBOL>Rs.</CURRENCYSYMBOL>
                <FORMALNAME>" ++ (toString (escapeXml name)) ++ "</FORMALNAME>
                <BOOKSBEGINFROM>01-Apr-2023</BOOKSBEGINFROM>
                <ACCOUNTINGBASIS>Accrual</ACCOUNTINGBASIS>
                <USEFORCOMPANY>Yes</USEFORCOMPANY>
                <MULTITASKSUPPORT>Yes</MULTITASKSUPPORT>
                <ENABLEADVTAX>No</ENABLEADVTAX>
                <SEPARATELYVIEWEDADVTAX>No</SEPARATELYVIEWEDADVTAX>
                <USEFOREXCISE>No</USEFOREXCISE>
                <EXCISEREGN/>
                <EXCISEREGIONALAREA/>
                <EXCISERANGE/>
                <EXCISEDIVISION/>
                <EXCISECOMMISSIONERATE/>
                <USEFORSERVICETAX>No</USEFORSERVICETAX>
                <USEFORPURCHASETAX>No</USEFORPURCHASETAX>
                <USETRACKINGNUMBER>No</USETRACKINGNUMBER>
                <USEFORPAYROLL>No</USEFORPAYROLL>
                <USEFORESI>No</USEFORESI>
                <USEFORPF>No</USEFORPF>
                <USEFORTDS>No</USEFORTDS>
                <USEFORTCS>No</USEFORTCS>
                <USEFORVAT>No</USEFORVAT>
                <USEFORBILLWISERES>No</USEFORBILLWISERES>
                <USEFORCOST>No</USEFORCOST>
                <USEFORBILLWISE>No</USEFORBILLWISE>
                <USEFORGST>No</USEFORGST>
                <ENABLEGSTCOMPLIANCE>No</ENABLEGSTCOMPLIANCE>
                <GSTNUMBER></GSTNUMBER>
                <GSTREGISTRATIONTYPE></GSTREGISTRATIONTYPE>
                <VATAPPLICABLE>No</VATAPPLICABLE>
            </COMPANY>
        </TALLYMESSAGE>".

(** [buildCollectionRequest(collection, filters = {})]; the separator of
    the join is a backslash followed by the letter n, as in
    [buildExportRequest]. *)
Definition buildCollectionRequest (collection : string) (filters : obj) : string :=
  let filterXml :=
    match filters with
    | [] => EmptyString
    | _ =>
        join "\n"
          (map (fun entry : string * value =>
                  let (key, value) := entry in
"                <" ++ key ++ ">" ++ (toString (escapeXml value)) ++ "</" ++ key ++ ">")
             filters)
    end in
  let bodyContent :=
"<EXPORTDATA>
            <REQUESTDESC>
                <REPORTNAME>List of " ++ collection ++ "</REPORTNAME>
                <STATICVARIABLES>
                    <SVEXPORTFORMAT>$$SysName:XML</SVEXPORTFORMAT>
" ++ filterXml ++ "
                </STATICVARIABLES>
            </REQUESTDESC>
        </EXPORTDATA>" in
  buildEnvelope "Export Data" bodyContent.

(** [buildGroupXml(groupData)]. *)
Definition buildGroupXml (groupData : obj) : string :=
  let name := get (VObj groupData) "name" in
  let parent := get (VObj groupData) "parent" in
"<TALLYMESSAGE xmlns:UDF=" ++ dq ++ "TallyUDF" ++ dq ++ ">
            <GROUP NAME=" ++ dq ++ (toString (escapeXml name)) ++ dq ++ " ACTION=" ++ dq ++ "Create" ++ dq ++ ">
                <NAME.LIST>
                    <NAME>" ++ (toString (escapeXml name)) ++ "</NAME>
                </NAME.LIST>
                <PARENT>" ++ (toString (escapeXml parent)) ++ "</PARENT>
            </GROUP>
        </TALLYMESSAGE>".

(** [buildTDLCollectionRequest(collectionName, type, fetchFields = [])];
    [fetchFields.join(',')] is what [toString] gives for the array. *)
Definition buildTDLCollectionRequest
    (collectionName type : value) (fetchFields : list value) : string :=
  let id := escapeXml collectionName in
  let collType := escapeXml type in
  let fetchLine :=
    match fetchFields with
    | [] => EmptyString
    | _ => "<FETCH>" ++ toString (VArr fetchFields) ++ "</FETCH>"
    end in
"<?xml version=" ++ dq ++ "1.0" ++ dq ++ " encoding=" ++ dq ++ "UTF-8" ++ dq ++ "?>
<ENVELOPE>
    <HEADER>
        <VERSION>1</VERSION>
        <TALLYREQUEST>Export Data</TALLYREQUEST>
        <TYPE>Collection</TYPE>
        <ID>" ++ toString id ++ "</ID>
    </HEADER>
    <BODY>
        <DESC>
            <TDL>
                <TDLMESSAGE>
                    <COLLECTION NAME=" ++ dq ++ toString id ++ dq ++ " ISINITIALIZE=" ++ dq ++ "Yes" ++ dq ++ ">
                        <TYPE>" ++ toString collType ++ "</TYPE>
                        " ++ fetchLine ++ "
                    </COLLECTION>
                </TDLMESSAGE>
            </TDL>
        </DESC>
    </BODY>
</ENVELOPE>".

Section Engine.

Variable rt : runtime.

Definition newDate (v : value) : date :=
  match v with
  | VDate d => d
  | _ => dateOf rt v
  end.

Definition toNumber (v : value) : Num.number :=
  match v with
  | VNum x => x
  | _ => numberOf rt v
  end.

(** [getDate()], [getMonth()], [getFullYear()]: [None] is NaN. *)
Definition getDate (d : date) : option Z :=
  match d with
  | InvalidDate => None
  | Date _ _ day _ => Some (Z.of_nat day)
  end.

Definition getMonth (d : date) : option nat :=
  match d with
  | InvalidDate => None
  | Date _ month _ _ => Some month
  end.

Definition getFullYear (d : date) : option Z :=
  match d with
  | InvalidDate => None
  | Date year _ _ _ => Some year
  end.

(** An integer or NaN, printed. *)
Definition int_toString (n : option Z) : string :=
  match n with
  | Some z => Num.Z_toString z
  | None => "NaN"
  end.

Definition months : list string :=
  ["Jan"; "Feb"; "Mar"; "Apr"; "May"; "Jun";
   "Jul"; "Aug"; "Sep"; "Oct"; "Nov"; "Dec"].

(** [months[i]] inside a template: out of range, or at NaN, the element
    is [undefined]. *)
Definition month_text (i : option nat) : string :=
  match i with
  | Some m => nth m months "undefined"
  | None => "undefined"
  end.

(** [formatDate(date)]. *)
Definition formatDate (date : value) : string :=
  let dateObj := newDate date in
  let day := padStart 2 "0"%char (int_toString (getDate dateObj)) in
  let month := month_text (getMonth dateObj) in
  let year := int_toString (getFullYear dateObj) in
  day ++ "-" ++ month ++ "-" ++ year.

(** The template of one ledger entry in [buildVoucherXml], with the five
    interpolated texts as arguments. *)
Definition ledgerEntryTemplate (ledgerName deemedPositive amount billName billType : string) : string :=
"
            <LEDGERENTRIES.LIST>
                <OLDAUDITENTRYIDS.LIST TYPE=" ++ dq ++ "Number" ++ dq ++ ">
                    <OLDAUDITENTRYIDS>-1</OLDAUDITENTRYIDS>
                </OLDAUDITENTRYIDS.LIST>
                <LEDGERNAME>" ++ ledgerName ++ "</LEDGERNAME>
                <ISDEEMEDPOSITIVE>" ++ deemedPositive ++ "</ISDEEMEDPOSITIVE>
                <AMOUNT>" ++ amount ++ "</AMOUNT>
                <BILLALLOCATIONS.LIST>
                    <NAME>" ++ billName ++ "</NAME>
                    <BILLTYPE>" ++ billType ++ "</BILLTYPE>
                    <AMOUNT>" ++ amount ++ "</AMOUNT>
                </BILLALLOCATIONS.LIST>
            </LEDGERENTRIES.LIST>
        ".

(** One ledger entry of [buildVoucherXml]: the interpolated expressions. *)
Definition ledgerEntryXml (entry : value) : result string :=
  (ledgerName <- getM entry "ledgerName" ;;
   let amount := get entry "amount" in
   let billName := get entry "billName" in
   let billType := get entry "billType" in
   ret (ledgerEntryTemplate
          (toString (escapeXml ledgerName))
          (if Num.gt (toNumber amount) zero then "Yes" else "No")
          (Num.toString (Num.abs (toNumber amount)))
          (toString (escapeXml (or billName (VStr EmptyString))))
          (toString (or billType (VStr "New Ref")))))%js.

(** [buildVoucherXml(voucherData)]; [ledgerEntries.map] raises when the
    entries are not an array. *)
Definition buildVoucherXml (voucherData : obj) : result string :=
  let voucherType := get (VObj voucherData) "voucherType" in
  let date := get (VObj voucherData) "date" in
  let ledgerEntries := get (VObj voucherData) "ledgerEntries" in
  let narration := get (VObj voucherData) "narration" in
  let voucherNumber := get (VObj voucherData) "voucherNumber" in
  (entries <-
     match ledgerEntries with
     | VArr items => mapM ledgerEntryXml items
     | VUndef | VNull => bind (getM ledgerEntries "map") (fun _ => ret [])
     | _ => throw (TypeError "ledgerEntries.map is not a function")
     end ;;
   let ledgerEntriesXml := concat entries in
   ret (
"<TALLYMESSAGE xmlns:UDF=" ++ dq ++ "TallyUDF" ++ dq ++ ">
            <VOUCHER REMOTEID=" ++ dq ++ dq ++ " VCHKEY=" ++ dq ++ dq ++ " VCHTYPE=" ++ dq ++ (toString (escapeXml voucherType)) ++ dq ++ " ACTION=" ++ dq ++ "Create" ++ dq ++ " OBJVIEW=" ++ dq ++ "Accounting Voucher View" ++ dq ++ ">
                <OLDAUDITENTRYIDS.LIST TYPE=" ++ dq ++ "Number" ++ dq ++ ">
                    <OLDAUDITENTRYIDS>-1</OLDAUDITENTRYIDS>
                </OLDAUDITENTRYIDS.LIST>
                <DATE>" ++ formatDate date ++ "</DATE>
                <VOUCHERTYPENAME>" ++ (toString (escapeXml voucherType)) ++ "</VOUCHERTYPENAME>
                <VOUCHERNUMBER>" ++ (toString (escapeXml (or voucherNumber (VStr EmptyString)))) ++ "</VOUCHERNUMBER>
                <NARRATION>" ++ (toString (escapeXml (or narration (VStr EmptyString)))) ++ "</NARRATION>
                <PARTYLEDGERNAME></PARTYLEDGERNAME>
                <VOUCHERTYPENAME>" ++ (toString (escapeXml voucherType)) ++ "</VOUCHERTYPENAME>
                <REFERENCE></REFERENCE>
                <PERSISTEDVIEW>Accounting Voucher View</PERSISTEDVIEW>
                <VCHGSTCLASS/>
                <ENTEREDBY>SDK</ENTEREDBY>
                <DIFFACTUALQTY>No</DIFFACTUALQTY>
                <ISMSTFROMSYNC>No</ISMSTFROMSYNC>
                <ASORIGINAL>No</ASORIGINAL>
                <AUDITED>No</AUDITED>
                <FORJOBCOSTING>No</FORJOBCOSTING>
                <ISOPTIONAL>No</ISOPTIONAL>
                <EFFECTIVEDATE>" ++ formatDate date ++ "</EFFECTIVEDATE>
                <USEFOREXCISE>No</USEFOREXCISE>
                <ISFORJOBWORKIN>No</ISFORJOBWORKIN>
                <ALLOWCONSUMPTION>No</ALLOWCONSUMPTION>
                <USEFORINTEREST>No</USEFORINTEREST>
                <USEFORGAINLOSS>No</USEFORGAINLOSS>
                <USEFORGODOWNTRANSFER>No</USEFORGODOWNTRANSFER>
                <USEFORCOMPOUND>No</USEFORCOMPOUND>
                <USEFORSERVICETAX>No</USEFORSERVICETAX>
                <ISEXCISEVOUCHER>No</ISEXCISEVOUCHER>
                <EXCISETAXOVERRIDE>No</EXCISETAXOVERRIDE>
                <USEFORTAXUNITTRANSFER>No</USEFORTAXUNITTRANSFER>
                <IGNOREPOSVALIDATION>No</IGNOREPOSVALIDATION>
                <EXCISEOPENING>No</EXCISEOPENING>
                <USEFORFINALPRODUCTION>No</USEFORFINALPRODUCTION>
                <ISTDSOVERRIDDEN>No</ISTDSOVERRIDDEN>
                <ISTCSOVERRIDDEN>No</ISTCSOVERRIDDEN>
                <ISTDSTCSCASHVCH>No</ISTDSTCSCASHVCH>
                <INCLUDEADVPYMTVCH>No</INCLUDEADVPYMTVCH>
                <ISSUBWORKSCONTRACT>No</ISSUBWORKSCONTRACT>
                <ISVATOVERRIDDEN>No</ISVATOVERRIDDEN>
                <IGNOREORIGVCHDATE>No</IGNOREORIGVCHDATE>
                <ISVATPAIDATCUSTOMS>No</ISVATPAIDATCUSTOMS>
                <ISDECLAREDTOCUSTOMS>No</ISDECLAREDTOCUSTOMS>
                <ISSERVICETAXOVERRIDDEN>No</ISSERVICETAXOVERRIDDEN>
                <ISISDVOUCHER>No</ISISDVOUCHER>
                <ISEXCISEOVERRIDDEN>No</ISEXCISEOVERRIDDEN>
                <ISEXCISESUPPLYVCH>No</ISEXCISESUPPLYVCH>
                <ISGSTOVERRIDDEN>No</ISGSTOVERRIDDEN>
                <GSTNOTEXPORTED>No</GSTNOTEXPORTED>
                <IGNOREGSTINVALIDATION>No</IGNOREGSTINVALIDATION>
                <ISVATPRINCIPALACCOUNT>No</ISVATPRINCIPALACCOUNT>
                <VCHSTATUSISVCHNUMUSED>No</VCHSTATUSISVCHNUMUSED>
                <VCHGSTCLASS/>
                <VCHENTRYMODE>Item Invoice</VCHENTRYMODE>
                <DIFFACTUALQTY>No</DIFFACTUALQTY>
                <ISMSTFROMSYNC>No</ISMSTFROMSYNC>
                <ISDELETED>No</ISDELETED>
                <ISSECURITYONWHENENTERED>No</ISSECURITYONWHENENTERED>
                <ASORIGINAL>No</ASORIGINAL>
                <AUDITED>No</AUDITED>
                <ISCOMMONPARTY>No</ISCOMMONPARTY>
                <FORJOBCOSTING>No</FORJOBCOSTING>
                <ISOPTIONAL>No</ISOPTIONAL>
                <USEFOREXCISE>No</USEFOREXCISE>
                <ISFORJOBWORKIN>No</ISFORJOBWORKIN>
                <ALLOWCONSUMPTION>No</ALLOWCONSUMPTION>
                <USEFORINTEREST>No</USEFORINTEREST>
                <USEFORGAINLOSS>No</USEFORGAINLOSS>
                <USEFORGODOWNTRANSFER>No</USEFORGODOWNTRANSFER>
                <USEFORCOMPOUND>No</USEFORCOMPOUND>
                <USEFORSERVICETAX>No</USEFORSERVICETAX>
                <ISEXCISEVOUCHER>No</ISEXCISEVOUCHER>
                <EXCISETAXOVERRIDE>No</EXCISETAXOVERRIDE>
                <USEFORTAXUNITTRANSFER>No</USEFORTAXUNITTRANSFER>
                <IGNOREPOSVALIDATION>No</IGNOREPOSVALIDATION>
                <EXCISEOPENING>No</EXCISEOPENING>
                <USEFORFINALPRODUCTION>No</USEFORFINALPRODUCTION>
                <ISTDSOVERRIDDEN>No</ISTDSOVERRIDDEN>
                <ISTCSOVERRIDDEN>No</ISTCSOVERRIDDEN>
                <ISTDSTCSCASHVCH>No</ISTDSTCSCASHVCH>
                <INCLUDEADVPYMTVCH>No</INCLUDEADVPYMTVCH>
                <ISSUBWORKSCONTRACT>No</ISSUBWORKSCONTRACT>
                <ISVATOVERRIDDEN>No</ISVATOVERRIDDEN>
                <IGNOREORIGVCHDATE>No</IGNOREORIGVCHDATE>
                <ISVATPAIDATCUSTOMS>No</ISVATPAIDATCUSTOMS>
                <ISDECLAREDTOCUSTOMS>No</ISDECLAREDTOCUSTOMS>
                <ISSERVICETAXOVERRIDDEN>No</ISSERVICETAXOVERRIDDEN>
                <ISISDVOUCHER>No</ISISDVOUCHER>
                <ISEXCISEOVERRIDDEN>No</ISEXCISEOVERRIDDEN>
                <ISEXCISESUPPLYVCH>No</ISEXCISESUPPLYVCH>
                <ISGSTOVERRIDDEN>No</ISGSTOVERRIDDEN>
                <GSTNOTEXPORTED>No</GSTNOTEXPORTED>
                <IGNOREGSTINVALIDATION>No</IGNOREGSTINVALIDATION>
                <ISVATPRINCIPALACCOUNT>No</ISVATPRINCIPALACCOUNT>
                <VCHSTATUSISVCHNUMUSED>No</VCHSTATUSISVCHNUMUSED>" ++ ledgerEntriesXml ++ "
            </VOUCHER>
        </TALLYMESSAGE>"))%js.

End Engine.

End XmlBuilder.

(* ===================================================================== *)
(** * The builder of [src/utils/XmlBuilder.js], where it differs *)
(* ===================================================================== *)

Module UtilsXmlBuilder.

Import Js Str.

Definition zero : Num.number := S754_zero false.

(** [buildImportRequest(dataXml)]: no options, and nothing is read from
    the environment. *)
Definition buildImportRequest (dataXml : string) : string :=
  let bodyContent :=
"<IMPORTDATA>
            " ++ dataXml ++ "
        </IMPORTDATA>" in
  XmlBuilder.buildEnvelope "Import Data" bodyContent.

(** The templates of [buildLedgerXml], with the interpolated texts as
    arguments: the opening balance block, and the message, whose [LEDGER]
    element has no [ACTION] attribute. *)
Definition openingLedgerTemplate (amount isBillWise isCostCentre : string) : string :=
"
                <OPENINGBALANCE>" ++ amount ++ "</OPENINGBALANCE>
                <ISBILLWISEON>" ++ isBillWise ++ "</ISBILLWISEON>
                <ISCOSTCENTRESON>" ++ isCostCentre ++ "</ISCOSTCENTRESON>".

Definition ledgerTemplate (name parent alias openingBalanceXml : string) : string :=
"<TALLYMESSAGE xmlns:UDF=" ++ dq ++ "TallyUDF" ++ dq ++ ">
            <LEDGER NAME=" ++ dq ++ name ++ dq ++ " RESERVEDNAME=" ++ dq ++ dq ++ ">
                <OLDAUDITENTRYIDS.LIST TYPE=" ++ dq ++ "Number" ++ dq ++ ">
                    <OLDAUDITENTRYIDS>-1</OLDAUDITENTRYIDS>
                </OLDAUDITENTRYIDS.LIST>
                <GUID></GUID>
                <PARENT>" ++ parent ++ "</PARENT>
                <ALIAS>" ++ alias ++ "</ALIAS>
                <USEFORVAT>No</USEFORVAT>
                <TAXCLASSIFICATIONNAME/>
                <TAXTYPE>Others</TAXTYPE>
                <LEDADDLALLOCTYPE/>
                <GSTTYPE/>
                <APPROPRIATEFOR/>
                <SERVICECATEGORY/>
                <EXCISELEDGERCLASSIFICATION/>
                <EXCISEDUTYTYPE/>
                <EXCISENATUREOFPURCHASE/>
                <LEDGERFBTCATEGORY/>
                <GST.REGISTRATION.TYPE/>
                <VATAPPLICABLE/>
                <VATAPPLICABLE>Applicable</VATAPPLICABLE>
                <ISBILLWISEON>No</ISBILLWISEON>
                <ISCOSTCENTRESON>No</ISCOSTCENTRESON>
                <ISINTERESTON>No</ISINTERESTON>
                <ALLOWINMOBILE>No</ALLOWINMOBILE>
                <ISCOSTTRACKINGON>No</ISCOSTTRACKINGON>
                <ISBENEFICIARYCODEON>No</ISBENEFICIARYCODEON>
                <ISUPDATINGTARGETID>No</ISUPDATINGTARGETID>
                <ASORIGINAL>Yes</ASORIGINAL>
                <ISCONDENSED>No</ISCONDENSED>
                <AFFECTSSTOCK>No</AFFECTSSTOCK>
                <USEFORADVPAYMENT>No</USEFORADVPAYMENT>
                <USEFORCOMPOUND>No</USEFORCOMPOUND>
                <USEFORVOUCHERTYPEVALIDATION>No</USEFORVOUCHERTYPEVALIDATION>
                <USEFORBILLWISEBALANCE>No</USEFORBILLWISEBALANCE>
                <USEFORGODOWN>No</USEFORGODOWN>
                <USEFORADVVOUCHERTYPEMAPPING>No</USEFORADVVOUCHERTYPEMAPPING>
                <USEFORSCHEDULETYPEVALIDATION>No</USEFORSCHEDULETYPEVALIDATION>
                <USEFORKIPADVPAYMENT>No</USEFORKIPADVPAYMENT>
                <USEFORCREDITDAYSCHK>No</USEFORCREDITDAYSCHK>
                <USEFORBANKRECONCILIATION>No</USEFORBANKRECONCILIATION>
                <USEFOREXCISE>No</USEFOREXCISE>
                <USEFORGAINLOSS>No</USEFORGAINLOSS>
                <USEFORPURCHASETAX>No</USEFORPURCHASETAX>
                <USEFORVATPRODUCTTAX>No</USEFORVATPRODUCTTAX>" ++ openingBalanceXml ++ "
            </LEDGER>
        </TALLYMESSAGE>".

(** [buildLedgerXml(ledgerData)]. *)
Definition buildLedgerXml (ledgerData : obj) : string :=
  let name := get (VObj ledgerData) "name" in
  let parent := get (VObj ledgerData) "parent" in
  let alias := get (VObj ledgerData) "alias" in
  let openingBalance := get (VObj ledgerData) "openingBalance" in
  let openingBalanceXml :=
    if truthy openingBalance then
      openingLedgerTemplate
        (toString (or (get openingBalance "amount") (VNum zero)))
        (if truthy (get openingBalance "isBillWise") then "Yes" else "No")
        (if truthy (get openingBalance "isCostCentre") then "Yes" else "No")
    else EmptyString in
  ledgerTemplate
    (toString (XmlBuilder.escapeXml name))
    (toString (XmlBuilder.escapeXml parent))
    (toString (XmlBuilder.escapeXml (or alias (VStr EmptyString))))
    openingBalanceXml.

End UtilsXmlBuilder.

(* ===================================================================== *)
(** * The connector: [TallyConnector] *)
(* ===================================================================== *)

Module TallyConnector.

Import Js Str.

(** What one exchange with the remote system hands back: the HTTP client
    rejects (with the message [_handleError] gives it), or there is a
    response body, which xml2js either fails on or turns into a tree. *)
Inductive reply :=
| Rejected (message : string)
| Replied (xmlData : string) (parsed : string + xml).

(** A service call: it returns, throws, or posts a request and goes on
    with the reply.  The calls of the code are finite, so an inductive
    type is enough. *)
Inductive io (A : Type) : Type :=
| Done (r : result A)
| Post (xmlData : string) (k : reply -> io A).

Arguments Done {A} r.
Arguments Post {A} xmlData k.

Fixpoint io_bind {A B : Type} (m : io A) (f : A -> io B) : io B :=
  match m with
  | Done (inr a) => f a
  | Done (inl e) => Done (inl e)
  | Post x k => Post x (fun r => io_bind (k r) f)
  end.

(** [try { m } catch (error) { h error }]. *)
Fixpoint io_catch {A : Type} (m : io A) (h : error -> io A) : io A :=
  match m with
  | Done (inr a) => Done (inr a)
  | Done (inl e) => h e
  | Post x k => Post x (fun r => io_catch (k r) h)
  end.

(** Runs a call against the replies of the remote system, in order: the
    requests that were sent, and the outcome ([None] while a reply is
    awaited). *)
Fixpoint run {A : Type} (m : io A) (script : list reply) : list string * option (result A) :=
  match m with
  | Done r => ([], Some r)
  | Post x k =>
      match script with
      | [] => ([x], None)
      | r :: rest => let (log, out) := run (k r) rest in (x :: log, out)
      end
  end.

(** [_parseResponse(xmlData)], after xml2js has run: the object it resolves
    with ([success], [data], [rawXml]) or the error it rejects with. *)
Definition _parseResponse (xmlData : string) (parsed : string + xml) : result value :=
  match parsed with
  | inl message => throw (Error ("XML parsing error: " ++ message))
  | inr tree =>
      let result := of_xml tree in
      (e <- getM result "ENVELOPE" ;;
       let envelope := or e result in
       b <- getM envelope "BODY" ;;
       let body := or b envelope in
       err <- getM body "ERROR" ;;
       lineerr <- getM body "LINEERROR" ;;
       if truthy (or err lineerr) then
         let errorMsg := or err lineerr in
         throw (Error ("Tally error: " ++ toString errorMsg))
       else
         ret (VObj [("success", VBool true); ("data", result); ("rawXml", VStr xmlData)]))%js
  end.

(** [sendRequest(xmlData)]. *)
Definition sendRequest (xmlData : string) : io value :=
  Post xmlData (fun r =>
    match r with
    | Rejected message =>
        Done (throw (Error ("TallyPrime request failed: " ++ message)))
    | Replied raw parsed =>
        match _parseResponse raw parsed with
        | inl error =>
            Done (throw (Error ("TallyPrime request failed: " ++ message error)))
        | inr response => Done (ret response)
        end
    end).

(** ** The connector and its configuration *)

(** The defaults of the axios instance, as far as the connector sets
    them. *)
Record client := {
  baseURL : string;
  clientTimeout : value
}.

(** The fields of a [TallyConnector]. *)
Record connector := {
  host : value;
  port : value;
  timeout : value;
  baseUrl : string;
  defaults : client
}.

Definition defaultPort : Num.number := Eval vm_compute in Num.lit "9000".
Definition defaultTimeout : Num.number := Eval vm_compute in Num.lit "30000".

(** [constructor(config = {})]. *)
Definition constructor (config : obj) : connector :=
  let host := or (get (VObj config) "host") (VStr "localhost") in
  let port := or (get (VObj config) "port") (VNum defaultPort) in
  let timeout := or (get (VObj config) "timeout") (VNum defaultTimeout) in
  let baseUrl := "http://" ++ toString host ++ ":" ++ toString port in
  {| host := host;
     port := port;
     timeout := timeout;
     baseUrl := baseUrl;
     defaults := {| baseURL := baseUrl; clientTimeout := timeout |} |}.

(** [getConnectionInfo()]. *)
Definition getConnectionInfo (this : connector) : value :=
  VObj [("host", host this);
        ("port", port this);
        ("baseUrl", VStr (baseUrl this));
        ("timeout", timeout this)].

(** [updateConfig(config)]: the connector after the call. *)
Definition updateConfig (this : connector) (config : obj) : connector :=
  let host := if truthy (get (VObj config) "host") then get (VObj config) "host" else host this in
  let port := if truthy (get (VObj config) "port") then get (VObj config) "port" else port this in
  let timeout :=
    if truthy (get (VObj config) "timeout") then get (VObj config) "timeout" else timeout this in
  let baseUrl := "http://" ++ toString host ++ ":" ++ toString port in
  {| host := host;
     port := port;
     timeout := timeout;
     baseUrl := baseUrl;
     defaults := {| baseURL := baseUrl; clientTimeout := timeout |} |}.

(** The request of [testConnection]. *)
Definition testXml : string :=
"
                <ENVELOPE>
                    <HEADER>
                        <TALLYREQUEST>Export Data</TALLYREQUEST>
                    </HEADER>
                    <BODY>
                        <EXPORTDATA>
                            <REQUESTDESC>
                                <REPORTNAME>List of Companies</REPORTNAME>
                            </REQUESTDESC>
                        </EXPORTDATA>
                    </BODY>
                </ENVELOPE>
            ".

(** [testConnection()]. *)
Definition testConnection : io value :=
  io_catch
    (io_bind (sendRequest testXml) (fun response => Done (ret (get response "success"))))
    (fun _ => Done (ret (VBool false))).

End TallyConnector.

Notation "x <~ m ;; k" := (TallyConnector.io_bind m (fun x => k))
  (at level 61, m at next level, right associativity) : js_scope.

(* ===================================================================== *)
(** * The directives of the update operations *)
(* ===================================================================== *)

(** The two literals of [updateLedger], [updateVoucher] and
    [updateStockItem]: what [replace] looks for and what it puts. *)

Module Action.

Definition create : string := "ACTION=" ++ Str.dq ++ "Create" ++ Str.dq.
Definition alter : string := "ACTION=" ++ Str.dq ++ "Alter" ++ Str.dq.

End Action.

(* ===================================================================== *)
(** * The response interpreters: shared steps *)
(* ===================================================================== *)

(** Every [_parse...Response] opens with the same lines; they are written
    once here and used under the names the services give them. *)

Module Interp.

Import Js.

(** [const envelope = responseData.ENVELOPE || responseData;
     const body = envelope.BODY || envelope;] *)
Definition bodyOf (responseData : value) : result value :=
  (e <- getM responseData "ENVELOPE" ;;
   let envelope := or e responseData in
   b <- getM envelope "BODY" ;;
   ret (or b envelope))%js.

(** [body.EXPORTDATA && body.EXPORTDATA.REQUESTDATA]. *)
Definition requestDataOf (body : value) : result value :=
  (exportData <- getM body "EXPORTDATA" ;;
   if truthy exportData then getM exportData "REQUESTDATA" else ret exportData)%js.

(** [body.EXPORTDATA.REQUESTDATA.TALLYMESSAGE || otherwise]. *)
Definition tallyMessageOf (body otherwise : value) : result value :=
  (exportData <- getM body "EXPORTDATA" ;;
   requestData <- getM exportData "REQUESTDATA" ;;
   message <- getM requestData "TALLYMESSAGE" ;;
   ret (or message otherwise))%js.

(** [Array.isArray(x) ? x : [x]]. *)
Definition asArray (x : value) : list value :=
  match x with
  | VArr items => items
  | _ => [x]
  end.

(** [parseFloat(x) || 0], a number whatever [x] is. *)
Definition floatOrZero (x : value) : Num.number :=
  let n := parseFloat x in
  if truthy (VNum n) then n else S754_zero false.

End Interp.

(* ===================================================================== *)
(** * [VoucherService] *)
(* ===================================================================== *)

Module VoucherService.

Import Js Str TallyConnector Interp.

Definition zero : Num.number := S754_zero false.
Definition one : Num.number := Eval vm_compute in Num.lit "1".
Definition minus_one : Num.number := Eval vm_compute in Num.lit "-1".

(** The literal [0.01] of [_validateVoucherData]. *)
Definition tolerance : Num.number := Eval vm_compute in Num.lit "0.01".

(** The literal [2] of [_calculateVoucherAmount]. *)
Definition two : Num.number := Eval vm_compute in Num.lit "2".


(** The template of the message of [deleteVoucher], with the interpolated
    texts as arguments. *)
Definition deleteTemplate (voucherNumber voucherType dateXml : string) : string :=
"<TALLYMESSAGE xmlns:UDF=" ++ dq ++ "TallyUDF" ++ dq ++ ">
                <VOUCHER VOUCHERNUMBER=" ++ dq ++ voucherNumber ++ dq ++ " VCHTYPE=" ++ dq ++ voucherType ++ dq ++ " ACTION=" ++ dq ++ "Delete" ++ dq ++ ">
                    " ++ dateXml ++ "
                </VOUCHER>
            </TALLYMESSAGE>".

(** [v === n] for a number [n]. *)
Definition strict_eq_number (v : value) (n : Num.number) : bool :=
  match v with
  | VNum x => Num.strict_eq x n
  | _ => false
  end.

Fixpoint forEachM {A : Type} (f : A -> result unit) (l : list A) : result unit :=
  match l with
  | [] => ret tt
  | x :: r => (_ <- f x ;; forEachM f r)%js
  end.

Fixpoint reduceM {A B : Type} (f : B -> A -> result B) (l : list A) (acc : B) : result B :=
  match l with
  | [] => ret acc
  | x :: r => (acc' <- f acc x ;; reduceM f r acc')%js
  end.

(** The body of the loop over the entries in [_validateVoucherData]. *)
Definition checkEntry (entry : value) : result unit :=
  (ledgerName <- getM entry "ledgerName" ;;
   if negb (truthy ledgerName) then
     throw (Error "Each ledger entry must have a ledger name")
   else
     let amount := get entry "amount" in
     if negb (is_number amount) || strict_eq_number amount zero then
       throw (Error "Each ledger entry must have a non-zero amount")
     else ret tt)%js.

(** [_parseLedgerEntries(ledgerEntriesData)]. *)
Definition parseLedgerEntry (entry : value) : result value :=
  (ledgerName <- getM entry "LEDGERNAME" ;;
   amount <- getM entry "AMOUNT" ;;
   deemedPositive <- getM entry "ISDEEMEDPOSITIVE" ;;
   bill <- getM entry "BILLALLOCATIONS.LIST" ;;
   billName <- (if truthy bill then getM bill "NAME" else ret (VStr EmptyString)) ;;
   billType <- (if truthy bill then getM bill "BILLTYPE" else ret (VStr EmptyString)) ;;
   ret (VObj
          [("ledgerName", or ledgerName (VStr EmptyString));
           ("amount",
            or (VNum (Num.mul (parseFloat amount)
                        (if is_text deemedPositive "No" then minus_one else one)))
               (VNum zero));
           ("billName", billName);
           ("billType", billType)]))%js.

Definition _parseLedgerEntries (ledgerEntriesData : value) : result value :=
  (entries <- mapM parseLedgerEntry (asArray ledgerEntriesData) ;;
   ret (VArr entries))%js.

(** [_parseVoucherResponse(responseData)]. *)
Definition _parseVoucherResponse (responseData : value) : result value :=
  (body <- bodyOf responseData ;;
   requestData <- requestDataOf body ;;
   if truthy requestData then
     voucherData <- tallyMessageOf body (VObj []) ;;
     voucherNumber <- getM voucherData "VOUCHERNUMBER" ;;
     voucherType <- getM voucherData "VOUCHERTYPENAME" ;;
     date <- getM voucherData "DATE" ;;
     narration <- getM voucherData "NARRATION" ;;
     entriesData <- getM voucherData "LEDGERENTRIES.LIST" ;;
     ledgerEntries <- _parseLedgerEntries (or entriesData (VArr [])) ;;
     ret (VObj
            [("voucherNumber", or voucherNumber (VStr EmptyString));
             ("voucherType", or voucherType (VStr EmptyString));
             ("date", or date (VStr EmptyString));
             ("narration", or narration (VStr EmptyString));
             ("ledgerEntries", ledgerEntries)])
   else ret (VObj []))%js.

(** [_groupVouchersByType(summaryData)]: a fixed table. *)
Definition _groupVouchersByType (summaryData : value) : value :=
  let none := VObj [("count", VNum zero); ("amount", VNum zero)] in
  VObj [("Sales", none); ("Purchase", none); ("Receipt", none);
        ("Payment", none); ("Journal", none)].

(** [_parseVoucherSummaryResponse(responseData, groupByType)]. *)
Definition _parseVoucherSummaryResponse (responseData groupByType : value) : result value :=
  (body <- bodyOf responseData ;;
   requestData <- requestDataOf body ;;
   if truthy requestData then
     summaryData <- tallyMessageOf body (VObj []) ;;
     totalCount <- getM summaryData "TOTALCOUNT" ;;
     totalAmount <- getM summaryData "TOTALAMOUNT" ;;
     averageAmount <- getM summaryData "AVERAGEAMOUNT" ;;
     if truthy groupByType then
       ret (VObj
              [("byType", _groupVouchersByType summaryData);
               ("total",
                VObj [("count", or totalCount (VNum zero));
                      ("amount", or totalAmount (VNum zero))])])
     else
       ret (VObj
              [("totalCount", or totalCount (VNum zero));
               ("totalAmount", or totalAmount (VNum zero));
               ("averageAmount", or averageAmount (VNum zero))])
   else ret (VObj []))%js.

Section Engine.

Variable rt : runtime.

(** [process.env.TALLY_COMPANY]. *)
Variable env : value.

(** [a + b]. *)
Definition plus (a b : value) : value :=
  match a, b with
  | VNum x, VNum y => VNum (Num.add x y)
  | _, _ => plusOf rt a b
  end.

(** [entries.reduce((sum, entry) => sum + entry.amount, 0)]. *)
Definition totalOf (entries : list value) : result value :=
  reduceM (fun sum entry => (amount <- getM entry "amount" ;; ret (plus sum amount))%js)
    entries (VNum zero).

(** [_validateVoucherData(voucherData)]. *)
Definition _validateVoucherData (voucherData : obj) : result unit :=
  if negb (truthy (get (VObj voucherData) "voucherType")) then
    throw (Error "Voucher type is required")
  else if negb (truthy (get (VObj voucherData) "date")) then
    throw (Error "Voucher date is required")
  else
    let ledgerEntries := get (VObj voucherData) "ledgerEntries" in
    match ledgerEntries with
    | VArr entries =>
        if (List.length entries <? 2)%nat then
          throw (Error "At least two ledger entries are required for a voucher")
        else
          (_ <- forEachM checkEntry entries ;;
           totalAmount <- totalOf entries ;;
           if Num.gt (Num.abs (XmlBuilder.toNumber rt totalAmount)) tolerance then
             throw (Error "Voucher debits and credits must balance")
           else ret tt)%js
    | _ => throw (Error "Ledger entries are required and must be an array")
    end.

(** The object a service resolves with. *)
Definition outcome (fields : obj) : value := VObj (("success", VBool true) :: fields).

(** [createVoucher(voucherData)]. *)
Definition createVoucher (voucherData : obj) : io value :=
  match _validateVoucherData voucherData with
  | inl error => Done (throw error)
  | inr _ =>
      io_catch
        (voucherXml <~ Done (XmlBuilder.buildVoucherXml rt voucherData) ;;
         let importXml := XmlBuilder.buildImportRequest env voucherXml [] in
         response <~ sendRequest importXml ;;
         Done (ret (outcome
                      [("message", VStr "Voucher created successfully");
                       ("data", get response "data");
                       ("voucherNumber", get (VObj voucherData) "voucherNumber");
                       ("voucherType", get (VObj voucherData) "voucherType")])))%js
        (fun error => Done (throw (Error ("Failed to create voucher: " ++ message error))))
  end.

(** [fetchVoucher(voucherNumber, voucherType, options = {})]. *)
Definition fetchVoucher (voucherNumber voucherType : value) (options : obj) : io value :=
  if negb (truthy voucherNumber) || negb (truthy voucherType) then
    Done (throw (Error "Voucher number and type are required"))
  else
    io_catch
      (let filters :=
         ([("VOUCHERNUMBER", voucherNumber); ("VOUCHERTYPE", voucherType)]
            ++ (if truthy (get (VObj options) "date")
                then [("DATE", get (VObj options) "date")] else []))%list in
       let exportXml := XmlBuilder.buildExportRequest "Voucher Details" filters in
       response <~ sendRequest exportXml ;;
       data <~ Done (_parseVoucherResponse (get response "data")) ;;
       Done (ret (outcome
                    [("data", data);
                     ("voucherNumber", voucherNumber);
                     ("voucherType", voucherType)])))%js
      (fun error => Done (throw (Error ("Failed to fetch voucher: " ++ message error)))).

(** The merge of [updateVoucher]: the fetched voucher under the updates;
    a fetched field is read only when the update gives none. *)
Definition updatedVoucherData (voucherNumber voucherType updates currentVoucher : value) : result obj :=
  (newDate <- getM updates "date" ;;
   date <- orM newDate (getM2 currentVoucher "data" "date") ;;
   newNarration <- getM updates "narration" ;;
   narration <- orM newNarration (getM2 currentVoucher "data" "narration") ;;
   newEntries <- getM updates "ledgerEntries" ;;
   ledgerEntries <- orM newEntries (getM2 currentVoucher "data" "ledgerEntries") ;;
   ret [("voucherType", voucherType);
        ("voucherNumber", voucherNumber);
        ("date", date);
        ("narration", narration);
        ("ledgerEntries", ledgerEntries)])%js.

(** [updateVoucher(voucherNumber, voucherType, updates)]. *)
Definition updateVoucher (voucherNumber voucherType updates : value) : io value :=
  if negb (truthy voucherNumber) || negb (truthy voucherType) then
    Done (throw (Error "Voucher number and type are required"))
  else
    io_catch
      (currentVoucher <~ fetchVoucher voucherNumber voucherType [] ;;
       merged <~ Done (updatedVoucherData voucherNumber voucherType updates currentVoucher) ;;
       _ <~ Done (_validateVoucherData merged) ;;
       voucherXml <~ Done (XmlBuilder.buildVoucherXml rt merged) ;;
       let updateXml := replace Action.create Action.alter voucherXml in
       let importXml := XmlBuilder.buildImportRequest env updateXml [] in
       response <~ sendRequest importXml ;;
       Done (ret (outcome
                    [("message",
                      VStr ("Voucher '" ++ toString voucherNumber ++ "' updated successfully"));
                     ("data", get response "data");
                     ("voucherNumber", voucherNumber);
                     ("voucherType", voucherType)])))%js
      (fun error => Done (throw (Error ("Failed to update voucher: " ++ message error)))).

(** [getVoucherSummary(options = {})]. *)
Definition getVoucherSummary (options : obj) : io value :=
  io_catch
    (let fromDate := or (get (VObj options) "fromDate") (VStr "01-Apr-2023") in
     let toDate :=
       or (get (VObj options) "toDate")
          (VStr (XmlBuilder.formatDate rt (VDate (now rt)))) in
     let filters :=
       ([("FROMDATE", fromDate); ("TODATE", toDate)]
          ++ (if truthy (get (VObj options) "voucherType")
              then [("VOUCHERTYPE", get (VObj options) "voucherType")] else []))%list in
     let exportXml := XmlBuilder.buildExportRequest "Voucher Summary" filters in
     response <~ sendRequest exportXml ;;
     data <~ Done (_parseVoucherSummaryResponse (get response "data")
                     (get (VObj options) "groupByType")) ;;
     Done (ret (outcome
                  [("data", data);
                   ("period", VObj [("fromDate", fromDate); ("toDate", toDate)])])))%js
    (fun error => Done (throw (Error ("Failed to get voucher summary: " ++ message error)))).

(** [_calculateVoucherAmount(ledgerEntries)]: the absolute amounts of the
    parsed entries, added up from the left, and halved. *)
Definition _calculateVoucherAmount (ledgerEntries : value) : result value :=
  (entries <- _parseLedgerEntries ledgerEntries ;;
   ret (VNum (Num.div
                (fold_left
                   (fun total entry =>
                      Num.add total (Num.abs (XmlBuilder.toNumber rt (get entry "amount"))))
                   (elements entries) zero)
                two)))%js.

(** One voucher of [_parseVoucherListResponse]. *)
Definition parseListedVoucher (voucher : value) : result value :=
  (voucherNumber <- getM voucher "VOUCHERNUMBER" ;;
   voucherType <- getM voucher "VOUCHERTYPENAME" ;;
   date <- getM voucher "DATE" ;;
   narration <- getM voucher "NARRATION" ;;
   entriesData <- getM voucher "LEDGERENTRIES.LIST" ;;
   amount <- _calculateVoucherAmount (or entriesData (VArr [])) ;;
   ret (VObj
          [("voucherNumber", or voucherNumber (VStr EmptyString));
           ("voucherType", or voucherType (VStr EmptyString));
           ("date", or date (VStr EmptyString));
           ("narration", or narration (VStr EmptyString));
           ("amount", amount)]))%js.

(** [_parseVoucherListResponse(responseData)]. *)
Definition _parseVoucherListResponse (responseData : value) : result value :=
  (body <- bodyOf responseData ;;
   requestData <- requestDataOf body ;;
   if truthy requestData then
     vouchers <- tallyMessageOf body (VArr []) ;;
     parsed <- mapM parseListedVoucher (asArray vouchers) ;;
     ret (VArr parsed)
   else ret (VArr []))%js.

(** The test of the amount range filter in [getVoucherList]. *)
Definition inRange (amountRange voucher : value) : bool :=
  let amount := Num.abs (XmlBuilder.toNumber rt (get voucher "amount")) in
  Num.ge amount (XmlBuilder.toNumber rt (get amountRange "min"))
  && Num.le amount (XmlBuilder.toNumber rt (get amountRange "max")).

(** [getVoucherList(filters = {})]. *)
Definition getVoucherList (filters : obj) : io value :=
  io_catch
    (let requestFilters :=
       ((if truthy (get (VObj filters) "voucherType")
         then [("VOUCHERTYPE", get (VObj filters) "voucherType")] else [])
          ++ (if truthy (get (VObj filters) "fromDate")
              then [("FROMDATE", get (VObj filters) "fromDate")] else [])
          ++ (if truthy (get (VObj filters) "toDate")
              then [("TODATE", get (VObj filters) "toDate")] else [])
          ++ (if truthy (get (VObj filters) "ledgerName")
              then [("LEDGERNAME", get (VObj filters) "ledgerName")] else []))%list in
     let exportXml := XmlBuilder.buildCollectionRequest "Voucher" requestFilters in
     response <~ sendRequest exportXml ;;
     parsed <~ Done (_parseVoucherListResponse (get response "data")) ;;
     let vouchers := elements parsed in
     let vouchers :=
       if truthy (get (VObj filters) "amountRange")
       then filter (inRange (get (VObj filters) "amountRange")) vouchers
       else vouchers in
     let vouchers :=
       if truthy (get (VObj filters) "limit")
       then slice_to (XmlBuilder.toNumber rt (get (VObj filters) "limit")) vouchers
       else vouchers in
     Done (ret (outcome [("data", VArr vouchers); ("count", VNum (lengthOf vouchers))])))%js
    (fun error => Done (throw (Error ("Failed to fetch voucher list: " ++ message error)))).

(** [deleteVoucher(voucherNumber, voucherType, options = {})]. *)
Definition deleteVoucher (voucherNumber voucherType : value) (options : obj) : io value :=
  if negb (truthy voucherNumber) || negb (truthy voucherType) then
    Done (throw (Error "Voucher number and type are required"))
  else
    io_catch
      (let dateXml :=
         if truthy (get (VObj options) "date")
         then "<DATE>" ++ toString (get (VObj options) "date") ++ "</DATE>"
         else EmptyString in
       let deleteXml :=
         deleteTemplate (toString (XmlBuilder.escapeXml voucherNumber))
           (toString (XmlBuilder.escapeXml voucherType)) dateXml in
       let importXml := XmlBuilder.buildImportRequest env deleteXml [] in
       response <~ sendRequest importXml ;;
       Done (ret (outcome
                    [("message",
                      VStr ("Voucher '" ++ toString voucherNumber ++ "' deleted successfully"));
                     ("data", get response "data");
                     ("voucherNumber", voucherNumber);
                     ("voucherType", voucherType)])))%js
      (fun error => Done (throw (Error ("Failed to delete voucher: " ++ message error)))).

(** [getVouchersByLedger(ledgerName, options = {})]. *)
Definition getVouchersByLedger (ledgerName : value) (options : obj) : io value :=
  if negb (truthy ledgerName) then Done (throw (Error "Ledger name is required"))
  else
    io_catch
      (let fromDate := or (get (VObj options) "fromDate") (VStr "01-Apr-2023") in
       let toDate :=
         or (get (VObj options) "toDate")
            (VStr (XmlBuilder.formatDate rt (VDate (now rt)))) in
       let filters :=
         ([("LEDGERNAME", ledgerName); ("FROMDATE", fromDate); ("TODATE", toDate)]
            ++ (if truthy (get (VObj options) "voucherType")
                then [("VOUCHERTYPE", get (VObj options) "voucherType")] else []))%list in
       let exportXml := XmlBuilder.buildExportRequest "Ledger Vouchers" filters in
       response <~ sendRequest exportXml ;;
       data <~ Done (_parseVoucherListResponse (get response "data")) ;;
       Done (ret (outcome
                    [("data", data);
                     ("ledgerName", ledgerName);
                     ("period", VObj [("fromDate", fromDate); ("toDate", toDate)])])))%js
      (fun error => Done (throw (Error ("Failed to fetch vouchers for ledger: " ++ message error)))).

End Engine.

End VoucherService.

(* ===================================================================== *)
(** * [LedgerService] *)
(* ===================================================================== *)

Module LedgerService.

Import Js Str TallyConnector Interp.

Definition zero : Num.number := S754_zero false.

(** [_parseLedgerResponse(responseData)]. *)
Definition _parseLedgerResponse (responseData : value) : result value :=
  (body <- bodyOf responseData ;;
   requestData <- requestDataOf body ;;
   if truthy requestData then
     ledgerData <- tallyMessageOf body (VObj []) ;;
     name <- getM ledgerData "NAME" ;;
     parent <- getM ledgerData "PARENT" ;;
     alias <- getM ledgerData "ALIAS" ;;
     openingBalance <- getM ledgerData "OPENINGBALANCE" ;;
     billWise <- getM ledgerData "ISBILLWISEON" ;;
     costCentre <- getM ledgerData "ISCOSTCENTRESON" ;;
     ret (VObj
            [("name", or name (VStr EmptyString));
             ("parent", or parent (VStr EmptyString));
             ("alias", or alias (VStr EmptyString));
             ("openingBalance",
              VObj [("amount", or openingBalance (VNum zero));
                    ("isBillWise", VBool (is_text billWise "Yes"));
                    ("isCostCentre", VBool (is_text costCentre "Yes"))])])
   else ret (VObj []))%js.

(** [_parseLedgerTransactionsResponse(responseData)]. *)
Definition _parseLedgerTransactionsResponse (responseData : value) : result value :=
  (body <- bodyOf responseData ;;
   requestData <- requestDataOf body ;;
   if truthy requestData then
     transactions <- tallyMessageOf body (VArr []) ;;
     ret (VArr (asArray transactions))
   else ret (VArr []))%js.

(** [_parseLedgerBalanceResponse(responseData)]. *)
Definition _parseLedgerBalanceResponse (responseData : value) : result value :=
  (body <- bodyOf responseData ;;
   requestData <- requestDataOf body ;;
   if truthy requestData then
     balanceData <- tallyMessageOf body (VObj []) ;;
     openingBalance <- getM balanceData "OPENINGBALANCE" ;;
     closingBalance <- getM balanceData "CLOSINGBALANCE" ;;
     debitTotal <- getM balanceData "DEBITTOTAL" ;;
     creditTotal <- getM balanceData "CREDITTOTAL" ;;
     ret (VObj
            [("openingBalance", VNum (floatOrZero openingBalance));
             ("closingBalance", VNum (floatOrZero closingBalance));
             ("debitTotal", VNum (floatOrZero debitTotal));
             ("creditTotal", VNum (floatOrZero creditTotal))])
   else
     ret (VObj
            [("openingBalance", VNum zero);
             ("closingBalance", VNum zero);
             ("debitTotal", VNum zero);
             ("creditTotal", VNum zero)]))%js.

(** One ledger of [_parseLedgerListResponse]: the two [map]s, the first of
    which puts an empty object in place of a falsy node. *)
Definition listedLedger (n : value) : value :=
  let node := or n (VObj []) in
  VObj
    [("name",
      or (or (or (get node "NAME") (get node "LedgerName")) (get node "$NAME"))
         (VStr EmptyString));
     ("parent", or (or (get node "PARENT") (get node "Parent")) (VStr EmptyString));
     ("alias", or (or (get node "ALIAS") (get node "Alias")) (VStr EmptyString));
     ("isActive",
      if truthy (get node "ISACTIVE")
      then VBool (negb (is_text (get node "ISACTIVE") "No"))
      else VBool true)].

(** [_parseLedgerListResponse(responseData)]. *)
Definition _parseLedgerListResponse (responseData : value) : result value :=
  (body <- bodyOf responseData ;;
   let tdlNodes :=
     or (or (optGet body "DESC") (optGet body "COLLECTION")) (optGet body "TALLYMESSAGE") in
   requestData <- requestDataOf body ;;
   exportData <- (if truthy requestData then getM requestData "TALLYMESSAGE"
                  else ret requestData) ;;
   let nodes := or (or exportData tdlNodes) (VArr []) in
   ret (VArr (filter (fun x => truthy (get x "name")) (map listedLedger (asArray nodes)))))%js.

(** The template of the message of [deleteLedger], with the interpolated
    text as argument. *)
Definition deleteTemplate (name : string) : string :=
"<TALLYMESSAGE xmlns:UDF=" ++ dq ++ "TallyUDF" ++ dq ++ ">
                <LEDGER NAME=" ++ dq ++ name ++ dq ++ " ACTION=" ++ dq ++ "Delete" ++ dq ++ ">
                </LEDGER>
            </TALLYMESSAGE>".

Section Engine.

(** [process.env.TALLY_COMPANY]. *)
Variable env : value.

Definition outcome (fields : obj) : value := VObj (("success", VBool true) :: fields).

(** [fetchLedger(ledgerName, options = {})]. *)
Definition fetchLedger (ledgerName : value) (options : obj) : io value :=
  if negb (truthy ledgerName) then Done (throw (Error "Ledger name is required"))
  else
    io_catch
      (let filters :=
         ([("LEDGERNAME", ledgerName)]
            ++ (if truthy (get (VObj options) "fromDate")
                then [("FROMDATE", get (VObj options) "fromDate")] else [])
            ++ (if truthy (get (VObj options) "toDate")
                then [("TODATE", get (VObj options) "toDate")] else []))%list in
       let exportXml := XmlBuilder.buildExportRequest "Ledger Details" filters in
       response <~ sendRequest exportXml ;;
       data <~ Done (_parseLedgerResponse (get response "data")) ;;
       Done (ret (outcome [("data", data); ("ledgerName", ledgerName)])))%js
      (fun error => Done (throw (Error ("Failed to fetch ledger: " ++ message error)))).

(** The merge of [updateLedger]. *)
Definition updatedLedgerData (ledgerName updates currentLedger : value) : result obj :=
  (newParent <- getM updates "parent" ;;
   parent <- orM newParent (getM2 currentLedger "data" "parent") ;;
   newAlias <- getM updates "alias" ;;
   alias <- orM newAlias (getM2 currentLedger "data" "alias") ;;
   newOpening <- getM updates "openingBalance" ;;
   openingBalance <- orM newOpening (getM2 currentLedger "data" "openingBalance") ;;
   ret [("name", ledgerName);
        ("parent", parent);
        ("alias", alias);
        ("openingBalance", openingBalance)])%js.

(** [updateLedger(ledgerName, updates)]. *)
Definition updateLedger (ledgerName updates : value) : io value :=
  if negb (truthy ledgerName) then Done (throw (Error "Ledger name is required"))
  else
    io_catch
      (currentLedger <~ fetchLedger ledgerName [] ;;
       merged <~ Done (updatedLedgerData ledgerName updates currentLedger) ;;
       let ledgerXml := XmlBuilder.buildLedgerXml merged in
       let updateXml := replace Action.create Action.alter ledgerXml in
       let importXml :=
         XmlBuilder.buildImportRequest env updateXml
           [("reportName", VStr "All Masters"); ("companyName", env)] in
       response <~ sendRequest importXml ;;
       Done (ret (outcome
                    [("message",
                      VStr ("Ledger '" ++ toString ledgerName ++ "' updated successfully"));
                     ("data", get response "data");
                     ("ledgerName", ledgerName)])))%js
      (fun error => Done (throw (Error ("Failed to update ledger: " ++ message error)))).

End Engine.

Section Operations.

Variable rt : runtime.

(** [process.env.TALLY_COMPANY]. *)
Variable env : value.

(** [String.prototype.toLowerCase], which the engine provides. *)
Variable lower : string -> string.

(** [createLedger(ledgerData)]. *)
Definition createLedger (ledgerData : obj) : io value :=
  if negb (truthy (get (VObj ledgerData) "name")) then
    Done (throw (Error "Ledger name is required"))
  else if negb (truthy (get (VObj ledgerData) "parent")) then
    Done (throw (Error "Parent group is required"))
  else
    io_catch
      (let ledgerXml := XmlBuilder.buildLedgerXml ledgerData in
       let importXml :=
         XmlBuilder.buildImportRequest env ledgerXml
           [("reportName", VStr "All Masters"); ("companyName", env)] in
       response <~ sendRequest importXml ;;
       Done (ret (outcome
                    [("message",
                      VStr ("Ledger '" ++ toString (get (VObj ledgerData) "name")
                              ++ "' created successfully"));
                     ("data", get response "data");
                     ("ledgerName", get (VObj ledgerData) "name")])))%js
      (fun error => Done (throw (Error ("Failed to create ledger: " ++ message error)))).

(** [v.toLowerCase()]: a primitive that is no string, an array and an
    object have no such method. *)
Definition toLowerCase (v : value) (what : string) : result string :=
  match v with
  | VStr s => ret (lower s)
  | VUndef | VNull => bind (getM v "toLowerCase") (fun _ => ret EmptyString)
  | _ => throw (TypeError (what ++ ".toLowerCase is not a function"))
  end.

(** [getLedgerList(filters = {})]; the request filters that the function
    collects are not passed on. *)
Definition getLedgerList (filters : obj) : io value :=
  io_catch
    (let exportXml :=
       XmlBuilder.buildTDLCollectionRequest (VStr "Ledger List") (VStr "Ledger")
         [VStr "NAME"; VStr "PARENT"] in
     response <~ sendRequest exportXml ;;
     parsed <~ Done (_parseLedgerListResponse (get response "data")) ;;
     let ledgers := elements parsed in
     let ledgers :=
       if truthy (get (VObj filters) "activeOnly")
       then filter (fun ledger => is_not_false (get ledger "isActive")) ledgers
       else ledgers in
     ledgers <~ Done
       (if truthy (get (VObj filters) "nameContains") then
          (searchTerm <- toLowerCase (get (VObj filters) "nameContains") "filters.nameContains" ;;
           filterM (fun ledger =>
                      (name <- toLowerCase (get ledger "name") "ledger.name" ;;
                       ret (includes searchTerm name))%js)
             ledgers)%js
        else ret ledgers) ;;
     Done (ret (outcome [("data", VArr ledgers); ("count", VNum (lengthOf ledgers))])))%js
    (fun error => Done (throw (Error ("Failed to fetch ledger list: " ++ message error)))).

(** [checkLedgerTransactions(ledgerName)]: the array of transactions is
    truthy, so the conjunction is the test of its length. *)
Definition checkLedgerTransactions (ledgerName : value) : io value :=
  io_catch
    (let filters :=
       [("LEDGERNAME", ledgerName);
        ("FROMDATE", VStr "01-Apr-1990");
        ("TODATE", VStr (XmlBuilder.formatDate rt (VDate (now rt))))] in
     let exportXml := XmlBuilder.buildExportRequest "Ledger Transactions" filters in
     response <~ sendRequest exportXml ;;
     transactions <~ Done (_parseLedgerTransactionsResponse (get response "data")) ;;
     Done (ret (and transactions
                    (VBool (0 <? List.length (elements transactions))%nat))))%js
    (fun _ => Done (ret (VBool true))).

(** [deleteLedger(ledgerName, options = {})]. *)
Definition deleteLedger (ledgerName : value) (options : obj) : io value :=
  if negb (truthy ledgerName) then Done (throw (Error "Ledger name is required"))
  else
    io_catch
      (_ <~ (if negb (truthy (get (VObj options) "force")) then
               hasTransactions <~ checkLedgerTransactions ledgerName ;;
               if truthy hasTransactions then
                 Done (throw (Error "Cannot delete ledger with existing transactions. Use force option to override."))
               else Done (ret tt)
             else Done (ret tt)) ;;
       let deleteXml := deleteTemplate (toString (XmlBuilder.escapeXml ledgerName)) in
       let importXml :=
         XmlBuilder.buildImportRequest env deleteXml
           [("reportName", VStr "All Masters"); ("companyName", env)] in
       response <~ sendRequest importXml ;;
       Done (ret (outcome
                    [("message",
                      VStr ("Ledger '" ++ toString ledgerName ++ "' deleted successfully"));
                     ("data", get response "data");
                     ("ledgerName", ledgerName)])))%js
      (fun error => Done (throw (Error ("Failed to delete ledger: " ++ message error)))).

(** [getLedgerBalance(ledgerName, options = {})]. *)
Definition getLedgerBalance (ledgerName : value) (options : obj) : io value :=
  if negb (truthy ledgerName) then Done (throw (Error "Ledger name is required"))
  else
    io_catch
      (let fromDate := or (get (VObj options) "fromDate") (VStr "01-Apr-2023") in
       let toDate :=
         or (get (VObj options) "toDate")
            (VStr (XmlBuilder.formatDate rt (VDate (now rt)))) in
       let filters :=
         [("LEDGERNAME", ledgerName); ("FROMDATE", fromDate); ("TODATE", toDate)] in
       let exportXml := XmlBuilder.buildExportRequest "Ledger Balance" filters in
       response <~ sendRequest exportXml ;;
       data <~ Done (_parseLedgerBalanceResponse (get response "data")) ;;
       Done (ret (outcome
                    [("data", data);
                     ("ledgerName", ledgerName);
                     ("period", VObj [("fromDate", fromDate); ("toDate", toDate)])])))%js
      (fun error => Done (throw (Error ("Failed to get ledger balance: " ++ message error)))).

End Operations.

End LedgerService.

(* ===================================================================== *)
(** * [StockItemService] *)
(* ===================================================================== *)

Module StockItemService.

Import Js Str TallyConnector Interp.

Definition zero : Num.number := S754_zero false.

(** [_parseStockItemResponse(responseData)]. *)
Definition _parseStockItemResponse (responseData : value) : result value :=
  (body <- bodyOf responseData ;;
   requestData <- requestDataOf body ;;
   if truthy requestData then
     stockData <- tallyMessageOf body (VObj []) ;;
     name <- getM stockData "NAME" ;;
     parent <- getM stockData "PARENT" ;;
     alias <- getM stockData "ALIAS" ;;
     baseUnits <- getM stockData "BASEUNITS" ;;
     openingBalance <- getM stockData "OPENINGBALANCE" ;;
     openingRate <- getM stockData "OPENINGRATE" ;;
     openingValue <- getM stockData "OPENINGVALUE" ;;
     closingBalance <- getM stockData "CLOSINGBALANCE" ;;
     closingRate <- getM stockData "CLOSINGRATE" ;;
     closingValue <- getM stockData "CLOSINGVALUE" ;;
     ret (VObj
            [("name", or name (VStr EmptyString));
             ("parent", or parent (VStr EmptyString));
             ("alias", or alias (VStr EmptyString));
             ("baseUnits", or baseUnits (VStr EmptyString));
             ("openingBalance",
              VObj [("quantity", VNum (floatOrZero openingBalance));
                    ("rate", VNum (floatOrZero openingRate));
                    ("value", VNum (floatOrZero openingValue))]);
             ("closingBalance",
              VObj [("quantity", VNum (floatOrZero closingBalance));
                    ("rate", VNum (floatOrZero closingRate));
                    ("value", VNum (floatOrZero closingValue))])])
   else ret (VObj []))%js.

(** One item of the stock summary, as the object literal of the [map]
    builds it; the three numbers are numbers by construction. *)
Record summaryItem := {
  name : value;
  group : value;
  closingQuantity : Num.number;
  closingValue : Num.number;
  rate : Num.number;
  baseUnits : value
}.

Definition parseSummaryItem (item : value) : result summaryItem :=
  (itemName <- getM item "NAME" ;;
   itemParent <- getM item "PARENT" ;;
   closing <- getM item "CLOSINGBALANCE" ;;
   value <- getM item "CLOSINGVALUE" ;;
   itemRate <- getM item "RATE" ;;
   units <- getM item "BASEUNITS" ;;
   ret {| name := or itemName (VStr EmptyString);
          group := or itemParent (VStr EmptyString);
          closingQuantity := floatOrZero closing;
          closingValue := floatOrZero value;
          rate := floatOrZero itemRate;
          baseUnits := or units (VStr EmptyString) |})%js.

Definition itemObject (item : summaryItem) : value :=
  VObj [("name", name item);
        ("group", group item);
        ("closingQuantity", VNum (closingQuantity item));
        ("closingValue", VNum (closingValue item));
        ("rate", VNum (rate item));
        ("baseUnits", baseUnits item)].

(** [items.reduce((sum, item) => sum + item.closingValue, 0)]. *)
Definition totalValueOf (items : list summaryItem) : Num.number :=
  fold_left (fun sum item => Num.add sum (closingValue item)) items zero.

(** [items.filter(p).length]. *)
Definition countWhere (p : summaryItem -> bool) (items : list summaryItem) : Num.number :=
  Num.of_Z (Z.of_nat (List.length (filter p items))).

(** The object built from the items of a stock summary. *)
Definition summaryOf (items : list summaryItem) : value :=
  VObj
    [("items", VArr (map itemObject items));
     ("totalItems", VNum (Num.of_Z (Z.of_nat (List.length items))));
     ("totalValue", VNum (totalValueOf items));
     ("summary",
      VObj [("positiveStock", VNum (countWhere (fun item => Num.gt (closingQuantity item) zero) items));
            ("negativeStock", VNum (countWhere (fun item => Num.lt (closingQuantity item) zero) items));
            ("zeroStock", VNum (countWhere (fun item => Num.strict_eq (closingQuantity item) zero) items))])].

(** The items of a stock summary response:
    [summaryData.STOCKITEMS || summaryData.TALLYMESSAGE || []], as an
    array. *)
Definition summaryItemsOf (body : value) : result (list summaryItem) :=
  (summaryData <- tallyMessageOf body (VObj []) ;;
   stockItems <- getM summaryData "STOCKITEMS" ;;
   nested <- getM summaryData "TALLYMESSAGE" ;;
   mapM parseSummaryItem (asArray (or (or stockItems nested) (VArr []))))%js.

(** [_parseStockSummaryResponse(responseData)]. *)
Definition _parseStockSummaryResponse (responseData : value) : result value :=
  (body <- bodyOf responseData ;;
   requestData <- requestDataOf body ;;
   if truthy requestData then
     items <- summaryItemsOf body ;;
     ret (summaryOf items)
   else
     ret (VObj
            [("items", VArr []);
             ("totalItems", VNum zero);
             ("totalValue", VNum zero);
             ("summary",
              VObj [("positiveStock", VNum zero);
                    ("negativeStock", VNum zero);
                    ("zeroStock", VNum zero)])]))%js.

(** One item of [_parseStockItemListResponse]. *)
Definition parseListedStockItem (stock : value) : result value :=
  (name <- getM stock "NAME" ;;
   parent <- getM stock "PARENT" ;;
   alias <- getM stock "ALIAS" ;;
   baseUnits <- getM stock "BASEUNITS" ;;
   active <- getM stock "ISACTIVE" ;;
   closingBalance <- getM stock "CLOSINGBALANCE" ;;
   closingValue <- getM stock "CLOSINGVALUE" ;;
   ret (VObj
          [("name", or name (VStr EmptyString));
           ("parent", or parent (VStr EmptyString));
           ("alias", or alias (VStr EmptyString));
           ("baseUnits", or baseUnits (VStr EmptyString));
           ("isActive", VBool (negb (is_text active "No")));
           ("closingBalance",
            VObj [("quantity", VNum (floatOrZero closingBalance));
                  ("value", VNum (floatOrZero closingValue))])]))%js.

(** [_parseStockItemListResponse(responseData)]. *)
Definition _parseStockItemListResponse (responseData : value) : result value :=
  (body <- bodyOf responseData ;;
   requestData <- requestDataOf body ;;
   if truthy requestData then
     stockItems <- tallyMessageOf body (VArr []) ;;
     parsed <- mapM parseListedStockItem (asArray stockItems) ;;
     ret (VArr parsed)
   else ret (VArr []))%js.

(** [_parseStockBalanceResponse(responseData)]. *)
Definition _parseStockBalanceResponse (responseData : value) : result value :=
  (body <- bodyOf responseData ;;
   requestData <- requestDataOf body ;;
   if truthy requestData then
     balanceData <- tallyMessageOf body (VObj []) ;;
     openingBalance <- getM balanceData "OPENINGBALANCE" ;;
     openingRate <- getM balanceData "OPENINGRATE" ;;
     openingValue <- getM balanceData "OPENINGVALUE" ;;
     inwardQuantity <- getM balanceData "INWARDQUANTITY" ;;
     outwardQuantity <- getM balanceData "OUTWARDQUANTITY" ;;
     closingBalance <- getM balanceData "CLOSINGBALANCE" ;;
     closingRate <- getM balanceData "CLOSINGRATE" ;;
     closingValue <- getM balanceData "CLOSINGVALUE" ;;
     ret (VObj
            [("openingBalance",
              VObj [("quantity", VNum (floatOrZero openingBalance));
                    ("rate", VNum (floatOrZero openingRate));
                    ("value", VNum (floatOrZero openingValue))]);
             ("inwardQuantity", VNum (floatOrZero inwardQuantity));
             ("outwardQuantity", VNum (floatOrZero outwardQuantity));
             ("closingBalance",
              VObj [("quantity", VNum (floatOrZero closingBalance));
                    ("rate", VNum (floatOrZero closingRate));
                    ("value", VNum (floatOrZero closingValue))])])
   else
     ret (VObj
            [("openingBalance",
              VObj [("quantity", VNum zero); ("rate", VNum zero); ("value", VNum zero)]);
             ("inwardQuantity", VNum zero);
             ("outwardQuantity", VNum zero);
             ("closingBalance",
              VObj [("quantity", VNum zero); ("rate", VNum zero); ("value", VNum zero)])]))%js.

(** One movement of [_parseStockMovementsResponse]. *)
Definition parseMovement (movement : value) : result value :=
  (date <- getM movement "DATE" ;;
   voucherType <- getM movement "VOUCHERTYPENAME" ;;
   voucherNumber <- getM movement "VOUCHERNUMBER" ;;
   inwardQuantity <- getM movement "INWARDQUANTITY" ;;
   outwardQuantity <- getM movement "OUTWARDQUANTITY" ;;
   movementRate <- getM movement "RATE" ;;
   amount <- getM movement "AMOUNT" ;;
   godown <- getM movement "GODOWNNAME" ;;
   ret (VObj
          [("date", or date (VStr EmptyString));
           ("voucherType", or voucherType (VStr EmptyString));
           ("voucherNumber", or voucherNumber (VStr EmptyString));
           ("inwardQuantity", VNum (floatOrZero inwardQuantity));
           ("outwardQuantity", VNum (floatOrZero outwardQuantity));
           ("rate", VNum (floatOrZero movementRate));
           ("amount", VNum (floatOrZero amount));
           ("godown", or godown (VStr EmptyString))]))%js.

(** [_parseStockMovementsResponse(responseData)]. *)
Definition _parseStockMovementsResponse (responseData : value) : result value :=
  (body <- bodyOf responseData ;;
   requestData <- requestDataOf body ;;
   if truthy requestData then
     movements <- tallyMessageOf body (VArr []) ;;
     parsed <- mapM parseMovement (asArray movements) ;;
     ret (VArr parsed)
   else ret (VArr []))%js.

(** The template of the message of [deleteStockItem], with the
    interpolated text as argument. *)
Definition deleteTemplate (name : string) : string :=
"<TALLYMESSAGE xmlns:UDF=" ++ dq ++ "TallyUDF" ++ dq ++ ">
                <STOCKITEM NAME=" ++ dq ++ name ++ dq ++ " ACTION=" ++ dq ++ "Delete" ++ dq ++ ">
                </STOCKITEM>
            </TALLYMESSAGE>".

Section Engine.

Variable rt : runtime.

(** [process.env.TALLY_COMPANY]. *)
Variable env : value.

Definition outcome (fields : obj) : value := VObj (("success", VBool true) :: fields).

(** [fetchStockItem(stockItemName, options = {})]. *)
Definition fetchStockItem (stockItemName : value) (options : obj) : io value :=
  if negb (truthy stockItemName) then Done (throw (Error "Stock item name is required"))
  else
    io_catch
      (let filters :=
         ([("STOCKITEMNAME", stockItemName)]
            ++ (if truthy (get (VObj options) "asOn")
                then [("ASON", get (VObj options) "asOn")] else []))%list in
       let exportXml := XmlBuilder.buildExportRequest "Stock Item Details" filters in
       response <~ sendRequest exportXml ;;
       data <~ Done (_parseStockItemResponse (get response "data")) ;;
       Done (ret (outcome [("data", data); ("stockItemName", stockItemName)])))%js
      (fun error => Done (throw (Error ("Failed to fetch stock item: " ++ message error)))).

(** The merge of [updateStockItem]. *)
Definition updatedStockData (stockItemName updates currentItem : value) : result obj :=
  (newParent <- getM updates "parent" ;;
   parent <- orM newParent (getM2 currentItem "data" "parent") ;;
   newUnits <- getM updates "baseUnits" ;;
   baseUnits <- orM newUnits (getM2 currentItem "data" "baseUnits") ;;
   newAlias <- getM updates "alias" ;;
   alias <- orM newAlias (getM2 currentItem "data" "alias") ;;
   newOpening <- getM updates "openingBalance" ;;
   openingBalance <- orM newOpening (getM2 currentItem "data" "openingBalance") ;;
   ret [("name", stockItemName);
        ("parent", parent);
        ("baseUnits", baseUnits);
        ("alias", alias);
        ("openingBalance", openingBalance)])%js.

(** [updateStockItem(stockItemName, updates)]. *)
Definition updateStockItem (stockItemName updates : value) : io value :=
  if negb (truthy stockItemName) then Done (throw (Error "Stock item name is required"))
  else
    io_catch
      (currentItem <~ fetchStockItem stockItemName [] ;;
       merged <~ Done (updatedStockData stockItemName updates currentItem) ;;
       let stockXml := XmlBuilder.buildStockItemXml merged in
       let updateXml := replace Action.create Action.alter stockXml in
       let importXml := XmlBuilder.buildImportRequest env updateXml [] in
       response <~ sendRequest importXml ;;
       Done (ret (outcome
                    [("message",
                      VStr ("Stock item '" ++ toString stockItemName ++ "' updated successfully"));
                     ("data", get response "data");
                     ("stockItemName", stockItemName)])))%js
      (fun error => Done (throw (Error ("Failed to update stock item: " ++ message error)))).

(** [getStockSummary(options = {})]; [options.includeZeroBalance !==
    undefined] is read off the shape of the value. *)
Definition getStockSummary (options : obj) : io value :=
  io_catch
    (let asOn :=
       or (get (VObj options) "asOn")
          (VStr (XmlBuilder.formatDate rt (VDate (now rt)))) in
     let filters :=
       ([("ASON", asOn)]
          ++ (if truthy (get (VObj options) "group")
              then [("STOCKGROUP", get (VObj options) "group")] else [])
          ++ (if truthy (get (VObj options) "godown")
              then [("GODOWN", get (VObj options) "godown")] else [])
          ++ (match get (VObj options) "includeZeroBalance" with
              | VUndef => []
              | flag => [("INCLUDEZEROBALANCE", VStr (if truthy flag then "Yes" else "No"))]
              end))%list in
     let exportXml := XmlBuilder.buildExportRequest "Stock Summary" filters in
     response <~ sendRequest exportXml ;;
     data <~ Done (_parseStockSummaryResponse (get response "data")) ;;
     Done (ret (outcome [("data", data); ("asOn", asOn)])))%js
    (fun error => Done (throw (Error ("Failed to get stock summary: " ++ message error)))).

End Engine.

Section Operations.

Variable rt : runtime.

(** [process.env.TALLY_COMPANY]. *)
Variable env : value.

(** [String.prototype.toLowerCase], which the engine provides. *)
Variable lower : string -> string.

(** [createStockItem(stockData)]. *)
Definition createStockItem (stockData : obj) : io value :=
  if negb (truthy (get (VObj stockData) "name")) then
    Done (throw (Error "Stock item name is required"))
  else if negb (truthy (get (VObj stockData) "parent")) then
    Done (throw (Error "Parent group is required"))
  else if negb (truthy (get (VObj stockData) "baseUnits")) then
    Done (throw (Error "Base units are required"))
  else
    io_catch
      (let stockXml := XmlBuilder.buildStockItemXml stockData in
       let importXml := XmlBuilder.buildImportRequest env stockXml [] in
       response <~ sendRequest importXml ;;
       Done (ret (outcome
                    [("message",
                      VStr ("Stock item '" ++ toString (get (VObj stockData) "name")
                              ++ "' created successfully"));
                     ("data", get response "data");
                     ("stockItemName", get (VObj stockData) "name")])))%js
      (fun error => Done (throw (Error ("Failed to create stock item: " ++ message error)))).

(** [v.toLowerCase()]: a primitive that is no string, an array and an
    object have no such method. *)
Definition toLowerCase (v : value) (what : string) : result string :=
  match v with
  | VStr s => ret (lower s)
  | VUndef | VNull => bind (getM v "toLowerCase") (fun _ => ret EmptyString)
  | _ => throw (TypeError (what ++ ".toLowerCase is not a function"))
  end.

(** The test of the balance filter in [getStockItemList]:
    [item.closingBalance && item.closingBalance.quantity > 0]. *)
Definition withBalance (item : value) : bool :=
  truthy (and (get item "closingBalance")
              (VBool (Num.gt (XmlBuilder.toNumber rt (get (get item "closingBalance") "quantity"))
                        zero))).

(** [getStockItemList(filters = {})]; the request filters that the
    function collects are not passed on. *)
Definition getStockItemList (filters : obj) : io value :=
  io_catch
    (let exportXml :=
       XmlBuilder.buildTDLCollectionRequest (VStr "Stock Item List") (VStr "Stock Item")
         [VStr "NAME"; VStr "PARENT"] in
     response <~ sendRequest exportXml ;;
     parsed <~ Done (_parseStockItemListResponse (get response "data")) ;;
     let stockItems := elements parsed in
     let stockItems :=
       if truthy (get (VObj filters) "activeOnly")
       then filter (fun item => is_not_false (get item "isActive")) stockItems
       else stockItems in
     stockItems <~ Done
       (if truthy (get (VObj filters) "nameContains") then
          (searchTerm <- toLowerCase (get (VObj filters) "nameContains") "filters.nameContains" ;;
           filterM (fun item =>
                      (name <- toLowerCase (get item "name") "item.name" ;;
                       ret (includes searchTerm name))%js)
             stockItems)%js
        else ret stockItems) ;;
     let stockItems :=
       if truthy (get (VObj filters) "withBalance")
       then filter withBalance stockItems
       else stockItems in
     Done (ret (outcome [("data", VArr stockItems); ("count", VNum (lengthOf stockItems))])))%js
    (fun error => Done (throw (Error ("Failed to fetch stock item list: " ++ message error)))).

(** [checkStockTransactions(stockItemName)]: the array of movements is
    truthy, so the conjunction is the test of its length. *)
Definition checkStockTransactions (stockItemName : value) : io value :=
  io_catch
    (let filters :=
       [("STOCKITEMNAME", stockItemName);
        ("FROMDATE", VStr "01-Apr-1990");
        ("TODATE", VStr (XmlBuilder.formatDate rt (VDate (now rt))))] in
     let exportXml := XmlBuilder.buildExportRequest "Stock Transactions" filters in
     response <~ sendRequest exportXml ;;
     transactions <~ Done (_parseStockMovementsResponse (get response "data")) ;;
     Done (ret (and transactions
                    (VBool (0 <? List.length (elements transactions))%nat))))%js
    (fun _ => Done (ret (VBool true))).

(** [deleteStockItem(stockItemName, options = {})]. *)
Definition deleteStockItem (stockItemName : value) (options : obj) : io value :=
  if negb (truthy stockItemName) then Done (throw (Error "Stock item name is required"))
  else
    io_catch
      (_ <~ (if negb (truthy (get (VObj options) "force")) then
               hasTransactions <~ checkStockTransactions stockItemName ;;
               if truthy hasTransactions then
                 Done (throw (Error "Cannot delete stock item with existing transactions. Use force option to override."))
               else Done (ret tt)
             else Done (ret tt)) ;;
       let deleteXml := deleteTemplate (toString (XmlBuilder.escapeXml stockItemName)) in
       let importXml := XmlBuilder.buildImportRequest env deleteXml [] in
       response <~ sendRequest importXml ;;
       Done (ret (outcome
                    [("message",
                      VStr ("Stock item '" ++ toString stockItemName ++ "' deleted successfully"));
                     ("data", get response "data");
                     ("stockItemName", stockItemName)])))%js
      (fun error => Done (throw (Error ("Failed to delete stock item: " ++ message error)))).

(** [getStockBalance(stockItemName, options = {})]. *)
Definition getStockBalance (stockItemName : value) (options : obj) : io value :=
  if negb (truthy stockItemName) then Done (throw (Error "Stock item name is required"))
  else
    io_catch
      (let asOn :=
         or (get (VObj options) "asOn")
            (VStr (XmlBuilder.formatDate rt (VDate (now rt)))) in
       let filters :=
         ([("STOCKITEMNAME", stockItemName); ("ASON", asOn)]
            ++ (if truthy (get (VObj options) "godown")
                then [("GODOWN", get (VObj options) "godown")] else []))%list in
       let exportXml := XmlBuilder.buildExportRequest "Stock Balance" filters in
       response <~ sendRequest exportXml ;;
       data <~ Done (_parseStockBalanceResponse (get response "data")) ;;
       Done (ret (outcome
                    [("data", data);
                     ("stockItemName", stockItemName);
                     ("asOn", asOn)])))%js
      (fun error => Done (throw (Error ("Failed to get stock balance: " ++ message error)))).

(** [getStockMovements(stockItemName, options = {})]. *)
Definition getStockMovements (stockItemName : value) (options : obj) : io value :=
  if negb (truthy stockItemName) then Done (throw (Error "Stock item name is required"))
  else
    io_catch
      (let fromDate := or (get (VObj options) "fromDate") (VStr "01-Apr-2023") in
       let toDate :=
         or (get (VObj options) "toDate")
            (VStr (XmlBuilder.formatDate rt (VDate (now rt)))) in
       let filters :=
         ([("STOCKITEMNAME", stockItemName); ("FROMDATE", fromDate); ("TODATE", toDate)]
            ++ (if truthy (get (VObj options) "voucherType")
                then [("VOUCHERTYPE", get (VObj options) "voucherType")] else [])
            ++ (if truthy (get (VObj options) "godown")
                then [("GODOWN", get (VObj options) "godown")] else []))%list in
       let exportXml := XmlBuilder.buildExportRequest "Stock Movements" filters in
       response <~ sendRequest exportXml ;;
       data <~ Done (_parseStockMovementsResponse (get response "data")) ;;
       Done (ret (outcome
                    [("data", data);
                     ("stockItemName", stockItemName);
                     ("period", VObj [("fromDate", fromDate); ("toDate", toDate)])])))%js
      (fun error => Done (throw (Error ("Failed to get stock movements: " ++ message error)))).

End Operations.

End StockItemService.

(* ===================================================================== *)
(** * [CompanyService] *)
(* ===================================================================== *)

Module CompanyService.

Import Js Str TallyConnector Interp.

(** [_parseCompanyResponse(responseData)]. *)
Definition _parseCompanyResponse (responseData : value) : result value :=
  (body <- bodyOf responseData ;;
   requestData <- requestDataOf body ;;
   if truthy requestData then
     companyData <- tallyMessageOf body (VObj []) ;;
     name <- getM companyData "NAME" ;;
     mailingName <- getM companyData "MAILINGNAME" ;;
     address <- getM companyData "ADDRESS" ;;
     state <- getM companyData "STATE" ;;
     country <- getM companyData "COUNTRY" ;;
     pincode <- getM companyData "PINCODE" ;;
     currencySymbol <- getM companyData "CURRENCYSYMBOL" ;;
     booksBeginFrom <- getM companyData "BOOKSBEGINFROM" ;;
     active <- getM companyData "ISACTIVE" ;;
     ret (VObj
            [("name", or name (VStr EmptyString));
             ("mailingName", or mailingName (VStr EmptyString));
             ("address", or address (VStr EmptyString));
             ("state", or state (VStr EmptyString));
             ("country", or country (VStr EmptyString));
             ("pincode", or pincode (VStr EmptyString));
             ("currencySymbol", or currencySymbol (VStr EmptyString));
             ("financialYearFrom", or booksBeginFrom (VStr EmptyString));
             ("isActive", VBool (negb (is_text active "No")))])
   else ret (VObj []))%js.

(** One company of [_parseCompanyListResponse]. *)
Definition parseListedCompany (company : value) : result value :=
  (name <- getM company "NAME" ;;
   mailingName <- getM company "MAILINGNAME" ;;
   active <- getM company "ISACTIVE" ;;
   lastModified <- getM company "LASTMODIFIED" ;;
   ret (VObj
          [("name", or name (VStr EmptyString));
           ("mailingName", or mailingName (VStr EmptyString));
           ("isActive", VBool (negb (is_text active "No")));
           ("lastModified", or lastModified (VStr EmptyString))]))%js.

(** [_parseCompanyListResponse(responseData)]. *)
Definition _parseCompanyListResponse (responseData : value) : result value :=
  (body <- bodyOf responseData ;;
   requestData <- requestDataOf body ;;
   if truthy requestData then
     companies <- tallyMessageOf body (VArr []) ;;
     parsed <- mapM parseListedCompany (asArray companies) ;;
     ret (VArr parsed)
   else ret (VArr []))%js.

(** [_parseCompanyStatisticsResponse(responseData)]. *)
Definition _parseCompanyStatisticsResponse (responseData : value) : result value :=
  (body <- bodyOf responseData ;;
   requestData <- requestDataOf body ;;
   if truthy requestData then
     statsData <- tallyMessageOf body (VObj []) ;;
     lastBackupDate <- getM statsData "LASTBACKUPDATE" ;;
     databaseSize <- getM statsData "DATABASESIZE" ;;
     createdDate <- getM statsData "CREATEDDATE" ;;
     totalTransactions <- getM statsData "TOTALTRANSACTIONS" ;;
     ret (VObj
            [("lastBackupDate", or lastBackupDate (VStr EmptyString));
             ("databaseSize", or databaseSize (VNum (S754_zero false)));
             ("createdDate", or createdDate (VStr EmptyString));
             ("totalTransactions",
              or (VNum (parseInt totalTransactions)) (VNum (S754_zero false)))])
   else ret (VObj []))%js.

(** [_parseFinancialYearResponse(responseData)]. *)
Definition _parseFinancialYearResponse (responseData : value) : result value :=
  (body <- bodyOf responseData ;;
   requestData <- requestDataOf body ;;
   if truthy requestData then
     fyData <- tallyMessageOf body (VObj []) ;;
     startDate <- getM fyData "STARTDATE" ;;
     endDate <- getM fyData "ENDDATE" ;;
     booksBeginFrom <- getM fyData "BOOKSBEGINFROM" ;;
     accountingBasis <- getM fyData "ACCOUNTINGBASIS" ;;
     locked <- getM fyData "ISLOCKED" ;;
     ret (VObj
            [("startDate", or startDate (VStr EmptyString));
             ("endDate", or endDate (VStr EmptyString));
             ("booksBeginFrom", or booksBeginFrom (VStr EmptyString));
             ("accountingBasis", or accountingBasis (VStr EmptyString));
             ("isLocked", VBool (is_text locked "Yes"))])
   else ret (VObj []))%js.

(** [_parseLedgerListResponse(responseData)] of this service: the messages
    as they are, in an array. *)
Definition _parseLedgerListResponse (responseData : value) : result value :=
  (body <- bodyOf responseData ;;
   requestData <- requestDataOf body ;;
   if truthy requestData then
     ledgers <- tallyMessageOf body (VArr []) ;;
     ret (VArr (asArray ledgers))
   else ret (VArr []))%js.

(** [_parseVoucherListResponse(responseData)] of this service. *)
Definition _parseVoucherListResponse (responseData : value) : result value :=
  (body <- bodyOf responseData ;;
   requestData <- requestDataOf body ;;
   if truthy requestData then
     vouchers <- tallyMessageOf body (VArr []) ;;
     ret (VArr (asArray vouchers))
   else ret (VArr []))%js.

(** [_parseStockListResponse(responseData)]. *)
Definition _parseStockListResponse (responseData : value) : result value :=
  (body <- bodyOf responseData ;;
   requestData <- requestDataOf body ;;
   if truthy requestData then
     stockItems <- tallyMessageOf body (VArr []) ;;
     ret (VArr (asArray stockItems))
   else ret (VArr []))%js.

Section Operations.

(** [process.env.TALLY_COMPANY]. *)
Variable env : value.

Definition outcome (fields : obj) : value := VObj (("success", VBool true) :: fields).

(** [getCompanyInfo(companyName)]. *)
Definition getCompanyInfo (companyName : value) : io value :=
  if negb (truthy companyName) then Done (throw (Error "Company name is required"))
  else
    io_catch
      (let filters := [("COMPANYNAME", companyName)] in
       let exportXml := XmlBuilder.buildExportRequest "Company Details" filters in
       response <~ sendRequest exportXml ;;
       data <~ Done (_parseCompanyResponse (get response "data")) ;;
       Done (ret (outcome [("data", data); ("companyName", companyName)])))%js
      (fun error => Done (throw (Error ("Failed to get company info: " ++ message error)))).

(** [loadCompany(companyName)]. *)
Definition loadCompany (companyName : value) : io value :=
  if negb (truthy companyName) then Done (throw (Error "Company name is required"))
  else
    io_catch
      (let loadXml :=
"<ENVELOPE>
                <HEADER>
                    <TALLYREQUEST>Load Company</TALLYREQUEST>
                </HEADER>
                <BODY>
                    <LOADCOMPANY>
                        <COMPANYNAME>" ++ (toString (XmlBuilder.escapeXml companyName)) ++ "</COMPANYNAME>
                    </LOADCOMPANY>
                </BODY>
            </ENVELOPE>" in
       response <~ sendRequest loadXml ;;
       Done (ret (outcome
                    [("message",
                      VStr ("Company '" ++ toString companyName ++ "' loaded successfully"));
                     ("data", get response "data");
                     ("companyName", companyName)])))%js
      (fun error => Done (throw (Error ("Failed to load company: " ++ message error)))).

(** [createCompany(companyData)]. *)
Definition createCompany (companyData : obj) : io value :=
  if negb (truthy (get (VObj companyData) "name")) then
    Done (throw (Error "Company name is required"))
  else
    io_catch
      (let companyXml := XmlBuilder.buildCompanyXml companyData in
       let importXml := XmlBuilder.buildImportRequest env companyXml [] in
       response <~ sendRequest importXml ;;
       Done (ret (outcome
                    [("message",
                      VStr ("Company '" ++ toString (get (VObj companyData) "name")
                              ++ "' created successfully"));
                     ("data", get response "data");
                     ("companyName", get (VObj companyData) "name")])))%js
      (fun error => Done (throw (Error ("Failed to create company: " ++ message error)))).

(** [getCurrentCompany()]. *)
Definition getCurrentCompany : io value :=
  io_catch
    (let exportXml := XmlBuilder.buildExportRequest "Current Company Info" [] in
     response <~ sendRequest exportXml ;;
     data <~ Done (_parseCompanyResponse (get response "data")) ;;
     Done (ret (outcome [("data", data)])))%js
    (fun error => Done (throw (Error ("Failed to get current company info: " ++ message error)))).

(** [getFinancialYear(companyName)]. *)
Definition getFinancialYear (companyName : value) : io value :=
  io_catch
    (let filters :=
       if truthy companyName then [("COMPANYNAME", companyName)] else [] in
     let exportXml := XmlBuilder.buildExportRequest "Financial Year Info" filters in
     response <~ sendRequest exportXml ;;
     data <~ Done (_parseFinancialYearResponse (get response "data")) ;;
     Done (ret (outcome [("data", data); ("companyName", companyName)])))%js
    (fun error => Done (throw (Error ("Failed to get financial year info: " ++ message error)))).

(** The callback that [getCompanyList] maps over the companies when the
    details are asked for: a company whose details cannot be had is
    returned as it is. *)
Definition withDetails (company : value) : io value :=
  io_catch
    (name <~ Done (getM company "name") ;;
     details <~ getCompanyInfo name ;;
     Done (ret (VObj (spread (properties company) (properties (get details "data"))))))%js
    (fun _ => Done (ret company)).

(** [Promise.all(calls)] for calls none of which rejects.  The calls are
    awaited one after the other here; the code starts them all, in this
    order, before it awaits any, which changes neither the order of the
    requests nor the reply that each of them gets. *)
Fixpoint all (calls : list (io value)) : io (list value) :=
  match calls with
  | [] => Done (ret [])
  | call :: rest =>
      (first <~ call ;;
       others <~ all rest ;;
       Done (ret (first :: others)))%js
  end.

(** [getCompanyList(options = {})]. *)
Definition getCompanyList (options : obj) : io value :=
  io_catch
    (let filters :=
       if truthy (get (VObj options) "activeOnly") then [("ACTIVEONLY", VStr "Yes")] else [] in
     let exportXml := XmlBuilder.buildCollectionRequest "Companies" filters in
     response <~ sendRequest exportXml ;;
     parsed <~ Done (_parseCompanyListResponse (get response "data")) ;;
     let companies := elements parsed in
     companies <~
       (if truthy (get (VObj options) "includeDetails")
        then all (map withDetails companies)
        else Done (ret companies)) ;;
     Done (ret (outcome [("data", VArr companies); ("count", VNum (lengthOf companies))])))%js
    (fun error => Done (throw (Error ("Failed to get company list: " ++ message error)))).

(** One count of [_getAdditionalStatistics]: the number of messages in the
    list of a collection. *)
Definition countOf (collection : string) (parse : value -> result value)
    (companyName : value) : io value :=
  (let filters := if truthy companyName then [("COMPANYNAME", companyName)] else [] in
   let exportXml := XmlBuilder.buildCollectionRequest collection filters in
   response <~ sendRequest exportXml ;;
   listed <~ Done (parse (get response "data")) ;;
   Done (ret (VNum (lengthOf (elements listed)))))%js.

(** [_getAdditionalStatistics(companyName, options)]: the counts are set
    on [stats] one after the other, and a failure leaves [stats] with the
    counts set before it.  The warning that is written to the console is
    left out. *)
Definition _getAdditionalStatistics (companyName : value) (options : obj) : io value :=
  let stats : obj := [] in
  io_catch
    (stats <~
       (if truthy (get (VObj options) "includeLedgerCount") then
          (count <~ countOf "Ledger" _parseLedgerListResponse companyName ;;
           Done (ret (set "ledgerCount" count stats)))
        else Done (ret stats)) ;;
     io_catch
       (stats <~
          (if truthy (get (VObj options) "includeVoucherCount") then
             (count <~ countOf "Voucher" _parseVoucherListResponse companyName ;;
              Done (ret (set "voucherCount" count stats)))
           else Done (ret stats)) ;;
        io_catch
          (stats <~
             (if truthy (get (VObj options) "includeStockCount") then
                (count <~ countOf "Stock Item" _parseStockListResponse companyName ;;
                 Done (ret (set "stockItemCount" count stats)))
              else Done (ret stats)) ;;
           Done (ret (VObj stats)))
          (fun _ => Done (ret (VObj stats))))
       (fun _ => Done (ret (VObj stats))))%js
    (fun _ => Done (ret (VObj stats))).

(** [getCompanyStatistics(companyName, options = {})]. *)
Definition getCompanyStatistics (companyName : value) (options : obj) : io value :=
  io_catch
    (let filters := if truthy companyName then [("COMPANYNAME", companyName)] else [] in
     let exportXml := XmlBuilder.buildExportRequest "Company Statistics" filters in
     response <~ sendRequest exportXml ;;
     statistics <~ Done (_parseCompanyStatisticsResponse (get response "data")) ;;
     statistics <~
       (if truthy (get (VObj options) "includeLedgerCount")
           || truthy (get (VObj options) "includeVoucherCount")
           || truthy (get (VObj options) "includeStockCount")
        then
          (additionalStats <~ _getAdditionalStatistics companyName options ;;
           Done (ret (VObj (spread (properties statistics) (properties additionalStats)))))
        else Done (ret statistics)) ;;
     Done (ret (outcome [("data", statistics); ("companyName", companyName)])))%js
    (fun error => Done (throw (Error ("Failed to get company statistics: " ++ message error)))).

(** [backupCompany(companyName, options = {})]. *)
Definition backupCompany (companyName : value) (options : obj) : io value :=
  if negb (truthy companyName) then Done (throw (Error "Company name is required"))
  else
    io_catch
      (let backupPathXml :=
         if truthy (get (VObj options) "backupPath")
         then "<BACKUPPATH>"
                ++ toString (XmlBuilder.escapeXml (get (VObj options) "backupPath"))
                ++ "</BACKUPPATH>"
         else EmptyString in
       let backupXml :=
"<ENVELOPE>
                <HEADER>
                    <TALLYREQUEST>Backup Company</TALLYREQUEST>
                </HEADER>
                <BODY>
                    <BACKUPCOMPANY>
                        <COMPANYNAME>" ++ (toString (XmlBuilder.escapeXml companyName)) ++ "</COMPANYNAME>
                        " ++ backupPathXml ++ "
                        <INCLUDEIMAGES>" ++ (if truthy (get (VObj options) "includeImages") then "Yes" else "No") ++ "</INCLUDEIMAGES>
                    </BACKUPCOMPANY>
                </BODY>
            </ENVELOPE>" in
       response <~ sendRequest backupXml ;;
       Done (ret (outcome
                    [("message",
                      VStr ("Company '" ++ toString companyName ++ "' backup initiated"));
                     ("data", get response "data");
                     ("companyName", companyName)])))%js
      (fun error => Done (throw (Error ("Failed to backup company: " ++ message error)))).

End Operations.

End CompanyService.

(* ===================================================================== *)
(** * [TallyPrimeSDK]: the quick methods *)
(* ===================================================================== *)

Module TallyPrimeSDK.

Import Js Str TallyConnector.

Section Operations.

Variable rt : runtime.

(** [process.env.TALLY_COMPANY]. *)
Variable env : value.

(** [createLedger(name, parent, options = {})]. *)
Definition createLedger (name parent : value) (options : obj) : io value :=
  let ledgerData := spread [("name", name); ("parent", parent)] options in
  LedgerService.createLedger env ledgerData.

(** [createVoucher(voucherType, date, entries, options = {})]. *)
Definition createVoucher (voucherType date entries : value) (options : obj) : io value :=
  let voucherData :=
    spread [("voucherType", voucherType); ("date", date); ("ledgerEntries", entries)] options in
  VoucherService.createVoucher rt env voucherData.

(** [createStockItem(name, parent, baseUnits, options = {})]. *)
Definition createStockItem (name parent baseUnits : value) (options : obj) : io value :=
  let stockData :=
    spread [("name", name); ("parent", parent); ("baseUnits", baseUnits)] options in
  StockItemService.createStockItem env stockData.

End Operations.

End TallyPrimeSDK.

(* ===================================================================== *)
(** * Decimal numerals *)
(* ===================================================================== *)

(** What a run of digits denotes, to state what [parseFloat] reads and
    what [toString] prints. *)

Module Numeral.

Local Open Scope Z_scope.

(** A decimal digit. *)
Definition is_digit (c : ascii) : bool :=
  match Num.digit_val c with
  | Some _ => true
  | None => false
  end.

Fixpoint all_digits (s : string) : bool :=
  match s with
  | EmptyString => true
  | String c r => is_digit c && all_digits r
  end.

(** The number that the digits of [s] denote, read after [acc]. *)
Fixpoint numeral (s : string) (acc : Z) : Z :=
  match s with
  | EmptyString => acc
  | String c r =>
      match Num.digit_val c with
      | Some d => numeral r (10 * acc + d)
      | None => acc
      end
  end.

(** A text at which the reading of digits stops. *)
Definition stops (s : string) : bool :=
  match s with
  | EmptyString => true
  | String c _ => negb (is_digit c)
  end.

(** A text that does not open a fraction. *)
Definition no_point (s : string) : bool :=
  match s with
  | EmptyString => true
  | String c _ => negb (Ascii.eqb c "."%char)
  end.

(** The mantissa of 1 and of -1, which are [two52 * 2^(-52)]. *)
Definition two52 : positive := 4503599627370496.

End Numeral.

(* ===================================================================== *)
(** * The vocabulary of the specification *)
(* ===================================================================== *)

Module Spec.

Import Js Str Interp.

(** ** Escaping *)

(** What one character becomes under XML escaping. *)
Definition entity (c : ascii) : string :=
  if Ascii.eqb c "&"%char then "&amp;"
  else if Ascii.eqb c "<"%char then "&lt;"
  else if Ascii.eqb c ">"%char then "&gt;"
  else if Ascii.eqb c dq_char then "&quot;"
  else if Ascii.eqb c "'"%char then "&apos;"
  else String c EmptyString.

Fixpoint escaped (s : string) : string :=
  match s with
  | EmptyString => EmptyString
  | String c r => entity c ++ escaped r
  end.

(** The standard decoding of the five predefined entities, as an XML
    parser performs it on character data: one pass from the left, each
    entity reference read as its character.  [skip] counts the characters
    of a reference that are still to be passed over. *)
Fixpoint unescape_from (skip : nat) (s : string) : string :=
  match s with
  | EmptyString => EmptyString
  | String c r =>
      match skip with
      | S k => unescape_from k r
      | O =>
          if startsWith "&amp;" s then String "&"%char (unescape_from 4 r)
          else if startsWith "&lt;" s then String "<"%char (unescape_from 3 r)
          else if startsWith "&gt;" s then String ">"%char (unescape_from 3 r)
          else if startsWith "&quot;" s then String dq_char (unescape_from 5 r)
          else if startsWith "&apos;" s then String "'"%char (unescape_from 5 r)
          else String c (unescape_from 0 r)
      end
  end.

Definition unescapeXml (s : string) : string := unescape_from 0 s.

(** ** An engine for the examples

    Its [Date] constructor reads no date from a value that is not a
    [Date], [ToNumber] of a value that is not a number is NaN, [+] on other
    operands gives [undefined], and today is 1 January 2024.  The examples
    below give dates as [Date] values and amounts as numbers, so none of
    the four is consulted there. *)
Definition plainEngine : runtime :=
  {| dateOf := fun _ => InvalidDate;
     numberOf := fun _ => Num.NaN;
     plusOf := fun _ _ => VUndef;
     now := Date 2024 0 1 "Mon Jan 01 2024" |}.

(** The no-break space U+00A0, which is white space to [parseFloat], in
    its two bytes. *)
Definition noBreakSpace : string :=
  String (ascii_of_nat 194) (String (ascii_of_nat 160) EmptyString).

(** ** Vouchers *)

(** The amount of an entry as a number, and the signed amounts of the
    entries, added up from the left.  (An amount that is no number makes
    a voucher invalid whatever the sum is; it counts as NaN here.) *)
Definition amountOf (entry : value) : Num.number :=
  match get entry "amount" with
  | VNum a => a
  | _ => Num.NaN
  end.

Definition amountsSum (entries : list value) : Num.number :=
  fold_left (fun sum entry => Num.add sum (amountOf entry)) entries (S754_zero false).

(** An entry without a ledger name. *)
Definition lacksLedgerName (entry : value) : Prop :=
  truthy (get entry "ledgerName") = false.

(** An entry whose amount is not of type number, or is zero (of either
    sign). *)
Definition badAmount (entry : value) : Prop :=
  match get entry "amount" with
  | VNum (S754_zero _) => True
  | VNum _ => False
  | _ => True
  end.

(** The vouchers the specification wants refused: a required field is
    missing (the type or the date is falsy, the entries are not an array),
    or there are fewer than two entries, or some entry lacks a ledger name
    or has a bad amount, or the amounts add up to more than the tolerance
    of 0.01 in absolute value. *)
Definition invalidVoucher (voucherData : obj) : Prop :=
  truthy (get (VObj voucherData) "voucherType") = false
  \/ truthy (get (VObj voucherData) "date") = false
  \/ isArray (get (VObj voucherData) "ledgerEntries") = false
  \/ exists entries : list value,
       get (VObj voucherData) "ledgerEntries" = VArr entries
       /\ (List.length entries < 2
           \/ (exists entry, In entry entries /\ (lacksLedgerName entry \/ badAmount entry))
           \/ Num.gt (Num.abs (amountsSum entries)) (Num.lit "0.01") = true).

(** ** Responses *)

(** The body of a response: the [BODY] of its [ENVELOPE], each of the two
    levels being optional. *)
Definition responseBody (tree : xml) : value :=
  let result := of_xml tree in
  let envelope := or (get result "ENVELOPE") result in
  or (get envelope "BODY") envelope.

(** The body carries the tag [tag] (possibly with no text in it). *)
Definition carriesTag (tree : xml) (tag : string) : Prop :=
  get (responseBody tree) tag <> VUndef.

(** The body carries the error text [text]: in its [ERROR] tag, or in its
    [LINEERROR] tag when there is no [ERROR] tag or an empty one. *)
Definition carriesError (tree : xml) (text : string) : Prop :=
  text <> EmptyString
  /\ (get (responseBody tree) "ERROR" = VStr text
      \/ (truthy (get (responseBody tree) "ERROR") = false
          /\ get (responseBody tree) "LINEERROR" = VStr text)).

(** The request data of an export response, when its two wrappers are
    there: [body.EXPORTDATA && body.EXPORTDATA.REQUESTDATA]. *)
Definition requestData (tree : xml) : value :=
  and (get (responseBody tree) "EXPORTDATA")
      (get (get (responseBody tree) "EXPORTDATA") "REQUESTDATA").

(** The node the fields are read from: the [TALLYMESSAGE] of the request
    data, or an empty object. *)
Definition payload (tree : xml) : value :=
  or (get (get (get (responseBody tree) "EXPORTDATA") "REQUESTDATA") "TALLYMESSAGE")
     (VObj []).

(** A field of a domain object, reached through nested properties. *)
Definition getPath (v : value) (path : list string) : value :=
  fold_left get path v.

(** The fields of a ledger, of a stock item and of a voucher entry: where
    the field is in the domain object, the tag it is read from, and the
    typed default of the specification (the empty string, 0, or false). *)
Definition ledgerFields : list (list string * string * value) :=
  [(["name"], "NAME", VStr EmptyString);
   (["parent"], "PARENT", VStr EmptyString);
   (["alias"], "ALIAS", VStr EmptyString);
   (["openingBalance"; "amount"], "OPENINGBALANCE", VNum (S754_zero false));
   (["openingBalance"; "isBillWise"], "ISBILLWISEON", VBool false);
   (["openingBalance"; "isCostCentre"], "ISCOSTCENTRESON", VBool false)].

Definition stockItemFields : list (list string * string * value) :=
  [(["name"], "NAME", VStr EmptyString);
   (["parent"], "PARENT", VStr EmptyString);
   (["alias"], "ALIAS", VStr EmptyString);
   (["baseUnits"], "BASEUNITS", VStr EmptyString);
   (["openingBalance"; "quantity"], "OPENINGBALANCE", VNum (S754_zero false));
   (["openingBalance"; "rate"], "OPENINGRATE", VNum (S754_zero false));
   (["openingBalance"; "value"], "OPENINGVALUE", VNum (S754_zero false));
   (["closingBalance"; "quantity"], "CLOSINGBALANCE", VNum (S754_zero false));
   (["closingBalance"; "rate"], "CLOSINGRATE", VNum (S754_zero false));
   (["closingBalance"; "value"], "CLOSINGVALUE", VNum (S754_zero false))].

(** For the bill name and the bill type of an entry, the tag is the bill
    allocation block the two are read from. *)
Definition entryFields : list (list string * string * value) :=
  [(["ledgerName"], "LEDGERNAME", VStr EmptyString);
   (["amount"], "AMOUNT", VNum (S754_zero false));
   (["billName"], "BILLALLOCATIONS.LIST", VStr EmptyString);
   (["billType"], "BILLALLOCATIONS.LIST", VStr EmptyString)].

(** Every field of [fields] whose tag is missing from [node] has its
    default in [parsed]. *)
Definition defaultsWhereMissing
    (fields : list (list string * string * value)) (node parsed : value) : Prop :=
  Forall (fun field : list string * string * value =>
            let '(path, tag, default) := field in
            get node tag = VUndef -> getPath parsed path = default)
    fields.

(** The node of a stock summary that holds the items:
    [STOCKITEMS], else the nested [TALLYMESSAGE], else no item. *)
Definition itemsNode (tree : xml) : value :=
  or (or (get (payload tree) "STOCKITEMS") (get (payload tree) "TALLYMESSAGE"))
     (VArr []).

(** An export response with the given message node. *)
Definition exportResponse (message : xml) : xml :=
  XNode [("ENVELOPE",
          XNode [("BODY",
                  XNode [("EXPORTDATA",
                          XNode [("REQUESTDATA",
                                  XNode [("TALLYMESSAGE", message)])])])])].

(** A response whose body is an [ERROR] tag with the given text. *)
Definition errorResponse (text : string) : xml :=
  XNode [("ENVELOPE", XNode [("BODY", XNode [("ERROR", XText text)])])].

(** ** Updates *)

(** The response to the export request for the stock item Widget A. *)
Definition widgetResponse : xml :=
  XNode [("ENVELOPE",
          XNode [("BODY",
                  XNode [("EXPORTDATA",
                          XNode [("REQUESTDATA",
                                  XNode [("TALLYMESSAGE",
                                          XNode [("NAME", XText "Widget A");
                                                 ("PARENT", XText "Raw Materials");
                                                 ("ALIAS", XText "WGT-A");
                                                 ("BASEUNITS", XText "Nos")])])])])])].

(** The response to the export request for the ledger ABC Corporation. *)
Definition ledgerResponse : xml :=
  XNode [("ENVELOPE",
          XNode [("BODY",
                  XNode [("EXPORTDATA",
                          XNode [("REQUESTDATA",
                                  XNode [("TALLYMESSAGE",
                                          XNode [("NAME", XText "ABC Corporation");
                                                 ("PARENT", XText "Sundry Debtors");
                                                 ("ALIAS", XText "ABC Corp")])])])])])].

(** A response to an import request. *)
Definition importedResponse : xml :=
  XNode [("ENVELOPE", XNode [("BODY", XNode [("IMPORTRESULT", XNode [("ALTERED", XText "1")])])])].

(** The second request of a call, given the replies to the first and to
    the second. *)
Definition secondRequest {A : Type} (call : TallyConnector.io A)
    (first second : TallyConnector.reply) : string :=
  nth 1 (fst (TallyConnector.run call [first; second])) EmptyString.

(** How the outputs of [buildLedgerXml] and [buildVoucherXml] begin, up
    to the value of the first attribute that is computed. *)
Definition ledgerOpening : string :=
"<TALLYMESSAGE xmlns:UDF=" ++ Str.dq ++ "TallyUDF" ++ Str.dq ++ ">
            <LEDGER NAME=" ++ Str.dq.

Definition voucherOpening : string :=
"<TALLYMESSAGE xmlns:UDF=" ++ Str.dq ++ "TallyUDF" ++ Str.dq ++ ">
            <VOUCHER REMOTEID=" ++ Str.dq ++ Str.dq ++ " VCHKEY=" ++ Str.dq ++ Str.dq ++ " VCHTYPE=" ++ Str.dq.

(** A character that does not occur in a text. *)
Fixpoint free (c : ascii) (s : string) : bool :=
  match s with
  | EmptyString => true
  | String x r => negb (Ascii.eqb c x) && free c r
  end.

(** ** Calendar dates *)

Definition leap (y : Z) : bool :=
  ((y mod 4 =? 0) && negb (y mod 100 =? 0) || (y mod 400 =? 0))%Z.

(** The days of month [m] (0 for January) of year [y]. *)
Definition daysIn (y : Z) (m : nat) : nat :=
  match m with
  | 1 => if leap y then 29 else 28
  | 3 | 5 | 8 | 10 => 30
  | _ => 31
  end.

(** Day [d] of month [m] (0 to 11) of year [y] exists. *)
Definition calendarDate (y : Z) (m d : nat) : Prop :=
  m < 12 /\ 1 <= d <= daysIn y m.

(** The day on two digits, a zero in front of the days below ten. *)
Definition twoDigits (d : nat) : string :=
  String (Num.digit_char (Z.of_nat (d / 10)))
    (String (Num.digit_char (Z.of_nat (d mod 10))) EmptyString).

(** The three-letter English abbreviation of month [m]. *)
Definition abbreviation (m : nat) : string :=
  match m with
  | 0 => "Jan" | 1 => "Feb" | 2 => "Mar" | 3 => "Apr"
  | 4 => "May" | 5 => "Jun" | 6 => "Jul" | 7 => "Aug"
  | 8 => "Sep" | 9 => "Oct" | 10 => "Nov" | _ => "Dec"
  end.

(** The claimed shape of a formatted date: day on two digits, month
    abbreviation, and a year of four characters, joined by hyphens. *)
Definition dayMonthYear (s : string) (d m : nat) : Prop :=
  exists yyyy : string,
    length yyyy = 4 /\ s = twoDigits d ++ "-" ++ abbreviation m ++ "-" ++ yyyy.

(** Reading the two back, to tell days and months apart by their text. *)
Definition dayOfDigits (s : string) : nat :=
  match s with
  | String a (String b _) => (nat_of_ascii a - 48) * 10 + (nat_of_ascii b - 48)
  | _ => 0
  end.

Definition monthOfAbbreviation (s : string) : nat :=
  match find (fun m => String.eqb (abbreviation m) s) (seq 0 12) with
  | Some m => m
  | None => 12
  end.

(** ** What can be read without an exception *)

(** The values a property can be read from without an exception. *)
Definition defined (v : value) : bool :=
  match v with
  | VUndef | VNull => false
  | _ => true
  end.

(** Values that come out of a parsed tree. *)
Definition fromXml (v : value) : Prop := exists t, v = of_xml t.

(** ** What the interpreters make of a node *)

(** The ledger, the stock item, the voucher entry and the item of a stock
    summary that the object literals of the interpreters build from the
    node they read. *)
Definition ledgerOf (node : value) : value :=
  VObj [("name", or (get node "NAME") (VStr EmptyString));
        ("parent", or (get node "PARENT") (VStr EmptyString));
        ("alias", or (get node "ALIAS") (VStr EmptyString));
        ("openingBalance",
         VObj [("amount", or (get node "OPENINGBALANCE") (VNum (S754_zero false)));
               ("isBillWise", VBool (is_text (get node "ISBILLWISEON") "Yes"));
               ("isCostCentre", VBool (is_text (get node "ISCOSTCENTRESON") "Yes"))])].

Definition stockItemOf (node : value) : value :=
  VObj [("name", or (get node "NAME") (VStr EmptyString));
        ("parent", or (get node "PARENT") (VStr EmptyString));
        ("alias", or (get node "ALIAS") (VStr EmptyString));
        ("baseUnits", or (get node "BASEUNITS") (VStr EmptyString));
        ("openingBalance",
         VObj [("quantity", VNum (floatOrZero (get node "OPENINGBALANCE")));
               ("rate", VNum (floatOrZero (get node "OPENINGRATE")));
               ("value", VNum (floatOrZero (get node "OPENINGVALUE")))]);
        ("closingBalance",
         VObj [("quantity", VNum (floatOrZero (get node "CLOSINGBALANCE")));
               ("rate", VNum (floatOrZero (get node "CLOSINGRATE")));
               ("value", VNum (floatOrZero (get node "CLOSINGVALUE")))])].

Definition entryOf (node : value) : value :=
  let bill := get node "BILLALLOCATIONS.LIST" in
  VObj [("ledgerName", or (get node "LEDGERNAME") (VStr EmptyString));
        ("amount",
         or (VNum (Num.mul (parseFloat (get node "AMOUNT"))
                     (if is_text (get node "ISDEEMEDPOSITIVE") "No"
                      then VoucherService.minus_one else VoucherService.one)))
            (VNum VoucherService.zero));
        ("billName", if truthy bill then get bill "NAME" else VStr EmptyString);
        ("billType", if truthy bill then get bill "BILLTYPE" else VStr EmptyString)].

(** One item of a stock summary, read from a node. *)
Definition itemOf (node : value) : StockItemService.summaryItem :=
  {| StockItemService.name := or (get node "NAME") (VStr EmptyString);
     StockItemService.group := or (get node "PARENT") (VStr EmptyString);
     StockItemService.closingQuantity := floatOrZero (get node "CLOSINGBALANCE");
     StockItemService.closingValue := floatOrZero (get node "CLOSINGVALUE");
     StockItemService.rate := floatOrZero (get node "RATE");
     StockItemService.baseUnits := or (get node "BASEUNITS") (VStr EmptyString) |}.

(** The ledger and the stock item that [fetchLedger] and
    [fetchStockItem] hand on for a response. *)
Definition fetchedLedger (tree : xml) : value :=
  if truthy (requestData tree) then ledgerOf (payload tree) else VObj [].

Definition fetchedStockItem (tree : xml) : value :=
  if truthy (requestData tree) then stockItemOf (payload tree) else VObj [].

(** The total of a voucher summary that the vendor wrote in the tag [tag]
    of the message, or 0 when the tag is missing or empty; and the five
    voucher types of the table by type. *)
Definition vendorTotal (tree : xml) (tag : string) : value :=
  or (get (payload tree) tag) (VNum (S754_zero false)).

Definition voucherKinds : list string :=
  ["Sales"; "Purchase"; "Receipt"; "Payment"; "Journal"].

(** The normalized items of a stock summary response: those of its items
    node when it holds request data, and none otherwise. *)
Definition summaryItems (tree : xml) : list StockItemService.summaryItem :=
  if truthy (requestData tree) then map itemOf (asArray (itemsNode tree)) else [].

(** ** Entries and vouchers *)

(** An entry that passes the loop of [_validateVoucherData]. *)
Definition goodEntry (entry : value) : Prop :=
  truthy (get entry "ledgerName") = true
  /\ is_number (get entry "amount") = true
  /\ VoucherService.strict_eq_number (get entry "amount") VoucherService.zero = false.

(** The scenario of the specification: four entries that balance are
    accepted, and with the last one at -901 the voucher is refused for
    imbalance. *)
Definition entryWith (ledgerName amount : string) : value :=
  VObj [("ledgerName", VStr ledgerName); ("amount", VNum (Num.lit amount))].

Definition balancedVoucher : obj :=
  [("voucherType", VStr "Sales");
   ("date", VDate (Date 2023 8 15 "Fri Sep 15 2023"));
   ("ledgerEntries",
    VArr [entryWith "A" "11800"; entryWith "B" "-10000"; entryWith "C" "-900"; entryWith "D" "-900"])].

Definition unbalancedVoucher : obj :=
  [("voucherType", VStr "Sales");
   ("date", VDate (Date 2023 8 15 "Fri Sep 15 2023"));
   ("ledgerEntries",
    VArr [entryWith "A" "11800"; entryWith "B" "-10000"; entryWith "C" "-900"; entryWith "D" "-901"])].

(** ** Responses and updates of the examples *)

(** A stock summary of two items, with a vendor total that matches
    neither the items nor anything the interpreter returns. *)
Definition twoItems : xml :=
  exportResponse
    (XNode [("STOCKITEMS",
             XList [XNode [("NAME", XText "Widget A");
                           ("CLOSINGBALANCE", XText "5");
                           ("CLOSINGVALUE", XText "10.5")];
                    XNode [("NAME", XText "Widget B");
                           ("CLOSINGBALANCE", XText "-2");
                           ("CLOSINGVALUE", XText "4")]]);
            ("TOTALVALUE", XText "999")]).

(** The stock item of [widgetResponse] under the update of its alias. *)
Definition widgetUpdated : obj :=
  [("name", VStr "Widget A");
   ("parent", VStr "Raw Materials");
   ("baseUnits", VStr "Nos");
   ("alias", VStr "Widget-A-v2");
   ("openingBalance",
    VObj [("quantity", VNum (S754_zero false));
          ("rate", VNum (S754_zero false));
          ("value", VNum (S754_zero false))])].

(** ** Where a directive can occur in a template *)

(** No occurrence of [pat] begins inside [lit], whatever follows [lit]. *)
Fixpoint clear (pat lit : string) : bool :=
  match lit with
  | EmptyString => true
  | String _ r => negb (startsWith (take (length lit) pat) lit) && clear pat r
  end.

(** No occurrence of [pat] that begins in a text without double quotes
    goes on into [lit], which follows that text. *)
Definition shut (pat lit : string) : bool :=
  forallb (fun k => negb (free dq_char (take k pat))
                    || free dq_char (drop k pat)
                    || negb (startsWith (take (length lit) (drop k pat)) lit))
    (seq 1 (length pat)).

(** A template: its first piece, and then texts and pieces in turn. *)
Fixpoint weave (piece : string) (rest : list (string * string)) : string :=
  match rest with
  | [] => piece
  | (text, next) :: r => piece ++ text ++ weave next r
  end.

(** [pat] does not occur in a template with these pieces, whatever the
    texts without double quotes that are put between them. *)
Fixpoint scan (pat piece : string) (pieces : list string) : bool :=
  match pieces with
  | [] => negb (includes pat piece)
  | next :: r => clear pat piece && shut pat next && scan pat next r
  end.

(** The pieces of a text between the occurrences of a mark. *)
Fixpoint pieces (mark : ascii) (s : string) : string * list string :=
  match s with
  | EmptyString => (EmptyString, [])
  | String c r =>
      let (piece, rest) := pieces mark r in
      if Ascii.eqb c mark then (EmptyString, piece :: rest)
      else (String c piece, rest)
  end.

(** A character that no template contains, to mark the places of the
    interpolated texts. *)
Definition mark : ascii := Ascii true false false false false false false false.
Definition marked : string := String mark EmptyString.

(** Texts without a double quote. *)
Definition quoteFree (texts : list string) : Prop :=
  Forall (fun text => free dq_char text = true) texts.

(** The texts that [buildStockItemXml] puts into its templates. *)
Definition stockItemTexts (stockData : obj) : list string :=
  let openingBalance := get (VObj stockData) "openingBalance" in
  [toString (XmlBuilder.escapeXml (get (VObj stockData) "name"));
   toString (XmlBuilder.escapeXml (get (VObj stockData) "parent"));
   toString (XmlBuilder.escapeXml (or (get (VObj stockData) "alias") (VStr EmptyString)));
   toString (XmlBuilder.escapeXml (get (VObj stockData) "baseUnits"));
   toString (or (get openingBalance "quantity") (VNum XmlBuilder.zero));
   toString (or (get openingBalance "rate") (VNum XmlBuilder.zero));
   toString (or (get openingBalance "value") (VNum XmlBuilder.zero))].

(* --------------------------------------------------------------------- *)
(** ** The operations of the services *)

Import TallyConnector.

(** The connectors that can arise: a new one, and one on which
    [updateConfig] has been called. *)
Inductive reachable : connector -> Prop :=
| reached_new (config : obj) : reachable (constructor config)
| reached_update (this : connector) (config : obj) :
    reachable this -> reachable (updateConfig this config).

(** A reply that [sendRequest] resolves on: a body that parses, with no
    text in an [ERROR] or [LINEERROR] tag. *)
Definition clean (r : reply) : bool :=
  match r with
  | Replied _ (inr tree) =>
      negb (truthy (or (get (responseBody tree) "ERROR")
                       (get (responseBody tree) "LINEERROR")))
  | _ => false
  end.

(** The object that [sendRequest] resolves with on a clean reply. *)
Definition responseOf (r : reply) : value :=
  match r with
  | Replied raw (inr tree) =>
      VObj [("success", VBool true); ("data", of_xml tree); ("rawXml", VStr raw)]
  | _ => VUndef
  end.

(** The message nodes of an export response: those of the [TALLYMESSAGE]
    of its request data, a single node counting as one, and none when the
    response holds no request data or no message. *)
Definition messages (tree : xml) : list value :=
  if truthy (requestData tree)
  then asArray (or (get (get (get (responseBody tree) "EXPORTDATA") "REQUESTDATA")
                      "TALLYMESSAGE")
                   (VArr []))
  else [].

(** A reply that lists nothing: it is clean and has no message node. *)
Definition listsNothing (r : reply) : bool :=
  match r with
  | Replied _ (inr tree) => clean r && (List.length (messages tree) =? 0)%nat
  | _ => false
  end.

(** A number that is neither NaN nor negative (nor the negative zero). *)
Definition nonNegative (x : Num.number) : bool :=
  match x with
  | S754_zero false | S754_infinity false | S754_finite false _ _ => true
  | _ => false
  end.

(** The number read from a tag of the message of an export response:
    [parseFloat(...) || 0], and 0 when the response holds no request
    data. *)
Definition amountAt (tree : xml) (tag : string) : Num.number :=
  if truthy (requestData tree) then floatOrZero (get (payload tree) tag)
  else S754_zero false.

(** The company and the financial year that the interpreters read from a
    message node. *)
Definition companyOf (node : value) : value :=
  VObj [("name", or (get node "NAME") (VStr EmptyString));
        ("mailingName", or (get node "MAILINGNAME") (VStr EmptyString));
        ("address", or (get node "ADDRESS") (VStr EmptyString));
        ("state", or (get node "STATE") (VStr EmptyString));
        ("country", or (get node "COUNTRY") (VStr EmptyString));
        ("pincode", or (get node "PINCODE") (VStr EmptyString));
        ("currencySymbol", or (get node "CURRENCYSYMBOL") (VStr EmptyString));
        ("financialYearFrom", or (get node "BOOKSBEGINFROM") (VStr EmptyString));
        ("isActive", VBool (negb (is_text (get node "ISACTIVE") "No")))].

Definition financialYearOf (node : value) : value :=
  VObj [("startDate", or (get node "STARTDATE") (VStr EmptyString));
        ("endDate", or (get node "ENDDATE") (VStr EmptyString));
        ("booksBeginFrom", or (get node "BOOKSBEGINFROM") (VStr EmptyString));
        ("accountingBasis", or (get node "ACCOUNTINGBASIS") (VStr EmptyString));
        ("isLocked", VBool (is_text (get node "ISLOCKED") "Yes"))].

(** The fields of a company and of a financial year, with the value each
    takes when its tag is missing: a company counts as active, a year as
    not locked. *)
Definition companyFields : list (list string * string * value) :=
  [(["name"], "NAME", VStr EmptyString);
   (["mailingName"], "MAILINGNAME", VStr EmptyString);
   (["address"], "ADDRESS", VStr EmptyString);
   (["state"], "STATE", VStr EmptyString);
   (["country"], "COUNTRY", VStr EmptyString);
   (["pincode"], "PINCODE", VStr EmptyString);
   (["currencySymbol"], "CURRENCYSYMBOL", VStr EmptyString);
   (["financialYearFrom"], "BOOKSBEGINFROM", VStr EmptyString);
   (["isActive"], "ISACTIVE", VBool true)].

Definition financialYearFields : list (list string * string * value) :=
  [(["startDate"], "STARTDATE", VStr EmptyString);
   (["endDate"], "ENDDATE", VStr EmptyString);
   (["booksBeginFrom"], "BOOKSBEGINFROM", VStr EmptyString);
   (["accountingBasis"], "ACCOUNTINGBASIS", VStr EmptyString);
   (["isLocked"], "ISLOCKED", VBool false)].

(** Every ampersand of a text begins one of the five entity references. *)
Fixpoint references (s : string) : bool :=
  match s with
  | EmptyString => true
  | String c r =>
      (negb (Ascii.eqb c "&"%char)
       || startsWith "amp;" r || startsWith "lt;" r || startsWith "gt;" r
       || startsWith "quot;" r || startsWith "apos;" r)
      && references r
  end.

(** A text without markup: none of the characters [<], [>], the double
    quote and the apostrophe, and no ampersand other than at the start of
    an entity reference. *)
Definition markupFree (s : string) : bool :=
  free "<"%char s && free ">"%char s && free dq_char s && free "'"%char s && references s.

(** A ledger of a list: it has a name, and its activity is a boolean. *)
Definition named (ledger : value) : Prop :=
  truthy (get ledger "name") = true
  /\ exists active : bool, get ledger "isActive" = VBool active.

(** The stock item and the stock movement that the list interpreters
    read from a message node. *)
Definition listedStockItemOf (node : value) : value :=
  VObj [("name", or (get node "NAME") (VStr EmptyString));
        ("parent", or (get node "PARENT") (VStr EmptyString));
        ("alias", or (get node "ALIAS") (VStr EmptyString));
        ("baseUnits", or (get node "BASEUNITS") (VStr EmptyString));
        ("isActive", VBool (negb (is_text (get node "ISACTIVE") "No")));
        ("closingBalance",
         VObj [("quantity", VNum (floatOrZero (get node "CLOSINGBALANCE")));
               ("value", VNum (floatOrZero (get node "CLOSINGVALUE")))])].

Definition movementOf (node : value) : value :=
  VObj [("date", or (get node "DATE") (VStr EmptyString));
        ("voucherType", or (get node "VOUCHERTYPENAME") (VStr EmptyString));
        ("voucherNumber", or (get node "VOUCHERNUMBER") (VStr EmptyString));
        ("inwardQuantity", VNum (floatOrZero (get node "INWARDQUANTITY")));
        ("outwardQuantity", VNum (floatOrZero (get node "OUTWARDQUANTITY")));
        ("rate", VNum (floatOrZero (get node "RATE")));
        ("amount", VNum (floatOrZero (get node "AMOUNT")));
        ("godown", or (get node "GODOWNNAME") (VStr EmptyString))].

(** The fields of a stock movement, with the value each takes when its
    tag is missing. *)
Definition movementFields : list (list string * string * value) :=
  [(["date"], "DATE", VStr EmptyString);
   (["voucherType"], "VOUCHERTYPENAME", VStr EmptyString);
   (["voucherNumber"], "VOUCHERNUMBER", VStr EmptyString);
   (["inwardQuantity"], "INWARDQUANTITY", VNum (S754_zero false));
   (["outwardQuantity"], "OUTWARDQUANTITY", VNum (S754_zero false));
   (["rate"], "RATE", VNum (S754_zero false));
   (["amount"], "AMOUNT", VNum (S754_zero false));
   (["godown"], "GODOWNNAME", VStr EmptyString)].

(** ** Reading a message back *)

(** What follows the first occurrence of [pat] in a text, and what comes
    before the first occurrence of a character. *)
Fixpoint after (pat s : string) : string :=
  if startsWith pat s then drop (length pat) s
  else match s with
       | EmptyString => EmptyString
       | String _ r => after pat r
       end.

Fixpoint before (c : ascii) (s : string) : string :=
  match s with
  | EmptyString => EmptyString
  | String x r => if Ascii.eqb x c then EmptyString else String x (before c r)
  end.

(** The content of the first element with the tag [tag], and the value of
    the first attribute with the name [name], as a reader of XML takes
    them: the text up to the next tag, or up to the closing quote, with
    its entity references decoded. *)
Definition element (tag s : string) : string :=
  unescapeXml (before "<"%char (after ("<" ++ tag ++ ">") s)).

Definition attribute (name s : string) : string :=
  unescapeXml (before dq_char (after (" " ++ name ++ "=" ++ dq) s)).

(** [piece] ends with the first occurrence of [pat] that can begin in
    it, whatever follows. *)
Fixpoint opens (pat piece : string) : bool :=
  match piece with
  | EmptyString => false
  | String _ r =>
      String.eqb piece pat
      || (negb (startsWith (take (length piece) pat) piece) && opens pat r)
  end.

(** The place of the first occurrence of [pat] in a template: the number
    of texts that come before it. *)
Fixpoint locate (pat piece : string) (pieces : list string) : option nat :=
  if opens pat piece then Some 0
  else if clear pat piece then
    match pieces with
    | [] => None
    | next :: r => option_map S (locate pat next r)
    end
  else None.

(** What a template holds from its text number [i] on. *)
Definition from (i : nat) (rest : list (string * string)) : string :=
  match skipn i rest with
  | [] => EmptyString
  | (text, next) :: r => text ++ weave next r
  end.

(** The first request of a call. *)
Definition firstRequest {A : Type} (call : io A) : string :=
  hd EmptyString (fst (run call [])).

(** ** Responses of the examples *)

(** An export response whose message is a list of nodes. *)
Definition listResponse (nodes : list xml) : xml := exportResponse (XList nodes).

(** Two vouchers: a sale of 100 with its two entries, and a voucher
    without entries. *)
Definition twoVouchers : xml :=
  listResponse
    [XNode [("VOUCHERNUMBER", XText "1");
            ("VOUCHERTYPENAME", XText "Sales");
            ("LEDGERENTRIES.LIST",
             XList [XNode [("LEDGERNAME", XText "Cash"); ("AMOUNT", XText "-100")];
                    XNode [("LEDGERNAME", XText "Sales"); ("AMOUNT", XText "100")]])];
     XNode [("VOUCHERNUMBER", XText "2"); ("VOUCHERTYPENAME", XText "Journal")]].

(** Two ledgers, the second of which is not active. *)
Definition twoLedgers : xml :=
  listResponse
    [XNode [("NAME", XText "Cash")];
     XNode [("NAME", XText "Old Bank"); ("ISACTIVE", XText "No")]].

(** Two stock items, the second of which has nothing in stock. *)
Definition twoStockItems : xml :=
  listResponse
    [XNode [("NAME", XText "Widget A"); ("CLOSINGBALANCE", XText "5")];
     XNode [("NAME", XText "Widget B"); ("CLOSINGBALANCE", XText "0")]].

(** A voucher as it is fetched, without a date. *)
Definition datelessVoucher : xml :=
  exportResponse
    (XNode [("VOUCHERNUMBER", XText "1"); ("VOUCHERTYPENAME", XText "Sales")]).

(** A company that is not active. *)
Definition closedCompany : xml :=
  exportResponse (XNode [("NAME", XText "Acme"); ("ISACTIVE", XText "No")]).

(** The reply that holds a parsed response. *)
Definition replyOf (tree : xml) : reply := Replied EmptyString (inr tree).

(** ** Error responses *)

(** The error indicator of a response: the [ERROR] child of its body when
    that is truthy, and the [LINEERROR] child otherwise.  A tag with
    nothing in it is the empty string, which is falsy; a tag with
    attributes or with elements in it is an object, which is truthy. *)
Definition errorIndicator (tree : xml) : value :=
  or (get (responseBody tree) "ERROR") (get (responseBody tree) "LINEERROR").

(** The operations of the services that interpret the response to their
    first request, each with the label it puts before a failure of that
    request; [name] and [kind] are the arguments that say what is asked
    for.  An update fetches first, so it has two labels. *)
Definition interpreting (rt : runtime) (env : value) (lower : string -> string)
    (name kind updates : value) (options : obj) : list (string * io value) :=
  [("Failed to fetch ledger: ", LedgerService.fetchLedger name options);
   ("Failed to fetch ledger list: ", LedgerService.getLedgerList lower options);
   ("Failed to get ledger balance: ", LedgerService.getLedgerBalance rt name options);
   ("Failed to update ledger: Failed to fetch ledger: ",
    LedgerService.updateLedger env name updates);
   ("Failed to fetch voucher: ", VoucherService.fetchVoucher name kind options);
   ("Failed to fetch voucher list: ", VoucherService.getVoucherList rt options);
   ("Failed to get voucher summary: ", VoucherService.getVoucherSummary rt options);
   ("Failed to fetch vouchers for ledger: ",
    VoucherService.getVouchersByLedger rt name options);
   ("Failed to update voucher: Failed to fetch voucher: ",
    VoucherService.updateVoucher rt env name kind updates);
   ("Failed to fetch stock item: ", StockItemService.fetchStockItem name options);
   ("Failed to fetch stock item list: ",
    StockItemService.getStockItemList rt lower options);
   ("Failed to get stock balance: ", StockItemService.getStockBalance rt name options);
   ("Failed to get stock summary: ", StockItemService.getStockSummary rt options);
   ("Failed to get stock movements: ", StockItemService.getStockMovements rt name options);
   ("Failed to update stock item: Failed to fetch stock item: ",
    StockItemService.updateStockItem env name updates);
   ("Failed to get company list: ", CompanyService.getCompanyList options);
   ("Failed to get company info: ", CompanyService.getCompanyInfo name);
   ("Failed to get current company info: ", CompanyService.getCurrentCompany);
   ("Failed to get financial year info: ", CompanyService.getFinancialYear name);
   ("Failed to get company statistics: ",
    CompanyService.getCompanyStatistics name options)].

(** An error tag with an attribute, as the reader of the responses hands
    it on: an object that holds the attribute and the text. *)
Definition attributedError : xml :=
  XNode [("ENVELOPE",
          XNode [("BODY",
                  XNode [("ERROR",
                          XNode [("CODE", XText "42");
                                 ("_", XText "Parent group does not exist")])])])].

(** An error tag that is not a child of the body. *)
Definition nestedError : xml :=
  XNode [("ENVELOPE",
          XNode [("BODY",
                  XNode [("EXPORTDATA",
                          XNode [("ERROR", XText "Parent group does not exist")])])])].

(** ** The interpreters and the fields they read *)

(** The fields of the other domain objects, in the manner of
    [ledgerFields]: where the field is, the tag it is read from, and the
    value it takes when the tag is missing.  A flag that the code compares
    with ['Yes'] is false then; the [isActive] flags, which the code
    compares with ['No'], are true. *)
Definition balanceFields : list (list string * string * value) :=
  [(["openingBalance"], "OPENINGBALANCE", VNum (S754_zero false));
   (["closingBalance"], "CLOSINGBALANCE", VNum (S754_zero false));
   (["debitTotal"], "DEBITTOTAL", VNum (S754_zero false));
   (["creditTotal"], "CREDITTOTAL", VNum (S754_zero false))].

Definition stockBalanceFields : list (list string * string * value) :=
  [(["openingBalance"; "quantity"], "OPENINGBALANCE", VNum (S754_zero false));
   (["openingBalance"; "rate"], "OPENINGRATE", VNum (S754_zero false));
   (["openingBalance"; "value"], "OPENINGVALUE", VNum (S754_zero false));
   (["inwardQuantity"], "INWARDQUANTITY", VNum (S754_zero false));
   (["outwardQuantity"], "OUTWARDQUANTITY", VNum (S754_zero false));
   (["closingBalance"; "quantity"], "CLOSINGBALANCE", VNum (S754_zero false));
   (["closingBalance"; "rate"], "CLOSINGRATE", VNum (S754_zero false));
   (["closingBalance"; "value"], "CLOSINGVALUE", VNum (S754_zero false))].

(** A voucher without entries has an empty list of them. *)
Definition voucherFields : list (list string * string * value) :=
  [(["voucherNumber"], "VOUCHERNUMBER", VStr EmptyString);
   (["voucherType"], "VOUCHERTYPENAME", VStr EmptyString);
   (["date"], "DATE", VStr EmptyString);
   (["narration"], "NARRATION", VStr EmptyString);
   (["ledgerEntries"], "LEDGERENTRIES.LIST", VArr [])].

(** The amount of a listed voucher is computed from its entries. *)
Definition listedVoucherFields : list (list string * string * value) :=
  [(["voucherNumber"], "VOUCHERNUMBER", VStr EmptyString);
   (["voucherType"], "VOUCHERTYPENAME", VStr EmptyString);
   (["date"], "DATE", VStr EmptyString);
   (["narration"], "NARRATION", VStr EmptyString);
   (["amount"], "LEDGERENTRIES.LIST", VNum (S754_zero false))].

Definition summaryFields : list (list string * string * value) :=
  [(["totalCount"], "TOTALCOUNT", VNum (S754_zero false));
   (["totalAmount"], "TOTALAMOUNT", VNum (S754_zero false));
   (["averageAmount"], "AVERAGEAMOUNT", VNum (S754_zero false))].

Definition groupedSummaryFields : list (list string * string * value) :=
  [(["total"; "count"], "TOTALCOUNT", VNum (S754_zero false));
   (["total"; "amount"], "TOTALAMOUNT", VNum (S754_zero false))].

Definition listedStockItemFields : list (list string * string * value) :=
  [(["name"], "NAME", VStr EmptyString);
   (["parent"], "PARENT", VStr EmptyString);
   (["alias"], "ALIAS", VStr EmptyString);
   (["baseUnits"], "BASEUNITS", VStr EmptyString);
   (["isActive"], "ISACTIVE", VBool true);
   (["closingBalance"; "quantity"], "CLOSINGBALANCE", VNum (S754_zero false));
   (["closingBalance"; "value"], "CLOSINGVALUE", VNum (S754_zero false))].

Definition summaryItemFields : list (list string * string * value) :=
  [(["name"], "NAME", VStr EmptyString);
   (["group"], "PARENT", VStr EmptyString);
   (["closingQuantity"], "CLOSINGBALANCE", VNum (S754_zero false));
   (["closingValue"], "CLOSINGVALUE", VNum (S754_zero false));
   (["rate"], "RATE", VNum (S754_zero false));
   (["baseUnits"], "BASEUNITS", VStr EmptyString)].

Definition listedCompanyFields : list (list string * string * value) :=
  [(["name"], "NAME", VStr EmptyString);
   (["mailingName"], "MAILINGNAME", VStr EmptyString);
   (["isActive"], "ISACTIVE", VBool true);
   (["lastModified"], "LASTMODIFIED", VStr EmptyString)].

Definition statisticsFields : list (list string * string * value) :=
  [(["lastBackupDate"], "LASTBACKUPDATE", VStr EmptyString);
   (["databaseSize"], "DATABASESIZE", VNum (S754_zero false));
   (["createdDate"], "CREATEDDATE", VStr EmptyString);
   (["totalTransactions"], "TOTALTRANSACTIONS", VNum (S754_zero false))].

(** A field of a listed ledger is read from the first of several tags
    that is there and not empty; the name of a listed ledger has no
    default, a ledger without a name being left out of the list. *)
Definition listedLedgerFields : list (list string * list string * value) :=
  [(["parent"], ["PARENT"; "Parent"], VStr EmptyString);
   (["alias"], ["ALIAS"; "Alias"], VStr EmptyString);
   (["isActive"], ["ISACTIVE"], VBool true)].

Definition defaultsWhereAbsent
    (fields : list (list string * list string * value)) (node parsed : value) : Prop :=
  Forall (fun field : list string * list string * value =>
            let '(path, tags, default) := field in
            Forall (fun tag => get node tag = VUndef) tags -> getPath parsed path = default)
    fields.

(** The balances that are returned for a response without request
    data. *)
Definition noBalance : value :=
  VObj [("openingBalance", VNum (S754_zero false));
        ("closingBalance", VNum (S754_zero false));
        ("debitTotal", VNum (S754_zero false));
        ("creditTotal", VNum (S754_zero false))].

Definition noStockBalance : value :=
  let none :=
    VObj [("quantity", VNum (S754_zero false));
          ("rate", VNum (S754_zero false));
          ("value", VNum (S754_zero false))] in
  VObj [("openingBalance", none);
        ("inwardQuantity", VNum (S754_zero false));
        ("outwardQuantity", VNum (S754_zero false));
        ("closingBalance", none)].

(** The interpreters of a response with one message: the function, its
    fields, and what it returns for a response without request data. *)
Definition detailInterpreters (groupByType : value)
  : list ((value -> result value) * list (list string * string * value) * value) :=
  [(LedgerService._parseLedgerResponse, ledgerFields, VObj []);
   (LedgerService._parseLedgerBalanceResponse, balanceFields, noBalance);
   (StockItemService._parseStockItemResponse, stockItemFields, VObj []);
   (StockItemService._parseStockBalanceResponse, stockBalanceFields, noStockBalance);
   (VoucherService._parseVoucherResponse, voucherFields, VObj []);
   (fun responseData => VoucherService._parseVoucherSummaryResponse responseData groupByType,
    if truthy groupByType then groupedSummaryFields else summaryFields,
    VObj []);
   (CompanyService._parseCompanyResponse, companyFields, VObj []);
   (CompanyService._parseFinancialYearResponse, financialYearFields, VObj []);
   (CompanyService._parseCompanyStatisticsResponse, statisticsFields, VObj [])].

(** The interpreters of a response with a list of messages, with the
    fields of one element of the list. *)
Definition listInterpreters (rt : runtime)
  : list ((value -> result value) * list (list string * string * value)) :=
  [(VoucherService._parseVoucherListResponse rt, listedVoucherFields);
   (StockItemService._parseStockItemListResponse, listedStockItemFields);
   (StockItemService._parseStockMovementsResponse, movementFields);
   (CompanyService._parseCompanyListResponse, listedCompanyFields)].

(** The interpreters that hand on the messages as they are. *)
Definition messageInterpreters : list (value -> result value) :=
  [LedgerService._parseLedgerTransactionsResponse;
   CompanyService._parseLedgerListResponse;
   CompanyService._parseVoucherListResponse;
   CompanyService._parseStockListResponse].

(** The nodes of a ledger list response: the messages of its request
    data, else the [DESC], the [COLLECTION] or the [TALLYMESSAGE] of its
    body, a single node counting as one. *)
Definition ledgerNodes (tree : xml) : list value :=
  let body := responseBody tree in
  asArray
    (or (or (and (requestData tree) (get (requestData tree) "TALLYMESSAGE"))
            (or (or (get body "DESC") (get body "COLLECTION")) (get body "TALLYMESSAGE")))
        (VArr [])).

(** A response whose [REQUESTDATA] tag is there and empty, and one whose
    message has a name and nothing else. *)
Definition emptyRequestData : xml :=
  XNode [("ENVELOPE",
          XNode [("BODY", XNode [("EXPORTDATA", XNode [("REQUESTDATA", XText EmptyString)])])])].

Definition nameOnly : xml := exportResponse (XNode [("NAME", XText "ABC Corporation")]).

(** ** Reading a voucher message back *)

(** The entries of a voucher message, as a reader of XML finds them: at
    every opening tag of an entry, the ledger name, the deemed-positive
    flag and the amount that come first after it. *)
Fixpoint entriesIn (s : string) : list (string * string * string) :=
  match s with
  | EmptyString => []
  | String _ r =>
      if startsWith "<LEDGERENTRIES.LIST>" s
      then (element "LEDGERNAME" s, element "ISDEEMEDPOSITIVE" s, element "AMOUNT" s)
             :: entriesIn r
      else entriesIn r
  end.

(** What a message is to hold for an entry: the ledger name, Yes for an
    amount above zero and No for any other, and the absolute value of the
    amount as the language prints it. *)
Definition entryTexts (entry : value) : string * string * string :=
  match get entry "amount" with
  | VNum a =>
      (toString (get entry "ledgerName"),
       if Num.gt a (S754_zero false) then "Yes" else "No",
       Num.toString (Num.abs a))
  | _ => (toString (get entry "ledgerName"), "No", "NaN")
  end.

(** The node that a reader of XML makes of the text of one entry, with
    the elements that the entry parser looks at. *)
Definition entryNode (text : string) : xml :=
  XNode [("LEDGERNAME", XText (element "LEDGERNAME" text));
         ("ISDEEMEDPOSITIVE", XText (element "ISDEEMEDPOSITIVE" text));
         ("AMOUNT", XText (element "AMOUNT" text));
         ("BILLALLOCATIONS.LIST",
          XNode [("NAME", XText (element "NAME" text));
                 ("BILLTYPE", XText (element "BILLTYPE" text))])].

(** A voucher whose texts are strings: the type and the ledger names are
    strings, the number, the narration and the bill names are strings or
    missing, and a bill type, which is the one text that the builder does
    not escape, is missing or a string without [<]. *)
Definition textOrNone (v : value) : Prop :=
  v = VUndef \/ exists s : string, v = VStr s.

Definition plainEntry (entry : value) : Prop :=
  (exists name : string, get entry "ledgerName" = VStr name)
  /\ textOrNone (get entry "billName")
  /\ (get entry "billType" = VUndef
      \/ exists s : string, get entry "billType" = VStr s /\ free "<"%char s = true).

Definition plainVoucher (voucherData : obj) : Prop :=
  (exists kind : string, get (VObj voucherData) "voucherType" = VStr kind)
  /\ textOrNone (get (VObj voucherData) "voucherNumber")
  /\ textOrNone (get (VObj voucherData) "narration")
  /\ exists entries : list value,
       get (VObj voucherData) "ledgerEntries" = VArr entries
       /\ Forall plainEntry entries.

End Spec.

(* ===================================================================== *)
(** * Lemmas on strings *)
(* ===================================================================== *)

Module StrFacts.

Import Str.

Lemma append_nil_r (s : string) : s ++ EmptyString = s.
Proof. induction s as [|c r IH]; simpl; [reflexivity | now rewrite IH]. Qed.

Lemma append_assoc (a b c : string) : (a ++ b) ++ c = a ++ b ++ c.
Proof. induction a as [|x r IH]; simpl; [reflexivity | now rewrite IH]. Qed.

Lemma length_append (a b : string) : length (a ++ b) = length a + length b.
Proof. induction a as [|x r IH]; simpl; [reflexivity | now rewrite IH]. Qed.

Lemma replaceAll_append (c : ascii) (rep a b : string) :
  replaceAll c rep (a ++ b) = replaceAll c rep a ++ replaceAll c rep b.
Proof.
  induction a as [|x r IH]; simpl; [reflexivity|].
  destruct (Ascii.eqb x c); rewrite IH; simpl.
  - now rewrite append_assoc.
  - reflexivity.
Qed.

Lemma drop_append (a b : string) : drop (length a) (a ++ b) = b.
Proof. induction a as [|x r IH]; simpl; [now destruct b | exact IH]. Qed.

Lemma startsWith_append (a b : string) : startsWith a (a ++ b) = true.
Proof.
  induction a as [|x r IH]; simpl; [reflexivity|].
  now rewrite Ascii.eqb_refl, IH.
Qed.

Lemma startsWith_split (a s : string) :
  startsWith a s = true -> exists r, s = a ++ r.
Proof.
  revert s; induction a as [|x a IH]; intros s H.
  - exists s; reflexivity.
  - destruct s as [|y s]; simpl in H; [discriminate|].
    apply andb_true_iff in H as [Hxy H].
    apply Ascii.eqb_eq in Hxy; subst y.
    destruct (IH _ H) as [r ->]. exists r; reflexivity.
Qed.

End StrFacts.

(* ===================================================================== *)
(** * Lemmas on rounding *)
(* ===================================================================== *)

(** [binary_round] and [binary_round_aux] on a value that a double holds
    exactly: nothing is rounded off, and the double comes out. *)

Module Rounding.

Import Num.
Local Open Scope Z_scope.

Lemma digits2_size (p : positive) : digits2_pos p = Pos.size p.
Proof. induction p as [p IH|p IH|]; simpl; [now rewrite IH | now rewrite IH | reflexivity]. Qed.

(** The number of bits of a positive integer, through [Z.log2]. *)
Lemma Zdigits2_log2 (x : Z) : 0 < x -> Zdigits2 x = Z.log2 x + 1.
Proof.
  destruct x as [|p|p]; try lia. intros _.
  cbn [Zdigits2]. rewrite digits2_size.
  destruct p as [p|p|]; cbn [Z.log2 Pos.size]; lia.
Qed.

Lemma Zdigits2_shift (x t : Z) : 0 < x -> 0 <= t -> Zdigits2 (x * 2 ^ t) = Zdigits2 x + t.
Proof.
  intros Hx Ht.
  rewrite !Zdigits2_log2 by (try apply Z.mul_pos_pos; try apply Z.pow_pos_nonneg; lia).
  rewrite Z.log2_mul_pow2 by lia. lia.
Qed.

Lemma Zdigits2_mul (x y : Z) : 0 < x -> 0 < y -> Zdigits2 (x * y) <= Zdigits2 x + Zdigits2 y.
Proof.
  intros Hx Hy.
  rewrite !Zdigits2_log2 by (try apply Z.mul_pos_pos; lia).
  pose proof (Z.log2_mul_above x y). lia.
Qed.

Lemma iter_pos_iter {A : Type} (f : A -> A) (p : positive) (x : A) :
  iter_pos f p x = Pos.iter f x p.
Proof.
  revert x. induction p as [p IH|p IH|]; intros x; cbn [iter_pos Pos.iter].
  - rewrite !IH, !Pos.iter_swap. reflexivity.
  - rewrite !IH. reflexivity.
  - reflexivity.
Qed.

Lemma shr_1_double (z : Z) :
  0 < z ->
  shr_1 {| shr_m := 2 * z; shr_r := false; shr_s := false |}
  = {| shr_m := z; shr_r := false; shr_s := false |}.
Proof. destruct z; try lia. reflexivity. Qed.

(** Shifting out zeros is exact. *)
Lemma shr_exact (p : positive) (z : Z) :
  0 < z ->
  iter_pos shr_1 p {| shr_m := z * 2 ^ Zpos p; shr_r := false; shr_s := false |}
  = {| shr_m := z; shr_r := false; shr_s := false |}.
Proof.
  intros Hz. rewrite iter_pos_iter.
  induction p as [|p IH] using Pos.peano_ind.
  - cbn [Pos.iter]. replace (z * 2 ^ 1) with (2 * z) by lia. now apply shr_1_double.
  - rewrite Pos.iter_succ_r.
    replace (z * 2 ^ Zpos (Pos.succ p)) with (2 * (z * 2 ^ Zpos p)).
    + rewrite shr_1_double; [exact IH|].
      apply Z.mul_pos_pos; [lia | apply Z.pow_pos_nonneg; lia].
    + rewrite Pos2Z.inj_succ, Z.pow_succ_r by lia. lia.
Qed.

(** A canonical mantissa shifted left by [t] bits rounds back to itself. *)
Lemma round_exact (s : bool) (m : positive) (e t : Z) :
  0 <= t ->
  bounded prec emax m e = true ->
  binary_round_aux prec emax s (Zpos m * 2 ^ t) (e - t) loc_Exact = S754_finite s m e.
Proof.
  intros Ht B. unfold bounded, canonical_mantissa in B.
  apply andb_true_iff in B as [C L].
  apply Z.eqb_eq in C.
  unfold binary_round_aux.
  assert (S1 : shr_fexp prec emax (Zpos m * 2 ^ t) (e - t) loc_Exact
               = ({| shr_m := Zpos m; shr_r := false; shr_s := false |}, e)).
  { unfold shr_fexp.
    rewrite Zdigits2_shift by lia. cbn [Zdigits2].
    replace (Zpos (digits2_pos m) + t + (e - t)) with (Zpos (digits2_pos m) + e) by lia.
    rewrite C. replace (e - (e - t)) with t by lia.
    cbn [shr_record_of_loc].
    destruct t as [|p|p]; try lia.
    - cbn [shr]. rewrite Z.pow_0_r, Z.mul_1_r, Z.sub_0_r. reflexivity.
    - cbn [shr]. rewrite shr_exact by lia. f_equal. lia. }
  rewrite S1. cbn [shr_m loc_of_shr_record round_nearest_even].
  assert (S2 : shr_fexp prec emax (Zpos m) e loc_Exact
               = ({| shr_m := Zpos m; shr_r := false; shr_s := false |}, e)).
  { unfold shr_fexp. cbn [Zdigits2]. rewrite C, Z.sub_diag. reflexivity. }
  rewrite S2. cbn [shr_m].
  rewrite L. reflexivity.
Qed.

Lemma iter_xO (q p : positive) : Zpos (Pos.iter xO q p) = Zpos q * 2 ^ Zpos p.
Proof.
  induction p as [|p IH] using Pos.peano_ind.
  - cbn [Pos.iter]. lia.
  - rewrite Pos.iter_succ, Pos2Z.inj_xO, IH, Pos2Z.inj_succ, Z.pow_succ_r by lia. lia.
Qed.

(** The integer [q] is the value of the double [m * 2^e]: it rounds to it. *)
Lemma binary_round_integer (m q : positive) (e : Z) :
  bounded prec emax m e = true ->
  (0 <= e /\ Zpos q = Zpos m * 2 ^ e) \/ (e < 0 /\ Zpos q * 2 ^ (- e) = Zpos m) ->
  binary_round prec emax false q 0 = S754_finite false m e.
Proof.
  intros B H.
  assert (C : fexp prec emax (Zpos (digits2_pos m) + e) = e).
  { unfold bounded, canonical_mantissa in B.
    apply andb_true_iff in B as [C _]. now apply Z.eqb_eq in C. }
  assert (D : Zpos (digits2_pos q) + 0 = Zpos (digits2_pos m) + e).
  { change (Zpos (digits2_pos q)) with (Zdigits2 (Zpos q)).
    change (Zpos (digits2_pos m)) with (Zdigits2 (Zpos m)).
    destruct H as [[He Hq]|[He Hq]].
    - rewrite Hq, Zdigits2_shift by lia. lia.
    - rewrite <- Hq, Zdigits2_shift by lia. lia. }
  unfold binary_round. rewrite D, C. unfold shl_align.
  destruct H as [[He Hq]|[He Hq]].
  - replace (match e - 0 with Zneg d => (Pos.iter xO q d, e) | _ => (q, 0) end)
      with (q, 0) by (destruct e; try lia; reflexivity).
    rewrite Hq. replace 0 with (e - e) at 1 by lia.
    apply round_exact; [lia | exact B].
  - destruct e as [|p|p]; try lia. cbn [Z.sub Z.opp Z.add].
    rewrite iter_xO. cbn [Z.opp] in Hq. rewrite Hq.
    replace (Zpos m) with (Zpos m * 2 ^ 0) by lia.
    replace (Zneg p) with (Zneg p - 0) at 1 by lia.
    apply round_exact; [lia | exact B].
Qed.

End Rounding.

(** The exact decimal expansion of a double reads back, through
    [of_decimal], as the double; and so do the digits that [toString]
    settles on, which are either that expansion or digits that were
    checked to read back. *)

Module Exact.

Import Num Rounding.
Local Open Scope Z_scope.

Lemma strip_zeros_spec (fuel : nat) (s e s' e' : Z) :
  0 < s -> strip_zeros fuel s e = (s', e') ->
  0 < s' /\ e <= e' /\ s = s' * 10 ^ (e' - e).
Proof.
  revert s e. induction fuel as [|f IH]; intros s e Hs H; cbn [strip_zeros] in H.
  - injection H as <- <-. rewrite Z.sub_diag. lia.
  - destruct ((s mod 10 =? 0) && (0 <? s)) eqn:T.
    + apply andb_true_iff in T as [T _]. apply Z.eqb_eq in T.
      assert (Hd : s = 10 * (s / 10)) by (pose proof (Z.div_mod s 10); lia).
      destruct (IH (s / 10) (e + 1)) as [P [L E]]; [lia | exact H |].
      split; [exact P|]. split; [lia|].
      rewrite Hd at 1. rewrite E.
      replace (e' - e) with (Z.succ (e' - (e + 1))) by lia.
      rewrite Z.pow_succ_r by lia. lia.
    + injection H as <- <-. rewrite Z.sub_diag. lia.
Qed.

Lemma strip_spec (s e s' e' : Z) :
  0 < s -> strip s e = (s', e') -> 0 < s' /\ e <= e' /\ s = s' * 10 ^ (e' - e).
Proof. apply strip_zeros_spec. Qed.

Lemma div_eucl_div_mod (a b : Z) : Z.div_eucl a b = (a / b, a mod b).
Proof. unfold Z.div, Z.modulo. now destruct (Z.div_eucl a b). Qed.

Lemma pow10 (n : Z) : 0 <= n -> 10 ^ n = 2 ^ n * 5 ^ n.
Proof. intros H. now rewrite <- Z.pow_mul_l. Qed.

Lemma new_location_exact (n : Z) : new_location n 0 = loc_Exact.
Proof. unfold new_location. destruct (Z.even n); reflexivity. Qed.

(** The quotient of the decimal fraction [p / 10^D], when its value is the
    double [m * 2^e], comes out exact. *)
Lemma div_exact (m p : positive) (e D : Z) :
  bounded prec emax m e = true ->
  0 < D <= - e ->
  Zpos p * 2 ^ (- e - D) = Zpos m * 5 ^ D ->
  (let '(mz, ez, lz) := SFdiv_core_binary prec emax (Zpos p) 0 (10 ^ D) 0 in
   binary_round_aux prec emax false mz ez lz) = S754_finite false m e.
Proof.
  intros B HD H.
  assert (C : fexp prec emax (Zpos (digits2_pos m) + e) = e).
  { unfold bounded, canonical_mantissa in B.
    apply andb_true_iff in B as [C _]. now apply Z.eqb_eq in C. }
  assert (P10 : 0 < 10 ^ D) by (apply Z.pow_pos_nonneg; lia).
  assert (H' : Zpos p * 2 ^ (- e) = Zpos m * 10 ^ D).
  { replace (- e) with ((- e - D) + D) by lia.
    rewrite Z.pow_add_r, Z.mul_assoc, H, pow10 by lia. lia. }
  assert (Dg : Zdigits2 (Zpos p) - Zdigits2 (10 ^ D) <= Zpos (digits2_pos m) + e).
  { pose proof (Zdigits2_shift (Zpos p) (- e)) as A1.
    rewrite H' in A1.
    pose proof (Zdigits2_mul (Zpos m) (10 ^ D)) as A2.
    cbn [Zdigits2] in A1, A2 |- *. lia. }
  unfold SFdiv_core_binary.
  set (E' := Z.min (fexp prec emax (Zdigits2 (Zpos p) + 0 - (Zdigits2 (10 ^ D) + 0))) (0 - 0)).
  assert (LE : E' <= e).
  { subst E'. unfold fexp in *. lia. }
  replace (0 - 0 - E') with (- E') by lia.
  destruct (- E') as [|s|s] eqn:ES; try lia.
  rewrite Z.shiftl_mul_pow2 by lia.
  assert (Q : Zpos p * 2 ^ Zpos s = (Zpos m * 2 ^ (e - E')) * 10 ^ D).
  { rewrite <- ES.
    replace (- E') with ((- e) + (e - E')) by lia.
    rewrite Z.pow_add_r, Z.mul_assoc, H' by lia. lia. }
  rewrite div_eucl_div_mod, Q, Z.div_mul, Z.mod_mul by lia.
  rewrite new_location_exact.
  replace E' with (e - (e - E')) at 2 by lia.
  apply round_exact; [lia | exact B].
Qed.

(** The exact decimal expansion of a double reads back as the double,
    however many of its zeros are written in the exponent. *)
Lemma exact_reads_back (m : positive) (e s' e' : Z) :
  bounded prec emax m e = true ->
  0 < s' ->
  - snd (exact_decimal m e) <= e' ->
  s' * 10 ^ (e' + snd (exact_decimal m e)) = fst (exact_decimal m e) ->
  of_decimal false s' e' = S754_finite false m e.
Proof.
  intros B Hs. unfold exact_decimal.
  destruct s' as [|p|p]; try lia. clear Hs.
  destruct (0 <=? e) eqn:He; cbn [fst snd]; intros L H.
  - apply Z.leb_le in He.
    assert (L' : 0 <= e') by lia.
    unfold of_decimal. apply Z.leb_le in L'. rewrite L'. apply Z.leb_le in L'.
    rewrite Z.add_0_r in H. rewrite H.
    assert (Pq : 0 < Zpos m * 2 ^ e) by (apply Z.mul_pos_pos; [lia | apply Z.pow_pos_nonneg; lia]).
    destruct (Zpos m * 2 ^ e) as [|q|q] eqn:Eq; try lia.
    apply binary_round_integer; [exact B | left; split; [exact He | now rewrite Eq]].
  - apply Z.leb_gt in He.
    unfold of_decimal. destruct (0 <=? e') eqn:L'.
    + apply Z.leb_le in L'.
      assert (Pq : 0 < Zpos p * 10 ^ e') by (apply Z.mul_pos_pos; [lia | apply Z.pow_pos_nonneg; lia]).
      destruct (Zpos p * 10 ^ e') as [|q|q] eqn:Eq; try lia.
      apply binary_round_integer; [exact B | right; split; [exact He|]].
      rewrite <- Eq.
      rewrite Z.pow_add_r, (pow10 (- e)) in H by lia.
      assert (P5 : 0 < 5 ^ (- e)) by (apply Z.pow_pos_nonneg; lia).
      apply (Z.mul_reg_r _ _ (5 ^ (- e))); [lia|]. rewrite <- H. lia.
    + apply Z.leb_gt in L'.
      apply div_exact; [exact B | lia |].
      replace (- e) with ((e' + - e) + (- e')) in H at 2 by lia.
      rewrite (pow10 (e' + - e)), (Z.pow_add_r 5 (e' + - e) (- e')) in H by lia.
      assert (P5 : 0 < 5 ^ (e' + - e)) by (apply Z.pow_pos_nonneg; lia).
      apply (Z.mul_reg_r _ _ (5 ^ (e' + - e))); [lia|].
      replace (- e - - e') with (e' + - e) by lia.
      lia.
Qed.

Lemma same_eq (a b : number) : same a b = true -> a = b.
Proof.
  destruct a as [s|s| |s m e], b as [t|t| |t n f]; cbn [same]; try discriminate.
  - intros H. apply Bool.eqb_prop in H. now subst.
  - intros H. apply Bool.eqb_prop in H. now subst.
  - reflexivity.
  - intros H. apply andb_true_iff in H as [H H3]. apply andb_true_iff in H as [H1 H2].
    apply Bool.eqb_prop in H1. apply Pos.eqb_eq in H2. apply Z.eqb_eq in H3. now subst.
Qed.

Lemma exact_decimal_pos (m : positive) (e : Z) :
  0 < fst (exact_decimal m e) /\ 0 <= snd (exact_decimal m e).
Proof.
  unfold exact_decimal. destruct (0 <=? e) eqn:He; cbn [fst snd].
  - apply Z.leb_le in He. split; [|lia].
    apply Z.mul_pos_pos; [lia | apply Z.pow_pos_nonneg; lia].
  - apply Z.leb_gt in He. split; [|lia].
    apply Z.mul_pos_pos; [lia | apply Z.pow_pos_nonneg; lia].
Qed.

Lemma strip_exact_reads (m : positive) (e : Z) (c : Z * Z) :
  bounded prec emax m e = true ->
  strip (fst (exact_decimal m e)) (- snd (exact_decimal m e)) = c ->
  of_decimal false (fst c) (snd c) = S754_finite false m e.
Proof.
  intros B H. destruct c as [s' e'].
  destruct (exact_decimal_pos m e) as [Pv Pd].
  destruct (strip_spec _ _ _ _ Pv H) as [Ps [L E]].
  cbn [fst snd].
  apply exact_reads_back; [exact B | exact Ps | exact L |].
  rewrite E. f_equal. f_equal. lia.
Qed.

(** The digits that [toString] settles on read back as the number. *)
Lemma shortest_reads (fuel : nat) (m : positive) (e len k : Z) :
  bounded prec emax m e = true ->
  let c := shortest fuel (S754_finite false m e)
             (fst (exact_decimal m e)) (snd (exact_decimal m e)) len k in
  of_decimal false (fst c) (snd c) = S754_finite false m e.
Proof.
  intros B. revert k. induction fuel as [|f IH]; intros k; cbn [shortest].
  - now apply strip_exact_reads.
  - destruct (candidates _ _ _ len k) as [|c r] eqn:Ec; [apply IH|].
    assert (I : In c (candidates (S754_finite false m e)
                        (fst (exact_decimal m e)) (snd (exact_decimal m e)) len k))
      by (rewrite Ec; now left).
    unfold candidates in I. destruct (len <=? k).
    + destruct I as [I|[]]. now apply strip_exact_reads.
    + apply filter_In in I as [_ I]. now apply same_eq.
Qed.

End Exact.

(** The products of the entry parser: a double times 1 or -1. *)

Module NumFacts.

Import Num Numeral Rounding.
Local Open Scope Z_scope.

(** A canonical mantissa shifted left by 52 bits rounds back to itself:
    the rounding of a product with 1 or -1 is exact. *)
Lemma round_shifted (s : bool) (m : positive) (e : Z) :
  bounded prec emax m e = true ->
  binary_round_aux prec emax s (Zpos (m * two52)) (e + -52) loc_Exact = S754_finite s m e.
Proof.
  intros B.
  rewrite Pos2Z.inj_mul. change (Zpos two52) with (2 ^ 52). change (e + -52) with (e - 52).
  apply round_exact; [lia | exact B].
Qed.

(** [|a| * 1] and [|a| * -1] give back [a], according to its sign. *)
Lemma abs_times_sign (a : number) :
  valid a = true -> is_nan a = false -> is_zero a = false ->
  mul (abs a)
    (if gt a (S754_zero false)
     then S754_finite false two52 (-52)
     else S754_finite true two52 (-52)) = a.
Proof.
  intros V N Z0.
  destruct a as [s|s| |s m e]; try discriminate.
  - destruct s; reflexivity.
  - unfold valid, valid_binary in V.
    destruct s; cbn [gt SFltb SFcompare abs SFabs mul SFmul xorb];
      apply round_shifted, V.
Qed.

Lemma abs_times_one (a : number) :
  valid a = true -> is_nan a = false ->
  mul (abs a) (S754_finite false two52 (-52)) = abs a.
Proof.
  intros V N.
  destruct a as [s|s| |s m e]; try discriminate; try reflexivity.
  unfold valid, valid_binary in V.
  cbn [abs SFabs mul SFmul xorb]. apply round_shifted, V.
Qed.

End NumFacts.

(* ===================================================================== *)
(** * Numbers and their text *)
(* ===================================================================== *)

(** Runs of digits: what [read_digits] reads from them, and what
    [digits] writes. *)

Module NumeralFacts.

Import Str Num Numeral StrFacts.
Local Open Scope Z_scope.

Lemma read_digits_app (a r : string) (acc : Z) (c : nat) :
  all_digits a = true -> stops r = true ->
  read_digits (a ++ r) acc c = (numeral a acc, (c + length a)%nat, r).
Proof.
  intros A R. revert acc c.
  induction a as [|x a IH]; intros acc c; cbn [append numeral length].
  - rewrite Nat.add_0_r.
    destruct r as [|y r]; [reflexivity|].
    cbn [read_digits]. unfold stops, is_digit in R.
    destruct (digit_val y); [discriminate | reflexivity].
  - cbn [all_digits] in A. apply andb_true_iff in A as [X A].
    cbn [read_digits]. unfold is_digit in X.
    destruct (digit_val x) as [d|]; [|discriminate].
    rewrite (IH A). now rewrite Nat.add_succ_r.
Qed.

Lemma numeral_app (a b : string) (acc : Z) :
  all_digits a = true -> numeral (a ++ b) acc = numeral b (numeral a acc).
Proof.
  revert acc. induction a as [|x a IH]; intros acc A; cbn [append numeral]; [reflexivity|].
  cbn [all_digits] in A. apply andb_true_iff in A as [X A].
  unfold is_digit in X. destruct (digit_val x); [now apply IH | discriminate].
Qed.

Lemma all_digits_app (a b : string) :
  all_digits (a ++ b) = all_digits a && all_digits b.
Proof.
  induction a as [|x a IH]; cbn [append all_digits]; [reflexivity|].
  now rewrite IH, andb_assoc.
Qed.

Lemma all_digits_zeros (n : nat) : all_digits (repeat "0"%char n) = true.
Proof. induction n as [|n IH]; [reflexivity | exact IH]. Qed.

Lemma numeral_zeros (n : nat) (acc : Z) :
  numeral (repeat "0"%char n) acc = acc * 10 ^ Z.of_nat n.
Proof.
  revert acc. induction n as [|n IH]; intros acc.
  - cbn [repeat numeral]. change (Z.of_nat 0) with 0. lia.
  - cbn [repeat numeral]. change (digit_val "0"%char) with (Some 0). cbv beta iota.
    rewrite IH, Nat2Z.inj_succ, Z.pow_succ_r by lia. lia.
Qed.

Lemma length_zeros (n : nat) : length (repeat "0"%char n) = n.
Proof. induction n as [|n IH]; [reflexivity | cbn [repeat length]; now rewrite IH]. Qed.

Lemma digit_val_digit_char (d : Z) : 0 <= d < 10 -> digit_val (digit_char d) = Some d.
Proof.
  intros H.
  assert (C : d = 0 \/ d = 1 \/ d = 2 \/ d = 3 \/ d = 4 \/ d = 5 \/ d = 6 \/ d = 7 \/ d = 8 \/ d = 9) by lia.
  repeat (destruct C as [->|C]; [reflexivity|]). subst d. reflexivity.
Qed.

Lemma one_digit (n : Z) (acc : string) :
  0 <= n < 10 ->
  exists pre : string,
    String (digit_char (n mod 10)) acc = pre ++ acc
    /\ all_digits pre = true /\ numeral pre 0 = n /\ pre <> EmptyString.
Proof.
  intros H. exists (String (digit_char n) EmptyString).
  rewrite Z.mod_small by lia.
  cbn [append all_digits numeral]. unfold is_digit.
  rewrite digit_val_digit_char by lia.
  split; [reflexivity|]. split; [reflexivity|]. split; [lia | discriminate].
Qed.

(** [digits_loop] puts the digits of [n] in front of what it was given. *)
Lemma digits_loop_spec (f : nat) (n : Z) (acc : string) :
  0 <= n < 2 ^ Z.of_nat (S f) ->
  exists pre : string,
    digits_loop (S f) n acc = pre ++ acc
    /\ all_digits pre = true /\ numeral pre 0 = n /\ pre <> EmptyString.
Proof.
  revert n acc. induction f as [|f IH]; intros n acc H.
  - cbn [digits_loop].
    replace (n <? 10) with true by (symmetry; apply Z.ltb_lt; change (2 ^ Z.of_nat 1) with 2 in H; lia).
    apply one_digit. change (2 ^ Z.of_nat 1) with 2 in H. lia.
  - remember (S f) as g eqn:G. cbn [digits_loop].
    destruct (n <? 10) eqn:T.
    + apply Z.ltb_lt in T. apply one_digit. lia.
    + apply Z.ltb_ge in T.
      assert (B : 0 <= n / 10 < 2 ^ Z.of_nat g).
      { rewrite Nat2Z.inj_succ, Z.pow_succ_r in H by lia.
        split; [apply Z.div_pos; lia|].
        apply Z.div_lt_upper_bound; lia. }
      subst g.
      destruct (IH (n / 10) (String (digit_char (n mod 10)) acc) B) as [pre [E [A [V N]]]].
      exists (pre ++ String (digit_char (n mod 10)) EmptyString).
      rewrite E, append_assoc. cbn [append].
      split; [reflexivity|]. split; [|split].
      * rewrite all_digits_app, A. cbn [all_digits]. unfold is_digit.
        rewrite digit_val_digit_char by (apply Z.mod_pos_bound; lia). reflexivity.
      * rewrite numeral_app, V by exact A. cbn [numeral].
        rewrite digit_val_digit_char by (apply Z.mod_pos_bound; lia).
        pose proof (Z.div_mod n 10). lia.
      * destruct pre; [now elim N | discriminate].
Qed.

(** The digits of a natural number: they denote it. *)
Lemma digits_spec (n : Z) :
  0 <= n ->
  all_digits (digits n) = true /\ numeral (digits n) 0 = n /\ digits n <> EmptyString.
Proof.
  intros H. unfold digits.
  destruct (digits_loop_spec (Z.to_nat (Z.log2 n)) n EmptyString) as [pre [E [A [V N]]]].
  - split; [exact H|].
    rewrite Nat2Z.inj_succ, Z2Nat.id by apply Z.log2_nonneg.
    destruct (Z.eq_dec n 0) as [->|N0]; [reflexivity|].
    apply Z.log2_spec. lia.
  - rewrite E, append_nil_r. auto.
Qed.

Lemma numeral_shift (a : string) (acc : Z) :
  all_digits a = true -> numeral a acc = acc * 10 ^ Z.of_nat (length a) + numeral a 0.
Proof.
  revert acc. induction a as [|x a IH]; intros acc A.
  - cbn [numeral length]. change (Z.of_nat 0) with 0. lia.
  - cbn [all_digits] in A. apply andb_true_iff in A as [X A].
    cbn [numeral length]. unfold is_digit in X.
    destruct (digit_val x) as [d|]; [|discriminate].
    rewrite (IH (10 * acc + d)), (IH (10 * 0 + d)) by exact A.
    rewrite Nat2Z.inj_succ, Z.pow_succ_r by lia. lia.
Qed.

Lemma take_drop (n : nat) (s : string) : take n s ++ drop n s = s.
Proof.
  revert s. induction n as [|n IH]; intros s; [reflexivity|].
  destruct s as [|c r]; [reflexivity|]. cbn [take drop append]. now rewrite IH.
Qed.

Lemma length_take (n : nat) (s : string) :
  (n <= length s)%nat -> length (take n s) = n.
Proof.
  revert s. induction n as [|n IH]; intros s H; [reflexivity|].
  destruct s as [|c r]; cbn [length] in H; [lia|].
  cbn [take length]. rewrite IH; lia.
Qed.

Lemma length_drop (n : nat) (s : string) : length (drop n s) = (length s - n)%nat.
Proof.
  revert s. induction n as [|n IH]; intros s; [cbn [drop]; lia|].
  destruct s as [|c r]; [reflexivity|]. cbn [drop length]. apply IH.
Qed.

Lemma all_digits_take (n : nat) (s : string) :
  all_digits s = true -> all_digits (take n s) = true.
Proof.
  intros A. rewrite <- (take_drop n s), all_digits_app in A.
  now apply andb_true_iff in A.
Qed.

Lemma all_digits_drop (n : nat) (s : string) :
  all_digits s = true -> all_digits (drop n s) = true.
Proof.
  intros A. rewrite <- (take_drop n s), all_digits_app in A.
  now apply andb_true_iff in A.
Qed.

Lemma digit_cases (c : ascii) :
  is_digit c = true ->
  In c ["0"; "1"; "2"; "3"; "4"; "5"; "6"; "7"; "8"; "9"]%char.
Proof.
  destruct c as [[] [] [] [] [] [] [] []]; intros H; try discriminate H;
    cbn [In]; auto 12.
Qed.

(** What comes before the digits in [parseFloat]: nothing, when the text
    opens with a digit. *)
Lemma parse_opening (c : ascii) (r : string) :
  is_digit c = true ->
  trim_start (String c r) = String c r
  /\ read_sign (String c r) = (false, String c r)
  /\ startsWith "Infinity" (String c r) = false.
Proof.
  intros H. apply digit_cases in H. cbn [In] in H.
  repeat (destruct H as [<-|H];
          [split; [destruct r as [| d [| e r3]]; reflexivity | split; reflexivity]|]).
  elim H.
Qed.

End NumeralFacts.

(** [parseFloat] on each of the four layouts of [toString]: integer,
    fraction, fraction below one, and exponent. *)

Module ToStringFacts.

Import Str Num Numeral StrFacts NumeralFacts Rounding Exact.
Local Open Scope Z_scope.

Lemma first_digit (a : string) :
  all_digits a = true -> a <> EmptyString ->
  exists c r, a = String c r /\ is_digit c = true.
Proof.
  destruct a as [|c r]; intros A N; [now elim N|].
  cbn [all_digits] in A. apply andb_true_iff in A as [C _]. eauto.
Qed.

(** [parseFloat] on digits, a point, digits, and then an exponent part or
    nothing that counts. *)
Lemma parse_fraction (a b rest : string) :
  all_digits a = true -> a <> EmptyString -> all_digits b = true -> stops rest = true ->
  parseFloat_string (a ++ "." ++ b ++ rest)
  = of_decimal false (numeral b (numeral a 0)) (read_exponent rest - Z.of_nat (length b)).
Proof.
  intros A N B R.
  destruct (first_digit a A N) as [c [r [-> C]]].
  unfold parseFloat_string.
  destruct (parse_opening c (r ++ "." ++ b ++ rest) C) as [T [S I]].
  cbn [append] in T, S, I |- *. rewrite T, S, I.
  change (String c (r ++ String "." (b ++ rest)))
    with (String c r ++ String "." (b ++ rest)).
  rewrite read_digits_app by (exact A || reflexivity).
  cbv beta iota.
  rewrite read_digits_app by assumption.
  cbn [length Nat.add]. reflexivity.
Qed.

(** [parseFloat] on digits alone. *)
Lemma parse_integer (a : string) :
  all_digits a = true -> a <> EmptyString ->
  parseFloat_string a = of_decimal false (numeral a 0) 0.
Proof.
  intros A N.
  destruct (first_digit a A N) as [c [r [-> C]]].
  unfold parseFloat_string.
  destruct (parse_opening c r C) as [T [S I]].
  rewrite T, S, I.
  rewrite <- (append_nil_r (String c r)) at 1.
  rewrite read_digits_app by (exact A || reflexivity).
  cbn [length Nat.add]. reflexivity.
Qed.

(** [parseFloat] on digits and an exponent part. *)
Lemma parse_exponent (a rest : string) :
  all_digits a = true -> a <> EmptyString ->
  parseFloat_string (a ++ String "e" rest)
  = of_decimal false (numeral a 0) (read_exponent (String "e" rest) - 0).
Proof.
  intros A N.
  destruct (first_digit a A N) as [c [r [-> C]]].
  unfold parseFloat_string.
  destruct (parse_opening c (r ++ String "e" rest) C) as [T [S I]].
  cbn [append] in T, S, I |- *. rewrite T, S, I.
  change (String c (r ++ String "e" rest)) with (String c r ++ String "e" rest).
  rewrite read_digits_app by (exact A || reflexivity).
  cbn [length Nat.add]. reflexivity.
Qed.

(** The exponent part that [layout] writes reads as the exponent. *)
Lemma read_exponent_spec (e : Z) :
  read_exponent ("e" ++ (if e <? 0 then "-" else "+") ++ digits (Z.abs e)) = e.
Proof.
  destruct (digits_spec (Z.abs e)) as [A [V N]]; [lia|].
  unfold read_exponent. cbn [append Ascii.eqb Bool.eqb orb].
  destruct (e <? 0) eqn:T; cbn [append read_sign].
  - rewrite <- (append_nil_r (digits (Z.abs e))).
    rewrite read_digits_app by (exact A || reflexivity).
    rewrite V. destruct (digits (Z.abs e)); [now elim N|].
    cbn [length Nat.add]. apply Z.ltb_lt in T. lia.
  - rewrite <- (append_nil_r (digits (Z.abs e))).
    rewrite read_digits_app by (exact A || reflexivity).
    rewrite V. destruct (digits (Z.abs e)); [now elim N|].
    cbn [length Nat.add]. apply Z.ltb_ge in T. lia.
Qed.

Lemma of_decimal_scaled (s j : Z) :
  0 < s -> 0 <= j -> of_decimal false (s * 10 ^ j) 0 = of_decimal false s j.
Proof.
  intros Hs Hj. destruct s as [|p|p]; try lia.
  assert (P : 0 < Zpos p * 10 ^ j) by (apply Z.mul_pos_pos; [lia | apply Z.pow_pos_nonneg; lia]).
  unfold of_decimal.
  apply Z.leb_le in Hj. rewrite Hj. cbn [Z.leb Z.compare].
  destruct (Zpos p * 10 ^ j) as [|q|q]; try lia.
  rewrite Z.pow_0_r, Z.mul_1_r. reflexivity.
Qed.

(** The text that [layout] makes of the digits of [s] and of the exponent
    [e] reads as [s * 10^e]. *)
Lemma parse_layout (s e : Z) :
  0 < s ->
  parseFloat_string (layout (digits s) (Z.of_nat (length (digits s)) + e))
  = of_decimal false s e.
Proof.
  intros Hs.
  destruct (digits_spec s) as [A [V N]]; [lia|].
  set (ds := digits s) in *.
  set (k := Z.of_nat (length ds)).
  assert (Hk : 0 < k).
  { subst k. destruct ds; [now elim N | cbn [length]; lia]. }
  unfold layout. fold k.
  set (n := k + e).
  destruct ((k <=? n) && (n <=? 21)) eqn:C1; [|destruct ((0 <? n) && (n <=? 21)) eqn:C2;
                                                 [|destruct ((-6 <? n) && (n <=? 0)) eqn:C3]].
  - apply andb_true_iff in C1 as [C1 _]. apply Z.leb_le in C1.
    rewrite parse_integer.
    + rewrite numeral_app, V, numeral_zeros by exact A.
      rewrite Z2Nat.id by lia.
      replace (n - k) with e by (subst n; lia).
      apply of_decimal_scaled; subst n; lia.
    + now rewrite all_digits_app, A, all_digits_zeros.
    + destruct ds; [now elim N | discriminate].
  - apply andb_true_iff in C2 as [P2 Q2]. apply Z.ltb_lt in P2.
    rewrite Q2, andb_true_r in C1. apply Z.leb_gt in C1.
    assert (Ln : (Z.to_nat n <= length ds)%nat) by lia.
    rewrite <- (append_nil_r (drop (Z.to_nat n) ds)).
    rewrite (parse_fraction (take (Z.to_nat n) ds) (drop (Z.to_nat n) ds) EmptyString).
    + rewrite <- numeral_app by now apply all_digits_take.
      rewrite take_drop, V, length_drop.
      cbn [read_exponent]. f_equal. subst n k. lia.
    + now apply all_digits_take.
    + intros E. apply (f_equal length) in E. rewrite length_take in E by exact Ln.
      cbn [length] in E. lia.
    + now apply all_digits_drop.
    + reflexivity.
  - apply andb_true_iff in C3 as [P3 Q3]. apply Z.ltb_lt in P3. apply Z.leb_le in Q3.
    change ("0." ++ repeat "0" (Z.to_nat (- n)) ++ ds)
      with ("0" ++ "." ++ repeat "0" (Z.to_nat (- n)) ++ ds).
    rewrite <- (append_nil_r (repeat "0" (Z.to_nat (- n)) ++ ds)).
    rewrite (parse_fraction "0" (repeat "0" (Z.to_nat (- n)) ++ ds) EmptyString).
    + rewrite numeral_app, numeral_zeros by apply all_digits_zeros.
      cbn [numeral]. change (digit_val "0"%char) with (Some 0). cbv beta iota.
      replace ((10 * 0 + 0) * 10 ^ Z.of_nat (Z.to_nat (- n))) with 0 by lia.
      rewrite V, length_append, length_zeros.
      cbn [read_exponent]. f_equal. subst n k. lia.
    + reflexivity.
    + discriminate.
    + now rewrite all_digits_app, all_digits_zeros.
    + reflexivity.
  - destruct ds as [|c r] eqn:D; [now elim N|].
    cbn [all_digits] in A. apply andb_true_iff in A as [C R].
    assert (Dc : exists d, digit_val c = Some d).
    { unfold is_digit in C. destruct (digit_val c); [eauto | discriminate]. }
    destruct Dc as [d Dc].
    destruct r as [|c' r'].
    + change (String c ("e" ++ (if n - 1 <? 0 then "-" else "+") ++ digits (Z.abs (n - 1))))
        with (String c EmptyString
              ++ String "e" ((if n - 1 <? 0 then "-" else "+") ++ digits (Z.abs (n - 1)))).
      rewrite (parse_exponent (String c EmptyString)).
      * change (String "e" ((if n - 1 <? 0 then "-" else "+") ++ digits (Z.abs (n - 1))))
          with ("e" ++ (if n - 1 <? 0 then "-" else "+") ++ digits (Z.abs (n - 1))).
        rewrite read_exponent_spec, V. f_equal. subst n k. cbn [length]. lia.
      * cbn [all_digits]. now rewrite C.
      * discriminate.
    + set (r := String c' r') in *.
      change (String c ("." ++ r ++ "e" ++ (if n - 1 <? 0 then "-" else "+") ++ digits (Z.abs (n - 1))))
        with (String c EmptyString ++ "." ++ r
              ++ ("e" ++ (if n - 1 <? 0 then "-" else "+") ++ digits (Z.abs (n - 1)))).
      rewrite (parse_fraction (String c EmptyString) r
                 ("e" ++ (if n - 1 <? 0 then "-" else "+") ++ digits (Z.abs (n - 1)))).
      * rewrite read_exponent_spec.
        cbn [numeral] in V |- *. rewrite Dc in V |- *. rewrite V.
        f_equal. subst n k. cbn [length]. lia.
      * cbn [all_digits]. now rewrite C.
      * discriminate.
      * exact R.
      * reflexivity.
Qed.

(** The text of a positive double reads back as the double. *)
Lemma parse_toString_finite (m : positive) (e : Z) :
  bounded prec emax m e = true ->
  parseFloat_string (toString (S754_finite false m e)) = S754_finite false m e.
Proof.
  intros B. cbn [toString].
  pose proof (shortest_reads 17 m e
                (Z.of_nat (length (digits (fst (exact_decimal m e))))) 1 B) as R.
  cbv zeta in R.
  destruct (exact_decimal m e) as [v d]. cbn [fst snd] in R.
  destruct (shortest 17 (S754_finite false m e) v d (Z.of_nat (length (digits v))) 1)
    as [s1 e1].
  cbn [fst snd] in R. cbn [append].
  assert (Hs : 0 < s1).
  { destruct s1 as [|p|p]; [discriminate R | lia | discriminate R]. }
  rewrite parse_layout by exact Hs. exact R.
Qed.

(** What [toString] prints for [|a|], [parseFloat] reads as [|a|]. *)
Theorem parse_toString_abs (a : number) :
  valid a = true -> is_nan a = false -> is_zero a = false ->
  parseFloat_string (toString (abs a)) = abs a.
Proof.
  intros V N Z0.
  destruct a as [s|s| |s m e]; try discriminate.
  - reflexivity.
  - apply parse_toString_finite. exact V.
Qed.

End ToStringFacts.

(* ===================================================================== *)
(** * Lemmas on values *)
(* ===================================================================== *)

Module JsFacts.

Import Js Spec.

Lemma getM_truthy (v : value) (k : string) :
  truthy v = true -> getM v k = inr (get v k).
Proof. destruct v; intros H; try discriminate H; reflexivity. Qed.

Lemma getM_VObj (fields : obj) (k : string) :
  getM (VObj fields) k = inr (get (VObj fields) k).
Proof. reflexivity. Qed.

Lemma get_of_xml (kids : list (string * xml)) (k : string) :
  get (of_xml (XNode kids)) k
  = match lookup k kids with
    | Some x => of_xml x
    | None => VUndef
    end.
Proof.
  cbn [of_xml get].
  induction kids as [|[k' x] r IH]; [reflexivity|].
  cbn [map lookup]. destruct (String.eqb k k'); [reflexivity | exact IH].
Qed.

Lemma getM_defined (v : value) (k : string) :
  defined v = true -> getM v k = inr (get v k).
Proof. destruct v; intros H; try discriminate H; reflexivity. Qed.

Lemma defined_truthy (v : value) : truthy v = true -> defined v = true.
Proof. destruct v; intros H; try discriminate H; reflexivity. Qed.

Lemma defined_of_xml (t : xml) : defined (of_xml t) = true.
Proof. destruct t; reflexivity. Qed.

Lemma defined_or (a b : value) : defined b = true -> defined (or a b) = true.
Proof.
  intros H. unfold or. destruct (truthy a) eqn:T; [now apply defined_truthy | exact H].
Qed.

Lemma defined_VObj (fields : obj) : defined (VObj fields) = true.
Proof. reflexivity. Qed.

Lemma defined_VArr (items : list value) : defined (VArr items) = true.
Proof. reflexivity. Qed.

Create HintDb js.

#[export] Hint Resolve defined_truthy defined_of_xml defined_or defined_VObj defined_VArr : js.

(** What is read from a parsed tree is [undefined] or a parsed tree. *)
Lemma get_of_xml_cases (t : xml) (k : string) :
  get (of_xml t) k = VUndef \/ exists t', get (of_xml t) k = of_xml t'.
Proof.
  destruct t as [s|kids|items]; try (left; reflexivity).
  rewrite get_of_xml. destruct (lookup k kids); eauto.
Qed.

Lemma orM_ret (a b : value) : orM a (ret b) = ret (or a b).
Proof. unfold orM, or. now destruct (truthy a). Qed.

Lemma or_truthy (a b : value) : truthy a = true -> or a b = a.
Proof. unfold or. now intros ->. Qed.

Lemma or_falsy (a b : value) : truthy a = false -> or a b = b.
Proof. unfold or. now intros ->. Qed.

End JsFacts.

(* ===================================================================== *)
(** * Validation of a voucher: what is refused *)
(* ===================================================================== *)

Module Validation.

Import Js Str Spec TallyConnector XmlBuilder VoucherService JsFacts.

Lemma goodEntry_object (entry : value) :
  goodEntry entry -> exists fields, entry = VObj fields.
Proof.
  intros [H _]. destruct entry; try discriminate H. eauto.
Qed.

Lemma strict_eq_zero (x : Num.number) :
  Num.strict_eq x (S754_zero false) = true -> exists s : bool, x = S754_zero s.
Proof.
  destruct x as [s | s | | s m e].
  - intros _. now exists s.
  - destruct s; discriminate.
  - discriminate.
  - destruct s; discriminate.
Qed.

Lemma goodEntry_amount (entry : value) :
  goodEntry entry ->
  exists a : Num.number, get entry "amount" = VNum a /\ Num.is_zero a = false.
Proof.
  intros (_ & N & Z0).
  destruct (get entry "amount") as [| | b | x | s | d | l | fields]; try discriminate N.
  exists x. split; [reflexivity|].
  destruct x as [s | s | | s m e]; try reflexivity.
  destruct s; discriminate Z0.
Qed.

Lemma goodEntry_not_bad (entry : value) :
  goodEntry entry -> ~ (lacksLedgerName entry \/ badAmount entry).
Proof.
  intros G [B | B].
  - destruct G as [T _]. unfold lacksLedgerName in B. congruence.
  - destruct (goodEntry_amount entry G) as [a [A Z0]].
    unfold badAmount in B. rewrite A in B.
    destruct a; try discriminate Z0; exact B.
Qed.

Lemma checkEntry_spec (entry : value) :
  match checkEntry entry with
  | inr _ => goodEntry entry
  | inl _ => lacksLedgerName entry \/ badAmount entry
  end.
Proof.
  unfold checkEntry, goodEntry, lacksLedgerName, badAmount.
  destruct entry as [| | b|x|s|d|l|fields];
    try (cbn; left; reflexivity).
  rewrite getM_VObj. cbn [bind].
  destruct (truthy (get (VObj fields) "ledgerName")) eqn:T; cbn [negb].
  - destruct (is_number (get (VObj fields) "amount")) eqn:N; cbn [negb orb].
    + destruct (strict_eq_number (get (VObj fields) "amount") zero) eqn:Z0.
      * right.
        destruct (get (VObj fields) "amount") as [| | b | x | s | d | l | more];
          try exact I.
        destruct (strict_eq_zero x Z0) as [s ->]. exact I.
      * cbn. auto.
    + right.
      destruct (get (VObj fields) "amount") as [| | b | x | s | d | l | more];
        try exact I.
      discriminate N.
  - left. reflexivity.
Qed.

Lemma forEach_check_spec (entries : list value) :
  match forEachM checkEntry entries with
  | inr _ => Forall goodEntry entries
  | inl _ => exists entry, In entry entries /\ (lacksLedgerName entry \/ badAmount entry)
  end.
Proof.
  induction entries as [|entry rest IH]; cbn [forEachM].
  - constructor.
  - pose proof (checkEntry_spec entry) as C.
    destruct (checkEntry entry) as [e|u]; cbn [bind].
    + exists entry. split; [now left | exact C].
    + destruct (forEachM checkEntry rest) as [e|u'].
      * destruct IH as [x [I B]]. exists x. split; [now right | exact B].
      * constructor; assumption.
Qed.

Section Engine.

Variable rt : runtime.
Variable env : value.

Lemma totalOf_good (entries : list value) (acc : Num.number) :
  Forall goodEntry entries ->
  reduceM (fun sum entry => bind (getM entry "amount") (fun amount => ret (plus rt sum amount)))
    entries (VNum acc)
  = inr (VNum (fold_left (fun sum entry => Num.add sum (toNumber rt (get entry "amount")))
                 entries acc)).
Proof.
  intros G. revert acc.
  induction G as [|entry rest Hentry _ IH]; intros acc; cbn [reduceM fold_left].
  - reflexivity.
  - destruct (goodEntry_object _ Hentry) as [fields ->].
    destruct Hentry as (_ & N & _).
    rewrite getM_VObj. cbn [bind ret].
    destruct (get (VObj fields) "amount") as [| | |x| | | |] eqn:A; try discriminate N.
    cbn [plus toNumber]. apply IH.
Qed.

(** On entries that pass the loop the sum of the code is the sum of the
    amounts. *)
Lemma sum_good (entries : list value) (acc : Num.number) :
  Forall goodEntry entries ->
  fold_left (fun sum entry => Num.add sum (toNumber rt (get entry "amount"))) entries acc
  = fold_left (fun sum entry => Num.add sum (amountOf entry)) entries acc.
Proof.
  intros G. revert acc. induction G as [| entry rest Hentry _ IH]; intros acc; [reflexivity|].
  cbn [fold_left]. destruct (goodEntry_amount entry Hentry) as [a [A _]].
  unfold amountOf at 2. rewrite A. cbn [toNumber]. apply IH.
Qed.

Lemma validate_spec (voucherData : obj) :
  match _validateVoucherData rt voucherData with
  | inr _ => ~ invalidVoucher voucherData
  | inl _ => invalidVoucher voucherData
  end.
Proof.
  unfold _validateVoucherData, invalidVoucher.
  destruct (truthy (get (VObj voucherData) "voucherType")) eqn:T1; cbn [negb];
    [|now left].
  destruct (truthy (get (VObj voucherData) "date")) eqn:T2; cbn [negb];
    [|now right; left].
  destruct (get (VObj voucherData) "ledgerEntries") as [| | b|x|s|d|entries|fields] eqn:L;
    try (right; right; left; reflexivity).
  destruct (Nat.ltb_spec (List.length entries) 2) as [Short|Long].
  { right; right; right. exists entries. split; [reflexivity | now left]. }
  pose proof (forEach_check_spec entries) as F.
  destruct (forEachM checkEntry entries) as [e|u]; cbn [bind].
  { right; right; right. exists entries. split; [reflexivity | now right; left]. }
  unfold totalOf. rewrite (totalOf_good entries zero F). cbn [bind toNumber].
  rewrite (sum_good entries zero F).
  change (fold_left (fun sum entry => Num.add sum (amountOf entry)) entries zero)
    with (amountsSum entries).
  change tolerance with (Num.lit "0.01").
  destruct (Num.gt (Num.abs (amountsSum entries)) (Num.lit "0.01")) eqn:G; cbn [throw ret].
  { right; right; right. exists entries. split; [reflexivity | now right; right]. }
  intros [H|[H|[H|[entries' [E [H|[[entry [I B]]|H]]]]]]]; try discriminate H.
  - injection E as <-. lia.
  - injection E as <-. rewrite Forall_forall in F.
    exact (goodEntry_not_bad entry (F entry I) B).
  - injection E as <-. congruence.
Qed.

(** The entries of a voucher that passes validation. *)
Lemma validated_entries (voucherData : obj) :
  _validateVoucherData rt voucherData = inr tt ->
  exists entries : list value,
    get (VObj voucherData) "ledgerEntries" = VArr entries /\ Forall goodEntry entries.
Proof.
  unfold _validateVoucherData.
  destruct (truthy (get (VObj voucherData) "voucherType")); cbn [negb]; [|discriminate].
  destruct (truthy (get (VObj voucherData) "date")); cbn [negb]; [|discriminate].
  destruct (get (VObj voucherData) "ledgerEntries") as [| | b|x|s|d|entries|fields];
    try discriminate.
  destruct (List.length entries <? 2)%nat; [discriminate|].
  pose proof (forEach_check_spec entries) as F.
  destruct (forEachM checkEntry entries) as [e|u']; [discriminate|].
  intros _. exists entries. now split.
Qed.

Lemma mapM_entries_good (entries : list value) :
  Forall goodEntry entries -> exists texts, mapM (ledgerEntryXml rt) entries = inr texts.
Proof.
  induction 1 as [|entry rest Hentry _ [texts IH]]; cbn [mapM].
  - eexists; reflexivity.
  - destruct (goodEntry_object _ Hentry) as [fields ->].
    unfold ledgerEntryXml at 1. rewrite getM_VObj. cbn [bind ret].
    rewrite IH. cbn [bind ret]. eexists; reflexivity.
Qed.

Lemma checkEntry_error (entry : value) (error : Js.error) :
  checkEntry entry = inl error ->
  (exists text, error = Error text) \/ entry = VUndef \/ entry = VNull.
Proof.
  unfold checkEntry, throw, ret.
  destruct entry as [| | b|x|s|d|l|fields]; auto; cbn [getM bind ret];
    repeat match goal with
           | |- context [if ?c then _ else _] => destruct c
           end;
    try discriminate; intros [= <-]; left; eauto.
Qed.

Lemma forEach_check_error (entries : list value) (error : Js.error) :
  forEachM checkEntry entries = inl error ->
  (exists text, error = Error text) \/ In VUndef entries \/ In VNull entries.
Proof.
  induction entries as [|entry rest IH]; cbn [forEachM]; [discriminate|].
  destruct (checkEntry entry) as [e|u] eqn:C; cbn [bind].
  - intros [= <-]. destruct (checkEntry_error _ _ C) as [H|[ -> | -> ]]; auto.
    + right; left; now left.
    + right; right; now left.
  - intros H. destruct (IH H) as [K|[K|K]]; auto.
    + right; left; now right.
    + right; right; now right.
Qed.

Lemma validate_error (voucherData : obj) (error : Js.error) :
  _validateVoucherData rt voucherData = inl error ->
  (exists text, error = Error text)
  \/ exists entries, get (VObj voucherData) "ledgerEntries" = VArr entries
                     /\ (In VUndef entries \/ In VNull entries).
Proof.
  unfold _validateVoucherData, throw, ret.
  destruct (truthy (get (VObj voucherData) "voucherType")); cbn [negb];
    [|intros [= <-]; left; eauto].
  destruct (truthy (get (VObj voucherData) "date")); cbn [negb];
    [|intros [= <-]; left; eauto].
  destruct (get (VObj voucherData) "ledgerEntries") as [| | b|x|s|d|entries|fields];
    try (intros [= <-]; left; eauto).
  destruct (List.length entries <? 2)%nat; cbv beta iota; [intros [= <-]; left; eauto|].
  destruct (forEachM checkEntry entries) as [e|u] eqn:F; cbn [bind].
  - intros [= <-]. destruct (forEach_check_error _ _ F) as [H|H]; [now left|].
    right. exists entries. now split.
  - pose proof (forEach_check_spec entries) as G. rewrite F in G.
    unfold totalOf. rewrite (totalOf_good entries zero G). cbn [bind].
    destruct (Num.gt _ tolerance); cbv beta iota;
      [intros [= <-]; left; eauto | discriminate].
Qed.

End Engine.

Example balanced_voucher_accepted :
  _validateVoucherData plainEngine balancedVoucher = inr tt.
Proof. vm_compute. reflexivity. Qed.

Example unbalanced_voucher_refused :
  run (createVoucher plainEngine VUndef unbalancedVoucher) []
  = ([], Some (inl (Error "Voucher debits and credits must balance"))).
Proof. vm_compute. reflexivity. Qed.

(** An amount that is NaN, or infinite, is of type number and is not
    zero; and the sum of such amounts, when it is NaN, is not above the
    tolerance.  The voucher passes, and the amount is written as [NaN]. *)
Example nan_amount_accepted :
  succeeds
    (_validateVoucherData plainEngine
       [("voucherType", VStr "Journal");
        ("date", VDate (Date 2023 8 15 "Fri Sep 15 2023"));
        ("ledgerEntries",
         VArr [VObj [("ledgerName", VStr "A"); ("amount", VNum Num.NaN)];
               VObj [("ledgerName", VStr "B"); ("amount", VNum (Num.lit "1"))]])])
  = true
  /\ ledgerEntryXml plainEngine (VObj [("ledgerName", VStr "A"); ("amount", VNum Num.NaN)])
     = inr (ledgerEntryTemplate "A" "No" "NaN" EmptyString "New Ref").
Proof. split; vm_compute; reflexivity. Qed.

Example single_entry_refused :
  _validateVoucherData plainEngine
    [("voucherType", VStr "Journal"); ("date", VStr "15-Sep-2023");
     ("ledgerEntries", VArr [entryWith "A" "100"])]
  = inl (Error "At least two ledger entries are required for a voucher").
Proof. vm_compute. reflexivity. Qed.

End Validation.

(* ===================================================================== *)
(** * The amount that the entry parser reads *)
(* ===================================================================== *)

Module EntryAmount.

Import Js Str Numeral Spec XmlBuilder VoucherService NumFacts ToStringFacts JsFacts.

Lemma parseLedgerEntry_amount (kids : list (string * xml)) (text : string) :
  lookup "AMOUNT" kids = Some (XText text) ->
  exists parsed : obj,
    parseLedgerEntry (of_xml (XNode kids)) = inr (VObj parsed)
    /\ get (VObj parsed) "amount"
       = or (VNum (Num.mul (Num.parseFloat_string text)
                     (if is_text (get (of_xml (XNode kids)) "ISDEEMEDPOSITIVE") "No"
                      then minus_one else one)))
            (VNum zero).
Proof.
  intros HA.
  unfold parseLedgerEntry.
  change (of_xml (XNode kids)) with (VObj (map (fun kv : string * xml => let (k, v) := kv in (k, of_xml v)) kids)).
  rewrite !getM_VObj. cbn [bind].
  change (VObj (map (fun kv : string * xml => let (k, v) := kv in (k, of_xml v)) kids)) with (of_xml (XNode kids)).
  set (bill := get (of_xml (XNode kids)) "BILLALLOCATIONS.LIST").
  assert (HB : forall k d, exists x,
               (if truthy bill then getM bill k else ret d) = inr x).
  { intros k d. destruct (truthy bill) eqn:T.
    - rewrite getM_truthy by exact T. eauto.
    - eauto. }
  destruct (HB "NAME" (VStr EmptyString)) as [billName ->].
  destruct (HB "BILLTYPE" (VStr EmptyString)) as [billType ->].
  cbn [bind ret].
  eexists. split; [reflexivity|].
  cbn [get lookup String.eqb Ascii.eqb Bool.eqb].
  rewrite (get_of_xml kids "AMOUNT"), HA. reflexivity.
Qed.

(** The entry parser, on any node that carries the text of [|a|] as its
    amount: with the flag that the builder writes for [a] it gives [a]
    back, and with any flag other than ['No'], or none, it gives [|a|]. *)
Lemma node_amount_signed (a : Num.number) (kids : list (string * xml)) :
  Num.valid a = true -> Num.is_nan a = false -> Num.is_zero a = false ->
  lookup "AMOUNT" kids = Some (XText (Num.toString (Num.abs a))) ->
  lookup "ISDEEMEDPOSITIVE" kids
  = Some (XText (if Num.gt a (S754_zero false) then "Yes" else "No")) ->
  exists parsed : obj,
    parseLedgerEntry (of_xml (XNode kids)) = inr (VObj parsed)
    /\ get (VObj parsed) "amount" = VNum a.
Proof.
  intros V N Z0 Hamount Hflag.
  assert (RT : Num.parseFloat_string (Num.toString (Num.abs a)) = Num.abs a)
    by now apply parse_toString_abs.
  assert (Ta : truthy (VNum a) = true) by (cbn [truthy]; now rewrite N, Z0).
  destruct (parseLedgerEntry_amount kids _ Hamount) as [parsed [P G]].
  exists parsed. split; [exact P|].
  rewrite G, RT.
  rewrite (get_of_xml kids "ISDEEMEDPOSITIVE"), Hflag. cbn [of_xml].
  replace (if is_text (VStr (if Num.gt a (S754_zero false) then "Yes" else "No")) "No"
           then minus_one else one)
    with (if Num.gt a (S754_zero false)
          then S754_finite false two52 (-52)
          else S754_finite true two52 (-52))
    by (destruct (Num.gt a (S754_zero false)); reflexivity).
  rewrite abs_times_sign by assumption.
  apply or_truthy, Ta.
Qed.

Lemma node_amount_positive (a : Num.number) (kids : list (string * xml)) :
  Num.valid a = true -> Num.is_nan a = false -> Num.is_zero a = false ->
  lookup "AMOUNT" kids = Some (XText (Num.toString (Num.abs a))) ->
  lookup "ISDEEMEDPOSITIVE" kids <> Some (XText "No") ->
  exists parsed : obj,
    parseLedgerEntry (of_xml (XNode kids)) = inr (VObj parsed)
    /\ get (VObj parsed) "amount" = VNum (Num.abs a).
Proof.
  intros V N Z0 Hamount Hflag.
  assert (RT : Num.parseFloat_string (Num.toString (Num.abs a)) = Num.abs a)
    by now apply parse_toString_abs.
  destruct (parseLedgerEntry_amount kids _ Hamount) as [parsed [P G]].
  exists parsed. split; [exact P|].
  rewrite G, RT.
  assert (F : is_text (get (of_xml (XNode kids)) "ISDEEMEDPOSITIVE") "No" = false).
  { rewrite get_of_xml.
    destruct (lookup "ISDEEMEDPOSITIVE" kids) as [[s|c|l]|] eqn:E; try reflexivity.
    cbn [of_xml is_text].
    destruct (String.eqb s "No") eqn:S; [|reflexivity].
    apply String.eqb_eq in S. subst s. now elim Hflag. }
  rewrite F.
  change one with (S754_finite false two52 (-52)).
  rewrite abs_times_one by assumption.
  apply or_truthy.
  destruct a; try discriminate; reflexivity.
Qed.

Example credit_of_10000 :
  Num.lit "-10000" = S754_finite true 5497558138880000 (-39)
  /\ ledgerEntryXml plainEngine
       (VObj [("ledgerName", VStr "Sales"); ("amount", VNum (Num.lit "-10000"))])
     = inr (ledgerEntryTemplate "Sales" "No" "10000" EmptyString "New Ref").
Proof. split; vm_compute; reflexivity. Qed.

(** NaN is no amount: the builder writes it as [NaN], and the parser reads
    0 from that text. *)
Example nan_reads_as_zero :
  exists parsed : obj,
    parseLedgerEntry
      (of_xml (XNode [("LEDGERNAME", XText "A");
                      ("ISDEEMEDPOSITIVE", XText "No");
                      ("AMOUNT", XText (Num.toString (Num.abs Num.NaN)))]))
    = inr (VObj parsed)
    /\ get (VObj parsed) "amount" = VNum zero.
Proof. eexists. split; vm_compute; reflexivity. Qed.

End EntryAmount.

(* ===================================================================== *)
(** * Error responses: a tag without text *)
(* ===================================================================== *)

Module RemoteError.

Import Js Str Spec TallyConnector Interp JsFacts.

(** When the response carries no text in its [ERROR] and [LINEERROR] tags
    (or has none of the two), parsing resolves. *)
Lemma parseResponse_resolves (raw : string) (tree : xml) :
  truthy (get (responseBody tree) "ERROR") = false ->
  truthy (get (responseBody tree) "LINEERROR") = false ->
  _parseResponse raw (inr tree)
  = inr (VObj [("success", VBool true); ("data", of_xml tree); ("rawXml", VStr raw)]).
Proof.
  intros E L. unfold _parseResponse, responseBody in *.
  rewrite !getM_defined by auto with js. cbn [bind].
  rewrite !getM_defined by auto with js. cbn [bind].
  rewrite !getM_defined by auto with js. cbn [bind].
  rewrite (or_falsy _ _ E), L. reflexivity.
Qed.


End RemoteError.

(* ===================================================================== *)
(** * The interpreters on a parsed response *)
(* ===================================================================== *)

Module Defaults.

Import Js Str Spec TallyConnector Interp JsFacts.

Lemma fromXml_defined (v : value) : fromXml v -> defined v = true.
Proof. intros [t ->]. apply defined_of_xml. Qed.

Lemma get_fromXml (v : value) (k : string) :
  fromXml v -> get v k = VUndef \/ fromXml (get v k).
Proof. intros [t ->]. apply get_of_xml_cases. Qed.

Lemma or_fromXml (a b : value) :
  a = VUndef \/ fromXml a -> fromXml b -> fromXml (or a b).
Proof.
  intros [->|H] B; [exact B|].
  unfold or. destruct (truthy a); assumption.
Qed.

Lemma responseBody_fromXml (tree : xml) : fromXml (responseBody tree).
Proof.
  unfold responseBody.
  assert (E : fromXml (or (get (of_xml tree) "ENVELOPE") (of_xml tree))).
  { apply or_fromXml; [apply get_of_xml_cases | now exists tree]. }
  apply or_fromXml; [now apply get_fromXml | exact E].
Qed.

Lemma bodyOf_tree (tree : xml) : bodyOf (of_xml tree) = inr (responseBody tree).
Proof.
  unfold bodyOf, responseBody.
  rewrite !getM_defined by auto with js. cbn [bind].
  rewrite !getM_defined by auto with js. reflexivity.
Qed.

Lemma requestDataOf_tree (tree : xml) :
  requestDataOf (responseBody tree) = inr (requestData tree).
Proof.
  unfold requestDataOf, requestData.
  rewrite getM_defined by (apply fromXml_defined, responseBody_fromXml).
  cbn [bind]. unfold and.
  destruct (truthy (get (responseBody tree) "EXPORTDATA")) eqn:T; [|reflexivity].
  now rewrite getM_defined by auto with js.
Qed.

Lemma requestData_truthy (tree : xml) :
  truthy (requestData tree) = true ->
  truthy (get (responseBody tree) "EXPORTDATA") = true
  /\ truthy (get (get (responseBody tree) "EXPORTDATA") "REQUESTDATA") = true.
Proof.
  unfold requestData, and.
  destruct (truthy (get (responseBody tree) "EXPORTDATA")) eqn:T; [now split|].
  intros H. rewrite H in T. discriminate.
Qed.

Lemma tallyMessageOf_tree (tree : xml) :
  truthy (requestData tree) = true ->
  tallyMessageOf (responseBody tree) (VObj []) = inr (payload tree).
Proof.
  intros H. destruct (requestData_truthy tree H) as [T1 T2].
  unfold tallyMessageOf, payload.
  rewrite getM_defined by (apply fromXml_defined, responseBody_fromXml). cbn [bind].
  rewrite getM_defined by auto with js. cbn [bind].
  rewrite getM_defined by auto with js. reflexivity.
Qed.

Lemma payload_shape (tree : xml) : payload tree = VObj [] \/ fromXml (payload tree).
Proof.
  unfold payload, or.
  set (m := get (get (get (responseBody tree) "EXPORTDATA") "REQUESTDATA") "TALLYMESSAGE").
  destruct (truthy m) eqn:T; [right | now left].
  pose proof (responseBody_fromXml tree) as B.
  destruct (get_fromXml _ "EXPORTDATA" B) as [E|E].
  { unfold m in T. rewrite E in T. discriminate T. }
  destruct (get_fromXml _ "REQUESTDATA" E) as [R|R].
  { unfold m in T. rewrite R in T. discriminate T. }
  destruct (get_fromXml _ "TALLYMESSAGE" R) as [M|M]; [|exact M].
  fold m in M. rewrite M in T. discriminate T.
Qed.

Lemma payload_defined (tree : xml) : defined (payload tree) = true.
Proof. unfold payload. auto with js. Qed.

Lemma floatOrZero_undefined : floatOrZero VUndef = S754_zero false.
Proof. vm_compute. reflexivity. Qed.

(** ** The ledger *)

Lemma parseLedgerResponse_tree (tree : xml) :
  LedgerService._parseLedgerResponse (of_xml tree)
  = inr (if truthy (requestData tree) then ledgerOf (payload tree) else VObj []).
Proof.
  unfold LedgerService._parseLedgerResponse.
  rewrite bodyOf_tree. cbn [bind]. rewrite requestDataOf_tree. cbn [bind].
  destruct (truthy (requestData tree)) eqn:T; [|reflexivity].
  rewrite tallyMessageOf_tree by exact T. cbn [bind].
  rewrite !getM_defined by apply payload_defined. reflexivity.
Qed.

Lemma ledgerOf_defaults (node : value) :
  defaultsWhereMissing ledgerFields node (ledgerOf node).
Proof.
  unfold defaultsWhereMissing, ledgerFields.
  repeat constructor; intros H; cbn [getPath fold_left ledgerOf get lookup String.eqb Ascii.eqb Bool.eqb];
    rewrite H; reflexivity.
Qed.

(** ** The stock item *)

Lemma parseStockItemResponse_tree (tree : xml) :
  StockItemService._parseStockItemResponse (of_xml tree)
  = inr (if truthy (requestData tree) then stockItemOf (payload tree) else VObj []).
Proof.
  unfold StockItemService._parseStockItemResponse.
  rewrite bodyOf_tree. cbn [bind]. rewrite requestDataOf_tree. cbn [bind].
  destruct (truthy (requestData tree)) eqn:T; [|reflexivity].
  rewrite tallyMessageOf_tree by exact T. cbn [bind].
  rewrite !getM_defined by apply payload_defined. reflexivity.
Qed.

Lemma stockItemOf_defaults (node : value) :
  defaultsWhereMissing stockItemFields node (stockItemOf node).
Proof.
  unfold defaultsWhereMissing, stockItemFields.
  repeat constructor; intros H; cbn [getPath fold_left stockItemOf get lookup String.eqb Ascii.eqb Bool.eqb];
    rewrite H; try rewrite floatOrZero_undefined; reflexivity.
Qed.

(** ** The entries of a voucher *)

Lemma parseLedgerEntry_defined (node : value) :
  defined node = true -> VoucherService.parseLedgerEntry node = inr (entryOf node).
Proof.
  intros D. unfold VoucherService.parseLedgerEntry, entryOf.
  rewrite !getM_defined by exact D. cbn [bind].
  destruct (truthy (get node "BILLALLOCATIONS.LIST")) eqn:T.
  - rewrite !getM_defined by auto with js. reflexivity.
  - reflexivity.
Qed.

Lemma entryOf_defaults (node : value) :
  defaultsWhereMissing entryFields node (entryOf node).
Proof.
  unfold defaultsWhereMissing, entryFields.
  repeat constructor; intros H; unfold entryOf;
    cbn [getPath fold_left get lookup String.eqb Ascii.eqb Bool.eqb];
    rewrite ?H; reflexivity.
Qed.

Lemma mapM_entries_defined (nodes : list value) :
  Forall (fun node => defined node = true) nodes ->
  mapM VoucherService.parseLedgerEntry nodes = inr (map entryOf nodes).
Proof.
  induction 1 as [|node rest D _ IH]; cbn [mapM map]; [reflexivity|].
  rewrite (parseLedgerEntry_defined node D), IH. reflexivity.
Qed.

Lemma asArray_defined (v : value) :
  v = VArr [] \/ fromXml v -> Forall (fun node => defined node = true) (asArray v).
Proof.
  intros [->|[t ->]]; [constructor|].
  destruct t as [s|kids|items]; cbn [of_xml asArray]; try (repeat constructor).
  apply Forall_forall. intros x I. apply in_map_iff in I as [t [<- _]].
  apply defined_of_xml.
Qed.

Lemma parseLedgerEntries_tree (v : value) :
  v = VArr [] \/ fromXml v ->
  VoucherService._parseLedgerEntries v = inr (VArr (map entryOf (asArray v))).
Proof.
  intros H. unfold VoucherService._parseLedgerEntries.
  rewrite (mapM_entries_defined _ (asArray_defined v H)). reflexivity.
Qed.

Lemma parseVoucherResponse_tree (tree : xml) :
  succeeds (VoucherService._parseVoucherResponse (of_xml tree)) = true.
Proof.
  unfold VoucherService._parseVoucherResponse.
  rewrite bodyOf_tree. cbn [bind]. rewrite requestDataOf_tree. cbn [bind].
  destruct (truthy (requestData tree)) eqn:T; [|reflexivity].
  rewrite tallyMessageOf_tree by exact T. cbn [bind].
  rewrite !getM_defined by apply payload_defined. cbn [bind].
  rewrite parseLedgerEntries_tree; [reflexivity|].
  destruct (payload_shape tree) as [->|P]; [left; reflexivity|].
  destruct (get_fromXml _ "LEDGERENTRIES.LIST" P) as [->|E]; [left; reflexivity|].
  right. apply or_fromXml; [now right|].
  exists (XList []). reflexivity.
Qed.

(** A bill allocation without a [NAME] tag: the bill name of the entry is
    [undefined], there being no default on this path of the entry
    parser. *)
Example bill_name_without_default :
  VoucherService.parseLedgerEntry
    (of_xml (XNode [("LEDGERNAME", XText "Sales");
                    ("BILLALLOCATIONS.LIST", XNode [("BILLTYPE", XText "New Ref")])]))
  = inr (VObj [("ledgerName", VStr "Sales");
               ("amount", VNum (S754_zero false));
               ("billName", VUndef);
               ("billType", VStr "New Ref")]).
Proof. vm_compute. reflexivity. Qed.

End Defaults.

(* ===================================================================== *)
(** * Escaping (C5) *)
(* ===================================================================== *)

Module EscapeXml.

Import Js Str Spec StrFacts XmlBuilder.

Lemma escapeXml_string_cons (c : ascii) (r : string) :
  escapeXml_string (String c r) = entity c ++ escapeXml_string r.
Proof.
  unfold escapeXml_string, entity.
  cbn [replaceAll].
  destruct (Ascii.eqb c "&"%char) eqn:Eamp.
  { rewrite !replaceAll_append. reflexivity. }
  cbn [replaceAll].
  destruct (Ascii.eqb c "<"%char) eqn:Elt.
  { rewrite !replaceAll_append. reflexivity. }
  cbn [replaceAll].
  destruct (Ascii.eqb c ">"%char) eqn:Egt.
  { rewrite !replaceAll_append. reflexivity. }
  cbn [replaceAll].
  destruct (Ascii.eqb c dq_char) eqn:Edq.
  { rewrite !replaceAll_append. reflexivity. }
  cbn [replaceAll].
  destruct (Ascii.eqb c "'"%char) eqn:Eap; reflexivity.
Qed.

(** The five successive replacements amount to one pass that maps each
    character to its entity. *)
Lemma escapeXml_string_escaped (s : string) : escapeXml_string s = escaped s.
Proof.
  induction s as [|c r IH]; [reflexivity|].
  rewrite escapeXml_string_cons, IH. reflexivity.
Qed.

Lemma startsWith_amp_false (c : ascii) (p r : string) :
  Ascii.eqb c "&"%char = false -> startsWith (String "&"%char p) (String c r) = false.
Proof.
  intros H. cbn [startsWith]. rewrite Ascii.eqb_sym, H. reflexivity.
Qed.

Lemma unescape_entity (c : ascii) (r : string) :
  unescape_from 0 (entity c ++ r) = String c (unescape_from 0 r).
Proof.
  unfold entity.
  destruct (Ascii.eqb c "&"%char) eqn:Eamp.
  { apply Ascii.eqb_eq in Eamp; subst c. reflexivity. }
  destruct (Ascii.eqb c "<"%char) eqn:Elt.
  { apply Ascii.eqb_eq in Elt; subst c. reflexivity. }
  destruct (Ascii.eqb c ">"%char) eqn:Egt.
  { apply Ascii.eqb_eq in Egt; subst c. reflexivity. }
  destruct (Ascii.eqb c dq_char) eqn:Edq.
  { apply Ascii.eqb_eq in Edq; subst c. reflexivity. }
  destruct (Ascii.eqb c "'"%char) eqn:Eap.
  { apply Ascii.eqb_eq in Eap; subst c. reflexivity. }
  change (String c EmptyString ++ r) with (String c r).
  cbn [unescape_from].
  rewrite !startsWith_amp_false by assumption. reflexivity.
Qed.

Lemma unescape_escaped (s : string) : unescapeXml (escaped s) = s.
Proof.
  unfold unescapeXml.
  induction s as [|c r IH]; [reflexivity|].
  cbn [escaped]. rewrite unescape_entity, IH. reflexivity.
Qed.

(** The order matters: with the ampersand replaced last, the ampersand of
    an entity written by an earlier replacement would be escaped again. *)
Example ampersand_last_escapes_twice :
  replaceAll "&"%char "&amp;" (replaceAll "<"%char "&lt;" "a<b") = "a&amp;lt;b"
  /\ escapeXml_string "a<b" = "a&lt;b".
Proof. split; reflexivity. Qed.

Example escapeXml_five :
  escapeXml (VStr ("Tom & <Jerry> " ++ dq ++ "x" ++ dq ++ " 'y'"))
  = VStr "Tom &amp; &lt;Jerry&gt; &quot;x&quot; &apos;y&apos;".
Proof. reflexivity. Qed.

(** C5.  [escapeXml] turns each of the five reserved characters of a
    string into its entity and leaves every other character as it is: its
    five successive replacements, the ampersand first, amount to one pass
    ([escaped]), so no ampersand written by a later replacement is escaped
    again.  A value that is not a string is returned unchanged.  Decoding
    the entities of the output gives the input back, for every string. *)
Theorem escapeXml_spec :
  (forall s : string, escapeXml (VStr s) = VStr (escaped s))
  /\ (forall v : value,
         match v with
         | VStr _ => True
         | _ => escapeXml v = v
         end)
  /\ (forall s : string, unescapeXml (escapeXml_string s) = s).
Proof.
  split; [|split].
  - intros s. cbn [escapeXml]. now rewrite escapeXml_string_escaped.
  - intros v; destruct v; cbn; auto.
  - intros s. rewrite escapeXml_string_escaped. apply unescape_escaped.
Qed.

End EscapeXml.

(* ===================================================================== *)
(** * Dates (C6) *)
(* ===================================================================== *)

Module FormatDate.

Import Js Str Spec StrFacts XmlBuilder.

Lemma below_forall (P : nat -> bool) (n : nat) :
  forallb P (seq 0 n) = true -> forall k, k < n -> P k = true.
Proof.
  intros H k Hk. rewrite forallb_forall in H. apply H, in_seq. lia.
Qed.

Lemma day_text (d : nat) :
  d < 32 ->
  padStart 2 "0"%char (Num.Z_toString (Z.of_nat d)) = twoDigits d
  /\ dayOfDigits (twoDigits d) = d.
Proof.
  intros H.
  assert (G : (String.eqb (padStart 2 "0"%char (Num.Z_toString (Z.of_nat d))) (twoDigits d)
               && Nat.eqb (dayOfDigits (twoDigits d)) d) = true).
  { revert d H. apply below_forall. vm_compute. reflexivity. }
  apply andb_true_iff in G as [G1 G2].
  apply String.eqb_eq in G1. apply Nat.eqb_eq in G2. now split.
Qed.

Lemma month_text_abbreviation (m : nat) :
  m < 12 ->
  nth m months "undefined" = abbreviation m
  /\ monthOfAbbreviation (abbreviation m) = m
  /\ length (abbreviation m) = 3.
Proof.
  intros H.
  assert (G : (String.eqb (nth m months "undefined") (abbreviation m)
               && Nat.eqb (monthOfAbbreviation (abbreviation m)) m
               && Nat.eqb (length (abbreviation m)) 3) = true).
  { revert m H. apply below_forall. vm_compute. reflexivity. }
  apply andb_true_iff in G as [G G3]. apply andb_true_iff in G as [G1 G2].
  apply String.eqb_eq in G1. apply Nat.eqb_eq in G2. apply Nat.eqb_eq in G3.
  now repeat split.
Qed.

Lemma four_digit_years (y : Z) :
  (1000 <= y <= 9999)%Z -> length (Num.Z_toString y) = 4.
Proof.
  intros H.
  assert (G : forallb (fun k => Nat.eqb (length (Num.Z_toString (Z.of_nat k + 1000))) 4)
                (seq 0 (Z.to_nat 9000)) = true)
    by (vm_compute; reflexivity).
  pose proof (below_forall _ _ G (Z.to_nat (y - 1000))) as K.
  cbv beta in K. rewrite Z2Nat.id in K by lia.
  replace (y - 1000 + 1000)%Z with y in K by lia.
  apply Nat.eqb_eq, K. lia.
Qed.

Lemma daysIn_le (y : Z) (m : nat) : daysIn y m <= 31.
Proof.
  unfold daysIn.
  destruct m as [|[|[|[|[|[|[|[|[|[|[|m]]]]]]]]]]]; try lia.
  destruct (leap y); lia.
Qed.

Lemma formatDate_Date (rt : runtime) (y : Z) (m d : nat) (shown : string) :
  calendarDate y m d ->
  formatDate rt (VDate (Date y m d shown))
  = twoDigits d ++ "-" ++ abbreviation m ++ "-" ++ Num.Z_toString y.
Proof.
  intros [Hm [Hd1 Hd2]].
  pose proof (daysIn_le y m).
  unfold formatDate.
  cbn [newDate getDate getMonth getFullYear int_toString month_text].
  destruct (day_text d) as [-> _]; [lia|].
  destruct (month_text_abbreviation m Hm) as [-> _].
  reflexivity.
Qed.

Lemma take_abbreviation (m : nat) (r : string) :
  m < 12 -> take 3 (abbreviation m ++ r) = abbreviation m.
Proof.
  intros H.
  do 12 (destruct m as [|m]; [reflexivity|]). lia.
Qed.

Lemma formatDate_parts (d d' m m' : nat) (r r' : string) :
  m < 12 -> m' < 12 ->
  twoDigits d ++ "-" ++ abbreviation m ++ r
  = twoDigits d' ++ "-" ++ abbreviation m' ++ r' ->
  twoDigits d = twoDigits d' /\ abbreviation m = abbreviation m'.
Proof.
  intros Hm Hm' E.
  assert (K : forall n s, take 2 (twoDigits n ++ s) = twoDigits n) by reflexivity.
  assert (L : forall n s, drop 3 (twoDigits n ++ "-" ++ s) = s) by reflexivity.
  split.
  - apply (f_equal (take 2)) in E. now rewrite !K in E.
  - apply (f_equal (drop 3)) in E. rewrite !L in E.
    apply (f_equal (take 3)) in E. now rewrite !take_abbreviation in E.
Qed.

Example formatDate_5_September_2023 :
  formatDate plainEngine (VDate (Date 2023 8 5 "Tue Sep 05 2023")) = "05-Sep-2023".
Proof. reflexivity. Qed.

(** A value from which the engine reads no date is formatted all the
    same: the three fields are NaN, [undefined] and NaN. *)
Example formatDate_invalid :
  formatDate plainEngine (VStr "no date") = "NaN-undefined-NaN".
Proof. reflexivity. Qed.

(** C6, as the code has it.  For every calendar date, [formatDate] gives
    the day on two digits (a zero in front of the days below ten), a
    hyphen, the three-letter abbreviation of the month, a hyphen, and the
    year as the decimal numeral of [getFullYear()], which has four digits
    for the years 1000 to 9999; and two calendar dates of one year that are
    formatted alike are the same day of the same month. *)
Theorem formatDate_calendar (rt : runtime) (y : Z) (m d : nat) (shown : string) :
  calendarDate y m d ->
  formatDate rt (VDate (Date y m d shown))
  = twoDigits d ++ "-" ++ abbreviation m ++ "-" ++ Num.Z_toString y
  /\ length (twoDigits d) = 2
  /\ length (abbreviation m) = 3
  /\ ((1000 <= y <= 9999)%Z ->
      dayMonthYear (formatDate rt (VDate (Date y m d shown))) d m)
  /\ (forall (m' d' : nat) (shown' : string),
         calendarDate y m' d' ->
         formatDate rt (VDate (Date y m' d' shown'))
         = formatDate rt (VDate (Date y m d shown)) ->
         m' = m /\ d' = d).
Proof.
  intros H.
  pose proof (formatDate_Date rt y m d shown H) as F.
  destruct H as [Hm [Hd1 Hd2]].
  pose proof (daysIn_le y m) as Hle.
  repeat split.
  - exact F.
  - apply month_text_abbreviation, Hm.
  - intros Hy. exists (Num.Z_toString y). split; [now apply four_digit_years | exact F].
  - rewrite F in H0. rewrite (formatDate_Date rt y m' d' shown' H) in H0.
    destruct H as [Hm' _].
    apply formatDate_parts in H0 as [_ E]; try assumption.
    apply (f_equal monthOfAbbreviation) in E.
    destruct (month_text_abbreviation m Hm) as (_ & <- & _).
    destruct (month_text_abbreviation m' Hm') as (_ & <- & _).
    exact E.
  - rewrite F in H0. rewrite (formatDate_Date rt y m' d' shown' H) in H0.
    destruct H as [Hm' [Hd1' Hd2']].
    pose proof (daysIn_le y m') as Hle'.
    apply formatDate_parts in H0 as [E _]; try assumption.
    apply (f_equal dayOfDigits) in E.
    destruct (day_text d) as [_ <-]; [lia|].
    destruct (day_text d') as [_ <-]; [lia|].
    exact E.
Qed.

Lemma formatDate_calendar_witness :
  formatDate plainEngine (VDate (Date 2023 8 5 "Tue Sep 05 2023")) = "05-Sep-2023".
Proof.
  refine (proj1 (formatDate_calendar plainEngine 2023 8 5 "Tue Sep 05 2023" _)).
  unfold calendarDate. simpl. lia.
Defined.

(** C6, as the specification states it, fails on the year: the first of
    January of the year 10000 is a calendar date (a [Date] reaches the year
    275760), and its year cannot be written on four digits. *)
Lemma formatDate_year_10000 :
  calendarDate 10000 0 1
  /\ formatDate plainEngine (VDate (Date 10000 0 1 "Sat Jan 01 10000")) = "01-Jan-10000"
  /\ ~ dayMonthYear (formatDate plainEngine (VDate (Date 10000 0 1 "Sat Jan 01 10000"))) 1 0.
Proof.
  split; [|split].
  - unfold calendarDate. simpl. lia.
  - reflexivity.
  - intros [yyyy [L E]].
    change (formatDate plainEngine (VDate (Date 10000 0 1 "Sat Jan 01 10000")))
      with ("01-Jan-" ++ "10000") in E.
    change (twoDigits 1 ++ "-" ++ abbreviation 0 ++ "-" ++ yyyy)
      with ("01-Jan-" ++ yyyy) in E.
    cbn [append] in E.
    injection E as <-. discriminate L.
Qed.

(** Before the year 1000 the year is not padded, unlike the day: the
    first of January of the year 999 is formatted with a year of three
    digits, where the comment on [formatDate] announces [DD-MMM-YYYY]. *)
Example formatDate_year_999 :
  calendarDate 999 0 1
  /\ formatDate plainEngine (VDate (Date 999 0 1 "Tue Jan 01 0999")) = "01-Jan-999".
Proof.
  split.
  - unfold calendarDate. simpl. lia.
  - reflexivity.
Qed.

End FormatDate.

(* ===================================================================== *)
(** * Updates: the alter directive (C7) *)
(* ===================================================================== *)

(** Where a directive can occur in a message: the scan of the pieces of
    a template is right about every message made from it. *)

Module Scan.

Import Str Spec StrFacts.

Lemma startsWith_take (p a r : string) :
  startsWith p (a ++ r) = true -> startsWith (take (length a) p) a = true.
Proof.
  revert p. induction a as [|c a IH]; intros p H; [reflexivity|].
  destruct p as [|x p]; [reflexivity|].
  cbn [append startsWith length take] in H |- *.
  apply andb_true_iff in H as [E H]. rewrite E. now apply IH.
Qed.

Lemma includes_clear (pat lit r : string) :
  clear pat lit = true -> includes pat (lit ++ r) = includes pat r.
Proof.
  induction lit as [|c l IH]; intros C; [reflexivity|].
  cbn [clear] in C. apply andb_true_iff in C as [N C].
  cbn [append includes].
  destruct (startsWith pat (String c (l ++ r))) eqn:S; [|now apply IH].
  apply (startsWith_take pat (String c l) r) in S.
  rewrite S in N. discriminate N.
Qed.

(** An occurrence that begins in a text without double quotes and does
    not end in it: how far into the pattern the text reaches. *)
Lemma hole_match (h pat r : string) :
  free dq_char h = true -> free dq_char pat = false ->
  startsWith pat (h ++ r) = true ->
  free dq_char (take (length h) pat) = true
  /\ free dq_char (drop (length h) pat) = false
  /\ startsWith (drop (length h) pat) r = true
  /\ length h <= length pat.
Proof.
  revert pat. induction h as [|c h IH]; intros pat F P S.
  - cbn [length take drop append free] in *. repeat split; auto. apply Nat.le_0_l.
  - destruct pat as [|x pat]; [discriminate P|].
    cbn [append startsWith] in S. apply andb_true_iff in S as [E S].
    apply Ascii.eqb_eq in E. subst x.
    cbn [free] in F, P. apply andb_true_iff in F as [Fc F].
    rewrite Fc in P. cbn [andb] in P.
    destruct (IH pat F P S) as [A [B [C D]]].
    cbn [length take drop free]. rewrite Fc, A.
    repeat split; auto. now apply le_n_S.
Qed.

Lemma hole_start (pat h lit r : string) :
  free dq_char pat = false -> free dq_char h = true -> h <> EmptyString ->
  shut pat lit = true ->
  startsWith pat (h ++ lit ++ r) = false.
Proof.
  intros P F N Sh.
  destruct (startsWith pat (h ++ lit ++ r)) eqn:S; [|reflexivity].
  destruct (hole_match h pat (lit ++ r) F P S) as [A [B [C D]]].
  unfold shut in Sh. rewrite forallb_forall in Sh.
  assert (I : In (length h) (seq 1 (length pat))).
  { apply in_seq. destruct h; [now elim N|]. cbn [length] in *. lia. }
  specialize (Sh _ I). rewrite A, B in Sh. cbn [negb orb] in Sh.
  apply startsWith_take in C. rewrite C in Sh. discriminate Sh.
Qed.

Lemma includes_hole (pat h lit r : string) :
  free dq_char pat = false -> free dq_char h = true -> shut pat lit = true ->
  includes pat (h ++ lit ++ r) = includes pat (lit ++ r).
Proof.
  intros P F Sh. induction h as [|c h IH]; [reflexivity|].
  cbn [append includes].
  change (String c (h ++ lit ++ r)) with (String c h ++ lit ++ r).
  rewrite (hole_start pat (String c h) lit r P F) by (discriminate || exact Sh).
  cbn [free] in F. apply andb_true_iff in F as [_ F]. now apply IH.
Qed.

Lemma weave_head (piece : string) (rest : list (string * string)) :
  exists r, weave piece rest = piece ++ r.
Proof.
  destruct rest as [|[text next] rest]; cbn [weave].
  - exists EmptyString. now rewrite append_nil_r.
  - eauto.
Qed.

(** The scan of the pieces is right about every template made of them. *)
Lemma scan_sound (pat : string) (rest : list (string * string)) (piece : string) :
  free dq_char pat = false ->
  quoteFree (map fst rest) ->
  scan pat piece (map snd rest) = true ->
  includes pat (weave piece rest) = false.
Proof.
  intros P. revert piece.
  induction rest as [|[text next] rest IH]; intros piece Q S; cbn [map fst snd scan weave] in *.
  - now destruct (includes pat piece).
  - apply andb_true_iff in S as [S S3]. apply andb_true_iff in S as [S1 S2].
    inversion Q as [|? ? F Q']; subst.
    rewrite (includes_clear pat piece _ S1).
    destruct (weave_head next rest) as [r E].
    rewrite E, (includes_hole pat text next r P F S2), <- E.
    now apply IH.
Qed.

Lemma replace_absent (pat rep s : string) :
  includes pat s = false -> replace pat rep s = s.
Proof.
  induction s as [|c s IH]; intros H.
  - cbn [includes replace] in *. destruct (startsWith pat EmptyString); [discriminate | reflexivity].
  - cbn [includes replace] in *.
    destruct (startsWith pat (String c s)); [discriminate|]. now rewrite IH.
Qed.

Import Js XmlBuilder.

Lemma free_append (c : ascii) (a b : string) :
  free c (a ++ b) = free c a && free c b.
Proof.
  induction a as [|x r IH]; cbn [append free]; [reflexivity|].
  now rewrite IH, andb_assoc.
Qed.

(** Neither directive occurs in the stock item template, whatever the
    texts without double quotes that are put into it. *)
Lemma stockItemTemplate_scan (pat name parent alias baseUnits openingBalanceXml : string) :
  quoteFree [name; parent; alias; baseUnits; openingBalanceXml] ->
  pat = Action.create \/ pat = Action.alter ->
  includes pat (stockItemTemplate name parent alias baseUnits openingBalanceXml) = false.
Proof.
  intros Q Hp.
  pose (p := pieces mark (stockItemTemplate marked marked marked marked marked)).
  assert (E : stockItemTemplate name parent alias baseUnits openingBalanceXml
              = weave (fst p)
                  (combine [name; parent; alias; baseUnits; openingBalanceXml] (snd p)))
    by (vm_compute; reflexivity).
  rewrite E. apply scan_sound.
  - destruct Hp as [-> | ->]; reflexivity.
  - exact Q.
  - destruct Hp as [-> | ->]; vm_compute; reflexivity.
Qed.

Lemma buildStockItemXml_scan (stockData : obj) (pat : string) :
  quoteFree (stockItemTexts stockData) ->
  pat = Action.create \/ pat = Action.alter ->
  includes pat (buildStockItemXml stockData) = false.
Proof.
  intros Q Hp.
  unfold quoteFree, stockItemTexts in Q. cbv zeta in Q.
  apply Forall_cons_iff in Q as [F1 Q]. apply Forall_cons_iff in Q as [F2 Q].
  apply Forall_cons_iff in Q as [F3 Q]. apply Forall_cons_iff in Q as [F4 Q].
  apply Forall_cons_iff in Q as [F5 Q]. apply Forall_cons_iff in Q as [F6 Q].
  apply Forall_cons_iff in Q as [F7 _].
  unfold buildStockItemXml. cbv zeta.
  apply stockItemTemplate_scan; [|exact Hp].
  repeat (constructor; [assumption|]).
  constructor; [|constructor].
  destruct (truthy (get (VObj stockData) "openingBalance")); [|reflexivity].
  unfold openingStockTemplate.
  rewrite !free_append, F5, F6, F7. reflexivity.
Qed.

End Scan.

(** The ledger and the voucher: the first create directive of the
    message is the [ACTION] attribute of the element. *)

Module UpdateFacts.

Import Js Str Spec StrFacts TallyConnector JsFacts XmlBuilder Scan.

(** The requests of a call: the first one, and then those of what
    follows its reply. *)
Lemma run_Post {A : Type} (x : string) (k : reply -> io A) (r : reply) (rest : list reply) :
  fst (run (Post x k) (r :: rest)) = x :: fst (run (k r) rest).
Proof. cbn [run]. now destruct (run (k r) rest). Qed.

Lemma free_entity (c : ascii) : free dq_char (entity c) = true.
Proof.
  unfold entity.
  destruct (Ascii.eqb c "&"%char); [reflexivity|].
  destruct (Ascii.eqb c "<"%char); [reflexivity|].
  destruct (Ascii.eqb c ">"%char); [reflexivity|].
  destruct (Ascii.eqb c dq_char) eqn:D; [reflexivity|].
  destruct (Ascii.eqb c "'"%char); [reflexivity|].
  cbn [free]. rewrite Ascii.eqb_sym, D. reflexivity.
Qed.

Lemma free_escaped (s : string) : free dq_char (escaped s) = true.
Proof.
  induction s as [|c r IH]; [reflexivity|].
  cbn [escaped]. now rewrite free_append, free_entity, IH.
Qed.

(** Inside an attribute value without double quotes, followed by its
    closing quote and a space, the create directive does not start. *)
Lemma no_directive_in_value (e rest : string) :
  free dq_char e = true ->
  startsWith Action.create (e ++ String dq_char (String " "%char rest)) = false.
Proof.
  intros F.
  destruct e as [|c0 [|c1 [|c2 [|c3 [|c4 [|c5 [|c6 [|c7 e]]]]]]]];
    cbn [free] in F; cbn [Action.create append startsWith dq];
    repeat match goal with
           | |- context [Ascii.eqb ?a ?b] =>
               lazymatch b with
               | Ascii _ _ _ _ _ _ _ _ => fail
               | _ => let E := fresh "E" in destruct (Ascii.eqb a b) eqn:E
               end
           end;
    try reflexivity.
  (* eight characters or more: the eighth would be a double quote *)
  repeat (apply andb_true_iff in F; destruct F as [? F]).
  match goal with H : negb true = true |- _ => discriminate H end.
Qed.

(** In the text of an attribute whose value has no double quote, the
    first create directive is the one that follows the value. *)
Lemma replace_after_value (e rest : string) :
  free dq_char e = true ->
  replace Action.create Action.alter
    (e ++ String dq_char (String " "%char (Action.create ++ rest)))
  = e ++ String dq_char (String " "%char (Action.alter ++ rest)).
Proof.
  induction e as [|c e IH]; intros F.
  - reflexivity.
  - pose proof (no_directive_in_value (String c e) (Action.create ++ rest) F) as N.
    cbn [free] in F. apply andb_true_iff in F as [_ F].
    cbn [append] in N |- *.
    cbn [replace]. rewrite N. now rewrite IH.
Qed.

Lemma replace_ledgerOpening (text : string) :
  replace Action.create Action.alter (ledgerOpening ++ text)
  = ledgerOpening ++ replace Action.create Action.alter text.
Proof. reflexivity. Qed.

Lemma replace_voucherOpening (text : string) :
  replace Action.create Action.alter (voucherOpening ++ text)
  = voucherOpening ++ replace Action.create Action.alter text.
Proof. reflexivity. Qed.

(** The ledger: with a name that is a string, the first create directive
    of the output of [buildLedgerXml] is the [ACTION] attribute of the
    [LEDGER] element, and the replacement turns it into the alter
    directive and changes nothing else. *)
Lemma buildLedgerXml_altered (ledgerData : obj) (name : string) :
  get (VObj ledgerData) "name" = VStr name ->
  exists rest : string,
    buildLedgerXml ledgerData
    = ledgerOpening ++ escaped name ++ dq ++ " " ++ Action.create ++ rest
    /\ replace Action.create Action.alter (buildLedgerXml ledgerData)
       = ledgerOpening ++ escaped name ++ dq ++ " " ++ Action.alter ++ rest.
Proof.
  intros H.
  assert (E : exists rest : string,
             buildLedgerXml ledgerData
             = ledgerOpening ++ escaped name ++ dq ++ " " ++ Action.create ++ rest).
  { unfold buildLedgerXml. rewrite H.
    cbn [escapeXml toString]. rewrite EscapeXml.escapeXml_string_escaped.
    eexists. reflexivity. }
  destruct E as [rest E]. exists rest. split; [exact E|].
  rewrite E, replace_ledgerOpening.
  change (escaped name ++ dq ++ " " ++ Action.create ++ rest)
    with (escaped name ++ String dq_char (String " "%char (Action.create ++ rest))).
  rewrite (replace_after_value (escaped name) rest (free_escaped name)).
  reflexivity.
Qed.

Section Engine.

Variable rt : runtime.

(** The voucher: likewise, with a voucher type that is a string. *)
Lemma buildVoucherXml_altered (voucherData : obj) (voucherType xml : string) :
  get (VObj voucherData) "voucherType" = VStr voucherType ->
  buildVoucherXml rt voucherData = inr xml ->
  exists rest : string,
    xml = voucherOpening ++ escaped voucherType ++ dq ++ " " ++ Action.create ++ rest
    /\ replace Action.create Action.alter xml
       = voucherOpening ++ escaped voucherType ++ dq ++ " " ++ Action.alter ++ rest.
Proof.
  intros H B.
  assert (E : exists rest : string,
             xml = voucherOpening ++ escaped voucherType ++ dq ++ " " ++ Action.create ++ rest).
  { revert B. unfold buildVoucherXml. rewrite H.
    cbn [escapeXml toString]. rewrite EscapeXml.escapeXml_string_escaped.
    match goal with |- bind ?m _ = _ -> _ => destruct m as [e|entries] end;
      cbn [bind ret]; [discriminate|].
    intros [= <-]. eexists. reflexivity. }
  destruct E as [rest E]. exists rest. split; [exact E|].
  rewrite E, replace_voucherOpening.
  change (escaped voucherType ++ dq ++ " " ++ Action.create ++ rest)
    with (escaped voucherType ++ String dq_char (String " "%char (Action.create ++ rest))).
  rewrite (replace_after_value (escaped voucherType) rest (free_escaped voucherType)).
  reflexivity.
Qed.

End Engine.

Section Environment.

Variable env : value.

(** The ledger: for a name that is a string, [updateLedger] sends the
    message of the create builder with the alter directive in the place of
    the create directive of the [LEDGER] element. *)
Lemma updateLedger_sends_alter
    (name : string) (updates merged : obj) (raw : string) (tree : xml) (second : reply) :
  name <> EmptyString ->
  truthy (get (responseBody tree) "ERROR") = false ->
  truthy (get (responseBody tree) "LINEERROR") = false ->
  LedgerService.updatedLedgerData (VStr name) (VObj updates)
    (LedgerService.outcome [("data", fetchedLedger tree); ("ledgerName", VStr name)])
  = inr merged ->
  exists rest : string,
    buildLedgerXml merged
    = ledgerOpening ++ escaped name ++ dq ++ " " ++ Action.create ++ rest
    /\ secondRequest (LedgerService.updateLedger env (VStr name) (VObj updates))
         (Replied raw (inr tree)) second
       = buildImportRequest env
           (ledgerOpening ++ escaped name ++ dq ++ " " ++ Action.alter ++ rest)
           [("reportName", VStr "All Masters"); ("companyName", env)].
Proof.
  intros N E L M.
  assert (Tn : truthy (VStr name) = true).
  { cbn [truthy]. destruct (String.eqb name EmptyString) eqn:Q; [|reflexivity].
    apply String.eqb_eq in Q. contradiction. }
  assert (G : get (VObj merged) "name" = VStr name).
  { revert M. unfold LedgerService.updatedLedgerData, getM2, fetchedLedger.
    destruct (truthy (requestData tree));
      cbn [getM get lookup String.eqb Ascii.eqb Bool.eqb LedgerService.outcome ledgerOf bind ret];
      rewrite !orM_ret; cbn [bind ret]; intros [= <-]; reflexivity. }
  destruct (buildLedgerXml_altered merged name G) as [rest [B R]].
  exists rest. split; [exact B|].
  unfold secondRequest, LedgerService.updateLedger, LedgerService.fetchLedger.
  rewrite Tn. cbn [negb]. cbv zeta.
  unfold sendRequest at 1. cbn [io_bind io_catch].
  rewrite run_Post.
  rewrite (RemoteError.parseResponse_resolves raw tree E L).
  cbn [io_bind io_catch ret get lookup String.eqb Ascii.eqb Bool.eqb].
  rewrite Defaults.parseLedgerResponse_tree.
  cbn [io_bind io_catch ret].
  fold (fetchedLedger tree).
  change (VObj [("success", VBool true); ("data", fetchedLedger tree); ("ledgerName", VStr name)])
    with (LedgerService.outcome [("data", fetchedLedger tree); ("ledgerName", VStr name)]).
  rewrite M. cbn [io_bind io_catch].
  rewrite R.
  unfold sendRequest. cbn [io_bind io_catch]. rewrite run_Post.
  reflexivity.
Qed.

End Environment.

End UpdateFacts.

Module Update.

Import Js Str Spec StrFacts TallyConnector JsFacts XmlBuilder Scan UpdateFacts.

(** The merge of [updateStockItem] raises on no update that is an object
    and on no response. *)
Lemma updatedStockData_total (name : value) (updates : obj) (tree : xml) :
  exists merged : obj,
    StockItemService.updatedStockData name (VObj updates)
      (StockItemService.outcome [("data", fetchedStockItem tree); ("stockItemName", name)])
    = inr merged.
Proof.
  unfold fetchedStockItem, StockItemService.updatedStockData, getM2.
  destruct (truthy (requestData tree));
    cbn [getM get lookup String.eqb Ascii.eqb Bool.eqb StockItemService.outcome
         stockItemOf bind ret];
    rewrite !orM_ret; cbn [bind ret]; eexists; reflexivity.
Qed.

Section Engine.

Variable env : value.

(** C7 on [updateStockItem].  The update fetches the stock item, merges
    the updates into it, and sends the import request made of the output
    of [buildStockItemXml] on the merged item.  The template of
    [buildStockItemXml] has no [ACTION] attribute, so the replacement of
    the create directive finds nothing to replace: when the texts put into
    the template have no double quote (as is the case of every text that
    [escapeXml] went over), the message that is sent is the output of the
    create builder unchanged, and neither the alter directive nor the
    create directive occurs in it. *)
Theorem updateStockItem_sends_no_alter
    (name : value) (updates merged : obj) (raw : string) (tree : xml) (second : reply) :
  truthy name = true ->
  truthy (get (responseBody tree) "ERROR") = false ->
  truthy (get (responseBody tree) "LINEERROR") = false ->
  StockItemService.updatedStockData name (VObj updates)
    (StockItemService.outcome [("data", fetchedStockItem tree); ("stockItemName", name)])
  = inr merged ->
  quoteFree (stockItemTexts merged) ->
  secondRequest (StockItemService.updateStockItem env name (VObj updates))
    (Replied raw (inr tree)) second
  = buildImportRequest env (buildStockItemXml merged) []
  /\ includes Action.alter (buildStockItemXml merged) = false
  /\ includes Action.create (buildStockItemXml merged) = false.
Proof.
  intros Tn E L M Q.
  assert (C : includes Action.create (buildStockItemXml merged) = false)
    by (apply buildStockItemXml_scan; auto).
  split; [|split; [apply buildStockItemXml_scan; auto | exact C]].
  unfold secondRequest, StockItemService.updateStockItem, StockItemService.fetchStockItem.
  rewrite Tn. cbn [negb]. cbv zeta.
  unfold sendRequest at 1. cbn [io_bind io_catch].
  rewrite run_Post.
  rewrite (RemoteError.parseResponse_resolves raw tree E L).
  cbn [io_bind io_catch ret get lookup String.eqb Ascii.eqb Bool.eqb].
  rewrite Defaults.parseStockItemResponse_tree.
  cbn [io_bind io_catch ret].
  fold (fetchedStockItem tree).
  change (VObj [("success", VBool true); ("data", fetchedStockItem tree); ("stockItemName", name)])
    with (StockItemService.outcome [("data", fetchedStockItem tree); ("stockItemName", name)]).
  rewrite M. cbn [io_bind io_catch].
  rewrite (replace_absent _ _ _ C).
  unfold sendRequest. cbn [io_bind io_catch]. rewrite run_Post.
  reflexivity.
Qed.

End Engine.

(** The update of the alias of Widget A. *)
Lemma updateStockItem_sends_no_alter_witness :
  secondRequest
    (StockItemService.updateStockItem VUndef (VStr "Widget A")
       (VObj [("alias", VStr "Widget-A-v2")]))
    (Replied "<ENVELOPE/>" (inr widgetResponse))
    (Replied "<ENVELOPE/>" (inr importedResponse))
  = buildImportRequest VUndef (buildStockItemXml widgetUpdated) []
  /\ includes Action.alter (buildStockItemXml widgetUpdated) = false
  /\ includes Action.create (buildStockItemXml widgetUpdated) = false.
Proof.
  refine (updateStockItem_sends_no_alter VUndef (VStr "Widget A")
            [("alias", VStr "Widget-A-v2")] widgetUpdated
            "<ENVELOPE/>" widgetResponse (Replied "<ENVELOPE/>" (inr importedResponse))
            _ _ _ _ _).
  - reflexivity.
  - reflexivity.
  - reflexivity.
  - vm_compute. reflexivity.
  - unfold quoteFree. repeat (apply Forall_cons; [reflexivity|]). apply Forall_nil.
Defined.

(** The same update on a ledger: the create directive of the [LEDGER]
    element is there, and it is replaced. *)
Example updateLedger_of_alias :
  includes Action.alter
    (secondRequest
       (LedgerService.updateLedger VUndef (VStr "ABC Corporation")
          (VObj [("alias", VStr "ABC Corp Ltd")]))
       (Replied "<ENVELOPE/>" (inr ledgerResponse))
       (Replied "<ENVELOPE/>" (inr importedResponse))) = true
  /\ includes Action.create
       (secondRequest
          (LedgerService.updateLedger VUndef (VStr "ABC Corporation")
             (VObj [("alias", VStr "ABC Corp Ltd")]))
          (Replied "<ENVELOPE/>" (inr ledgerResponse))
          (Replied "<ENVELOPE/>" (inr importedResponse))) = false.
Proof. split; vm_compute; reflexivity. Qed.

(** With the builder of [src/utils/XmlBuilder.js], the [LEDGER] element
    has no [ACTION] attribute either, and the replacement changes nothing
    in the ledger message. *)
Example utils_ledger_not_altered :
  replace Action.create Action.alter
    (UtilsXmlBuilder.buildLedgerXml
       [("name", VStr "ABC Corporation"); ("parent", VStr "Sundry Debtors")])
  = UtilsXmlBuilder.buildLedgerXml
      [("name", VStr "ABC Corporation"); ("parent", VStr "Sundry Debtors")]
  /\ includes "ACTION="
       (UtilsXmlBuilder.buildLedgerXml
          [("name", VStr "ABC Corporation"); ("parent", VStr "Sundry Debtors")]) = false.
Proof. split; vm_compute; reflexivity. Qed.

End Update.

(* ===================================================================== *)
(** * Summaries (C8) *)
(* ===================================================================== *)

Module Summaries.

Import Js Str Spec TallyConnector Interp JsFacts Defaults.

Lemma parseSummaryItem_defined (node : value) :
  defined node = true -> StockItemService.parseSummaryItem node = inr (itemOf node).
Proof.
  intros D. unfold StockItemService.parseSummaryItem.
  rewrite !getM_defined by exact D. reflexivity.
Qed.

Lemma mapM_items_defined (nodes : list value) :
  Forall (fun node => defined node = true) nodes ->
  mapM StockItemService.parseSummaryItem nodes = inr (map itemOf nodes).
Proof.
  induction 1 as [|node rest D _ IH]; cbn [mapM map]; [reflexivity|].
  rewrite (parseSummaryItem_defined node D), IH. reflexivity.
Qed.

Lemma or_undefined_or_fromXml (a b : value) :
  a = VUndef \/ fromXml a -> b = VUndef \/ fromXml b ->
  or a b = VUndef \/ fromXml (or a b).
Proof. intros A B. unfold or. destruct (truthy a); assumption. Qed.

Lemma get_payload_shape (tree : xml) (k : string) :
  get (payload tree) k = VUndef \/ fromXml (get (payload tree) k).
Proof.
  destruct (payload_shape tree) as [P|P].
  - rewrite P. now left.
  - now apply get_fromXml.
Qed.

Lemma itemsNode_shape (tree : xml) : itemsNode tree = VArr [] \/ fromXml (itemsNode tree).
Proof.
  unfold itemsNode.
  pose proof (or_undefined_or_fromXml _ _
                (get_payload_shape tree "STOCKITEMS")
                (get_payload_shape tree "TALLYMESSAGE")) as H.
  set (node := or (get (payload tree) "STOCKITEMS") (get (payload tree) "TALLYMESSAGE")) in *.
  unfold or. destruct (truthy node) eqn:T; [right | now left].
  destruct H as [H|H]; [|exact H].
  rewrite H in T. discriminate T.
Qed.

Lemma summaryItemsOf_tree (tree : xml) :
  truthy (requestData tree) = true ->
  StockItemService.summaryItemsOf (responseBody tree)
  = inr (map itemOf (asArray (itemsNode tree))).
Proof.
  intros T. unfold StockItemService.summaryItemsOf.
  rewrite tallyMessageOf_tree by exact T. cbn [bind].
  rewrite !getM_defined by apply payload_defined. cbn [bind].
  apply mapM_items_defined, asArray_defined, itemsNode_shape.
Qed.

Lemma parseStockSummaryResponse_tree (tree : xml) :
  truthy (requestData tree) = true ->
  StockItemService._parseStockSummaryResponse (of_xml tree)
  = inr (StockItemService.summaryOf (map itemOf (asArray (itemsNode tree)))).
Proof.
  intros T. unfold StockItemService._parseStockSummaryResponse.
  rewrite bodyOf_tree. cbn [bind]. rewrite requestDataOf_tree. cbn [bind].
  rewrite T, (summaryItemsOf_tree tree T). reflexivity.
Qed.

Lemma parseVoucherSummaryResponse_tree (tree : xml) (groupByType : value) :
  truthy (requestData tree) = true -> truthy groupByType = false ->
  VoucherService._parseVoucherSummaryResponse (of_xml tree) groupByType
  = inr (VObj
           [("totalCount", or (get (payload tree) "TOTALCOUNT") (VNum (S754_zero false)));
            ("totalAmount", or (get (payload tree) "TOTALAMOUNT") (VNum (S754_zero false)));
            ("averageAmount", or (get (payload tree) "AVERAGEAMOUNT") (VNum (S754_zero false)))]).
Proof.
  intros T G. unfold VoucherService._parseVoucherSummaryResponse.
  rewrite bodyOf_tree. cbn [bind]. rewrite requestDataOf_tree. cbn [bind].
  rewrite T. rewrite tallyMessageOf_tree by exact T. cbn [bind].
  rewrite !getM_defined by apply payload_defined. cbn [bind].
  rewrite G. reflexivity.
Qed.

Lemma parseVoucherSummaryResponse_grouped (tree : xml) (groupByType : value) :
  truthy (requestData tree) = true -> truthy groupByType = true ->
  VoucherService._parseVoucherSummaryResponse (of_xml tree) groupByType
  = inr (VObj
           [("byType", VoucherService._groupVouchersByType (payload tree));
            ("total",
             VObj [("count", or (get (payload tree) "TOTALCOUNT") (VNum (S754_zero false)));
                   ("amount", or (get (payload tree) "TOTALAMOUNT") (VNum (S754_zero false)))])]).
Proof.
  intros T G. unfold VoucherService._parseVoucherSummaryResponse.
  rewrite bodyOf_tree. cbn [bind]. rewrite requestDataOf_tree. cbn [bind].
  rewrite T. rewrite tallyMessageOf_tree by exact T. cbn [bind].
  rewrite !getM_defined by apply payload_defined. cbn [bind].
  rewrite G. reflexivity.
Qed.

Lemma parseVoucherSummaryResponse_empty (tree : xml) (groupByType : value) :
  truthy (requestData tree) = false ->
  VoucherService._parseVoucherSummaryResponse (of_xml tree) groupByType = inr (VObj []).
Proof.
  intros T. unfold VoucherService._parseVoucherSummaryResponse.
  rewrite bodyOf_tree. cbn [bind]. rewrite requestDataOf_tree. cbn [bind].
  rewrite T. reflexivity.
Qed.

Lemma parseStockSummaryResponse_items (tree : xml) :
  StockItemService._parseStockSummaryResponse (of_xml tree)
  = inr (StockItemService.summaryOf (summaryItems tree)).
Proof.
  unfold summaryItems. destruct (truthy (requestData tree)) eqn:T.
  - now apply parseStockSummaryResponse_tree.
  - unfold StockItemService._parseStockSummaryResponse.
    rewrite bodyOf_tree. cbn [bind]. rewrite requestDataOf_tree. cbn [bind].
    rewrite T. reflexivity.
Qed.

(** C8, as the code has it.  For every stock summary response the
    interpreter computes every aggregate from the items it reads off the
    response: the number of items, the total of their closing values added
    from the left, and the numbers of items whose closing quantity is
    above, below and equal to zero; two responses with the same items get
    the same summary, whatever else they carry.  The totals of a voucher
    summary are not computed.  On a response whose request data is not
    empty they are the values of the vendor's tags, with 0 where a tag is
    missing or empty: [TOTALCOUNT], [TOTALAMOUNT] and [AVERAGEAMOUNT]
    without [groupByType]; with [groupByType], [TOTALCOUNT] and
    [TOTALAMOUNT] only, as [total.count] and [total.amount], beside a
    table by type that holds 0 for each of the five types whatever the
    response says.  On a response without request data, or with an empty
    one, the voucher summary is an object without fields. *)
Theorem summary_aggregates (tree other : xml) :
  (exists items : list StockItemService.summaryItem,
      items = summaryItems tree
      /\ StockItemService._parseStockSummaryResponse (of_xml tree)
         = inr (StockItemService.summaryOf items)
      /\ getPath (StockItemService.summaryOf items) ["totalItems"]
         = VNum (Num.of_Z (Z.of_nat (List.length items)))
      /\ getPath (StockItemService.summaryOf items) ["totalValue"]
         = VNum (fold_left (fun sum item => Num.add sum (StockItemService.closingValue item))
                   items (S754_zero false))
      /\ getPath (StockItemService.summaryOf items) ["summary"; "positiveStock"]
         = VNum (Num.of_Z (Z.of_nat (List.length
              (filter (fun item => Num.gt (StockItemService.closingQuantity item) (S754_zero false))
                 items))))
      /\ getPath (StockItemService.summaryOf items) ["summary"; "negativeStock"]
         = VNum (Num.of_Z (Z.of_nat (List.length
              (filter (fun item => Num.lt (StockItemService.closingQuantity item) (S754_zero false))
                 items))))
      /\ getPath (StockItemService.summaryOf items) ["summary"; "zeroStock"]
         = VNum (Num.of_Z (Z.of_nat (List.length
              (filter (fun item => Num.strict_eq (StockItemService.closingQuantity item) (S754_zero false))
                 items)))))
  /\ (summaryItems other = summaryItems tree ->
      StockItemService._parseStockSummaryResponse (of_xml other)
      = StockItemService._parseStockSummaryResponse (of_xml tree))
  /\ (forall groupByType : value,
         truthy (requestData tree) = true ->
         truthy groupByType = false ->
         VoucherService._parseVoucherSummaryResponse (of_xml tree) groupByType
         = inr (VObj
                  [("totalCount", vendorTotal tree "TOTALCOUNT");
                   ("totalAmount", vendorTotal tree "TOTALAMOUNT");
                   ("averageAmount", vendorTotal tree "AVERAGEAMOUNT")]))
  /\ (forall groupByType : value,
         truthy (requestData tree) = true ->
         truthy groupByType = true ->
         exists byType : value,
           VoucherService._parseVoucherSummaryResponse (of_xml tree) groupByType
           = inr (VObj
                    [("byType", byType);
                     ("total",
                      VObj [("count", vendorTotal tree "TOTALCOUNT");
                            ("amount", vendorTotal tree "TOTALAMOUNT")])])
           /\ Forall (fun kind =>
                        get byType kind
                        = VObj [("count", VNum (S754_zero false));
                                ("amount", VNum (S754_zero false))])
                voucherKinds)
  /\ (forall groupByType : value,
         truthy (requestData tree) = false ->
         VoucherService._parseVoucherSummaryResponse (of_xml tree) groupByType
         = inr (VObj [])).
Proof.
  split; [|split; [|split; [|split]]].
  - exists (summaryItems tree). split; [reflexivity|].
    split; [apply parseStockSummaryResponse_items|].
    repeat split.
  - intros E. now rewrite !parseStockSummaryResponse_items, E.
  - intros groupByType T G. now apply parseVoucherSummaryResponse_tree.
  - intros groupByType T G. eexists. split.
    + now apply parseVoucherSummaryResponse_grouped.
    + repeat constructor.
  - intros groupByType T. now apply parseVoucherSummaryResponse_empty.
Qed.

(** A stock summary of two items: the aggregates are those of the two
    items, and the total the vendor wrote is not among them. *)
Example two_items_summary :
  exists summary : value,
    StockItemService._parseStockSummaryResponse (of_xml twoItems) = inr summary
    /\ getPath summary ["totalItems"] = VNum (Num.lit "2")
    /\ getPath summary ["totalValue"] = VNum (Num.lit "14.5")
    /\ getPath summary ["summary"; "positiveStock"] = VNum (Num.lit "1")
    /\ getPath summary ["summary"; "negativeStock"] = VNum (Num.lit "1")
    /\ getPath summary ["summary"; "zeroStock"] = VNum (Num.lit "0").
Proof. eexists. repeat split; vm_compute; reflexivity. Qed.

(** C8, as the specification states it, fails on the voucher summary:
    two responses without any voucher in them, which differ in the total
    the vendor wrote, get the totals the vendor wrote, with and without
    the grouping by type. *)
Lemma voucher_totals_are_the_vendors :
  VoucherService._parseVoucherSummaryResponse
    (of_xml (exportResponse (XNode [("TOTALCOUNT", XText "5"); ("TOTALAMOUNT", XText "100")])))
    VUndef
  = inr (VObj [("totalCount", VStr "5");
               ("totalAmount", VStr "100");
               ("averageAmount", VNum (S754_zero false))])
  /\ VoucherService._parseVoucherSummaryResponse
       (of_xml (exportResponse (XNode [("TOTALCOUNT", XText "7"); ("TOTALAMOUNT", XText "100")])))
       VUndef
     = inr (VObj [("totalCount", VStr "7");
                  ("totalAmount", VStr "100");
                  ("averageAmount", VNum (S754_zero false))])
  /\ getPath
       (match VoucherService._parseVoucherSummaryResponse
                (of_xml (exportResponse
                           (XNode [("TOTALCOUNT", XText "7"); ("TOTALAMOUNT", XText "100")])))
                (VBool true) with
        | inr summary => summary
        | inl _ => VUndef
        end)
       ["total"; "count"]
     = VStr "7".
Proof. split; [|split]; reflexivity. Qed.

End Summaries.

(* ===================================================================== *)
(** * The environment of the builder (C9) *)
(* ===================================================================== *)

Module Ambient.

Import Js Str Spec XmlBuilder JsFacts.

(** C9, as the code has it.  [buildImportRequest] reads the company from
    its options and, failing that, from the [TALLY_COMPANY] variable of the
    environment.  Two calls with the same arguments return the same text
    when the options name a company, and when the variable is unset or
    empty in both environments; in general the output is that of a call
    whose options name the company the variable holds. *)
Theorem buildImportRequest_environment
    (env env' : value) (dataXml : string) (options : obj) :
  (truthy (get (VObj options) "companyName") = true ->
   buildImportRequest env dataXml options = buildImportRequest env' dataXml options)
  /\ (truthy env = false -> truthy env' = false ->
      buildImportRequest env dataXml options = buildImportRequest env' dataXml options)
  /\ (truthy (get (VObj options) "companyName") = false ->
      buildImportRequest env dataXml options
      = buildImportRequest VUndef dataXml
          [("reportName", get (VObj options) "reportName"); ("companyName", env)]).
Proof.
  unfold buildImportRequest. repeat split.
  - intros T. now rewrite !(or_truthy _ _ T).
  - intros E E'.
    destruct (truthy (get (VObj options) "companyName")) eqn:T.
    + now rewrite !(or_truthy _ _ T).
    + rewrite !(or_falsy (get (VObj options) "companyName") _ T).
      now rewrite (or_falsy env _ E), (or_falsy env' _ E').
  - intros T.
    rewrite (or_falsy (get (VObj options) "companyName") _ T).
    cbn [get lookup String.eqb Ascii.eqb Bool.eqb].
    destruct (truthy env) eqn:E.
    + now rewrite !(or_truthy env _ E).
    + rewrite !(or_falsy env _ E). reflexivity.
Qed.

(** C9, as the specification states it, fails on [buildImportRequest]:
    the same arguments, under two environments, give two texts. *)
Lemma buildImportRequest_reads_environment :
  buildImportRequest (VStr "Acme Ltd") "<TALLYMESSAGE/>" []
  <> buildImportRequest VUndef "<TALLYMESSAGE/>" []
  /\ includes "<SVCURRENTCOMPANY>Acme Ltd</SVCURRENTCOMPANY>"
       (buildImportRequest (VStr "Acme Ltd") "<TALLYMESSAGE/>" []) = true
  /\ includes "<SVCURRENTCOMPANY>"
       (buildImportRequest VUndef "<TALLYMESSAGE/>" []) = false.
Proof.
  split; [|split; vm_compute; reflexivity].
  intros E.
  apply (f_equal (includes "<SVCURRENTCOMPANY>")) in E.
  vm_compute in E. discriminate E.
Qed.

End Ambient.

(* ===================================================================== *)
(** * The merge of an update (C10) *)
(* ===================================================================== *)

Module Merge.

Import Js Str Spec TallyConnector XmlBuilder JsFacts.

(** C10.  In the payload merged by [updateLedger], [updateVoucher] and
    [updateStockItem], a field that the update gives as the empty string,
    or as any other falsy value, or does not give, keeps the value that was
    fetched: an update cannot clear it. *)
Theorem update_keeps_fetched_field
    (name kind : value) (updates fetched : obj) (field : string) :
  truthy (get (VObj updates) field) = false ->
  (exists merged : obj,
      LedgerService.updatedLedgerData name (VObj updates)
        (LedgerService.outcome [("data", VObj fetched); ("ledgerName", name)])
      = inr merged
      /\ (In field ["parent"; "alias"; "openingBalance"] ->
          get (VObj merged) field = get (VObj fetched) field))
  /\ (exists merged : obj,
         VoucherService.updatedVoucherData name kind (VObj updates)
           (VoucherService.outcome
              [("data", VObj fetched); ("voucherNumber", name); ("voucherType", kind)])
         = inr merged
         /\ (In field ["date"; "narration"; "ledgerEntries"] ->
             get (VObj merged) field = get (VObj fetched) field))
  /\ (exists merged : obj,
         StockItemService.updatedStockData name (VObj updates)
           (StockItemService.outcome [("data", VObj fetched); ("stockItemName", name)])
         = inr merged
         /\ (In field ["parent"; "baseUnits"; "alias"; "openingBalance"] ->
             get (VObj merged) field = get (VObj fetched) field)).
Proof.
  intros F. repeat split.
  - unfold LedgerService.updatedLedgerData, getM2.
    cbn [getM get lookup String.eqb Ascii.eqb Bool.eqb LedgerService.outcome bind ret].
    rewrite !orM_ret. cbn [bind ret].
    eexists. split; [reflexivity|].
    intros [<-|[<-|[<-|[]]]]; cbn [get lookup String.eqb Ascii.eqb Bool.eqb];
      apply or_falsy, F.
  - unfold VoucherService.updatedVoucherData, getM2.
    cbn [getM get lookup String.eqb Ascii.eqb Bool.eqb VoucherService.outcome bind ret].
    rewrite !orM_ret. cbn [bind ret].
    eexists. split; [reflexivity|].
    intros [<-|[<-|[<-|[]]]]; cbn [get lookup String.eqb Ascii.eqb Bool.eqb];
      apply or_falsy, F.
  - unfold StockItemService.updatedStockData, getM2.
    cbn [getM get lookup String.eqb Ascii.eqb Bool.eqb StockItemService.outcome bind ret].
    rewrite !orM_ret. cbn [bind ret].
    eexists. split; [reflexivity|].
    intros [<-|[<-|[<-|[<-|[]]]]]; cbn [get lookup String.eqb Ascii.eqb Bool.eqb];
      apply or_falsy, F.
Qed.

Lemma update_keeps_fetched_field_witness :
  exists merged : obj,
    LedgerService.updatedLedgerData (VStr "ABC Corporation")
      (VObj [("alias", VStr EmptyString)])
      (LedgerService.outcome
         [("data", VObj [("name", VStr "ABC Corporation"); ("alias", VStr "ABC Corp")]);
          ("ledgerName", VStr "ABC Corporation")])
    = inr merged
    /\ (In "alias" ["parent"; "alias"; "openingBalance"] ->
        get (VObj merged) "alias"
        = get (VObj [("name", VStr "ABC Corporation"); ("alias", VStr "ABC Corp")]) "alias").
Proof.
  refine (proj1 (update_keeps_fetched_field (VStr "ABC Corporation") (VStr "Sales")
                   [("alias", VStr EmptyString)]
                   [("name", VStr "ABC Corporation"); ("alias", VStr "ABC Corp")]
                   "alias" _)).
  reflexivity.
Defined.

(** The whole call: asked to clear the alias of a ledger, [updateLedger]
    sends the alias it fetched. *)
Example alias_not_cleared :
  includes "<ALIAS>ABC Corp</ALIAS>"
    (secondRequest
       (LedgerService.updateLedger VUndef (VStr "ABC Corporation")
          (VObj [("alias", VStr EmptyString)]))
       (Replied "<ENVELOPE/>" (inr ledgerResponse))
       (Replied "<ENVELOPE/>" (inr importedResponse))) = true.
Proof. vm_compute. reflexivity. Qed.

End Merge.

(* ===================================================================== *)
(** * Requests and replies *)
(* ===================================================================== *)

Module Exchange.

Import Js Str Spec TallyConnector Interp JsFacts.

(** What [sendRequest] does with a clean reply, and with any other. *)
Lemma parseResponse_clean (raw : string) (tree : xml) :
  clean (Replied raw (inr tree)) = true ->
  _parseResponse raw (inr tree) = inr (responseOf (Replied raw (inr tree))).
Proof.
  cbn [clean responseOf]. intros C. apply negb_true_iff in C.
  unfold _parseResponse. unfold responseBody in C.
  rewrite !getM_defined by auto with js. cbn [bind].
  rewrite !getM_defined by auto with js. cbn [bind].
  rewrite !getM_defined by auto with js. cbn [bind].
  rewrite C. reflexivity.
Qed.

Lemma parseResponse_unclean (raw : string) (tree : xml) :
  clean (Replied raw (inr tree)) = false ->
  exists m, _parseResponse raw (inr tree) = inl (Error m).
Proof.
  cbn [clean]. intros C. apply negb_false_iff in C.
  unfold _parseResponse. unfold responseBody in C.
  rewrite !getM_defined by auto with js. cbn [bind].
  rewrite !getM_defined by auto with js. cbn [bind].
  rewrite !getM_defined by auto with js. cbn [bind].
  rewrite C. eexists. reflexivity.
Qed.

Lemma sendRequest_clean {A : Type} (x : string) (r : reply) (k : value -> io A) (rest : list reply) :
  clean r = true ->
  run (io_bind (sendRequest x) k) (r :: rest)
  = (x :: fst (run (k (responseOf r)) rest), snd (run (k (responseOf r)) rest)).
Proof.
  intros C. destruct r as [m | raw [m | tree]]; try discriminate.
  unfold sendRequest. cbn [io_bind run].
  rewrite (parseResponse_clean raw tree C). unfold ret. cbn [io_bind].
  destruct (run (k _) rest). reflexivity.
Qed.

Lemma sendRequest_failed (x : string) (r : reply) :
  clean r = false ->
  exists m : string,
    forall (A : Type) (k : value -> io A) (rest : list reply),
      run (io_bind (sendRequest x) k) (r :: rest)
      = ([x], Some (inl (Error ("TallyPrime request failed: " ++ m)))).
Proof.
  intros C. destruct r as [m | raw [m | tree]].
  - exists m. reflexivity.
  - eexists. intros. reflexivity.
  - destruct (parseResponse_unclean raw tree C) as [m E]. exists m. intros.
    unfold sendRequest. cbn [io_bind run]. rewrite E. reflexivity.
Qed.

(** A handler that posts nothing changes the outcome only. *)
Lemma run_catch {A : Type} (m : io A) (f : error -> result A) (script : list reply) :
  run (io_catch m (fun e => Done (f e))) script
  = (fst (run m script),
     match snd (run m script) with
     | Some (inl e) => Some (f e)
     | other => other
     end).
Proof.
  revert script. induction m as [[e | a] | x k IH]; intros script.
  - reflexivity.
  - reflexivity.
  - cbn [io_catch run]. destruct script as [| r rest]; [reflexivity|].
    rewrite IH. destruct (run (k r) rest). reflexivity.
Qed.

(** A call after another: the requests of both, in order. *)
Lemma run_bind {A B : Type} (m : io A) (k : A -> io B) (script : list reply) :
  run (io_bind m k) script
  = match snd (run m script) with
    | Some (inr a) =>
        ((fst (run m script)
            ++ fst (run (k a) (skipn (List.length (fst (run m script))) script)))%list,
         snd (run (k a) (skipn (List.length (fst (run m script))) script)))
    | Some (inl e) => (fst (run m script), Some (inl e))
    | None => (fst (run m script), None)
    end.
Proof.
  revert script. induction m as [[e | a] | x k' IH]; intros script.
  - reflexivity.
  - cbn [io_bind run fst snd List.length skipn app]. destruct (run (k a) script). reflexivity.
  - cbn [io_bind run]. destruct script as [| r rest]; [reflexivity|].
    rewrite IH. destruct (run (k' r) rest) as [log [[e | a] |]]; cbn [fst snd List.length skipn app];
      reflexivity.
Qed.

(** A query: one request, whose response is interpreted. *)
Lemma run_query (x label : string) (parse : value -> result value) (f : value -> value)
    (raw : string) (tree : xml) (rest : list reply) (data : value) :
  clean (Replied raw (inr tree)) = true ->
  parse (of_xml tree) = inr data ->
  run (io_catch
         (io_bind (sendRequest x)
            (fun response =>
               io_bind (Done (parse (get response "data")))
                 (fun data => Done (ret (f data)))))
         (fun error => Done (throw (Error (label ++ message error)))))
    (Replied raw (inr tree) :: rest)
  = ([x], Some (inr (f data))).
Proof.
  intros C P. rewrite run_catch, (sendRequest_clean _ _ _ rest C). cbn [responseOf].
  change (get (VObj [("success", VBool true); ("data", of_xml tree); ("rawXml", VStr raw)])
            "data") with (of_xml tree).
  rewrite P. reflexivity.
Qed.

(** A request that fails is the only one, and the failure is passed on
    under the label of the operation. *)
Lemma run_failed {A : Type} (x label : string) (k : value -> io A) (r : reply)
    (rest : list reply) :
  clean r = false ->
  exists m : string,
    run (io_catch (io_bind (sendRequest x) k)
           (fun error => Done (throw (Error (label ++ message error)))))
      (r :: rest)
    = ([x], Some (inl (Error (label ++ "TallyPrime request failed: " ++ m)))).
Proof.
  intros C. destruct (sendRequest_failed x r C) as [m E]. exists m.
  rewrite run_catch, E. reflexivity.
Qed.


End Exchange.

(* ===================================================================== *)
(** * The connector: its configuration and the connection test (X1 to X3) *)
(* ===================================================================== *)

Module Connection.

Import Js Str Spec TallyConnector Interp JsFacts.

Lemma or_default_truthy (a b : value) : truthy b = true -> truthy (or a b) = true.
Proof. intros B. unfold or. destruct (truthy a) eqn:A; [exact A | exact B]. Qed.

Lemma kept_truthy (a b : value) :
  truthy b = true -> truthy (if truthy a then a else b) = true.
Proof. intros B. destruct (truthy a) eqn:A; [exact A | exact B]. Qed.

(** What every reachable connector keeps: the address is made of the
    host and the port, the client's defaults follow, and none of the
    three settings is falsy. *)
Lemma reachable_invariant (this : connector) :
  reachable this ->
  baseUrl this = "http://" ++ toString (host this) ++ ":" ++ toString (port this)
  /\ baseURL (defaults this) = baseUrl this
  /\ clientTimeout (defaults this) = timeout this
  /\ truthy (host this) = true
  /\ truthy (port this) = true
  /\ truthy (timeout this) = true.
Proof.
  induction 1 as [config | this config R IH].
  - unfold constructor. cbn [host port timeout baseUrl defaults baseURL clientTimeout].
    repeat split; apply or_default_truthy; reflexivity.
  - destruct IH as (_ & _ & _ & H & P & T).
    unfold updateConfig. cbn [host port timeout baseUrl defaults baseURL clientTimeout].
    repeat split; apply kept_truthy; assumption.
Qed.

(** X1. On every connector that the constructor and [updateConfig] can
    produce, [getConnectionInfo] reports a [baseUrl] that is
    [http://host:port] for the reported host and port, the defaults of
    the HTTP client carry the same address and timeout, and the host, the
    port and the timeout are never falsy. *)
Theorem configuration_consistent (this : connector) :
  reachable this ->
  let info := getConnectionInfo this in
  get info "baseUrl"
  = VStr ("http://" ++ toString (get info "host") ++ ":" ++ toString (get info "port"))
  /\ baseURL (defaults this) = baseUrl this
  /\ clientTimeout (defaults this) = timeout this
  /\ truthy (get info "host") = true
  /\ truthy (get info "port") = true
  /\ truthy (get info "timeout") = true.
Proof.
  intros R. cbn zeta. unfold getConnectionInfo. cbn [get lookup String.eqb Ascii.eqb Bool.eqb].
  destruct (reachable_invariant this R) as (U & B & C & H & P & T).
  split; [rewrite U; reflexivity|]. repeat split; assumption.
Qed.

Lemma configuration_consistent_witness :
  let this :=
    updateConfig (constructor [("host", VStr "tally.local")])
      [("port", VNum (Num.lit "9001")); ("timeout", VNum (Num.lit "0"))] in
  reachable this
  /\ getConnectionInfo this
     = VObj [("host", VStr "tally.local");
             ("port", VNum (Num.lit "9001"));
             ("baseUrl", VStr "http://tally.local:9001");
             ("timeout", VNum defaultTimeout)]
  /\ baseURL (defaults this) = baseUrl this.
Proof.
  cbn zeta.
  assert (R : reachable
                (updateConfig (constructor [("host", VStr "tally.local")])
                   [("port", VNum (Num.lit "9001")); ("timeout", VNum (Num.lit "0"))]))
    by apply reached_update, reached_new.
  split; [exact R|]. split; [vm_compute; reflexivity|].
  exact (proj1 (proj2 (configuration_consistent _ R))).
Defined.

(** X2. [updateConfig] with a configuration that gives no host, no port
    and no timeout (each missing or falsy) leaves a reachable connector as
    it is. *)
Theorem updateConfig_keeps (this : connector) (config : obj) :
  reachable this ->
  truthy (get (VObj config) "host") = false ->
  truthy (get (VObj config) "port") = false ->
  truthy (get (VObj config) "timeout") = false ->
  updateConfig this config = this.
Proof.
  intros R H P T.
  destruct (reachable_invariant this R) as (U & B & C & _).
  unfold updateConfig. rewrite H, P, T.
  destruct this as [h p t u [b c]].
  cbn [host port timeout baseUrl defaults baseURL clientTimeout] in *.
  subst. reflexivity.
Qed.

Lemma updateConfig_keeps_witness :
  updateConfig (constructor [("port", VNum (Num.lit "9001"))])
    [("host", VStr EmptyString); ("timeout", VNum (Num.lit "0"))]
  = constructor [("port", VNum (Num.lit "9001"))].
Proof.
  refine (updateConfig_keeps _ _ (reached_new _) _ _ _); reflexivity.
Defined.


End Connection.

(* ===================================================================== *)
(** * Creation of a ledger and of a stock item (X4, X5) *)
(* ===================================================================== *)

Module Creation.

Import Js Str Spec TallyConnector Interp JsFacts Exchange.

(** One request, and the outcome built from its response. *)
Lemma run_single (x label : string) (f : value -> value) (r : reply) (rest : list reply) :
  fst (run (io_catch
              (io_bind (sendRequest x) (fun response => Done (ret (f response))))
              (fun error => Done (throw (Error (label ++ message error)))))
         (r :: rest)) = [x]
  /\ (clean r = true ->
      snd (run (io_catch
                  (io_bind (sendRequest x) (fun response => Done (ret (f response))))
                  (fun error => Done (throw (Error (label ++ message error)))))
             (r :: rest)) = Some (inr (f (responseOf r))))
  /\ (clean r = false ->
      exists m : string,
        snd (run (io_catch
                    (io_bind (sendRequest x) (fun response => Done (ret (f response))))
                    (fun error => Done (throw (Error (label ++ message error)))))
               (r :: rest))
        = Some (inl (Error (label ++ "TallyPrime request failed: " ++ m)))).
Proof.
  rewrite run_catch. destruct (clean r) eqn:C.
  - rewrite (sendRequest_clean x r _ rest C). cbn [run fst snd].
    split; [reflexivity|]. split; [reflexivity | discriminate].
  - destruct (sendRequest_failed x r C) as [m E]. rewrite E. cbn [fst snd].
    split; [reflexivity|]. split; [discriminate|]. intros _. exists m. reflexivity.
Qed.

Section Engine.

Variable env : value.

(** X4. [createLedger] raises [Ledger name is required], and then
    [Parent group is required], for a missing or falsy field, and sends
    nothing.  Otherwise it sends exactly one request, the import of the
    ledger message; on a clean reply it resolves with the message, the
    response data and the name, and a failure is passed on under
    [Failed to create ledger]. *)
Theorem createLedger_validation (ledgerData : obj) (r : reply) (rest : list reply) :
  let name := get (VObj ledgerData) "name" in
  let parent := get (VObj ledgerData) "parent" in
  let request :=
    XmlBuilder.buildImportRequest env (XmlBuilder.buildLedgerXml ledgerData)
      [("reportName", VStr "All Masters"); ("companyName", env)] in
  let call := run (LedgerService.createLedger env ledgerData) (r :: rest) in
  (truthy name = false -> call = ([], Some (inl (Error "Ledger name is required"))))
  /\ (truthy name = true -> truthy parent = false ->
      call = ([], Some (inl (Error "Parent group is required"))))
  /\ (truthy name = true -> truthy parent = true ->
      fst call = [request]
      /\ (clean r = true ->
          snd call
          = Some (inr (LedgerService.outcome
                         [("message",
                           VStr ("Ledger '" ++ toString name ++ "' created successfully"));
                          ("data", get (responseOf r) "data");
                          ("ledgerName", name)])))
      /\ (clean r = false ->
          exists m : string,
            snd call
            = Some (inl (Error ("Failed to create ledger: TallyPrime request failed: " ++ m))))).
Proof.
  cbn zeta. unfold LedgerService.createLedger. split; [|split].
  - intros N. rewrite N. reflexivity.
  - intros N P. rewrite N, P. reflexivity.
  - intros N P. rewrite N, P. cbn [negb]. apply run_single.
Qed.

(** X5. [createStockItem] checks the name, the parent group and the
    base units in this order and raises for the first that is missing or
    falsy, sending nothing.  Otherwise it sends exactly one request, the
    import of the stock item message; on a clean reply it resolves with
    the message, the response data and the name, and a failure is passed
    on under [Failed to create stock item]. *)
Theorem createStockItem_validation (stockData : obj) (r : reply) (rest : list reply) :
  let name := get (VObj stockData) "name" in
  let parent := get (VObj stockData) "parent" in
  let baseUnits := get (VObj stockData) "baseUnits" in
  let request :=
    XmlBuilder.buildImportRequest env (XmlBuilder.buildStockItemXml stockData) [] in
  let call := run (StockItemService.createStockItem env stockData) (r :: rest) in
  (truthy name = false -> call = ([], Some (inl (Error "Stock item name is required"))))
  /\ (truthy name = true -> truthy parent = false ->
      call = ([], Some (inl (Error "Parent group is required"))))
  /\ (truthy name = true -> truthy parent = true -> truthy baseUnits = false ->
      call = ([], Some (inl (Error "Base units are required"))))
  /\ (truthy name = true -> truthy parent = true -> truthy baseUnits = true ->
      fst call = [request]
      /\ (clean r = true ->
          snd call
          = Some (inr (StockItemService.outcome
                         [("message",
                           VStr ("Stock item '" ++ toString name ++ "' created successfully"));
                          ("data", get (responseOf r) "data");
                          ("stockItemName", name)])))
      /\ (clean r = false ->
          exists m : string,
            snd call
            = Some (inl (Error ("Failed to create stock item: TallyPrime request failed: "
                                  ++ m))))).
Proof.
  cbn zeta. unfold StockItemService.createStockItem. split; [|split; [|split]].
  - intros N. rewrite N. reflexivity.
  - intros N P. rewrite N, P. reflexivity.
  - intros N P B. rewrite N, P, B. reflexivity.
  - intros N P B. rewrite N, P, B. cbn [negb]. apply run_single.
Qed.

End Engine.

End Creation.

(* ===================================================================== *)
(** * The messages of a list response *)
(* ===================================================================== *)

Module Lists.

Import Js Str Spec TallyConnector Interp JsFacts.

(** The message of an export response, with any default. *)
Lemma tallyMessageOf_default (tree : xml) (otherwise : value) :
  truthy (requestData tree) = true ->
  tallyMessageOf (responseBody tree) otherwise
  = inr (or (get (get (get (responseBody tree) "EXPORTDATA") "REQUESTDATA") "TALLYMESSAGE")
            otherwise).
Proof.
  intros T. destruct (Defaults.requestData_truthy tree T) as [E R].
  unfold tallyMessageOf.
  rewrite getM_defined by (destruct (Defaults.responseBody_fromXml tree) as [t ->]; auto with js).
  cbn [bind].
  rewrite (getM_truthy _ _ E). cbn [bind].
  rewrite (getM_truthy _ _ R). reflexivity.
Qed.

(** The nodes of a list are read without an exception. *)
Lemma messages_defined (tree : xml) :
  Forall (fun node => defined node = true) (messages tree).
Proof.
  unfold messages. destruct (truthy (requestData tree)); [|constructor].
  apply Defaults.asArray_defined.
  destruct (Defaults.responseBody_fromXml tree) as [t ->].
  destruct (get_of_xml_cases t "EXPORTDATA") as [-> | [t1 ->]]; [left; reflexivity|].
  destruct (get_of_xml_cases t1 "REQUESTDATA") as [-> | [t2 ->]]; [left; reflexivity|].
  destruct (get_of_xml_cases t2 "TALLYMESSAGE") as [-> | [t3 ->]]; [left; reflexivity|].
  unfold or. destruct (truthy (of_xml t3)); [right; exists t3; reflexivity | left; reflexivity].
Qed.

Lemma parseLedgerTransactionsResponse_tree (tree : xml) :
  LedgerService._parseLedgerTransactionsResponse (of_xml tree) = inr (VArr (messages tree)).
Proof.
  unfold LedgerService._parseLedgerTransactionsResponse, messages.
  rewrite Defaults.bodyOf_tree. cbn [bind].
  rewrite Defaults.requestDataOf_tree. cbn [bind].
  destruct (truthy (requestData tree)) eqn:T; [|reflexivity].
  rewrite (tallyMessageOf_default tree _ T). reflexivity.
Qed.

End Lists.

(* ===================================================================== *)
(** * Deletion of a ledger (X6) *)
(* ===================================================================== *)

Module Deletion.

Import Js Str Spec TallyConnector Interp JsFacts Exchange.

Section Engine.

Variable rt : runtime.
Variable env : value.

Lemma sendRequest_last {A : Type} (x : string) (f : value -> result A) (r : reply) (rest : list reply) :
  fst (run (io_bind (sendRequest x) (fun v => Done (f v))) (r :: rest)) = [x].
Proof.
  destruct (clean r) eqn:C.
  - rewrite (sendRequest_clean x r _ rest C). reflexivity.
  - destruct (sendRequest_failed x r C) as [m E]. rewrite E. reflexivity.
Qed.

(** The transactions check resolves, whatever the reply: with false on a
    reply that lists nothing, and with true otherwise. *)
Lemma checkLedgerTransactions_verdict (ledgerName : value) (r : reply) (rest : list reply) :
  run (LedgerService.checkLedgerTransactions rt ledgerName) (r :: rest)
  = ([XmlBuilder.buildExportRequest "Ledger Transactions"
        [("LEDGERNAME", ledgerName);
         ("FROMDATE", VStr "01-Apr-1990");
         ("TODATE", VStr (XmlBuilder.formatDate rt (VDate (now rt))))]],
     Some (inr (VBool (negb (listsNothing r))))).
Proof.
  unfold LedgerService.checkLedgerTransactions. rewrite run_catch.
  destruct (clean r) eqn:C.
  - rewrite (sendRequest_clean _ r _ rest C).
    destruct r as [m | raw [m | tree]]; try discriminate.
    cbn [responseOf get lookup String.eqb Ascii.eqb Bool.eqb].
    rewrite Lists.parseLedgerTransactionsResponse_tree.
    cbn [io_bind run fst snd elements and truthy ret listsNothing]. rewrite C.
    cbn [andb]. destruct (messages tree); reflexivity.
  - destruct (sendRequest_failed
                (XmlBuilder.buildExportRequest "Ledger Transactions"
                   [("LEDGERNAME", ledgerName);
                    ("FROMDATE", VStr "01-Apr-1990");
                    ("TODATE", VStr (XmlBuilder.formatDate rt (VDate (now rt))))]) r C) as [m E].
    rewrite E. cbn [fst snd ret].
    destruct r as [m' | raw [m' | tree]]; cbn [listsNothing]; try reflexivity.
    rewrite C. reflexivity.
Qed.

(** X6. [deleteLedger] without [force] first asks for the
    transactions of the ledger.  Unless the reply is clean and lists
    nothing, it stops there: the deletion is not sent and the call fails
    with [Cannot delete ledger with existing transactions].  When the
    reply lists nothing the deletion follows as the second request, and
    with [force] the deletion is the only request. *)
Theorem deleteLedger_guard
    (ledgerName : value) (options : obj) (r1 r2 : reply) (rest : list reply) :
  truthy ledgerName = true ->
  let check :=
    XmlBuilder.buildExportRequest "Ledger Transactions"
      [("LEDGERNAME", ledgerName);
       ("FROMDATE", VStr "01-Apr-1990");
       ("TODATE", VStr (XmlBuilder.formatDate rt (VDate (now rt))))] in
  let deletion :=
    XmlBuilder.buildImportRequest env
      (LedgerService.deleteTemplate (toString (XmlBuilder.escapeXml ledgerName)))
      [("reportName", VStr "All Masters"); ("companyName", env)] in
  (truthy (get (VObj options) "force") = false ->
   listsNothing r1 = false ->
   run (LedgerService.deleteLedger rt env ledgerName options) (r1 :: rest)
   = ([check],
      Some (inl (Error ("Failed to delete ledger: "
                          ++ "Cannot delete ledger with existing transactions. "
                          ++ "Use force option to override.")))))
  /\ (truthy (get (VObj options) "force") = false ->
      listsNothing r1 = true ->
      fst (run (LedgerService.deleteLedger rt env ledgerName options) (r1 :: r2 :: rest))
      = [check; deletion])
  /\ (truthy (get (VObj options) "force") = true ->
      fst (run (LedgerService.deleteLedger rt env ledgerName options) (r1 :: rest))
      = [deletion]).
Proof.
  intros N check deletion. unfold LedgerService.deleteLedger. rewrite N. cbn [negb].
  repeat split.
  - intros F L. rewrite F. cbn [negb]. rewrite run_catch, run_bind, run_bind.
    rewrite checkLedgerTransactions_verdict, L. reflexivity.
  - intros F L. rewrite F. cbn [negb]. rewrite run_catch, run_bind, run_bind.
    rewrite checkLedgerTransactions_verdict, L.
    cbn [fst snd negb truthy List.length skipn run app].
    rewrite sendRequest_last. reflexivity.
  - intros F. rewrite F. cbn [negb]. rewrite run_catch. cbn [io_bind fst].
    apply sendRequest_last.
Qed.

End Engine.

Lemma deleteLedger_guard_witness :
  run (LedgerService.deleteLedger plainEngine VUndef (VStr "Cash") []) [replyOf twoVouchers]
  = ([XmlBuilder.buildExportRequest "Ledger Transactions"
        [("LEDGERNAME", VStr "Cash");
         ("FROMDATE", VStr "01-Apr-1990");
         ("TODATE", VStr "01-Jan-2024")]],
     Some (inl (Error ("Failed to delete ledger: "
                         ++ "Cannot delete ledger with existing transactions. "
                         ++ "Use force option to override.")))).
Proof.
  exact (proj1 (deleteLedger_guard plainEngine VUndef (VStr "Cash") []
                  (replyOf twoVouchers) (replyOf twoVouchers) [] eq_refl)
           eq_refl eq_refl).
Defined.

(** A ledger without transactions: the check, then the deletion. *)
Example deleteLedger_unused :
  List.length
    (fst (run (LedgerService.deleteLedger plainEngine VUndef (VStr "Cash") [])
            [replyOf (listResponse []); replyOf importedResponse])) = 2%nat
  /\ exists outcome : value,
       snd (run (LedgerService.deleteLedger plainEngine VUndef (VStr "Cash") [])
              [replyOf (listResponse []); replyOf importedResponse])
       = Some (inr outcome)
       /\ get outcome "message" = VStr "Ledger 'Cash' deleted successfully".
Proof. split; [vm_compute; reflexivity|]. eexists. split; vm_compute; reflexivity. Qed.

End Deletion.

(* ===================================================================== *)
(** * Deletion of a stock item (X7) *)
(* ===================================================================== *)

Module StockDeletion.

Import Js Str Spec TallyConnector Interp JsFacts Exchange.

Lemma mapM_total {A B : Type} (f : A -> result B) (P : A -> Prop) (l : list A) :
  (forall x, P x -> exists y, f x = inr y) ->
  Forall P l ->
  exists ys, mapM f l = inr ys /\ List.length ys = List.length l.
Proof.
  intros T. induction 1 as [| x r Px _ [ys [E L]]].
  - exists []. split; reflexivity.
  - destruct (T x Px) as [y Ey]. exists (y :: ys). cbn [mapM]. rewrite Ey. cbn [bind].
    rewrite E. cbn [bind List.length]. rewrite L. split; reflexivity.
Qed.

Lemma parseMovement_defined (node : value) :
  defined node = true -> exists movement, StockItemService.parseMovement node = inr movement.
Proof.
  intros D. unfold StockItemService.parseMovement.
  rewrite !(getM_defined node) by exact D. cbn [bind]. eexists. reflexivity.
Qed.

Lemma parseStockMovementsResponse_tree (tree : xml) :
  exists movements : list value,
    StockItemService._parseStockMovementsResponse (of_xml tree) = inr (VArr movements)
    /\ List.length movements = List.length (messages tree).
Proof.
  unfold StockItemService._parseStockMovementsResponse.
  rewrite Defaults.bodyOf_tree. cbn [bind].
  rewrite Defaults.requestDataOf_tree. cbn [bind].
  pose proof (Lists.messages_defined tree) as D. unfold messages in *.
  destruct (truthy (requestData tree)) eqn:T.
  - rewrite (Lists.tallyMessageOf_default tree _ T). cbn [bind].
    destruct (mapM_total StockItemService.parseMovement _ _ parseMovement_defined D)
      as [ys [E L]].
    rewrite E. cbn [bind]. exists ys. split; [reflexivity | exact L].
  - exists []. split; reflexivity.
Qed.

Section Engine.

Variable rt : runtime.
Variable env : value.

Lemma checkStockTransactions_verdict (stockItemName : value) (r : reply) (rest : list reply) :
  run (StockItemService.checkStockTransactions rt stockItemName) (r :: rest)
  = ([XmlBuilder.buildExportRequest "Stock Transactions"
        [("STOCKITEMNAME", stockItemName);
         ("FROMDATE", VStr "01-Apr-1990");
         ("TODATE", VStr (XmlBuilder.formatDate rt (VDate (now rt))))]],
     Some (inr (VBool (negb (listsNothing r))))).
Proof.
  unfold StockItemService.checkStockTransactions. rewrite run_catch.
  destruct (clean r) eqn:C.
  - rewrite (sendRequest_clean _ r _ rest C).
    destruct r as [m | raw [m | tree]]; try discriminate.
    cbn [responseOf get lookup String.eqb Ascii.eqb Bool.eqb].
    destruct (parseStockMovementsResponse_tree tree) as [l [E L]]. rewrite E.
    cbn [io_bind run fst snd elements and truthy ret listsNothing]. rewrite C, <- L.
    cbn [andb]. destruct l; reflexivity.
  - destruct (sendRequest_failed
                (XmlBuilder.buildExportRequest "Stock Transactions"
                   [("STOCKITEMNAME", stockItemName);
                    ("FROMDATE", VStr "01-Apr-1990");
                    ("TODATE", VStr (XmlBuilder.formatDate rt (VDate (now rt))))]) r C) as [m E].
    rewrite E. cbn [fst snd ret].
    destruct r as [m' | raw [m' | tree]]; cbn [listsNothing]; try reflexivity.
    rewrite C. reflexivity.
Qed.

(** X7. [deleteStockItem] without [force] first asks for the
    transactions of the stock item.  Unless the reply is clean and lists
    nothing, it stops there: the deletion is not sent and the call fails
    with [Cannot delete stock item with existing transactions].  When the
    reply lists nothing the deletion follows as the second request, and
    with [force] the deletion is the only request. *)
Theorem deleteStockItem_guard
    (stockItemName : value) (options : obj) (r1 r2 : reply) (rest : list reply) :
  truthy stockItemName = true ->
  let check :=
    XmlBuilder.buildExportRequest "Stock Transactions"
      [("STOCKITEMNAME", stockItemName);
       ("FROMDATE", VStr "01-Apr-1990");
       ("TODATE", VStr (XmlBuilder.formatDate rt (VDate (now rt))))] in
  let deletion :=
    XmlBuilder.buildImportRequest env
      (StockItemService.deleteTemplate (toString (XmlBuilder.escapeXml stockItemName))) [] in
  (truthy (get (VObj options) "force") = false ->
   listsNothing r1 = false ->
   run (StockItemService.deleteStockItem rt env stockItemName options) (r1 :: rest)
   = ([check],
      Some (inl (Error ("Failed to delete stock item: "
                          ++ "Cannot delete stock item with existing transactions. "
                          ++ "Use force option to override.")))))
  /\ (truthy (get (VObj options) "force") = false ->
      listsNothing r1 = true ->
      fst (run (StockItemService.deleteStockItem rt env stockItemName options)
             (r1 :: r2 :: rest))
      = [check; deletion])
  /\ (truthy (get (VObj options) "force") = true ->
      fst (run (StockItemService.deleteStockItem rt env stockItemName options) (r1 :: rest))
      = [deletion]).
Proof.
  intros N check deletion. unfold StockItemService.deleteStockItem. rewrite N. cbn [negb].
  repeat split.
  - intros F L. rewrite F. cbn [negb]. rewrite run_catch, run_bind, run_bind.
    rewrite checkStockTransactions_verdict, L. reflexivity.
  - intros F L. rewrite F. cbn [negb]. rewrite run_catch, run_bind, run_bind.
    rewrite checkStockTransactions_verdict, L.
    cbn [fst snd negb truthy List.length skipn run app].
    rewrite Deletion.sendRequest_last. reflexivity.
  - intros F. rewrite F. cbn [negb]. rewrite run_catch. cbn [io_bind fst].
    apply Deletion.sendRequest_last.
Qed.

End Engine.

Lemma deleteStockItem_guard_witness :
  fst (run (StockItemService.deleteStockItem plainEngine VUndef (VStr "Widget A")
              [("force", VBool true)])
         [replyOf importedResponse])
  = [XmlBuilder.buildImportRequest VUndef
       (StockItemService.deleteTemplate "Widget A") []].
Proof.
  exact (proj2 (proj2 (deleteStockItem_guard plainEngine VUndef (VStr "Widget A")
                         [("force", VBool true)]
                         (replyOf importedResponse) (replyOf importedResponse) [] eq_refl))
           eq_refl).
Defined.

End StockDeletion.

(* ===================================================================== *)
(** * C3: a response with an error indicator *)
(* ===================================================================== *)

Module Rejection.

Import Js Str Spec TallyConnector Interp JsFacts Exchange.

Lemma parseResponse_rejects (raw : string) (tree : xml) :
  truthy (errorIndicator tree) = true ->
  _parseResponse raw (inr tree)
  = inl (Error ("Tally error: " ++ toString (errorIndicator tree))).
Proof.
  intros T. unfold _parseResponse, errorIndicator, responseBody in *.
  rewrite !getM_defined by auto with js. cbn [bind].
  rewrite !getM_defined by auto with js. cbn [bind].
  rewrite !getM_defined by auto with js. cbn [bind].
  rewrite T. reflexivity.
Qed.

Lemma indicator_unclean (raw : string) (tree : xml) :
  truthy (errorIndicator tree) = true -> clean (Replied raw (inr tree)) = false.
Proof. intros T. cbn [clean]. fold (errorIndicator tree). rewrite T. reflexivity. Qed.

(** A request answered by an error response: whatever the caller meant
    to do with the response is not done. *)
Lemma sendRequest_rejected {A : Type} (x raw : string) (tree : xml) (k : value -> io A)
    (rest : list reply) :
  truthy (errorIndicator tree) = true ->
  run (io_bind (sendRequest x) k) (Replied raw (inr tree) :: rest)
  = ([x],
     Some (inl (Error ("TallyPrime request failed: Tally error: "
                         ++ toString (errorIndicator tree))))).
Proof.
  intros T. unfold sendRequest. cbn [io_bind run].
  rewrite (parseResponse_rejects raw tree T). reflexivity.
Qed.

Lemma labelled_rejected {A : Type} (x label raw : string) (tree : xml) (k : value -> io A)
    (rest : list reply) :
  truthy (errorIndicator tree) = true ->
  run (io_catch (io_bind (sendRequest x) k)
         (fun error => Done (throw (Error (label ++ message error)))))
    (Replied raw (inr tree) :: rest)
  = ([x],
     Some (inl (Error (label ++ "TallyPrime request failed: Tally error: "
                         ++ toString (errorIndicator tree))))).
Proof.
  intros T. rewrite run_catch, (sendRequest_rejected _ _ _ _ _ T). reflexivity.
Qed.

Section Engine.

Variable rt : runtime.
Variable env : value.
Variable lower : string -> string.


End Engine.


(** An error tag with an attribute is an object: the call raises, and the
    message holds [[object Object]] in place of the text of the tag. *)
Example attributed_error_tag :
  snd (run (LedgerService.fetchLedger (VStr "ABC Corporation") [])
         [Replied "<ENVELOPE/>" (inr attributedError)])
  = Some (inl (Error ("Failed to fetch ledger: TallyPrime request failed: "
                        ++ "Tally error: [object Object]"))).
Proof. reflexivity. Qed.

(** An error tag below the children of the body is no indicator: parsing
    resolves. *)
Example nested_error_tag_resolves :
  truthy (errorIndicator nestedError) = false
  /\ _parseResponse "<ENVELOPE/>" (inr nestedError)
     = inr (VObj [("success", VBool true);
                  ("data", of_xml nestedError);
                  ("rawXml", VStr "<ENVELOPE/>")]).
Proof. split; reflexivity. Qed.

(** An error response to a later request of an operation can be caught:
    the additional counts of [getCompanyStatistics] are given up, and the
    details of a company in [getCompanyList] are left out, and the
    operation resolves with what it has. *)
Example later_error_is_caught :
  exists data : value,
    run (CompanyService.getCompanyStatistics (VStr "Acme") [("includeLedgerCount", VBool true)])
      [replyOf (exportResponse (XNode [("DATABASESIZE", XText "10")]));
       replyOf (errorResponse "Parent group does not exist")]
    = ([XmlBuilder.buildExportRequest "Company Statistics" [("COMPANYNAME", VStr "Acme")];
        XmlBuilder.buildCollectionRequest "Ledger" [("COMPANYNAME", VStr "Acme")]],
       Some (inr (VObj [("success", VBool true);
                        ("data", data);
                        ("companyName", VStr "Acme")])))
    /\ get data "databaseSize" = VStr "10"
    /\ get data "ledgerCount" = VUndef.
Proof. eexists. split; [vm_compute; reflexivity | split; reflexivity]. Qed.

Example details_of_a_list :
  exists companies : value,
    snd (run (CompanyService.getCompanyList [("includeDetails", VBool true)])
           [replyOf (listResponse [XNode [("NAME", XText "Acme")];
                                   XNode [("NAME", XText "Bolt")]]);
            replyOf (exportResponse (XNode [("NAME", XText "Acme"); ("STATE", XText "Goa")]));
            replyOf (errorResponse "No such company")])
    = Some (inr (VObj [("success", VBool true);
                       ("data", companies);
                       ("count", VNum (Num.lit "2"))]))
    /\ match companies with
       | VArr [first; second] =>
           get first "state" = VStr "Goa" /\ get second "name" = VStr "Bolt"
           /\ get second "state" = VUndef
       | _ => False
       end.
Proof. eexists. split; [vm_compute; reflexivity | repeat split]. Qed.

End Rejection.

(* ===================================================================== *)
(** * The validation of an updated voucher (X8) *)
(* ===================================================================== *)

Module Revalidation.

Import Js Str Spec TallyConnector Interp JsFacts Exchange.

Section Engine.

Variable rt : runtime.
Variable env : value.

(** X8. [updateVoucher] validates the voucher it has merged from the
    fetched one and the updates before it sends anything more: when the
    merged voucher does not pass [_validateVoucherData], the fetch is the
    only request and the call fails with the message of the validation
    under [Failed to update voucher]. *)
Theorem updateVoucher_revalidates
    (voucherNumber voucherType updates fetched : value) (raw : string) (tree : xml)
    (rest : list reply) (merged : obj) (e : error) :
  truthy voucherNumber = true ->
  truthy voucherType = true ->
  clean (Replied raw (inr tree)) = true ->
  VoucherService._parseVoucherResponse (of_xml tree) = inr fetched ->
  VoucherService.updatedVoucherData voucherNumber voucherType updates
    (VoucherService.outcome
       [("data", fetched); ("voucherNumber", voucherNumber); ("voucherType", voucherType)])
  = inr merged ->
  VoucherService._validateVoucherData rt merged = inl e ->
  run (VoucherService.updateVoucher rt env voucherNumber voucherType updates)
    (Replied raw (inr tree) :: rest)
  = ([XmlBuilder.buildExportRequest "Voucher Details"
        [("VOUCHERNUMBER", voucherNumber); ("VOUCHERTYPE", voucherType)]],
     Some (inl (Error ("Failed to update voucher: " ++ message e)))).
Proof.
  intros N T C P M V.
  unfold VoucherService.updateVoucher, VoucherService.fetchVoucher.
  rewrite N, T. cbn [negb orb get lookup truthy app].
  rewrite run_catch, run_bind, run_catch.
  rewrite (sendRequest_clean _ _ _ rest C).
  cbn [responseOf get lookup String.eqb Ascii.eqb Bool.eqb]. rewrite P.
  unfold ret. cbn [io_bind run fst snd List.length skipn app].
  rewrite M. cbn [io_bind]. rewrite V. reflexivity.
Qed.

End Engine.

Lemma updateVoucher_revalidates_witness :
  run (VoucherService.updateVoucher plainEngine VUndef (VStr "1") (VStr "Sales") (VObj []))
    [replyOf datelessVoucher]
  = ([XmlBuilder.buildExportRequest "Voucher Details"
        [("VOUCHERNUMBER", VStr "1"); ("VOUCHERTYPE", VStr "Sales")]],
     Some (inl (Error ("Failed to update voucher: " ++ "Voucher date is required")))).
Proof.
  refine (updateVoucher_revalidates plainEngine VUndef (VStr "1") (VStr "Sales") (VObj [])
            _ EmptyString datelessVoucher [] _ (Error "Voucher date is required")
            eq_refl eq_refl eq_refl _ _ _).
  - vm_compute. reflexivity.
  - vm_compute. reflexivity.
  - vm_compute. reflexivity.
Defined.

End Revalidation.

(* ===================================================================== *)
(** * The sign of sums and halves *)
(* ===================================================================== *)

Module Sign.

Import Num Spec.

Local Open Scope Z_scope.

Lemma shr_1_nonneg (mrs : shr_record) : 0 <= shr_m mrs -> 0 <= shr_m (shr_1 mrs).
Proof.
  destruct mrs as [m r s]. cbn [shr_m]. intros H.
  destruct m as [|[p|p|]|p]; cbn [shr_1 shr_m]; lia.
Qed.

Lemma shr_nonneg (mrs : shr_record) (e n : Z) :
  0 <= shr_m mrs -> 0 <= shr_m (fst (shr mrs e n)).
Proof.
  intros H. destruct n as [|p|p]; cbn [shr fst]; try exact H.
  rewrite Rounding.iter_pos_iter. apply Pos.iter_invariant; [|exact H].
  intros x Hx. now apply shr_1_nonneg.
Qed.

Lemma shr_fexp_nonneg (m e : Z) (l : location) :
  0 <= m -> 0 <= shr_m (fst (shr_fexp prec emax m e l)).
Proof.
  intros H. unfold shr_fexp. apply shr_nonneg.
  destruct l as [|[| |]]; exact H.
Qed.

Lemma round_nearest_even_nonneg (m : Z) (l : location) :
  0 <= m -> 0 <= round_nearest_even m l.
Proof.
  intros H. unfold round_nearest_even.
  destruct l as [|[| |]]; try lia. destruct (Z.even m); lia.
Qed.

(** Rounding a mantissa that is not negative gives a number that is not
    negative, and never NaN. *)
Lemma round_nonneg (m e : Z) (l : location) :
  0 <= m -> nonNegative (binary_round_aux prec emax false m e l) = true.
Proof.
  intros H. unfold binary_round_aux.
  pose proof (shr_fexp_nonneg m e l H) as H1.
  destruct (shr_fexp prec emax m e l) as [mrs' e'] eqn:E1. cbn [fst] in H1.
  pose proof (shr_fexp_nonneg _ e' loc_Exact
                (round_nearest_even_nonneg _ (loc_of_shr_record mrs') H1)) as H2.
  destruct (shr_fexp prec emax (round_nearest_even (shr_m mrs') (loc_of_shr_record mrs'))
              e' loc_Exact) as [mrs'' e''] eqn:E2.
  cbn [fst] in H2.
  destruct (shr_m mrs'') as [|p|p]; try lia; [reflexivity|].
  destruct (e'' <=? emax - prec); reflexivity.
Qed.

Lemma abs_nonneg (x : number) : is_nan x = false -> nonNegative (abs x) = true.
Proof. destruct x; cbn; intros H; try reflexivity. discriminate. Qed.

Lemma add_nonneg (a b : number) :
  nonNegative a = true -> nonNegative b = true -> nonNegative (add a b) = true.
Proof.
  destruct a as [[|]|[|]| |[|] ma ea]; try discriminate;
    destruct b as [[|]|[|]| |[|] mb eb]; try discriminate; intros _ _; try reflexivity.
  unfold add, SFadd. cbn [cond_Zopp]. 
  change (Z.pos (fst (shl_align ma ea (Z.min ea eb))) + Z.pos (fst (shl_align mb eb (Z.min ea eb))))
    with (Z.pos (fst (shl_align ma ea (Z.min ea eb)) + fst (shl_align mb eb (Z.min ea eb)))).
  cbn [binary_normalize]. unfold binary_round.
  destruct (shl_align _ _ _) as [mz ez].
  apply round_nonneg. lia.
Qed.

Lemma div_two_nonneg (a : number) :
  nonNegative a = true -> nonNegative (div a VoucherService.two) = true.
Proof.
  destruct a as [[|]|[|]| |[|] ma ea]; try discriminate; intros _; try reflexivity.
  unfold div, VoucherService.two, SFdiv. cbn [xorb].
  unfold SFdiv_core_binary.
  set (m' := match _ with 0 => Z.pos ma | Z.pos _ => _ | Z.neg _ => 0 end).
  assert (M : 0 <= m').
  { subst m'. destruct (_ - _ - _) as [|s|s]; try lia.
    rewrite Z.shiftl_mul_pow2 by lia. apply Z.mul_nonneg_nonneg; [lia|].
    apply Z.pow_nonneg. lia. }
  rewrite Exact.div_eucl_div_mod.
  apply round_nonneg. apply Z.div_pos; [exact M | lia].
Qed.

Lemma nonNegative_spec (x : number) :
  nonNegative x = true -> is_nan x = false /\ lt x (S754_zero false) = false.
Proof.
  destruct x as [[|]|[|]| |[|] m e]; try discriminate; intros _; split; reflexivity.
Qed.

End Sign.

(* ===================================================================== *)
(** * Lists of vouchers (X9, X10) *)
(* ===================================================================== *)

Module VoucherList.

Import Js Str Spec TallyConnector Interp JsFacts Exchange.

Lemma asArray_fromXml (v : value) :
  v = VArr [] \/ fromXml v -> Forall fromXml (asArray v).
Proof.
  intros [-> | [t ->]]; [constructor|].
  destruct t as [s | kids | items]; cbn [of_xml asArray].
  - constructor; [exists (XText s); reflexivity | constructor].
  - constructor; [exists (XNode kids); reflexivity | constructor].
  - apply Forall_forall. intros x I. apply in_map_iff in I as [t [<- _]].
    exists t. reflexivity.
Qed.

Lemma messages_fromXml (tree : xml) : Forall fromXml (messages tree).
Proof.
  unfold messages. destruct (truthy (requestData tree)); [|constructor].
  apply asArray_fromXml.
  destruct (Defaults.responseBody_fromXml tree) as [t ->].
  destruct (get_of_xml_cases t "EXPORTDATA") as [-> | [t1 ->]]; [left; reflexivity|].
  destruct (get_of_xml_cases t1 "REQUESTDATA") as [-> | [t2 ->]]; [left; reflexivity|].
  destruct (get_of_xml_cases t2 "TALLYMESSAGE") as [-> | [t3 ->]]; [left; reflexivity|].
  unfold or. destruct (truthy (of_xml t3)); [right; exists t3; reflexivity | left; reflexivity].
Qed.

(** The amount of a parsed entry is a number, and not NaN. *)
Lemma entryOf_amount (node : value) :
  exists y, get (entryOf node) "amount" = VNum y /\ Num.is_nan y = false.
Proof.
  unfold entryOf. cbn [get lookup String.eqb Ascii.eqb Bool.eqb].
  set (x := Num.mul _ _). unfold or. cbn [truthy].
  destruct (Num.is_nan x) eqn:N; cbn [orb negb].
  - exists VoucherService.zero. split; reflexivity.
  - destruct (Num.is_zero x); cbn [negb].
    + exists VoucherService.zero. split; reflexivity.
    + exists x. split; [reflexivity | exact N].
Qed.

Section Engine.

Variable rt : runtime.

Lemma total_nonNegative (entries : list value) (acc : Num.number) :
  nonNegative acc = true ->
  Forall (fun entry => exists y, get entry "amount" = VNum y /\ Num.is_nan y = false) entries ->
  nonNegative
    (fold_left
       (fun total entry =>
          Num.add total (Num.abs (XmlBuilder.toNumber rt (get entry "amount"))))
       entries acc) = true.
Proof.
  intros A F. revert acc A. induction F as [| entry r [y [E N]] _ IH]; intros acc A.
  - exact A.
  - cbn [fold_left]. apply IH. rewrite E. cbn [XmlBuilder.toNumber].
    apply Sign.add_nonneg; [exact A | apply Sign.abs_nonneg, N].
Qed.

Lemma calculateVoucherAmount_tree (v : value) :
  v = VArr [] \/ fromXml v ->
  exists amount,
    VoucherService._calculateVoucherAmount rt v = inr (VNum amount)
    /\ nonNegative amount = true.
Proof.
  intros S. unfold VoucherService._calculateVoucherAmount.
  rewrite (Defaults.parseLedgerEntries_tree v S). cbn [bind elements].
  eexists. split; [reflexivity|].
  apply Sign.div_two_nonneg, total_nonNegative; [reflexivity|].
  apply Forall_forall. intros entry I. apply in_map_iff in I as [node [<- _]].
  apply entryOf_amount.
Qed.

Lemma parseListedVoucher_fromXml (node : value) :
  fromXml node ->
  exists voucher amount,
    VoucherService.parseListedVoucher rt node = inr voucher
    /\ get voucher "amount" = VNum amount
    /\ nonNegative amount = true.
Proof.
  intros X. pose proof (Defaults.fromXml_defined node X) as D.
  unfold VoucherService.parseListedVoucher.
  rewrite !(getM_defined node) by exact D. cbn [bind].
  destruct (calculateVoucherAmount_tree (or (get node "LEDGERENTRIES.LIST") (VArr [])))
    as [amount [E N]].
  { destruct (Defaults.get_fromXml node "LEDGERENTRIES.LIST" X) as [-> | G].
    - left. reflexivity.
    - unfold or. destruct (truthy _); [right; exact G | left; reflexivity]. }
  rewrite E. cbn [bind]. eexists. exists amount. split; [reflexivity|].
  split; [reflexivity | exact N].
Qed.

Lemma mapM_listed (nodes : list value) :
  Forall fromXml nodes ->
  exists vouchers,
    mapM (VoucherService.parseListedVoucher rt) nodes = inr vouchers
    /\ List.length vouchers = List.length nodes
    /\ Forall (fun voucher =>
                 exists amount, get voucher "amount" = VNum amount
                                /\ nonNegative amount = true) vouchers.
Proof.
  induction 1 as [| node r X _ [vouchers [E [L F]]]].
  - exists []. repeat split. constructor.
  - destruct (parseListedVoucher_fromXml node X) as [voucher [amount [Ev [G N]]]].
    exists (voucher :: vouchers). cbn [mapM]. rewrite Ev. cbn [bind]. rewrite E.
    cbn [bind List.length]. rewrite L. repeat split.
    constructor; [exists amount; split; assumption | exact F].
Qed.

Lemma parseVoucherListResponse_tree (tree : xml) :
  exists vouchers : list value,
    VoucherService._parseVoucherListResponse rt (of_xml tree) = inr (VArr vouchers)
    /\ List.length vouchers = List.length (messages tree)
    /\ Forall (fun voucher =>
                 exists amount, get voucher "amount" = VNum amount
                                /\ nonNegative amount = true) vouchers.
Proof.
  unfold VoucherService._parseVoucherListResponse.
  rewrite Defaults.bodyOf_tree. cbn [bind].
  rewrite Defaults.requestDataOf_tree. cbn [bind].
  pose proof (messages_fromXml tree) as X. unfold messages in *.
  destruct (truthy (requestData tree)) eqn:T.
  - rewrite (Lists.tallyMessageOf_default tree _ T). cbn [bind].
    destruct (mapM_listed _ X) as [vouchers [E [L F]]].
    rewrite E. cbn [bind]. exists vouchers. split; [reflexivity|]. split; [exact L | exact F].
  - exists []. repeat split. constructor.
Qed.

(** X9. [_parseVoucherListResponse] never raises on a parsed
    response: it returns one voucher for each message, and the amount of
    every voucher, half the sum of the absolute amounts of its entries,
    is a number that is neither NaN nor negative. *)
Theorem listed_voucher_amounts (tree : xml) :
  exists vouchers : list value,
    VoucherService._parseVoucherListResponse rt (of_xml tree) = inr (VArr vouchers)
    /\ List.length vouchers = List.length (messages tree)
    /\ Forall (fun voucher =>
                 exists amount : Num.number,
                   get voucher "amount" = VNum amount
                   /\ Num.is_nan amount = false
                   /\ Num.lt amount (S754_zero false) = false)
         vouchers.
Proof.
  destruct (parseVoucherListResponse_tree tree) as [vouchers [E [L F]]].
  exists vouchers. split; [exact E|]. split; [exact L|].
  eapply Forall_impl; [|exact F]. cbn beta. intros voucher [amount [G N]].
  exists amount. split; [exact G|]. now apply Sign.nonNegative_spec.
Qed.

Lemma length_slice_to {A : Type} (last : Num.number) (k : Z) (l : list A) :
  Num.toIntegerOrInfinity last = Num.Finite k -> (0 <= k)%Z ->
  (Z.of_nat (List.length (slice_to last l)) <= k)%Z.
Proof.
  intros E K. unfold slice_to. rewrite E.
  destruct (k <? 0)%Z eqn:N; [apply Z.ltb_lt in N; lia|].
  rewrite length_firstn. lia.
Qed.

Lemma length_slice_to_le {A : Type} (last : Num.number) (l : list A) :
  (List.length (slice_to last l) <= List.length l)%nat.
Proof. unfold slice_to. rewrite length_firstn. lia. Qed.

Lemma length_filter_le {A : Type} (p : A -> bool) (l : list A) :
  (List.length (filter p l) <= List.length l)%nat.
Proof.
  induction l as [| x r IH]; [constructor|].
  cbn [filter]. destruct (p x); cbn [List.length]; lia.
Qed.

(** X10. On a clean reply [getVoucherList] resolves, whatever the
    filters: its [count] is the number of the vouchers it returns, it
    returns at most one voucher for each message of the response, and at
    most [limit] of them when the limit is a number whose integer part is
    positive. *)
Theorem getVoucherList_limit
    (filters : obj) (raw : string) (tree : xml) (rest : list reply) :
  clean (Replied raw (inr tree)) = true ->
  exists vouchers : list value,
    snd (run (VoucherService.getVoucherList rt filters) (Replied raw (inr tree) :: rest))
    = Some (inr (VoucherService.outcome
                   [("data", VArr vouchers); ("count", VNum (lengthOf vouchers))]))
    /\ (List.length vouchers <= List.length (messages tree))%nat
    /\ (forall (limit : Num.number) (k : Z),
           get (VObj filters) "limit" = VNum limit ->
           truthy (VNum limit) = true ->
           Num.toIntegerOrInfinity limit = Num.Finite k ->
           (0 <= k)%Z ->
           (Z.of_nat (List.length vouchers) <= k)%Z).
Proof.
  intros C. unfold VoucherService.getVoucherList. rewrite run_catch.
  rewrite (sendRequest_clean _ _ _ rest C). cbn [responseOf].
  change (get (VObj [("success", VBool true); ("data", of_xml tree); ("rawXml", VStr raw)])
            "data") with (of_xml tree).
  destruct (parseVoucherListResponse_tree tree) as [vouchers [P [L _]]]. rewrite P.
  unfold ret. cbn [io_bind run fst snd elements].
  set (ranged := if truthy (get (VObj filters) "amountRange") then _ else vouchers).
  assert (R : (List.length ranged <= List.length (messages tree))%nat).
  { subst ranged. rewrite <- L. destruct (truthy (get (VObj filters) "amountRange"));
      [apply length_filter_le | constructor]. }
  clearbody ranged. eexists. split; [reflexivity|]. split.
  - destruct (truthy (get (VObj filters) "limit")); [|exact R].
    etransitivity; [apply length_slice_to_le | exact R].
  - intros limit k G T E K. rewrite G, T. cbn [XmlBuilder.toNumber].
    now apply length_slice_to.
Qed.

End Engine.

Lemma getVoucherList_limit_witness :
  exists vouchers : list value,
    snd (run (VoucherService.getVoucherList plainEngine [("limit", VNum (Num.lit "1"))])
           [replyOf twoVouchers])
    = Some (inr (VoucherService.outcome
                   [("data", VArr vouchers); ("count", VNum (lengthOf vouchers))]))
    /\ (Z.of_nat (List.length vouchers) <= 1)%Z.
Proof.
  destruct (getVoucherList_limit plainEngine [("limit", VNum (Num.lit "1"))] EmptyString
              twoVouchers [] eq_refl) as [vouchers [E [_ K]]].
  exists vouchers. split; [exact E|].
  apply (K (Num.lit "1") 1%Z); [reflexivity | reflexivity | vm_compute; reflexivity | lia].
Defined.

(** The sale of [twoVouchers] is listed with the amount 100, and the
    voucher without entries with 0. *)
Example listed_amounts_of_two :
  VoucherService._parseVoucherListResponse plainEngine (of_xml twoVouchers)
  = inr (VArr [VObj [("voucherNumber", VStr "1"); ("voucherType", VStr "Sales");
                     ("date", VStr EmptyString); ("narration", VStr EmptyString);
                     ("amount", VNum (Num.lit "100"))];
               VObj [("voucherNumber", VStr "2"); ("voucherType", VStr "Journal");
                     ("date", VStr EmptyString); ("narration", VStr EmptyString);
                     ("amount", VNum (S754_zero false))]]).
Proof. vm_compute. reflexivity. Qed.

End VoucherList.

(* ===================================================================== *)
(** * Lists of ledgers (X11) *)
(* ===================================================================== *)

Module LedgerList.

Import Js Str Spec TallyConnector Interp JsFacts Exchange.

Lemma filterM_Forall {A : Type} (P : A -> Prop) (p : A -> result bool) (l kept : list A) :
  filterM p l = inr kept -> Forall P l -> Forall P kept.
Proof.
  revert kept. induction l as [| x r IH]; intros kept E F.
  - injection E as <-. constructor.
  - cbn [filterM] in E. inversion F as [| ? ? Px Fr]; subst.
    destruct (p x) as [e | keep]; [discriminate|]. cbn [bind] in E.
    destruct (filterM p r) as [e | kept']; [discriminate|]. cbn [bind] in E.
    injection E as <-. specialize (IH kept' eq_refl Fr).
    destruct keep; [constructor; assumption | exact IH].
Qed.

Lemma listedLedger_active (n : value) :
  exists active : bool, get (LedgerService.listedLedger n) "isActive" = VBool active.
Proof.
  unfold LedgerService.listedLedger. cbn [get lookup String.eqb Ascii.eqb Bool.eqb].
  destruct (truthy _); eexists; reflexivity.
Qed.

Lemma parseLedgerListResponse_tree (tree : xml) :
  exists ledgers : list value,
    LedgerService._parseLedgerListResponse (of_xml tree) = inr (VArr ledgers)
    /\ Forall named ledgers.
Proof.
  unfold LedgerService._parseLedgerListResponse.
  rewrite Defaults.bodyOf_tree. cbn [bind].
  rewrite Defaults.requestDataOf_tree. cbn [bind].
  assert (E : exists exportData,
             (if truthy (requestData tree) then getM (requestData tree) "TALLYMESSAGE"
              else ret (requestData tree)) = inr exportData).
  { destruct (truthy (requestData tree)) eqn:T.
    - rewrite (getM_truthy _ _ T). eexists. reflexivity.
    - eexists. reflexivity. }
  destruct E as [exportData ->]. cbn [bind]. eexists. split; [reflexivity|].
  apply Forall_forall. intros ledger I. apply filter_In in I as [I N].
  apply in_map_iff in I as [n [<- _]]. split; [exact N | apply listedLedger_active].
Qed.

Section Engine.

Variable lower : string -> string.

(** X11. On a clean reply [getLedgerList] sends the one collection
    request and, when there is no [nameContains] filter, resolves.
    Whenever it resolves, [count] is the number of the ledgers returned,
    every ledger has a truthy name and a boolean [isActive], and under
    [activeOnly] every ledger is active. *)
Theorem getLedgerList_names
    (filters : obj) (raw : string) (tree : xml) (rest : list reply) :
  clean (Replied raw (inr tree)) = true ->
  let call := run (LedgerService.getLedgerList lower filters) (Replied raw (inr tree) :: rest) in
  fst call
  = [XmlBuilder.buildTDLCollectionRequest (VStr "Ledger List") (VStr "Ledger")
       [VStr "NAME"; VStr "PARENT"]]
  /\ (truthy (get (VObj filters) "nameContains") = false ->
      exists outcome : value, snd call = Some (inr outcome))
  /\ (forall outcome : value,
         snd call = Some (inr outcome) ->
         exists ledgers : list value,
           outcome
           = LedgerService.outcome
               [("data", VArr ledgers); ("count", VNum (lengthOf ledgers))]
           /\ Forall (fun ledger =>
                        named ledger
                        /\ (truthy (get (VObj filters) "activeOnly") = true ->
                            get ledger "isActive" = VBool true))
                ledgers).
Proof.
  intros C. cbn zeta. unfold LedgerService.getLedgerList. rewrite run_catch.
  rewrite (sendRequest_clean _ _ _ rest C). cbn [responseOf].
  change (get (VObj [("success", VBool true); ("data", of_xml tree); ("rawXml", VStr raw)])
            "data") with (of_xml tree).
  destruct (parseLedgerListResponse_tree tree) as [ledgers [P F]]. rewrite P.
  unfold ret at 1. cbn [io_bind elements].
  set (active := if truthy (get (VObj filters) "activeOnly")
                 then filter (fun ledger => is_not_false (get ledger "isActive")) ledgers
                 else ledgers).
  assert (FA : Forall (fun ledger =>
                         named ledger
                         /\ (truthy (get (VObj filters) "activeOnly") = true ->
                             get ledger "isActive" = VBool true)) active).
  { subst active. destruct (truthy (get (VObj filters) "activeOnly")).
    - apply Forall_forall. intros ledger I. apply filter_In in I as [I K].
      rewrite Forall_forall in F. destruct (F ledger I) as [N [b B]].
      split; [split; [exact N | exists b; exact B]|]. intros _.
      rewrite B in K |- *. destruct b; [reflexivity | discriminate].
    - eapply Forall_impl; [|exact F]. cbn beta. intros ledger N. split; [exact N|].
      discriminate. }
  clearbody active.
  destruct (truthy (get (VObj filters) "nameContains")) eqn:NC.
  - destruct (bind _ _) as [e | kept] eqn:K; cbn [io_bind run fst snd].
    + split; [reflexivity|]. split; [discriminate|]. intros outcome [=].
    + split; [reflexivity|]. split; [discriminate|]. intros outcome [= <-].
      exists kept. split; [reflexivity|].
      destruct (LedgerService.toLowerCase lower _ _) as [e | term]; [discriminate|].
      cbn [bind] in K. exact (filterM_Forall _ _ _ _ K FA).
  - unfold ret. cbn [io_bind run fst snd]. split; [reflexivity|].
    split; [intros _; eexists; reflexivity|].
    intros outcome [= <-]. exists active. split; [reflexivity | exact FA].
Qed.

End Engine.

Lemma getLedgerList_names_witness :
  exists outcome : value,
    snd (run (LedgerService.getLedgerList (fun s => s) [("activeOnly", VBool true)])
           [replyOf twoLedgers])
    = Some (inr outcome).
Proof.
  exact (proj1 (proj2 (getLedgerList_names (fun s => s) [("activeOnly", VBool true)]
                         EmptyString twoLedgers [] eq_refl))
           eq_refl).
Defined.

(** Of the two ledgers, [activeOnly] keeps the first. *)
Example active_ledgers_of_two :
  snd (run (LedgerService.getLedgerList (fun s => s) [("activeOnly", VBool true)])
         [replyOf twoLedgers])
  = Some (inr (LedgerService.outcome
                 [("data",
                   VArr [VObj [("name", VStr "Cash"); ("parent", VStr EmptyString);
                               ("alias", VStr EmptyString); ("isActive", VBool true)]]);
                  ("count", VNum (Num.lit "1"))])).
Proof. vm_compute. reflexivity. Qed.

End LedgerList.

(* ===================================================================== *)
(** * Balances (X12, X13) *)
(* ===================================================================== *)

Module Balances.

Import Js Str Spec TallyConnector Interp JsFacts.

Lemma floatOrZero_number (v : value) : Num.is_nan (floatOrZero v) = false.
Proof.
  unfold floatOrZero. cbn [truthy].
  destruct (Num.is_nan (parseFloat v)) eqn:N; cbn [orb negb]; [reflexivity|].
  destruct (Num.is_zero (parseFloat v)); cbn [negb]; [reflexivity | exact N].
Qed.

Lemma amountAt_number (tree : xml) (tag : string) : Num.is_nan (amountAt tree tag) = false.
Proof.
  unfold amountAt. destruct (truthy (requestData tree)); [apply floatOrZero_number | reflexivity].
Qed.

Lemma amountAt_missing (tree : xml) (tag : string) :
  get (payload tree) tag = VUndef -> amountAt tree tag = S754_zero false.
Proof.
  intros G. unfold amountAt. rewrite G.
  destruct (truthy (requestData tree)); [apply Defaults.floatOrZero_undefined | reflexivity].
Qed.

Lemma parseLedgerBalanceResponse_tree (tree : xml) :
  LedgerService._parseLedgerBalanceResponse (of_xml tree)
  = inr (VObj [("openingBalance", VNum (amountAt tree "OPENINGBALANCE"));
               ("closingBalance", VNum (amountAt tree "CLOSINGBALANCE"));
               ("debitTotal", VNum (amountAt tree "DEBITTOTAL"));
               ("creditTotal", VNum (amountAt tree "CREDITTOTAL"))]).
Proof.
  unfold LedgerService._parseLedgerBalanceResponse, amountAt.
  rewrite Defaults.bodyOf_tree. cbn [bind].
  rewrite Defaults.requestDataOf_tree. cbn [bind].
  destruct (truthy (requestData tree)) eqn:T; [|reflexivity].
  rewrite (Defaults.tallyMessageOf_tree tree T). cbn [bind].
  rewrite !getM_defined by apply Defaults.payload_defined. reflexivity.
Qed.

Lemma parseStockBalanceResponse_tree (tree : xml) :
  StockItemService._parseStockBalanceResponse (of_xml tree)
  = inr (VObj
           [("openingBalance",
             VObj [("quantity", VNum (amountAt tree "OPENINGBALANCE"));
                   ("rate", VNum (amountAt tree "OPENINGRATE"));
                   ("value", VNum (amountAt tree "OPENINGVALUE"))]);
            ("inwardQuantity", VNum (amountAt tree "INWARDQUANTITY"));
            ("outwardQuantity", VNum (amountAt tree "OUTWARDQUANTITY"));
            ("closingBalance",
             VObj [("quantity", VNum (amountAt tree "CLOSINGBALANCE"));
                   ("rate", VNum (amountAt tree "CLOSINGRATE"));
                   ("value", VNum (amountAt tree "CLOSINGVALUE"))])]).
Proof.
  unfold StockItemService._parseStockBalanceResponse, amountAt.
  rewrite Defaults.bodyOf_tree. cbn [bind].
  rewrite Defaults.requestDataOf_tree. cbn [bind].
  destruct (truthy (requestData tree)) eqn:T; [|reflexivity].
  rewrite (Defaults.tallyMessageOf_tree tree T). cbn [bind].
  rewrite !getM_defined by apply Defaults.payload_defined. reflexivity.
Qed.

(** X12. [_parseLedgerBalanceResponse] never raises on a parsed response:
    it returns the four balances as numbers read from the tags of the
    message, none of them NaN, with 0 for a tag that is missing and four
    zeros for a response without request data. *)
Theorem ledger_balance_numbers (tree : xml) :
  LedgerService._parseLedgerBalanceResponse (of_xml tree)
  = inr (VObj [("openingBalance", VNum (amountAt tree "OPENINGBALANCE"));
               ("closingBalance", VNum (amountAt tree "CLOSINGBALANCE"));
               ("debitTotal", VNum (amountAt tree "DEBITTOTAL"));
               ("creditTotal", VNum (amountAt tree "CREDITTOTAL"))])
  /\ (forall tag : string, Num.is_nan (amountAt tree tag) = false)
  /\ (forall tag : string,
         get (payload tree) tag = VUndef -> amountAt tree tag = S754_zero false)
  /\ (truthy (requestData tree) = false ->
      forall tag : string, amountAt tree tag = S754_zero false).
Proof.
  split; [apply parseLedgerBalanceResponse_tree|]. split; [apply amountAt_number|].
  split; [apply amountAt_missing|].
  intros T tag. unfold amountAt. rewrite T. reflexivity.
Qed.

(** X13. [_parseStockBalanceResponse] never raises on a parsed response:
    the opening and closing balances and the two movements are numbers
    read from the tags of the message, none of them NaN, with 0 for a tag
    that is missing and for a response without request data. *)
Theorem stock_balance_numbers (tree : xml) :
  StockItemService._parseStockBalanceResponse (of_xml tree)
  = inr (VObj
           [("openingBalance",
             VObj [("quantity", VNum (amountAt tree "OPENINGBALANCE"));
                   ("rate", VNum (amountAt tree "OPENINGRATE"));
                   ("value", VNum (amountAt tree "OPENINGVALUE"))]);
            ("inwardQuantity", VNum (amountAt tree "INWARDQUANTITY"));
            ("outwardQuantity", VNum (amountAt tree "OUTWARDQUANTITY"));
            ("closingBalance",
             VObj [("quantity", VNum (amountAt tree "CLOSINGBALANCE"));
                   ("rate", VNum (amountAt tree "CLOSINGRATE"));
                   ("value", VNum (amountAt tree "CLOSINGVALUE"))])])
  /\ (forall tag : string, Num.is_nan (amountAt tree tag) = false)
  /\ (forall tag : string,
         get (payload tree) tag = VUndef -> amountAt tree tag = S754_zero false)
  /\ (truthy (requestData tree) = false ->
      forall tag : string, amountAt tree tag = S754_zero false).
Proof.
  split; [apply parseStockBalanceResponse_tree|]. split; [apply amountAt_number|].
  split; [apply amountAt_missing|].
  intros T tag. unfold amountAt. rewrite T. reflexivity.
Qed.

(** White space before a number is passed over, the no-break space
    included: a balance that is written after one is read. *)
Example balance_after_no_break_space :
  Num.parseFloat_string (noBreakSpace ++ "12.5") = Num.lit "12.5"
  /\ Num.parseFloat_string (String (ascii_of_nat 9) (" " ++ noBreakSpace ++ "12.5"))
     = Num.lit "12.5"
  /\ LedgerService._parseLedgerBalanceResponse
       (of_xml (exportResponse
                  (XNode [("OPENINGBALANCE", XText (noBreakSpace ++ "12.5"))])))
     = inr (VObj [("openingBalance", VNum (Num.lit "12.5"));
                  ("closingBalance", VNum (S754_zero false));
                  ("debitTotal", VNum (S754_zero false));
                  ("creditTotal", VNum (S754_zero false))]).
Proof. repeat split; vm_compute; reflexivity. Qed.

End Balances.

(* ===================================================================== *)
(** * Companies (X14 to X16) *)
(* ===================================================================== *)

Module Company.

Import Js Str Spec TallyConnector Interp JsFacts Exchange.

Lemma parseCompanyResponse_tree (tree : xml) :
  CompanyService._parseCompanyResponse (of_xml tree)
  = inr (if truthy (requestData tree) then companyOf (payload tree) else VObj []).
Proof.
  unfold CompanyService._parseCompanyResponse.
  rewrite Defaults.bodyOf_tree. cbn [bind].
  rewrite Defaults.requestDataOf_tree. cbn [bind].
  destruct (truthy (requestData tree)) eqn:T; [|reflexivity].
  rewrite (Defaults.tallyMessageOf_tree tree T). cbn [bind].
  rewrite !getM_defined by apply Defaults.payload_defined. reflexivity.
Qed.

Lemma parseFinancialYearResponse_tree (tree : xml) :
  CompanyService._parseFinancialYearResponse (of_xml tree)
  = inr (if truthy (requestData tree) then financialYearOf (payload tree) else VObj []).
Proof.
  unfold CompanyService._parseFinancialYearResponse.
  rewrite Defaults.bodyOf_tree. cbn [bind].
  rewrite Defaults.requestDataOf_tree. cbn [bind].
  destruct (truthy (requestData tree)) eqn:T; [|reflexivity].
  rewrite (Defaults.tallyMessageOf_tree tree T). cbn [bind].
  rewrite !getM_defined by apply Defaults.payload_defined. reflexivity.
Qed.

(** X14. [_parseCompanyResponse] and [_parseFinancialYearResponse]
    never raise on a parsed response.  A field whose tag is missing is
    the empty text; a company is inactive only when [ISACTIVE] is the
    text No, a year is locked only when [ISLOCKED] is the text Yes; and a
    response without request data gives an empty object. *)
Theorem company_defaults (tree : xml) :
  CompanyService._parseCompanyResponse (of_xml tree)
  = inr (if truthy (requestData tree) then companyOf (payload tree) else VObj [])
  /\ CompanyService._parseFinancialYearResponse (of_xml tree)
     = inr (if truthy (requestData tree) then financialYearOf (payload tree) else VObj [])
  /\ (forall node : value,
         defaultsWhereMissing companyFields node (companyOf node)
         /\ defaultsWhereMissing financialYearFields node (financialYearOf node)
         /\ (get (companyOf node) "isActive" = VBool false <-> get node "ISACTIVE" = VStr "No")
         /\ (get (financialYearOf node) "isLocked" = VBool true
             <-> get node "ISLOCKED" = VStr "Yes")).
Proof.
  split; [apply parseCompanyResponse_tree|]. split; [apply parseFinancialYearResponse_tree|].
  intros node. split; [|split; [|split]].
  - unfold defaultsWhereMissing, companyFields, companyOf, getPath.
    repeat (apply Forall_cons; [cbn; intros ->; reflexivity|]). apply Forall_nil.
  - unfold defaultsWhereMissing, financialYearFields, financialYearOf, getPath.
    repeat (apply Forall_cons; [cbn; intros ->; reflexivity|]). apply Forall_nil.
  - change (get (companyOf node) "isActive")
      with (VBool (negb (is_text (get node "ISACTIVE") "No"))).
    destruct (get node "ISACTIVE") as [| | b | x | s | d | items | fields]; cbn [is_text negb];
      try (split; discriminate).
    destruct (String.eqb s "No") eqn:E; cbn [negb].
    + apply String.eqb_eq in E. subst s. split; reflexivity.
    + split; [discriminate|]. intros [= ->]. discriminate.
  - change (get (financialYearOf node) "isLocked")
      with (VBool (is_text (get node "ISLOCKED") "Yes")).
    destruct (get node "ISLOCKED") as [| | b | x | s | d | items | fields]; cbn [is_text];
      try (split; discriminate).
    destruct (String.eqb s "Yes") eqn:E.
    + apply String.eqb_eq in E. subst s. split; reflexivity.
    + split; [discriminate|]. intros [= ->]. discriminate.
Qed.

(** X15. On a clean reply the three company queries resolve after one
    export request, with the company or the financial year read from the
    response; [getFinancialYear] filters by company only when it is given
    a name, and [getCurrentCompany] sends no filter. *)
Theorem company_queries (companyName : value) (raw : string) (tree : xml) (rest : list reply) :
  clean (Replied raw (inr tree)) = true ->
  let company := if truthy (requestData tree) then companyOf (payload tree) else VObj [] in
  let year := if truthy (requestData tree) then financialYearOf (payload tree) else VObj [] in
  (truthy companyName = true ->
   run (CompanyService.getCompanyInfo companyName) (Replied raw (inr tree) :: rest)
   = ([XmlBuilder.buildExportRequest "Company Details" [("COMPANYNAME", companyName)]],
      Some (inr (CompanyService.outcome [("data", company); ("companyName", companyName)]))))
  /\ run CompanyService.getCurrentCompany (Replied raw (inr tree) :: rest)
     = ([XmlBuilder.buildExportRequest "Current Company Info" []],
        Some (inr (CompanyService.outcome [("data", company)])))
  /\ run (CompanyService.getFinancialYear companyName) (Replied raw (inr tree) :: rest)
     = ([XmlBuilder.buildExportRequest "Financial Year Info"
           (if truthy companyName then [("COMPANYNAME", companyName)] else [])],
        Some (inr (CompanyService.outcome [("data", year); ("companyName", companyName)]))).
Proof.
  intros C. cbn zeta. split; [|split].
  - intros N. unfold CompanyService.getCompanyInfo. rewrite N. cbn [negb].
    exact (run_query _ _ _ (fun data => CompanyService.outcome
                              [("data", data); ("companyName", companyName)])
             raw tree rest _ C (parseCompanyResponse_tree tree)).
  - exact (run_query _ _ _ (fun data => CompanyService.outcome [("data", data)])
             raw tree rest _ C (parseCompanyResponse_tree tree)).
  - exact (run_query _ _ _ (fun data => CompanyService.outcome
                              [("data", data); ("companyName", companyName)])
             raw tree rest _ C (parseFinancialYearResponse_tree tree)).
Qed.

Section Engine.

Variable env : value.

(** X16. The company operations that take a name send nothing without
    one and raise [Company name is required].  With a name,
    [loadCompany], [createCompany] and [backupCompany] send exactly one
    request, resolve on a clean reply with their message and the response
    data, and pass a failure on under their own label. *)
Theorem company_commands
    (companyName : value) (companyData options : obj) (r : reply) (rest : list reply) :
  let load := run (CompanyService.loadCompany companyName) (r :: rest) in
  let create := run (CompanyService.createCompany env companyData) (r :: rest) in
  let backup := run (CompanyService.backupCompany companyName options) (r :: rest) in
  let required := ([], Some (inl (Error "Company name is required"))) in
  (truthy companyName = false ->
   run (CompanyService.getCompanyInfo companyName) (r :: rest) = required
   /\ load = required /\ backup = required)
  /\ (truthy (get (VObj companyData) "name") = false -> create = required)
  /\ (truthy companyName = true ->
      fst load = [firstRequest (CompanyService.loadCompany companyName)]
      /\ fst backup = [firstRequest (CompanyService.backupCompany companyName options)]
      /\ (clean r = true ->
          snd load
          = Some (inr (CompanyService.outcome
                         [("message",
                           VStr ("Company '" ++ toString companyName
                                   ++ "' loaded successfully"));
                          ("data", get (responseOf r) "data");
                          ("companyName", companyName)]))
          /\ snd backup
             = Some (inr (CompanyService.outcome
                            [("message",
                              VStr ("Company '" ++ toString companyName
                                      ++ "' backup initiated"));
                             ("data", get (responseOf r) "data");
                             ("companyName", companyName)])))
      /\ (clean r = false ->
          exists m : string,
            snd load
            = Some (inl (Error ("Failed to load company: TallyPrime request failed: " ++ m)))
            /\ snd backup
               = Some (inl (Error ("Failed to backup company: TallyPrime request failed: "
                                     ++ m)))))
  /\ (truthy (get (VObj companyData) "name") = true ->
      fst create
      = [XmlBuilder.buildImportRequest env (XmlBuilder.buildCompanyXml companyData) []]
      /\ (clean r = true ->
          snd create
          = Some (inr (CompanyService.outcome
                         [("message",
                           VStr ("Company '" ++ toString (get (VObj companyData) "name")
                                   ++ "' created successfully"));
                          ("data", get (responseOf r) "data");
                          ("companyName", get (VObj companyData) "name")])))
      /\ (clean r = false ->
          exists m : string,
            snd create
            = Some (inl (Error ("Failed to create company: TallyPrime request failed: "
                                  ++ m))))).
Proof.
  cbn zeta. split; [|split; [|split]].
  - intros N. unfold CompanyService.getCompanyInfo, CompanyService.loadCompany,
      CompanyService.backupCompany. rewrite N. repeat split.
  - intros N. unfold CompanyService.createCompany. rewrite N. reflexivity.
  - intros N. unfold firstRequest, CompanyService.loadCompany, CompanyService.backupCompany.
    rewrite N. cbn [negb]. rewrite !run_catch.
    split; [|split; [|split]].
    + destruct (clean r) eqn:C.
      * rewrite (sendRequest_clean _ r _ rest C). reflexivity.
      * match goal with
        | |- context [run (io_bind (sendRequest ?x) _) _] =>
            destruct (sendRequest_failed x r C) as [m E]; rewrite E
        end.
        reflexivity.
    + destruct (clean r) eqn:C.
      * rewrite (sendRequest_clean _ r _ rest C). reflexivity.
      * match goal with
        | |- context [run (io_bind (sendRequest ?x) _) _] =>
            destruct (sendRequest_failed x r C) as [m E]; rewrite E
        end.
        reflexivity.
    + intros C. rewrite !(sendRequest_clean _ r _ rest C). split; reflexivity.
    + intros C.
      destruct r as [m | raw [m | tree]].
      * exists m. split; reflexivity.
      * eexists. split; reflexivity.
      * destruct (parseResponse_unclean raw tree C) as [m E]. exists m.
        unfold sendRequest. cbn [io_bind run]. rewrite E. split; reflexivity.
  - intros N. unfold CompanyService.createCompany. rewrite N. cbn [negb].
    apply Creation.run_single.
Qed.

End Engine.

Lemma company_queries_witness :
  run CompanyService.getCurrentCompany [replyOf closedCompany]
  = ([XmlBuilder.buildExportRequest "Current Company Info" []],
     Some (inr (CompanyService.outcome
                  [("data",
                    companyOf (VObj [("NAME", VStr "Acme"); ("ISACTIVE", VStr "No")]))]))).
Proof.
  exact (proj1 (proj2 (company_queries VUndef EmptyString closedCompany [] eq_refl))).
Defined.

End Company.

(* ===================================================================== *)
(** * Escaped text holds no markup (X17) *)
(* ===================================================================== *)

Module Markup.

Import Js Str Spec JsFacts.

Lemma markupFree_entity (c : ascii) (r : string) :
  markupFree r = true -> markupFree (entity c ++ r) = true.
Proof.
  unfold markupFree. intros H.
  apply andb_true_iff in H as [H R]. apply andb_true_iff in H as [H A].
  apply andb_true_iff in H as [H Q]. apply andb_true_iff in H as [L G].
  unfold entity.
  destruct (Ascii.eqb c "&"%char) eqn:E1;
    [cbn; rewrite L, G, Q, A, R; reflexivity|].
  destruct (Ascii.eqb c "<"%char) eqn:E2;
    [cbn; rewrite L, G, Q, A, R; reflexivity|].
  destruct (Ascii.eqb c ">"%char) eqn:E3;
    [cbn; rewrite L, G, Q, A, R; reflexivity|].
  destruct (Ascii.eqb c dq_char) eqn:E4;
    [cbn; rewrite L, G, Q, A, R; reflexivity|].
  destruct (Ascii.eqb c "'"%char) eqn:E5;
    [cbn; rewrite L, G, Q, A, R; reflexivity|].
  cbn [append free references].
  rewrite (Ascii.eqb_sym "<"%char c), (Ascii.eqb_sym ">"%char c),
    (Ascii.eqb_sym dq_char c), (Ascii.eqb_sym "'"%char c), E1, E2, E3, E4, E5, L, G, Q, A, R.
  reflexivity.
Qed.

Lemma markupFree_escaped (s : string) : markupFree (escaped s) = true.
Proof.
  induction s as [| c r IH]; [reflexivity|].
  cbn [escaped]. now apply markupFree_entity.
Qed.

(** X17. What [escapeXml] makes of a string holds no markup: none of
    the characters [<], [>], the double quote and the apostrophe, and no
    ampersand other than at the start of one of the five entity
    references. *)
Theorem escapeXml_markup_free (s : string) :
  free "<"%char (XmlBuilder.escapeXml_string s) = true
  /\ free ">"%char (XmlBuilder.escapeXml_string s) = true
  /\ free dq_char (XmlBuilder.escapeXml_string s) = true
  /\ free "'"%char (XmlBuilder.escapeXml_string s) = true
  /\ references (XmlBuilder.escapeXml_string s) = true.
Proof.
  rewrite EscapeXml.escapeXml_string_escaped.
  pose proof (markupFree_escaped s) as H. unfold markupFree in H.
  apply andb_true_iff in H as [H R]. apply andb_true_iff in H as [H A].
  apply andb_true_iff in H as [H Q]. apply andb_true_iff in H as [L G].
  repeat split; assumption.
Qed.

End Markup.

(* ===================================================================== *)
(** * The quick methods of the SDK (X18) *)
(* ===================================================================== *)

Module Quick.

Import Js Str Spec TallyConnector Interp JsFacts.

Lemma get_set (k k' : string) (v : value) (o : obj) :
  get (VObj (set k v o)) k' = if String.eqb k' k then v else get (VObj o) k'.
Proof.
  cbn [get]. induction o as [| [k0 v0] r IH]; cbn [set lookup].
  - destruct (String.eqb k' k); reflexivity.
  - destruct (String.eqb k k0) eqn:E.
    + apply String.eqb_eq in E. subst k0. cbn [lookup].
      destruct (String.eqb k' k); reflexivity.
    + cbn [lookup]. destruct (String.eqb k' k0) eqn:E'.
      * apply String.eqb_eq in E'. subst k0. rewrite String.eqb_sym, E. reflexivity.
      * exact IH.
Qed.

(** A property of the spread: the last value given for it, and otherwise
    the property of the object spread into. *)
Lemma get_spread (o more : obj) (k : string) :
  get (VObj (spread o more)) k
  = match lookup k (rev more) with
    | Some v => v
    | None => get (VObj o) k
    end.
Proof.
  unfold spread. revert o. induction more as [| [k0 v0] r IH]; intros o.
  - reflexivity.
  - cbn [fold_left fst snd rev]. rewrite IH, get_set.
    assert (L : forall (l : list (string * value)),
               lookup k (l ++ [(k0, v0)])
               = match lookup k l with
                 | Some v => Some v
                 | None => if String.eqb k k0 then Some v0 else None
                 end).
    { induction l as [| [k1 v1] l IHl]; cbn [app lookup]; [reflexivity|].
      destruct (String.eqb k k1); [reflexivity | exact IHl]. }
    rewrite L. destruct (lookup k (rev r)); [reflexivity|].
    destruct (String.eqb k k0); reflexivity.
Qed.

Lemma lookup_missing (k : string) (o : obj) : ~ In k (map fst o) -> lookup k o = None.
Proof.
  induction o as [| [k0 v0] r IH]; [reflexivity|]. cbn [map fst In lookup]. intros N.
  destruct (String.eqb k k0) eqn:E.
  - apply String.eqb_eq in E. subst k0. exfalso. apply N. left. reflexivity.
  - apply IH. intros I. apply N. right. exact I.
Qed.

(** In an object the order of the properties does not matter to a
    lookup. *)
Lemma lookup_rev (k : string) (o : obj) : NoDup (map fst o) -> lookup k (rev o) = lookup k o.
Proof.
  induction o as [| [k0 v0] r IH]; [reflexivity|]. cbn [map fst rev lookup]. intros N.
  inversion N as [| ? ? F N']; subst.
  assert (L : forall l : list (string * value),
             lookup k (l ++ [(k0, v0)])
             = match lookup k l with
               | Some v => Some v
               | None => if String.eqb k k0 then Some v0 else None
               end).
  { induction l as [| [k1 v1] l IHl]; cbn [app lookup]; [reflexivity|].
    destruct (String.eqb k k1); [reflexivity | exact IHl]. }
  rewrite L, (IH N'). destruct (String.eqb k k0) eqn:E.
  - apply String.eqb_eq in E. subst k0. rewrite (lookup_missing k r F). reflexivity.
  - destruct (lookup k r); reflexivity.
Qed.

Section Engine.

Variable rt : runtime.
Variable env : value.

(** X18. The quick methods of the SDK call the service with one object
    made of the positional arguments and the options: a property of the
    options replaces the argument of the same name, so the name, the
    parent and the other arguments can be overridden, and every other
    property of the options is passed on. *)
Theorem quick_options_override (name parent baseUnits voucherType date entries : value)
    (options : obj) :
  NoDup (map fst options) ->
  (exists ledgerData : obj,
      TallyPrimeSDK.createLedger env name parent options
      = LedgerService.createLedger env ledgerData
      /\ forall k : string,
           get (VObj ledgerData) k
           = match lookup k options with
             | Some v => v
             | None => get (VObj [("name", name); ("parent", parent)]) k
             end)
  /\ (exists voucherData : obj,
         TallyPrimeSDK.createVoucher rt env voucherType date entries options
         = VoucherService.createVoucher rt env voucherData
         /\ forall k : string,
              get (VObj voucherData) k
              = match lookup k options with
                | Some v => v
                | None =>
                    get (VObj [("voucherType", voucherType); ("date", date);
                               ("ledgerEntries", entries)]) k
                end)
  /\ (exists stockData : obj,
         TallyPrimeSDK.createStockItem env name parent baseUnits options
         = StockItemService.createStockItem env stockData
         /\ forall k : string,
              get (VObj stockData) k
              = match lookup k options with
                | Some v => v
                | None =>
                    get (VObj [("name", name); ("parent", parent); ("baseUnits", baseUnits)]) k
                end).
Proof.
  intros N.
  split; [|split]; eexists; (split; [reflexivity|]); intros k;
    rewrite get_spread, (lookup_rev k options N); reflexivity.
Qed.

End Engine.

Lemma quick_options_override_witness :
  exists ledgerData : obj,
    TallyPrimeSDK.createLedger VUndef (VStr "Cash") (VStr "Assets")
      [("name", VStr EmptyString); ("alias", VStr "C")]
    = LedgerService.createLedger VUndef ledgerData
    /\ get (VObj ledgerData) "name" = VStr EmptyString
    /\ get (VObj ledgerData) "parent" = VStr "Assets"
    /\ get (VObj ledgerData) "alias" = VStr "C".
Proof.
  assert (N : NoDup (map fst [("name", VStr EmptyString); ("alias", VStr "C")])).
  { cbn [map fst]. constructor.
    - cbn [In]. intros [H | []]. discriminate H.
    - constructor; [intros [] | constructor]. }
  destruct (quick_options_override plainEngine VUndef (VStr "Cash") (VStr "Assets")
              VUndef VUndef VUndef VUndef
              [("name", VStr EmptyString); ("alias", VStr "C")] N)
    as [[ledgerData [E G]] _].
  exists ledgerData. split; [exact E|]. split; [exact (G "name")|].
  split; [exact (G "parent") | exact (G "alias")].
Defined.

(** An empty name in the options overrides the name that was passed: the
    ledger is refused and nothing is sent. *)
Example quick_name_overridden :
  run (TallyPrimeSDK.createLedger VUndef (VStr "Cash") (VStr "Assets")
         [("name", VStr EmptyString)])
    [replyOf importedResponse]
  = ([], Some (inl (Error "Ledger name is required"))).
Proof. vm_compute. reflexivity. Qed.

End Quick.

(* ===================================================================== *)
(** * Lists of stock items and of stock movements (X19, X20) *)
(* ===================================================================== *)

Module StockList.

Import Js Str Spec TallyConnector Interp JsFacts Exchange.

Lemma mapM_defined {A : Type} (f : value -> result A) (g : value -> A) (nodes : list value) :
  (forall node, defined node = true -> f node = inr (g node)) ->
  Forall (fun node => defined node = true) nodes ->
  mapM f nodes = inr (map g nodes).
Proof.
  intros H. induction 1 as [| node r D _ IH]; [reflexivity|].
  cbn [mapM map]. rewrite (H node D). cbn [bind]. rewrite IH. reflexivity.
Qed.

Lemma parseListedStockItem_defined (node : value) :
  defined node = true ->
  StockItemService.parseListedStockItem node = inr (listedStockItemOf node).
Proof.
  intros D. unfold StockItemService.parseListedStockItem.
  rewrite !(getM_defined node) by exact D. reflexivity.
Qed.

Lemma parseMovement_node (node : value) :
  defined node = true -> StockItemService.parseMovement node = inr (movementOf node).
Proof.
  intros D. unfold StockItemService.parseMovement.
  rewrite !(getM_defined node) by exact D. reflexivity.
Qed.

Lemma parseStockItemListResponse_tree (tree : xml) :
  StockItemService._parseStockItemListResponse (of_xml tree)
  = inr (VArr (map listedStockItemOf (messages tree))).
Proof.
  unfold StockItemService._parseStockItemListResponse.
  rewrite Defaults.bodyOf_tree. cbn [bind].
  rewrite Defaults.requestDataOf_tree. cbn [bind].
  pose proof (Lists.messages_defined tree) as D. unfold messages in *.
  destruct (truthy (requestData tree)) eqn:T; [|reflexivity].
  rewrite (Lists.tallyMessageOf_default tree _ T). cbn [bind].
  rewrite (mapM_defined _ _ _ parseListedStockItem_defined D). reflexivity.
Qed.

Lemma parseStockMovementsResponse_nodes (tree : xml) :
  StockItemService._parseStockMovementsResponse (of_xml tree)
  = inr (VArr (map movementOf (messages tree))).
Proof.
  unfold StockItemService._parseStockMovementsResponse.
  rewrite Defaults.bodyOf_tree. cbn [bind].
  rewrite Defaults.requestDataOf_tree. cbn [bind].
  pose proof (Lists.messages_defined tree) as D. unfold messages in *.
  destruct (truthy (requestData tree)) eqn:T; [|reflexivity].
  rewrite (Lists.tallyMessageOf_default tree _ T). cbn [bind].
  rewrite (mapM_defined _ _ _ parseMovement_node D). reflexivity.
Qed.

(** X19. [_parseStockMovementsResponse] never raises on a parsed
    response: it returns one movement for each message, in order; the
    four quantities of a movement are numbers and never NaN; and a field
    whose tag is missing is the empty text, or 0 for a quantity. *)
Theorem stock_movements_numbers (tree : xml) :
  StockItemService._parseStockMovementsResponse (of_xml tree)
  = inr (VArr (map movementOf (messages tree)))
  /\ (forall (node : value) (field : string),
         In field ["inwardQuantity"; "outwardQuantity"; "rate"; "amount"] ->
         exists x : Num.number,
           get (movementOf node) field = VNum x /\ Num.is_nan x = false)
  /\ (forall node : value, defaultsWhereMissing movementFields node (movementOf node)).
Proof.
  split; [apply parseStockMovementsResponse_nodes|]. split.
  - intros node field I. unfold movementOf.
    repeat (destruct I as [<- | I];
            [cbn [get lookup String.eqb Ascii.eqb Bool.eqb];
             eexists; split; [reflexivity | apply Balances.floatOrZero_number]|]).
    destruct I.
  - intros node. unfold defaultsWhereMissing, movementFields, movementOf, getPath.
    repeat (apply Forall_cons;
            [cbn [fold_left get lookup String.eqb Ascii.eqb Bool.eqb]; intros ->;
             try rewrite Defaults.floatOrZero_undefined; reflexivity|]).
    apply Forall_nil.
Qed.

Section Engine.

Variable rt : runtime.
Variable lower : string -> string.

(** X20. On a clean reply [getStockItemList] sends the one collection
    request and, when there is no [nameContains] filter, resolves.
    Whenever it resolves, [count] is the number of the items returned,
    every item is read from a node of the response, under [activeOnly]
    every item is active, and under [withBalance] every item has a
    closing quantity above 0. *)
Theorem getStockItemList_filters
    (filters : obj) (raw : string) (tree : xml) (rest : list reply) :
  clean (Replied raw (inr tree)) = true ->
  let call :=
    run (StockItemService.getStockItemList rt lower filters) (Replied raw (inr tree) :: rest) in
  fst call
  = [XmlBuilder.buildTDLCollectionRequest (VStr "Stock Item List") (VStr "Stock Item")
       [VStr "NAME"; VStr "PARENT"]]
  /\ (truthy (get (VObj filters) "nameContains") = false ->
      exists outcome : value, snd call = Some (inr outcome))
  /\ (forall outcome : value,
         snd call = Some (inr outcome) ->
         exists items : list value,
           outcome
           = StockItemService.outcome
               [("data", VArr items); ("count", VNum (lengthOf items))]
           /\ Forall (fun item =>
                        (exists node : value,
                            In node (messages tree) /\ item = listedStockItemOf node)
                        /\ (truthy (get (VObj filters) "activeOnly") = true ->
                            get item "isActive" = VBool true)
                        /\ (truthy (get (VObj filters) "withBalance") = true ->
                            exists quantity : Num.number,
                              get (get item "closingBalance") "quantity" = VNum quantity
                              /\ Num.gt quantity (S754_zero false) = true))
                items).
Proof.
  intros C. cbn zeta. unfold StockItemService.getStockItemList. rewrite run_catch.
  rewrite (sendRequest_clean _ _ _ rest C). cbn [responseOf].
  change (get (VObj [("success", VBool true); ("data", of_xml tree); ("rawXml", VStr raw)])
            "data") with (of_xml tree).
  rewrite parseStockItemListResponse_tree.
  unfold ret at 1. cbn [io_bind elements].
  set (all := map listedStockItemOf (messages tree)).
  assert (F : Forall (fun item =>
                        exists node, In node (messages tree) /\ item = listedStockItemOf node)
                all).
  { subst all. apply Forall_forall. intros item I. apply in_map_iff in I as [node [<- I]].
    exists node. split; [exact I | reflexivity]. }
  clearbody all.
  set (active := if truthy (get (VObj filters) "activeOnly")
                 then filter (fun item => is_not_false (get item "isActive")) all
                 else all).
  assert (FA : Forall (fun item =>
                         (exists node,
                             In node (messages tree) /\ item = listedStockItemOf node)
                         /\ (truthy (get (VObj filters) "activeOnly") = true ->
                             get item "isActive" = VBool true)) active).
  { subst active. destruct (truthy (get (VObj filters) "activeOnly")).
    - apply Forall_forall. intros item I. apply filter_In in I as [I K].
      rewrite Forall_forall in F. destruct (F item I) as [node [M ->]].
      split; [exists node; split; [exact M | reflexivity]|]. intros _. revert K.
      unfold listedStockItemOf. cbn [get lookup String.eqb Ascii.eqb Bool.eqb].
      destruct (negb _); [reflexivity | discriminate].
    - eapply Forall_impl; [|exact F]. cbn beta. intros item N. split; [exact N|].
      discriminate. }
  clearbody active.
  assert (W : forall kept : list value,
             Forall (fun item =>
                       (exists node,
                           In node (messages tree) /\ item = listedStockItemOf node)
                       /\ (truthy (get (VObj filters) "activeOnly") = true ->
                           get item "isActive" = VBool true)) kept ->
             Forall (fun item =>
                       (exists node,
                           In node (messages tree) /\ item = listedStockItemOf node)
                       /\ (truthy (get (VObj filters) "activeOnly") = true ->
                           get item "isActive" = VBool true)
                       /\ (truthy (get (VObj filters) "withBalance") = true ->
                           exists quantity : Num.number,
                             get (get item "closingBalance") "quantity" = VNum quantity
                             /\ Num.gt quantity (S754_zero false) = true))
               (if truthy (get (VObj filters) "withBalance")
                then filter (StockItemService.withBalance rt) kept else kept)).
  { intros kept FK. destruct (truthy (get (VObj filters) "withBalance")).
    - apply Forall_forall. intros item I. apply filter_In in I as [I B].
      rewrite Forall_forall in FK. destruct (FK item I) as [[node [M ->]] A].
      split; [exists node; split; [exact M | reflexivity]|]. split; [exact A|]. intros _.
      revert B. unfold StockItemService.withBalance, listedStockItemOf.
      cbn [get lookup String.eqb Ascii.eqb Bool.eqb and truthy XmlBuilder.toNumber].
      intros B. eexists. split; [reflexivity | exact B].
    - eapply Forall_impl; [|exact FK]. cbn beta. intros item [N A].
      split; [exact N|]. split; [exact A | discriminate]. }
  destruct (truthy (get (VObj filters) "nameContains")) eqn:NC.
  - destruct (bind _ _) as [e | kept] eqn:K; cbn [io_bind run fst snd].
    + split; [reflexivity|]. split; [discriminate|]. intros outcome [=].
    + split; [reflexivity|]. split; [discriminate|]. intros outcome [= <-].
      eexists. split; [reflexivity|]. apply W.
      destruct (StockItemService.toLowerCase lower _ _) as [e | term]; [discriminate|].
      cbn [bind] in K. exact (LedgerList.filterM_Forall _ _ _ _ K FA).
  - unfold ret. cbn [io_bind run fst snd]. split; [reflexivity|].
    split; [intros _; eexists; reflexivity|].
    intros outcome [= <-]. eexists. split; [reflexivity|]. apply W, FA.
Qed.

End Engine.

Lemma getStockItemList_filters_witness :
  exists outcome : value,
    snd (run (StockItemService.getStockItemList plainEngine (fun s => s)
                [("withBalance", VBool true)])
           [replyOf twoStockItems])
    = Some (inr outcome).
Proof.
  exact (proj1 (proj2 (getStockItemList_filters plainEngine (fun s => s)
                         [("withBalance", VBool true)] EmptyString twoStockItems []
                         eq_refl))
           eq_refl).
Defined.

(** Of the two stock items, [withBalance] keeps the one in stock. *)
Example stock_items_in_stock :
  exists item : value,
    snd (run (StockItemService.getStockItemList plainEngine (fun s => s)
                [("withBalance", VBool true)])
           [replyOf twoStockItems])
    = Some (inr (StockItemService.outcome
                   [("data", VArr [item]); ("count", VNum (Num.lit "1"))]))
    /\ get item "name" = VStr "Widget A".
Proof. eexists. split; vm_compute; reflexivity. Qed.

End StockList.

(* ===================================================================== *)
(** * C4: the defaults of the interpreters *)
(* ===================================================================== *)

Module Missing.

Import Js Str Spec TallyConnector Interp JsFacts.

Ltac defaults_of :=
  unfold defaultsWhereMissing;
  repeat (apply Forall_cons;
          [cbn [getPath fold_left get lookup String.eqb Ascii.eqb Bool.eqb];
           let H := fresh in
           intros H; rewrite ?H, ?Defaults.floatOrZero_undefined; reflexivity|]);
  apply Forall_nil.

Lemma Forall2_map {A B : Type} (P : A -> B -> Prop) (f : A -> B) (l : list A) :
  (forall x, P x (f x)) -> Forall2 P l (map f l).
Proof. intros H. induction l; cbn [map]; constructor; auto. Qed.

Lemma parseVoucherResponse_payload (tree : xml) :
  truthy (requestData tree) = true ->
  VoucherService._parseVoucherResponse (of_xml tree)
  = inr (VObj
           [("voucherNumber", or (get (payload tree) "VOUCHERNUMBER") (VStr EmptyString));
            ("voucherType", or (get (payload tree) "VOUCHERTYPENAME") (VStr EmptyString));
            ("date", or (get (payload tree) "DATE") (VStr EmptyString));
            ("narration", or (get (payload tree) "NARRATION") (VStr EmptyString));
            ("ledgerEntries",
             VArr (map entryOf
                     (asArray (or (get (payload tree) "LEDGERENTRIES.LIST") (VArr [])))))]).
Proof.
  intros T. unfold VoucherService._parseVoucherResponse.
  rewrite Defaults.bodyOf_tree. cbn [bind]. rewrite Defaults.requestDataOf_tree. cbn [bind].
  rewrite T, (Defaults.tallyMessageOf_tree tree T). cbn [bind].
  rewrite !getM_defined by apply Defaults.payload_defined. cbn [bind].
  rewrite Defaults.parseLedgerEntries_tree; [reflexivity|].
  destruct (Defaults.payload_shape tree) as [-> | P]; [left; reflexivity|].
  destruct (Defaults.get_fromXml _ "LEDGERENTRIES.LIST" P) as [-> | E]; [left; reflexivity|].
  right. apply Defaults.or_fromXml; [now right|].
  exists (XList []). reflexivity.
Qed.

Lemma parseVoucherResponse_empty (tree : xml) :
  truthy (requestData tree) = false ->
  VoucherService._parseVoucherResponse (of_xml tree) = inr (VObj []).
Proof.
  intros F. unfold VoucherService._parseVoucherResponse.
  rewrite Defaults.bodyOf_tree. cbn [bind]. rewrite Defaults.requestDataOf_tree. cbn [bind].
  rewrite F. reflexivity.
Qed.

Lemma parseInt_undefined : parseInt VUndef = Num.NaN.
Proof. vm_compute. reflexivity. Qed.

Lemma parseCompanyStatisticsResponse_tree (tree : xml) :
  CompanyService._parseCompanyStatisticsResponse (of_xml tree)
  = inr (if truthy (requestData tree) then
           VObj [("lastBackupDate", or (get (payload tree) "LASTBACKUPDATE") (VStr EmptyString));
                 ("databaseSize",
                  or (get (payload tree) "DATABASESIZE") (VNum (S754_zero false)));
                 ("createdDate", or (get (payload tree) "CREATEDDATE") (VStr EmptyString));
                 ("totalTransactions",
                  or (VNum (parseInt (get (payload tree) "TOTALTRANSACTIONS")))
                     (VNum (S754_zero false)))]
         else VObj []).
Proof.
  unfold CompanyService._parseCompanyStatisticsResponse.
  rewrite Defaults.bodyOf_tree. cbn [bind]. rewrite Defaults.requestDataOf_tree. cbn [bind].
  destruct (truthy (requestData tree)) eqn:T; [|reflexivity].
  rewrite (Defaults.tallyMessageOf_tree tree T). cbn [bind].
  rewrite !getM_defined by apply Defaults.payload_defined. reflexivity.
Qed.

Lemma parseListedCompany_defined (node : value) :
  defined node = true ->
  CompanyService.parseListedCompany node
  = inr (VObj [("name", or (get node "NAME") (VStr EmptyString));
               ("mailingName", or (get node "MAILINGNAME") (VStr EmptyString));
               ("isActive", VBool (negb (is_text (get node "ISACTIVE") "No")));
               ("lastModified", or (get node "LASTMODIFIED") (VStr EmptyString))]).
Proof.
  intros D. unfold CompanyService.parseListedCompany.
  rewrite !getM_defined by exact D. reflexivity.
Qed.

Lemma parseCompanyListResponse_tree (tree : xml) :
  exists companies : list value,
    CompanyService._parseCompanyListResponse (of_xml tree) = inr (VArr companies)
    /\ Forall2 (defaultsWhereMissing listedCompanyFields) (messages tree) companies.
Proof.
  unfold CompanyService._parseCompanyListResponse.
  rewrite Defaults.bodyOf_tree. cbn [bind]. rewrite Defaults.requestDataOf_tree. cbn [bind].
  pose proof (Lists.messages_defined tree) as D. unfold messages in *.
  destruct (truthy (requestData tree)) eqn:T.
  - rewrite (Lists.tallyMessageOf_default tree _ T). cbn [bind].
    rewrite (StockList.mapM_defined _ _ _ parseListedCompany_defined D). cbn [bind].
    eexists. split; [reflexivity|].
    apply Forall2_map. intros node. defaults_of.
  - exists []. split; [reflexivity | constructor].
Qed.

Lemma messages_handed_on (tree : xml) :
  Forall (fun interpret : value -> result value =>
            interpret (of_xml tree) = inr (VArr (messages tree)))
    messageInterpreters.
Proof.
  unfold messageInterpreters.
  repeat (apply Forall_cons; [|]); [..|apply Forall_nil].
  all: unfold LedgerService._parseLedgerTransactionsResponse,
         CompanyService._parseLedgerListResponse, CompanyService._parseVoucherListResponse,
         CompanyService._parseStockListResponse, messages;
    rewrite Defaults.bodyOf_tree; cbn [bind];
    rewrite Defaults.requestDataOf_tree; cbn [bind];
    (destruct (truthy (requestData tree)) eqn:T; [|reflexivity]);
    rewrite (Lists.tallyMessageOf_default tree _ T); reflexivity.
Qed.

Lemma optGet_fromXml (v : value) (k : string) : fromXml v -> optGet v k = get v k.
Proof. intros [t ->]. destruct t; reflexivity. Qed.

Lemma parseLedgerListResponse_nodes (tree : xml) :
  LedgerService._parseLedgerListResponse (of_xml tree)
  = inr (VArr (filter (fun x => truthy (get x "name"))
                 (map LedgerService.listedLedger (ledgerNodes tree)))).
Proof.
  unfold LedgerService._parseLedgerListResponse, ledgerNodes.
  rewrite Defaults.bodyOf_tree. cbn [bind].
  rewrite Defaults.requestDataOf_tree. cbn [bind].
  rewrite !(optGet_fromXml _ _ (Defaults.responseBody_fromXml tree)).
  unfold and. destruct (truthy (requestData tree)) eqn:T.
  - rewrite (getM_truthy _ _ T). reflexivity.
  - reflexivity.
Qed.

Lemma ledgerNodes_fromXml (tree : xml) : Forall fromXml (ledgerNodes tree).
Proof.
  unfold ledgerNodes. apply VoucherList.asArray_fromXml.
  pose proof (Defaults.responseBody_fromXml tree) as B.
  assert (S : forall a b : value,
             a = VUndef \/ fromXml a -> b = VArr [] \/ fromXml b ->
             or a b = VArr [] \/ fromXml (or a b)).
  { intros a b [-> | A] H; [exact H|].
    unfold or. destruct (truthy a); [right; exact A | exact H]. }
  assert (U : forall a b : value,
             a = VUndef \/ fromXml a -> b = VUndef \/ fromXml b ->
             or a b = VUndef \/ fromXml (or a b)).
  { intros a b [-> | A] H; [exact H|].
    unfold or. destruct (truthy a); [right; exact A | exact H]. }
  apply S; [|left; reflexivity].
  apply U.
  - assert (R : requestData tree = VUndef \/ fromXml (requestData tree)).
    { unfold requestData, and.
      destruct (Defaults.get_fromXml _ "EXPORTDATA" B) as [-> | E]; [left; reflexivity|].
      destruct (truthy (get (responseBody tree) "EXPORTDATA")); [|right; exact E].
      apply (Defaults.get_fromXml _ _ E). }
    destruct R as [-> | R]; [left; reflexivity|].
    unfold and. destruct (truthy (requestData tree)); [|right; exact R].
    apply (Defaults.get_fromXml _ _ R).
  - apply U; [apply U|]; apply (Defaults.get_fromXml _ _ B).
Qed.

Lemma listedLedger_named (n : value) :
  fromXml n ->
  truthy (get (LedgerService.listedLedger n) "name") = true ->
  defaultsWhereAbsent listedLedgerFields n (LedgerService.listedLedger n).
Proof.
  intros X N. unfold LedgerService.listedLedger in *.
  destruct (truthy n) eqn:T.
  - rewrite (or_truthy n _ T). unfold defaultsWhereAbsent, listedLedgerFields.
    repeat (apply Forall_cons;
            [cbn [getPath fold_left get lookup String.eqb Ascii.eqb Bool.eqb];
             let H := fresh in
             intros H;
             repeat (let E := fresh in
                     apply Forall_cons_iff in H as [E H]; rewrite ?E);
             reflexivity|]).
    apply Forall_nil.
  - rewrite (or_falsy n _ T) in N. discriminate N.
Qed.

Lemma listedLedger_name (n : value) :
  truthy (get n "NAME") = true ->
  get (LedgerService.listedLedger n) "name" = get n "NAME".
Proof.
  intros N. unfold LedgerService.listedLedger.
  assert (T : truthy n = true).
  { destruct n; try discriminate N; reflexivity. }
  rewrite (or_truthy n _ T). cbn [get lookup String.eqb Ascii.eqb Bool.eqb].
  rewrite (or_truthy _ (get n "LedgerName") N).
  rewrite (or_truthy _ (get n "$NAME") N).
  apply or_truthy, N.
Qed.

Lemma ledger_list_defaults (tree : xml) :
  exists ledgers : list value,
    LedgerService._parseLedgerListResponse (of_xml tree) = inr (VArr ledgers)
    /\ Forall (fun ledger =>
                 truthy (get ledger "name") = true
                 /\ exists node : value,
                      In node (ledgerNodes tree)
                      /\ defaultsWhereAbsent listedLedgerFields node ledger)
         ledgers
    /\ (forall node : value,
           In node (ledgerNodes tree) -> truthy (get node "NAME") = true ->
           exists ledger : value, In ledger ledgers /\ get ledger "name" = get node "NAME").
Proof.
  eexists. split; [apply parseLedgerListResponse_nodes|]. split.
  - apply Forall_forall. intros ledger I. apply filter_In in I as [I N].
    apply in_map_iff in I as [n [<- I]]. split; [exact N|].
    exists n. split; [exact I|].
    apply listedLedger_named; [|exact N].
    exact (proj1 (Forall_forall _ _) (ledgerNodes_fromXml tree) n I).
  - intros node I N. exists (LedgerService.listedLedger node).
    split; [|apply listedLedger_name, N].
    apply filter_In. split; [apply in_map, I|].
    rewrite (listedLedger_name node N). exact N.
Qed.

Lemma summary_items_defaults (tree : xml) :
  exists (summary : value) (items : list value),
    StockItemService._parseStockSummaryResponse (of_xml tree) = inr summary
    /\ get summary "items" = VArr items
    /\ Forall2 (defaultsWhereMissing summaryItemFields)
         (if truthy (requestData tree) then asArray (itemsNode tree) else []) items.
Proof.
  do 2 eexists. split; [apply Summaries.parseStockSummaryResponse_items|].
  split; [reflexivity|].
  unfold summaryItems. destruct (truthy (requestData tree)); [|constructor].
  rewrite map_map. apply Forall2_map. intros node.
  unfold StockItemService.itemObject, itemOf. cbn [StockItemService.name StockItemService.group
    StockItemService.closingQuantity StockItemService.closingValue StockItemService.rate
    StockItemService.baseUnits].
  defaults_of.
Qed.

Section Engine.

Variable rt : runtime.

Lemma toNumber_number (x : Num.number) : XmlBuilder.toNumber rt (VNum x) = x.
Proof. reflexivity. Qed.

(** The amount of a listed voucher without entries. *)
Lemma parseListedVoucher_node (node : value) :
  fromXml node ->
  exists amount : Num.number,
    VoucherService.parseListedVoucher rt node
    = inr (VObj [("voucherNumber", or (get node "VOUCHERNUMBER") (VStr EmptyString));
                 ("voucherType", or (get node "VOUCHERTYPENAME") (VStr EmptyString));
                 ("date", or (get node "DATE") (VStr EmptyString));
                 ("narration", or (get node "NARRATION") (VStr EmptyString));
                 ("amount", VNum amount)])
    /\ (get node "LEDGERENTRIES.LIST" = VUndef -> amount = S754_zero false).
Proof.
  intros X. pose proof (Defaults.fromXml_defined node X) as D.
  unfold VoucherService.parseListedVoucher.
  rewrite !(getM_defined node) by exact D. cbn [bind].
  unfold VoucherService._calculateVoucherAmount.
  rewrite Defaults.parseLedgerEntries_tree.
  - cbn [bind elements]. eexists. split; [reflexivity|].
    intros ->. vm_compute. reflexivity.
  - destruct (Defaults.get_fromXml node "LEDGERENTRIES.LIST" X) as [-> | G].
    + left. reflexivity.
    + unfold or. destruct (truthy _); [right; exact G | left; reflexivity].
Qed.

Lemma mapM_listed_defaults (nodes : list value) :
  Forall fromXml nodes ->
  exists vouchers : list value,
    mapM (VoucherService.parseListedVoucher rt) nodes = inr vouchers
    /\ Forall2 (defaultsWhereMissing listedVoucherFields) nodes vouchers.
Proof.
  induction 1 as [| node r X _ [vouchers [E F]]].
  - exists []. split; [reflexivity | constructor].
  - destruct (parseListedVoucher_node node X) as [amount [Ev Z]].
    eexists. cbn [mapM]. rewrite Ev. cbn [bind]. rewrite E. cbn [bind].
    split; [reflexivity|]. constructor; [|exact F].
    unfold defaultsWhereMissing.
    repeat (apply Forall_cons;
            [cbn [getPath fold_left get lookup String.eqb Ascii.eqb Bool.eqb];
             let H := fresh in intros H; rewrite ?H, ?(Z H); reflexivity|]).
    apply Forall_nil.
Qed.

Lemma parseVoucherListResponse_defaults (tree : xml) :
  exists vouchers : list value,
    VoucherService._parseVoucherListResponse rt (of_xml tree) = inr (VArr vouchers)
    /\ Forall2 (defaultsWhereMissing listedVoucherFields) (messages tree) vouchers.
Proof.
  unfold VoucherService._parseVoucherListResponse.
  rewrite Defaults.bodyOf_tree. cbn [bind]. rewrite Defaults.requestDataOf_tree. cbn [bind].
  pose proof (VoucherList.messages_fromXml tree) as X. unfold messages in *.
  destruct (truthy (requestData tree)) eqn:T.
  - rewrite (Lists.tallyMessageOf_default tree _ T). cbn [bind].
    destruct (mapM_listed_defaults _ X) as [vouchers [E F]].
    rewrite E. cbn [bind]. exists vouchers. split; [reflexivity | exact F].
  - exists []. split; [reflexivity | constructor].
Qed.

(** C4, as the code has it.  No interpreter raises on a parsed response
    tree.  An interpreter of [detailInterpreters] reads one message: when
    the request data of the tree is truthy (an [EXPORTDATA] that is not
    empty, with a [REQUESTDATA] in it that is not empty), every field
    whose tag is missing from the message has the value of its table (the
    empty string, 0, false for a flag that is compared with Yes, true for
    [isActive], which is compared with No); otherwise the interpreter
    returns an object without fields, or, for the two balances, an object
    of zeros.  An interpreter of [listInterpreters] returns one element
    for each message, with the same defaults, and no element when the
    request data is falsy; the interpreters of [messageInterpreters] hand
    on the messages as they are.  The ledger list keeps the nodes that
    have a name: a kept ledger has an empty parent and alias and is active
    where the tags are missing, and every node with a [NAME] is kept under
    that name.  The items of a stock summary and the entries of a voucher
    have their defaults element by element; the bill name and type of an
    entry are empty when the entry has no bill allocation, and otherwise
    whatever the allocation holds under [NAME] and [BILLTYPE]. *)
Theorem missing_tags_default (tree : xml) (groupByType : value) :
  Forall (fun interpreter : (value -> result value)
                            * list (list string * string * value) * value =>
            let '(interpret, fields, blank) := interpreter in
            exists parsed : value,
              interpret (of_xml tree) = inr parsed
              /\ (truthy (requestData tree) = true ->
                  defaultsWhereMissing fields (payload tree) parsed)
              /\ (truthy (requestData tree) = false -> parsed = blank))
    (detailInterpreters groupByType)
  /\ Forall (fun interpreter : (value -> result value)
                               * list (list string * string * value) =>
               let '(interpret, fields) := interpreter in
               exists items : list value,
                 interpret (of_xml tree) = inr (VArr items)
                 /\ Forall2 (defaultsWhereMissing fields) (messages tree) items)
       (listInterpreters rt)
  /\ Forall (fun interpret : value -> result value =>
               interpret (of_xml tree) = inr (VArr (messages tree)))
       messageInterpreters
  /\ (exists ledgers : list value,
         LedgerService._parseLedgerListResponse (of_xml tree) = inr (VArr ledgers)
         /\ Forall (fun ledger =>
                      truthy (get ledger "name") = true
                      /\ exists node : value,
                           In node (ledgerNodes tree)
                           /\ defaultsWhereAbsent listedLedgerFields node ledger)
              ledgers
         /\ (forall node : value,
                In node (ledgerNodes tree) -> truthy (get node "NAME") = true ->
                exists ledger : value,
                  In ledger ledgers /\ get ledger "name" = get node "NAME"))
  /\ (exists (summary : value) (items : list value),
         StockItemService._parseStockSummaryResponse (of_xml tree) = inr summary
         /\ get summary "items" = VArr items
         /\ Forall2 (defaultsWhereMissing summaryItemFields)
              (if truthy (requestData tree) then asArray (itemsNode tree) else []) items)
  /\ (exists entries : list value,
         VoucherService._parseLedgerEntries (of_xml tree) = inr (VArr entries)
         /\ Forall2 (defaultsWhereMissing entryFields) (asArray (of_xml tree)) entries)
  /\ (exists entry : value,
         VoucherService.parseLedgerEntry (of_xml tree) = inr entry
         /\ defaultsWhereMissing entryFields (of_xml tree) entry
         /\ (truthy (get (of_xml tree) "BILLALLOCATIONS.LIST") = true ->
             get entry "billName" = get (get (of_xml tree) "BILLALLOCATIONS.LIST") "NAME"
             /\ get entry "billType"
                = get (get (of_xml tree) "BILLALLOCATIONS.LIST") "BILLTYPE")).
Proof.
  split; [|split; [|split; [|split; [|split; [|split]]]]].
  - unfold detailInterpreters.
    repeat (apply Forall_cons; [|]); [..|apply Forall_nil].
    + rewrite Defaults.parseLedgerResponse_tree.
      destruct (truthy (requestData tree)); eexists; (split; [reflexivity|]);
        (split; [intros T | intros E]); try discriminate; try reflexivity.
      apply Defaults.ledgerOf_defaults.
    + rewrite Balances.parseLedgerBalanceResponse_tree. eexists. split; [reflexivity|].
      split.
      * intros _. unfold defaultsWhereMissing, balanceFields.
        repeat (apply Forall_cons;
                [cbn [getPath fold_left get lookup String.eqb Ascii.eqb Bool.eqb];
                 let H := fresh in
                 intros H; rewrite (Balances.amountAt_missing tree _ H); reflexivity|]).
        apply Forall_nil.
      * intros F. unfold amountAt. rewrite F. reflexivity.
    + rewrite Defaults.parseStockItemResponse_tree.
      destruct (truthy (requestData tree)); eexists; (split; [reflexivity|]);
        (split; [intros T | intros E]); try discriminate; try reflexivity.
      apply Defaults.stockItemOf_defaults.
    + rewrite Balances.parseStockBalanceResponse_tree. eexists. split; [reflexivity|].
      split.
      * intros _. unfold defaultsWhereMissing, stockBalanceFields.
        repeat (apply Forall_cons;
                [cbn [getPath fold_left get lookup String.eqb Ascii.eqb Bool.eqb];
                 let H := fresh in
                 intros H; rewrite (Balances.amountAt_missing tree _ H); reflexivity|]).
        apply Forall_nil.
      * intros F. unfold amountAt. rewrite F. reflexivity.
    + destruct (truthy (requestData tree)) eqn:T.
      * rewrite (parseVoucherResponse_payload tree T). eexists. split; [reflexivity|].
        split; [intros _ | discriminate]. defaults_of.
      * rewrite (parseVoucherResponse_empty tree T). eexists. split; [reflexivity|].
        split; [discriminate | reflexivity].
    + destruct (truthy (requestData tree)) eqn:T.
      * destruct (truthy groupByType) eqn:G.
        -- rewrite (Summaries.parseVoucherSummaryResponse_grouped tree groupByType T G).
           eexists. split; [reflexivity|]. split; [intros _ | discriminate].
           unfold VoucherService.zero. defaults_of.
        -- rewrite (Summaries.parseVoucherSummaryResponse_tree tree groupByType T G).
           eexists. split; [reflexivity|]. split; [intros _ | discriminate].
           unfold VoucherService.zero. defaults_of.
      * rewrite (Summaries.parseVoucherSummaryResponse_empty tree groupByType T).
        eexists. split; [reflexivity|]. split; [discriminate | reflexivity].
    + rewrite Company.parseCompanyResponse_tree.
      destruct (truthy (requestData tree)); eexists; (split; [reflexivity|]);
        (split; [intros T | intros E]); try discriminate; try reflexivity.
      unfold companyOf. defaults_of.
    + rewrite Company.parseFinancialYearResponse_tree.
      destruct (truthy (requestData tree)); eexists; (split; [reflexivity|]);
        (split; [intros T | intros E]); try discriminate; try reflexivity.
      unfold financialYearOf. defaults_of.
    + rewrite parseCompanyStatisticsResponse_tree.
      destruct (truthy (requestData tree)); eexists; (split; [reflexivity|]);
        (split; [intros T | intros E]); try discriminate; try reflexivity.
      unfold defaultsWhereMissing.
      repeat (apply Forall_cons;
              [cbn [getPath fold_left get lookup String.eqb Ascii.eqb Bool.eqb];
               let H := fresh in
               intros H; rewrite H, ?parseInt_undefined; reflexivity|]).
      apply Forall_nil.
  - unfold listInterpreters.
    repeat (apply Forall_cons; [|]); [..|apply Forall_nil].
    + apply parseVoucherListResponse_defaults.
    + rewrite StockList.parseStockItemListResponse_tree. eexists. split; [reflexivity|].
      apply Forall2_map. intros node. unfold listedStockItemOf. defaults_of.
    + rewrite StockList.parseStockMovementsResponse_nodes. eexists. split; [reflexivity|].
      apply Forall2_map. intros node. unfold movementOf. defaults_of.
    + apply parseCompanyListResponse_tree.
  - apply messages_handed_on.
  - apply ledger_list_defaults.
  - apply summary_items_defaults.
  - rewrite Defaults.parseLedgerEntries_tree by (right; now exists tree).
    eexists. split; [reflexivity|].
    apply Forall2_map. intros node. apply Defaults.entryOf_defaults.
  - exists (entryOf (of_xml tree)). split; [|split].
    + apply Defaults.parseLedgerEntry_defined, defined_of_xml.
    + apply Defaults.entryOf_defaults.
    + intros B. unfold entryOf. cbn [get lookup String.eqb Ascii.eqb Bool.eqb].
      rewrite B. split; reflexivity.
Qed.

End Engine.

(** C4, as the specification states it, fails in four ways.  On a tree
    without request data the [NAME] tag is missing and the ledger that is
    returned has no name at all, instead of an empty one; the same holds
    on a tree that has a [REQUESTDATA] tag with nothing in it.  A company
    whose [ISACTIVE] tag is missing is active, and so are a listed stock
    item and a listed ledger: absent does not mean false.  And an entry
    with a bill allocation that has no [NAME] has an undefined bill
    name. *)
Lemma defaults_not_as_stated :
  (get (payload (XNode [])) "NAME" = VUndef
   /\ LedgerService._parseLedgerResponse (of_xml (XNode [])) = inr (VObj [])
   /\ getPath (VObj []) ["name"] = VUndef
   /\ ~ defaultsWhereMissing ledgerFields (payload (XNode [])) (VObj []))
  /\ (get (get (responseBody emptyRequestData) "EXPORTDATA") "REQUESTDATA" = VStr EmptyString
      /\ LedgerService._parseLedgerResponse (of_xml emptyRequestData) = inr (VObj []))
  /\ (get (payload nameOnly) "ISACTIVE" = VUndef
      /\ (exists company : value,
             CompanyService._parseCompanyResponse (of_xml nameOnly) = inr company
             /\ get company "isActive" = VBool true)
      /\ (exists item : value,
             StockItemService._parseStockItemListResponse (of_xml nameOnly) = inr (VArr [item])
             /\ get item "isActive" = VBool true)
      /\ (exists ledger : value,
             LedgerService._parseLedgerListResponse (of_xml nameOnly) = inr (VArr [ledger])
             /\ get ledger "isActive" = VBool true))
  /\ (exists entry : value,
         VoucherService.parseLedgerEntry
           (of_xml (XNode [("LEDGERNAME", XText "Sales");
                           ("BILLALLOCATIONS.LIST", XNode [("BILLTYPE", XText "New Ref")])]))
         = inr entry
         /\ get entry "billName" = VUndef).
Proof.
  split; [|split; [|split]].
  - repeat split.
    intros D. unfold defaultsWhereMissing, ledgerFields in D.
    apply Forall_inv in D. specialize (D eq_refl). discriminate D.
  - split; reflexivity.
  - split; [reflexivity|].
    split; [|split]; eexists; (split; [vm_compute; reflexivity | reflexivity]).
  - eexists. split; [vm_compute; reflexivity | reflexivity].
Qed.

(** A response that holds nothing but the name of a ledger: the other
    fields have their defaults. *)
Example ledger_of_a_name :
  LedgerService._parseLedgerResponse (of_xml nameOnly)
  = inr (VObj [("name", VStr "ABC Corporation");
               ("parent", VStr EmptyString);
               ("alias", VStr EmptyString);
               ("openingBalance",
                VObj [("amount", VNum (S754_zero false));
                      ("isBillWise", VBool false);
                      ("isCostCentre", VBool false)])]).
Proof. vm_compute. reflexivity. Qed.

End Missing.

(* ===================================================================== *)
(** * Queries over a period, and the deletion of a voucher (X21, X22) *)
(* ===================================================================== *)

Module Queries.

Import Js Str Spec TallyConnector Interp JsFacts Exchange.

Section Engine.

Variable rt : runtime.
Variable env : value.

(** X21. The four queries over a period raise [... name is required]
    without a name and send nothing.  With a name and a clean reply each
    resolves after one request with what its interpreter reads from the
    response, the vouchers of a ledger being one for each message; the
    period starts on 01-Apr-2023 and ends today unless the options say
    otherwise. *)
Theorem period_queries_resolve
    (name : value) (options : obj) (raw : string) (tree : xml) (rest : list reply) :
  clean (Replied raw (inr tree)) = true ->
  let script := Replied raw (inr tree) :: rest in
  let today := VStr (XmlBuilder.formatDate rt (VDate (now rt))) in
  let fromDate := or (get (VObj options) "fromDate") (VStr "01-Apr-2023") in
  let toDate := or (get (VObj options) "toDate") today in
  let asOn := or (get (VObj options) "asOn") today in
  let period := VObj [("fromDate", fromDate); ("toDate", toDate)] in
  (truthy name = false ->
   run (LedgerService.getLedgerBalance rt name options) script
   = ([], Some (inl (Error "Ledger name is required")))
   /\ run (VoucherService.getVouchersByLedger rt name options) script
      = ([], Some (inl (Error "Ledger name is required")))
   /\ run (StockItemService.getStockBalance rt name options) script
      = ([], Some (inl (Error "Stock item name is required")))
   /\ run (StockItemService.getStockMovements rt name options) script
      = ([], Some (inl (Error "Stock item name is required"))))
  /\ (truthy name = true ->
      (exists data : value,
          LedgerService._parseLedgerBalanceResponse (of_xml tree) = inr data
          /\ run (LedgerService.getLedgerBalance rt name options) script
             = ([XmlBuilder.buildExportRequest "Ledger Balance"
                   [("LEDGERNAME", name); ("FROMDATE", fromDate); ("TODATE", toDate)]],
                Some (inr (LedgerService.outcome
                             [("data", data); ("ledgerName", name); ("period", period)]))))
      /\ (exists vouchers : list value,
             List.length vouchers = List.length (messages tree)
             /\ run (VoucherService.getVouchersByLedger rt name options) script
                = ([XmlBuilder.buildExportRequest "Ledger Vouchers"
                      ([("LEDGERNAME", name); ("FROMDATE", fromDate); ("TODATE", toDate)]
                         ++ (if truthy (get (VObj options) "voucherType")
                             then [("VOUCHERTYPE", get (VObj options) "voucherType")]
                             else []))%list],
                   Some (inr (VoucherService.outcome
                                [("data", VArr vouchers); ("ledgerName", name);
                                 ("period", period)]))))
      /\ (exists data : value,
             StockItemService._parseStockBalanceResponse (of_xml tree) = inr data
             /\ run (StockItemService.getStockBalance rt name options) script
                = ([XmlBuilder.buildExportRequest "Stock Balance"
                      ([("STOCKITEMNAME", name); ("ASON", asOn)]
                         ++ (if truthy (get (VObj options) "godown")
                             then [("GODOWN", get (VObj options) "godown")] else []))%list],
                   Some (inr (StockItemService.outcome
                                [("data", data); ("stockItemName", name); ("asOn", asOn)]))))
      /\ run (StockItemService.getStockMovements rt name options) script
         = ([XmlBuilder.buildExportRequest "Stock Movements"
               ([("STOCKITEMNAME", name); ("FROMDATE", fromDate); ("TODATE", toDate)]
                  ++ (if truthy (get (VObj options) "voucherType")
                      then [("VOUCHERTYPE", get (VObj options) "voucherType")] else [])
                  ++ (if truthy (get (VObj options) "godown")
                      then [("GODOWN", get (VObj options) "godown")] else []))%list],
            Some (inr (StockItemService.outcome
                         [("data", VArr (map movementOf (messages tree)));
                          ("stockItemName", name); ("period", period)])))).
Proof.
  intros C. cbn zeta. split.
  - intros N. unfold LedgerService.getLedgerBalance, VoucherService.getVouchersByLedger,
      StockItemService.getStockBalance, StockItemService.getStockMovements.
    rewrite N. repeat split.
  - intros N. unfold LedgerService.getLedgerBalance, VoucherService.getVouchersByLedger,
      StockItemService.getStockBalance, StockItemService.getStockMovements.
    rewrite N. cbn [negb]. split; [|split; [|split]].
    + eexists. split; [apply Balances.parseLedgerBalanceResponse_tree|].
      refine (run_query _ _ _
                (fun data => LedgerService.outcome
                               [("data", data); ("ledgerName", name); ("period", _)])
                raw tree rest _ C (Balances.parseLedgerBalanceResponse_tree tree)).
    + destruct (VoucherList.parseVoucherListResponse_tree rt tree) as [vouchers [P [L _]]].
      exists vouchers. split; [exact L|].
      refine (run_query _ _ _
                (fun data => VoucherService.outcome
                               [("data", data); ("ledgerName", name); ("period", _)])
                raw tree rest _ C P).
    + eexists. split; [apply Balances.parseStockBalanceResponse_tree|].
      refine (run_query _ _ _
                (fun data => StockItemService.outcome
                               [("data", data); ("stockItemName", name); ("asOn", _)])
                raw tree rest _ C (Balances.parseStockBalanceResponse_tree tree)).
    + refine (run_query _ _ _
                (fun data => StockItemService.outcome
                               [("data", data); ("stockItemName", name); ("period", _)])
                raw tree rest _ C (StockList.parseStockMovementsResponse_nodes tree)).
Qed.

(** X22. [deleteVoucher] raises [Voucher number and type are required]
    and sends nothing when either is missing.  Otherwise it sends exactly
    one request, the import of the deletion message, with no check for
    anything first; the date of the options goes into the message as it
    is given.  It resolves on a clean reply and passes a failure on under
    its own label. *)
Theorem deleteVoucher_request
    (voucherNumber voucherType : value) (options : obj) (r : reply) (rest : list reply) :
  let call := run (VoucherService.deleteVoucher env voucherNumber voucherType options)
                (r :: rest) in
  let dateXml :=
    if truthy (get (VObj options) "date")
    then "<DATE>" ++ toString (get (VObj options) "date") ++ "</DATE>"
    else EmptyString in
  (truthy voucherNumber = false \/ truthy voucherType = false ->
   call = ([], Some (inl (Error "Voucher number and type are required"))))
  /\ (truthy voucherNumber = true -> truthy voucherType = true ->
      fst call
      = [XmlBuilder.buildImportRequest env
           (VoucherService.deleteTemplate (toString (XmlBuilder.escapeXml voucherNumber))
              (toString (XmlBuilder.escapeXml voucherType)) dateXml) []]
      /\ (clean r = true ->
          snd call
          = Some (inr (VoucherService.outcome
                         [("message",
                           VStr ("Voucher '" ++ toString voucherNumber
                                   ++ "' deleted successfully"));
                          ("data", get (responseOf r) "data");
                          ("voucherNumber", voucherNumber);
                          ("voucherType", voucherType)])))
      /\ (clean r = false ->
          exists m : string,
            snd call
            = Some (inl (Error ("Failed to delete voucher: TallyPrime request failed: "
                                  ++ m))))).
Proof.
  cbn zeta. unfold VoucherService.deleteVoucher. split.
  - intros [N | T].
    + rewrite N. reflexivity.
    + rewrite T. destruct (truthy voucherNumber); reflexivity.
  - intros N T. rewrite N, T. cbn [negb orb]. apply Creation.run_single.
Qed.

End Engine.

Lemma period_queries_resolve_witness :
  run (StockItemService.getStockMovements plainEngine (VStr "Widget A") [])
    [replyOf (listResponse [])]
  = ([XmlBuilder.buildExportRequest "Stock Movements"
        [("STOCKITEMNAME", VStr "Widget A");
         ("FROMDATE", VStr "01-Apr-2023");
         ("TODATE", VStr "01-Jan-2024")]],
     Some (inr (StockItemService.outcome
                  [("data", VArr []);
                   ("stockItemName", VStr "Widget A");
                   ("period",
                    VObj [("fromDate", VStr "01-Apr-2023");
                          ("toDate", VStr "01-Jan-2024")])]))).
Proof.
  exact (proj2 (proj2 (proj2
           (proj2 (period_queries_resolve plainEngine (VStr "Widget A") [] EmptyString
                     (listResponse []) [] eq_refl)
              eq_refl)))).
Defined.

End Queries.

(* ===================================================================== *)
(** * Reading a message back (X23 to X28) *)
(* ===================================================================== *)

Module Reading.

Import Js Str Spec StrFacts JsFacts.

Lemma after_here (pat r : string) : after pat (pat ++ r) = r.
Proof.
  destruct pat as [| c p].
  - destruct r; reflexivity.
  - cbn [append after]. change (String c (p ++ r)) with (String c p ++ r).
    rewrite startsWith_append. apply drop_append.
Qed.

Lemma after_clear (pat lit r : string) :
  clear pat lit = true -> after pat (lit ++ r) = after pat r.
Proof.
  induction lit as [| c l IH]; [reflexivity|].
  cbn [clear]. intros H. apply andb_true_iff in H as [H1 H2].
  cbn [append after].
  destruct (startsWith pat (String c (l ++ r))) eqn:S.
  - change (String c (l ++ r)) with (String c l ++ r) in S.
    apply Scan.startsWith_take in S. rewrite S in H1. discriminate.
  - now apply IH.
Qed.

Lemma after_free (c : ascii) (p t r : string) :
  free c t = true -> after (String c p) (t ++ r) = after (String c p) r.
Proof.
  induction t as [| x t IH]; [reflexivity|].
  cbn [free]. intros H. apply andb_true_iff in H as [H1 H2].
  cbn [append after startsWith]. apply negb_true_iff in H1. rewrite H1. cbn [andb].
  now apply IH.
Qed.

Lemma opens_after (pat piece r : string) :
  opens pat piece = true -> after pat (piece ++ r) = r.
Proof.
  induction piece as [| c l IH]; [discriminate|].
  cbn [opens]. intros H. apply orb_true_iff in H as [H | H].
  - apply String.eqb_eq in H. rewrite H. apply after_here.
  - apply andb_true_iff in H as [H1 H2]. cbn [append after].
    destruct (startsWith pat (String c (l ++ r))) eqn:S.
    + change (String c (l ++ r)) with (String c l ++ r) in S.
      apply Scan.startsWith_take in S. rewrite S in H1. discriminate.
    + now apply IH.
Qed.

(** Where [locate] finds a pattern that begins with [c], the template
    reads on from the text that follows it, provided that [c] occurs in
    none of the texts before. *)
Lemma locate_sound (c : ascii) (p : string) (rest : list (string * string))
    (piece : string) (i : nat) :
  locate (String c p) piece (map snd rest) = Some i ->
  Forall (fun text => free c text = true) (map fst (firstn i rest)) ->
  after (String c p) (weave piece rest) = from i rest.
Proof.
  revert piece i. induction rest as [| [text next] r IH]; intros piece i.
  - cbn [map locate]. destruct (opens (String c p) piece) eqn:O.
    + intros [= <-] _. cbn [weave]. rewrite <- (append_nil_r piece).
      now apply opens_after.
    + destruct (clear (String c p) piece); discriminate.
  - cbn [map snd locate]. destruct (opens (String c p) piece) eqn:O.
    + intros [= <-] _. cbn [weave]. now apply opens_after.
    + destruct (clear (String c p) piece) eqn:C; [|discriminate].
      destruct (locate (String c p) next (map snd r)) as [j |] eqn:L; [|discriminate].
      cbn [option_map]. intros [= <-]. cbn [firstn map fst]. intros F.
      apply Forall_cons_iff in F as [F1 F2].
      cbn [weave]. rewrite (after_clear _ _ _ C), (after_free _ _ _ _ F1).
      now apply IH.
Qed.

Lemma before_free (c : ascii) (t r : string) :
  free c t = true -> before c (t ++ String c r) = t.
Proof.
  induction t as [| x t IH]; cbn [append before free].
  - intros _. now rewrite Ascii.eqb_refl.
  - intros H. apply andb_true_iff in H as [H1 H2]. apply negb_true_iff in H1.
    rewrite Ascii.eqb_sym, H1, IH by exact H2. reflexivity.
Qed.

(** An escaped text has none of the four characters of markup. *)
Lemma escaped_free (c : ascii) (s : string) :
  In c ["<"%char; ">"%char; dq_char; "'"%char] -> free c (escaped s) = true.
Proof.
  intros I. induction s as [| x r IH]; [reflexivity|].
  cbn [escaped]. rewrite Scan.free_append, IH, andb_true_r.
  unfold entity.
  destruct (Ascii.eqb x "&"%char) eqn:E1;
    [repeat (destruct I as [<- | I]; [reflexivity|]); destruct I|].
  destruct (Ascii.eqb x "<"%char) eqn:E2;
    [repeat (destruct I as [<- | I]; [reflexivity|]); destruct I|].
  destruct (Ascii.eqb x ">"%char) eqn:E3;
    [repeat (destruct I as [<- | I]; [reflexivity|]); destruct I|].
  destruct (Ascii.eqb x dq_char) eqn:E4;
    [repeat (destruct I as [<- | I]; [reflexivity|]); destruct I|].
  destruct (Ascii.eqb x "'"%char) eqn:E5;
    [repeat (destruct I as [<- | I]; [reflexivity|]); destruct I|].
  cbn [free]. rewrite andb_true_r.
  repeat (destruct I as [<- | I];
          [rewrite Ascii.eqb_sym; first [rewrite E2 | rewrite E3 | rewrite E4 | rewrite E5];
           reflexivity|]).
  destruct I.
Qed.

Lemma from_nth (rest : list (string * string)) (i : nat) (text next : string) :
  nth_error rest i = Some (text, next) ->
  exists tail, from i rest = text ++ next ++ tail.
Proof.
  revert i. induction rest as [| [t n] r IH]; intros [| i]; cbn [nth_error]; try discriminate.
  - intros [= -> ->]. unfold from. cbn [skipn].
    destruct (Scan.weave_head next r) as [tail ->]. exists tail. reflexivity.
  - intros H. destruct (IH i H) as [tail E]. exists tail. exact E.
Qed.

(** The content of an element, read back: the text that the template
    holds at the place of the element, when it is escaped and followed by
    a tag. *)
Lemma element_read (tag s : string) (rest : list (string * string)) (piece : string)
    (i : nat) (value next : string) :
  s = weave piece rest ->
  locate ("<" ++ tag ++ ">") piece (map snd rest) = Some i ->
  Forall (fun text => free "<"%char text = true) (map fst (firstn i rest)) ->
  nth_error rest i = Some (escaped value, next) ->
  startsWith "<" next = true ->
  element tag s = value.
Proof.
  intros -> L F N S. unfold element.
  change ("<" ++ tag ++ ">") with (String "<"%char (tag ++ ">")) in *.
  rewrite (locate_sound _ _ _ _ _ L F).
  destruct (from_nth _ _ _ _ N) as [tail ->].
  apply startsWith_split in S as [r ->].
  change (("<" ++ r) ++ tail) with (String "<"%char (r ++ tail)).
  rewrite before_free.
  - apply EscapeXml.unescape_escaped.
  - apply escaped_free. left. reflexivity.
Qed.

(** The value of an attribute that stands before every text of the
    template, read back. *)
Lemma attribute_read (name s : string) (rest : list (string * string)) (piece : string)
    (value next : string) :
  s = weave piece rest ->
  opens (" " ++ name ++ "=" ++ dq) piece = true ->
  nth_error rest 0 = Some (escaped value, next) ->
  startsWith dq next = true ->
  attribute name s = value.
Proof.
  intros -> O N S. unfold attribute.
  destruct rest as [| [t n] r]; [discriminate|]. cbn [nth_error] in N.
  injection N as -> ->. cbn [weave]. rewrite (opens_after _ _ _ O).
  destruct (Scan.weave_head next r) as [tail ->].
  apply startsWith_split in S as [r' ->].
  change ((dq ++ r') ++ tail) with (String dq_char (r' ++ tail)).
  rewrite before_free.
  - apply EscapeXml.unescape_escaped.
  - apply UpdateFacts.free_escaped.
Qed.

Lemma or_text (a : string) : or (VStr a) (VStr EmptyString) = VStr a.
Proof.
  unfold or. cbn [truthy]. destruct (String.eqb a EmptyString) eqn:E; [|reflexivity].
  apply String.eqb_eq in E. now subst a.
Qed.

(** The pieces of a message between the texts [xs] that were put into
    it: the message is abstracted over the texts, and cut where a mark
    stands in their place. *)
Ltac pieces_of s xs k :=
  lazymatch xs with
  | (?a, ?b, ?c, ?d, ?e, ?f) =>
      let g := eval pattern a, b, c, d, e, f in s in
      lazymatch g with
      | ?F _ _ _ _ _ _ =>
          let p := eval vm_compute in (pieces mark (F marked marked marked marked marked marked)) in
          k p
      end
  | (?a, ?b, ?c, ?d, ?e) =>
      let g := eval pattern a, b, c, d, e in s in
      lazymatch g with
      | ?F _ _ _ _ _ =>
          let p := eval vm_compute in (pieces mark (F marked marked marked marked marked)) in
          k p
      end
  | (?a, ?b) =>
      let g := eval pattern a, b in s in
      lazymatch g with
      | ?F _ _ =>
          let p := eval vm_compute in (pieces mark (F marked marked)) in
          k p
      end
  | ?a =>
      let g := eval pattern a in s in
      lazymatch g with
      | ?F _ =>
          let p := eval vm_compute in (pieces mark (F marked)) in
          k p
      end
  end.

Ltac free_texts :=
  repeat (apply Forall_cons; [first [apply escaped_free; left; reflexivity | assumption]|]);
  apply Forall_nil.

Ltac read_element E i :=
  eapply (element_read _ _ _ _ i);
  [exact E | vm_compute; reflexivity | cbn [firstn map fst]; free_texts
  | reflexivity | reflexivity].

Ltac read_attribute E :=
  eapply attribute_read; [exact E | vm_compute; reflexivity | reflexivity | reflexivity].

(** X23. The texts of a group can be read back from the message that
    [buildGroupXml] makes of them: the [NAME] attribute and the [NAME]
    element give the name and the [PARENT] element the parent, whatever
    characters they hold. *)
Theorem group_read_back (groupData : obj) (name parent : string) :
  get (VObj groupData) "name" = VStr name ->
  get (VObj groupData) "parent" = VStr parent ->
  attribute "NAME" (XmlBuilder.buildGroupXml groupData) = name
  /\ element "NAME" (XmlBuilder.buildGroupXml groupData) = name
  /\ element "PARENT" (XmlBuilder.buildGroupXml groupData) = parent.
Proof.
  intros N P. unfold XmlBuilder.buildGroupXml. rewrite N, P.
  cbn [XmlBuilder.escapeXml toString]. rewrite !EscapeXml.escapeXml_string_escaped.
  lazymatch goal with
  | |- attribute _ ?s = _ /\ _ =>
      pieces_of s (escaped name, escaped parent) ltac:(fun p =>
        assert (E : s = weave (fst p) (combine [escaped name; escaped name; escaped parent] (snd p)))
          by (vm_compute; reflexivity))
  end.
  split; [|split].
  - read_attribute E.
  - read_element E 1.
  - read_element E 2.
Qed.

(** X24. The texts of a ledger can be read back from the message that
    [buildLedgerXml] makes of them: the [NAME] attribute and element give
    the name, the [PARENT] element the parent and the [ALIAS] element the
    alias, whatever characters they hold and whatever the opening
    balance. *)
Theorem ledger_read_back (ledgerData : obj) (name parent alias : string) :
  get (VObj ledgerData) "name" = VStr name ->
  get (VObj ledgerData) "parent" = VStr parent ->
  get (VObj ledgerData) "alias" = VStr alias ->
  attribute "NAME" (XmlBuilder.buildLedgerXml ledgerData) = name
  /\ element "NAME" (XmlBuilder.buildLedgerXml ledgerData) = name
  /\ element "PARENT" (XmlBuilder.buildLedgerXml ledgerData) = parent
  /\ element "ALIAS" (XmlBuilder.buildLedgerXml ledgerData) = alias.
Proof.
  intros N P A. unfold XmlBuilder.buildLedgerXml. rewrite N, P, A, or_text.
  cbn [XmlBuilder.escapeXml toString]. rewrite !EscapeXml.escapeXml_string_escaped.
  set (billWise := if truthy (and _ _) then "Yes" else "No").
  set (opening := if truthy (get (VObj ledgerData) "openingBalance") then _ else EmptyString).
  clearbody billWise opening.
  lazymatch goal with
  | |- attribute _ ?s = _ /\ _ =>
      pieces_of s (escaped name, escaped parent, escaped alias, billWise, opening)
        ltac:(fun p =>
          assert (E : s = weave (fst p)
                            (combine [escaped name; escaped name; escaped parent;
                                      escaped alias; billWise; opening] (snd p)))
            by (vm_compute; reflexivity))
  end.
  split; [|split; [|split]].
  - read_attribute E.
  - read_element E 1.
  - read_element E 2.
  - read_element E 3.
Qed.

(** X25. The texts of a stock item can be read back from the message
    that [buildStockItemXml] makes of them: the [NAME] attribute gives
    the name and the [PARENT], [ALIAS] and [BASEUNITS] elements the
    parent, the alias and the base units. *)
Theorem stock_item_read_back (stockData : obj) (name parent alias baseUnits : string) :
  get (VObj stockData) "name" = VStr name ->
  get (VObj stockData) "parent" = VStr parent ->
  get (VObj stockData) "alias" = VStr alias ->
  get (VObj stockData) "baseUnits" = VStr baseUnits ->
  attribute "NAME" (XmlBuilder.buildStockItemXml stockData) = name
  /\ element "PARENT" (XmlBuilder.buildStockItemXml stockData) = parent
  /\ element "ALIAS" (XmlBuilder.buildStockItemXml stockData) = alias
  /\ element "BASEUNITS" (XmlBuilder.buildStockItemXml stockData) = baseUnits.
Proof.
  intros N P A B. unfold XmlBuilder.buildStockItemXml. rewrite N, P, A, B, or_text.
  cbn [XmlBuilder.escapeXml toString]. rewrite !EscapeXml.escapeXml_string_escaped.
  set (opening := if truthy (get (VObj stockData) "openingBalance") then _ else EmptyString).
  clearbody opening. unfold XmlBuilder.stockItemTemplate.
  lazymatch goal with
  | |- attribute _ ?s = _ /\ _ =>
      pieces_of s (escaped name, escaped parent, escaped alias, escaped baseUnits, opening)
        ltac:(fun p =>
          assert (E : s = weave (fst p)
                            (combine [escaped name; escaped parent; escaped alias;
                                      escaped baseUnits; opening] (snd p)))
            by (vm_compute; reflexivity))
  end.
  split; [|split; [|split]].
  - read_attribute E.
  - read_element E 1.
  - read_element E 2.
  - read_element E 3.
Qed.

(** X26. The texts of a company can be read back from the message
    that [buildCompanyXml] makes of them; the mailing name read back is
    the company name when none is given. *)
Theorem company_read_back
    (companyData : obj) (name mailingName address state country pincode : string) :
  get (VObj companyData) "name" = VStr name ->
  get (VObj companyData) "mailingName" = VStr mailingName ->
  get (VObj companyData) "address" = VStr address ->
  get (VObj companyData) "state" = VStr state ->
  get (VObj companyData) "country" = VStr country ->
  get (VObj companyData) "pincode" = VStr pincode ->
  attribute "NAME" (XmlBuilder.buildCompanyXml companyData) = name
  /\ element "MAILINGNAME" (XmlBuilder.buildCompanyXml companyData)
     = (if String.eqb mailingName EmptyString then name else mailingName)
  /\ element "ADDRESS" (XmlBuilder.buildCompanyXml companyData) = address
  /\ element "STATE" (XmlBuilder.buildCompanyXml companyData) = state
  /\ element "COUNTRY" (XmlBuilder.buildCompanyXml companyData) = country
  /\ element "PINCODE" (XmlBuilder.buildCompanyXml companyData) = pincode
  /\ element "FORMALNAME" (XmlBuilder.buildCompanyXml companyData) = name.
Proof.
  intros N M A S C P. unfold XmlBuilder.buildCompanyXml. rewrite N, M, A, S, C, P, !or_text.
  assert (O : or (VStr mailingName) (VStr name)
              = VStr (if String.eqb mailingName EmptyString then name else mailingName)).
  { unfold or. cbn [truthy]. destruct (String.eqb mailingName EmptyString); reflexivity. }
  rewrite O. set (mailing := if String.eqb mailingName EmptyString then name else mailingName).
  cbn [XmlBuilder.escapeXml toString]. rewrite !EscapeXml.escapeXml_string_escaped.
  lazymatch goal with
  | |- attribute _ ?s = _ /\ _ =>
      pieces_of s (escaped name, escaped mailing, escaped address, escaped state,
                   escaped country, escaped pincode)
        ltac:(fun p =>
          assert (E : s = weave (fst p)
                            (combine [escaped name; escaped mailing; escaped address;
                                      escaped state; escaped country; escaped pincode;
                                      escaped name] (snd p)))
            by (vm_compute; reflexivity))
  end.
  split; [|split; [|split; [|split; [|split; [|split]]]]].
  - read_attribute E.
  - read_element E 1.
  - read_element E 2.
  - read_element E 3.
  - read_element E 4.
  - read_element E 5.
  - read_element E 6.
Qed.

(** X27. The name in a deletion message can be read back from it: the
    [NAME] attribute of the messages of [deleteLedger] and
    [deleteStockItem], and the [VOUCHERNUMBER] attribute of the message
    of [deleteVoucher], give the text that was passed, whatever
    characters it holds. *)
Theorem deletion_read_back (name kind dateXml : string) :
  attribute "NAME"
    (LedgerService.deleteTemplate (toString (XmlBuilder.escapeXml (VStr name)))) = name
  /\ attribute "NAME"
       (StockItemService.deleteTemplate (toString (XmlBuilder.escapeXml (VStr name)))) = name
  /\ attribute "VOUCHERNUMBER"
       (VoucherService.deleteTemplate (toString (XmlBuilder.escapeXml (VStr name)))
          (toString (XmlBuilder.escapeXml (VStr kind))) dateXml) = name.
Proof.
  cbn [XmlBuilder.escapeXml toString]. rewrite !EscapeXml.escapeXml_string_escaped.
  unfold LedgerService.deleteTemplate, StockItemService.deleteTemplate,
    VoucherService.deleteTemplate.
  split; [|split].
  - lazymatch goal with
    | |- attribute _ ?s = _ =>
        pieces_of s (escaped name) ltac:(fun p =>
          assert (E : s = weave (fst p) (combine [escaped name] (snd p)))
            by (vm_compute; reflexivity))
    end.
    read_attribute E.
  - lazymatch goal with
    | |- attribute _ ?s = _ =>
        pieces_of s (escaped name) ltac:(fun p =>
          assert (E : s = weave (fst p) (combine [escaped name] (snd p)))
            by (vm_compute; reflexivity))
    end.
    read_attribute E.
  - lazymatch goal with
    | |- attribute _ ?s = _ =>
        pieces_of s (escaped name, escaped kind, dateXml, dateXml, dateXml) ltac:(fun p =>
          assert (E : s = weave (fst p)
                            (combine [escaped name; escaped kind; dateXml] (snd p)))
            by (vm_compute; reflexivity))
    end.
    read_attribute E.
Qed.

(** A formatted date has no tag in it. *)
Lemma digits_free (s : string) : Numeral.all_digits s = true -> free "<"%char s = true.
Proof.
  induction s as [| c r IH]; [reflexivity|].
  cbn [Numeral.all_digits free]. intros H. apply andb_true_iff in H as [D R].
  rewrite (IH R), andb_true_r.
  destruct (NumeralFacts.digit_cases c D) as [<- | [<- | [<- | [<- | [<- | [<- | [<- | [<- | [<- | [<- | []]]]]]]]]]];
    reflexivity.
Qed.

Lemma Z_toString_free (z : Z) : free "<"%char (Num.Z_toString z) = true.
Proof.
  unfold Num.Z_toString. destruct (z <? 0)%Z eqn:N.
  - apply Z.ltb_lt in N. cbn [append free]. cbn [Ascii.eqb Bool.eqb negb andb].
    apply digits_free, NumeralFacts.digits_spec. lia.
  - apply Z.ltb_ge in N. apply digits_free, NumeralFacts.digits_spec. exact N.
Qed.

Lemma int_toString_free (n : option Z) : free "<"%char (XmlBuilder.int_toString n) = true.
Proof. destruct n as [z |]; [apply Z_toString_free | reflexivity]. Qed.

Lemma repeat_free (n : nat) : free "<"%char (repeat "0"%char n) = true.
Proof. induction n as [| n IH]; [reflexivity|]. cbn [repeat free]. now rewrite IH. Qed.

Lemma month_text_free (i : option nat) : free "<"%char (XmlBuilder.month_text i) = true.
Proof.
  destruct i as [m |]; [|reflexivity]. unfold XmlBuilder.month_text.
  do 12 (destruct m as [| m]; [reflexivity|]). cbn [nth XmlBuilder.months].
  destruct m; reflexivity.
Qed.

Lemma formatDate_free (rt : runtime) (date : value) :
  free "<"%char (XmlBuilder.formatDate rt date) = true.
Proof.
  unfold XmlBuilder.formatDate, padStart.
  rewrite !Scan.free_append, repeat_free, !int_toString_free, month_text_free. reflexivity.
Qed.

Lemma inr_inj {A B : Type} (a b : B) : @inr A B a = inr b -> a = b.
Proof. intros H. injection H as H. exact H. Qed.

Section Engine.

Variable rt : runtime.

(** X28. The texts of a voucher can be read back from the message
    that [buildVoucherXml] makes of them: the [VCHTYPE] attribute and the
    [VOUCHERTYPENAME] element give the voucher type, and the
    [VOUCHERNUMBER] and [NARRATION] elements the number and the
    narration, whatever the date and the entries. *)
Theorem voucher_read_back
    (voucherData : obj) (voucherType voucherNumber narration xml : string) :
  get (VObj voucherData) "voucherType" = VStr voucherType ->
  get (VObj voucherData) "voucherNumber" = VStr voucherNumber ->
  get (VObj voucherData) "narration" = VStr narration ->
  XmlBuilder.buildVoucherXml rt voucherData = inr xml ->
  attribute "VCHTYPE" xml = voucherType
  /\ element "VOUCHERTYPENAME" xml = voucherType
  /\ element "VOUCHERNUMBER" xml = voucherNumber
  /\ element "NARRATION" xml = narration.
Proof.
  intros T N R. unfold XmlBuilder.buildVoucherXml. cbv zeta. rewrite T, N, R, !or_text.
  change (toString (XmlBuilder.escapeXml (VStr voucherType)))
    with (XmlBuilder.escapeXml_string voucherType).
  change (toString (XmlBuilder.escapeXml (VStr voucherNumber)))
    with (XmlBuilder.escapeXml_string voucherNumber).
  change (toString (XmlBuilder.escapeXml (VStr narration)))
    with (XmlBuilder.escapeXml_string narration).
  rewrite !EscapeXml.escapeXml_string_escaped.
  pose proof (formatDate_free rt (get (VObj voucherData) "date")) as F.
  set (date := XmlBuilder.formatDate rt (get (VObj voucherData) "date")) in *.
  clearbody date.
  match goal with |- bind ?m _ = _ -> _ => destruct m as [e | entries] end;
    [discriminate|].
  unfold bind, ret. cbv beta.
  set (entriesXml := concat entries). clearbody entriesXml.
  intros H. apply inr_inj in H. subst xml.
  lazymatch goal with
  | |- attribute _ ?s = _ /\ _ =>
      pieces_of s (escaped voucherType, date, escaped voucherNumber, escaped narration,
                   entriesXml)
        ltac:(fun p =>
          assert (E : s = weave (fst p)
                            (combine [escaped voucherType; date; escaped voucherType;
                                      escaped voucherNumber; escaped narration;
                                      escaped voucherType; date; entriesXml] (snd p)))
            by (vm_compute; reflexivity))
  end.
  split; [|split; [|split]].
  - read_attribute E.
  - read_element E 2.
  - read_element E 3.
  - read_element E 4.
Qed.

End Engine.

Lemma group_read_back_witness :
  let groupData := [("name", VStr "R & D <lab>"); ("parent", VStr "Indirect Expenses")] in
  attribute "NAME" (XmlBuilder.buildGroupXml groupData) = "R & D <lab>"
  /\ element "NAME" (XmlBuilder.buildGroupXml groupData) = "R & D <lab>"
  /\ element "PARENT" (XmlBuilder.buildGroupXml groupData) = "Indirect Expenses".
Proof.
  exact (group_read_back
           [("name", VStr "R & D <lab>"); ("parent", VStr "Indirect Expenses")]
           "R & D <lab>" "Indirect Expenses" eq_refl eq_refl).
Defined.

Lemma ledger_read_back_witness :
  let ledgerData :=
    [("name", VStr "Smith & Sons"); ("parent", VStr "Sundry Debtors");
     ("alias", VStr "S&S <old>")] in
  attribute "NAME" (XmlBuilder.buildLedgerXml ledgerData) = "Smith & Sons"
  /\ element "NAME" (XmlBuilder.buildLedgerXml ledgerData) = "Smith & Sons"
  /\ element "PARENT" (XmlBuilder.buildLedgerXml ledgerData) = "Sundry Debtors"
  /\ element "ALIAS" (XmlBuilder.buildLedgerXml ledgerData) = "S&S <old>".
Proof.
  exact (ledger_read_back
           [("name", VStr "Smith & Sons"); ("parent", VStr "Sundry Debtors");
            ("alias", VStr "S&S <old>")]
           "Smith & Sons" "Sundry Debtors" "S&S <old>" eq_refl eq_refl eq_refl).
Defined.

Lemma stock_item_read_back_witness :
  let stockData :=
    [("name", VStr "Nut & Bolt"); ("parent", VStr "Hardware");
     ("alias", VStr "N&B"); ("baseUnits", VStr "Nos")] in
  attribute "NAME" (XmlBuilder.buildStockItemXml stockData) = "Nut & Bolt"
  /\ element "PARENT" (XmlBuilder.buildStockItemXml stockData) = "Hardware"
  /\ element "ALIAS" (XmlBuilder.buildStockItemXml stockData) = "N&B"
  /\ element "BASEUNITS" (XmlBuilder.buildStockItemXml stockData) = "Nos".
Proof.
  exact (stock_item_read_back
           [("name", VStr "Nut & Bolt"); ("parent", VStr "Hardware");
            ("alias", VStr "N&B"); ("baseUnits", VStr "Nos")]
           "Nut & Bolt" "Hardware" "N&B" "Nos" eq_refl eq_refl eq_refl eq_refl).
Defined.

Lemma company_read_back_witness :
  let companyData :=
    [("name", VStr "Acme & Co"); ("mailingName", VStr EmptyString);
     ("address", VStr "1 Main St"); ("state", VStr "Goa");
     ("country", VStr "India"); ("pincode", VStr "403001")] in
  attribute "NAME" (XmlBuilder.buildCompanyXml companyData) = "Acme & Co"
  /\ element "MAILINGNAME" (XmlBuilder.buildCompanyXml companyData) = "Acme & Co".
Proof.
  pose proof (company_read_back
                [("name", VStr "Acme & Co"); ("mailingName", VStr EmptyString);
                 ("address", VStr "1 Main St"); ("state", VStr "Goa");
                 ("country", VStr "India"); ("pincode", VStr "403001")]
                "Acme & Co" EmptyString "1 Main St" "Goa" "India" "403001"
                eq_refl eq_refl eq_refl eq_refl eq_refl eq_refl) as [A [M _]].
  split; [exact A | exact M].
Defined.

Lemma voucher_read_back_witness :
  let voucherData :=
    ("voucherNumber", VStr "S/1 <a>") :: ("narration", VStr "Sold & paid")
      :: balancedVoucher in
  exists xml : string,
    XmlBuilder.buildVoucherXml plainEngine voucherData = inr xml
    /\ attribute "VCHTYPE" xml = "Sales"
    /\ element "VOUCHERTYPENAME" xml = "Sales"
    /\ element "VOUCHERNUMBER" xml = "S/1 <a>"
    /\ element "NARRATION" xml = "Sold & paid".
Proof.
  cbn zeta.
  destruct (XmlBuilder.buildVoucherXml plainEngine
              (("voucherNumber", VStr "S/1 <a>") :: ("narration", VStr "Sold & paid")
                 :: balancedVoucher)) as [e | xml] eqn:E; [vm_compute in E; discriminate|].
  exists xml. split; [reflexivity|].
  exact (voucher_read_back plainEngine
           (("voucherNumber", VStr "S/1 <a>") :: ("narration", VStr "Sold & paid")
              :: balancedVoucher)
           "Sales" "S/1 <a>" "Sold & paid" xml eq_refl eq_refl eq_refl E).
Defined.

End Reading.

(* ===================================================================== *)
(** * The requests of the fetch operations (X29) *)
(* ===================================================================== *)

Module Requests.

Import Js Str Spec StrFacts JsFacts TallyConnector Reading.

(** The first of the joined texts stands at the head. *)
Lemma join_head (sep x : string) (r : list string) :
  exists tail : string, join sep (x :: r) = x ++ tail.
Proof.
  destruct r as [| y r].
  - exists EmptyString. cbn [join]. now rewrite append_nil_r.
  - eexists. reflexivity.
Qed.

Lemma join_second (sep x y : string) (r : list string) :
  exists tail : string, join sep (x :: y :: r) = x ++ sep ++ y ++ tail.
Proof.
  destruct (join_head sep y r) as [tail E]. exists tail.
  change (join sep (x :: y :: r)) with (x ++ sep ++ join sep (y :: r)). now rewrite E.
Qed.

(** X29. The first request of a fetch names what is asked for: the
    name of the ledger, of the stock item and of the company, and the
    number and the type of the voucher, can be read back from the
    elements of the request, whatever characters they hold. *)
Theorem fetch_requests_read_back (name kind : string) (options : obj) :
  name <> EmptyString ->
  kind <> EmptyString ->
  element "LEDGERNAME" (firstRequest (LedgerService.fetchLedger (VStr name) options)) = name
  /\ element "STOCKITEMNAME"
       (firstRequest (StockItemService.fetchStockItem (VStr name) options)) = name
  /\ element "VOUCHERNUMBER"
       (firstRequest (VoucherService.fetchVoucher (VStr name) (VStr kind) options)) = name
  /\ element "VOUCHERTYPE"
       (firstRequest (VoucherService.fetchVoucher (VStr name) (VStr kind) options)) = kind
  /\ element "COMPANYNAME" (firstRequest (CompanyService.getCompanyInfo (VStr name))) = name
  /\ element "COMPANYNAME" (firstRequest (CompanyService.loadCompany (VStr name))) = name
  /\ element "COMPANYNAME" (firstRequest (CompanyService.backupCompany (VStr name) options))
     = name.
Proof.
  intros N K.
  assert (TN : truthy (VStr name) = true).
  { cbn [truthy]. destruct (String.eqb name EmptyString) eqn:E; [|reflexivity].
    apply String.eqb_eq in E. contradiction. }
  assert (TK : truthy (VStr kind) = true).
  { cbn [truthy]. destruct (String.eqb kind EmptyString) eqn:E; [|reflexivity].
    apply String.eqb_eq in E. contradiction. }
  unfold firstRequest, LedgerService.fetchLedger, StockItemService.fetchStockItem,
    VoucherService.fetchVoucher, CompanyService.getCompanyInfo, CompanyService.loadCompany,
    CompanyService.backupCompany.
  rewrite TN, TK.
  cbn [negb orb sendRequest io_bind io_catch run fst hd app].
  unfold XmlBuilder.buildExportRequest. cbn [map].
  change (toString (XmlBuilder.escapeXml (VStr name))) with (XmlBuilder.escapeXml_string name).
  change (toString (XmlBuilder.escapeXml (VStr kind))) with (XmlBuilder.escapeXml_string kind).
  rewrite !EscapeXml.escapeXml_string_escaped.
  unfold XmlBuilder.buildEnvelope.
  repeat split.
  - match goal with |- context [join ?sep (?x :: ?r)] =>
      destruct (join_head sep x r) as [tail ->] end.
    rewrite !append_assoc.
    lazymatch goal with
    | |- element _ ?s = _ =>
        pieces_of s (escaped name, tail) ltac:(fun p =>
          assert (E : s = weave (fst p) (combine [escaped name; tail] (snd p)))
            by (vm_compute; reflexivity))
    end.
    read_element E 0.
  - match goal with |- context [join ?sep (?x :: ?r)] =>
      destruct (join_head sep x r) as [tail ->] end.
    rewrite !append_assoc.
    lazymatch goal with
    | |- element _ ?s = _ =>
        pieces_of s (escaped name, tail) ltac:(fun p =>
          assert (E : s = weave (fst p) (combine [escaped name; tail] (snd p)))
            by (vm_compute; reflexivity))
    end.
    read_element E 0.
  - match goal with |- context [join ?sep (?x :: ?y :: ?r)] =>
      destruct (join_second sep x y r) as [tail ->] end.
    rewrite !append_assoc.
    lazymatch goal with
    | |- element _ ?s = _ =>
        pieces_of s (escaped name, escaped kind, tail, tail, tail) ltac:(fun p =>
          assert (E : s = weave (fst p) (combine [escaped name; escaped kind; tail] (snd p)))
            by (vm_compute; reflexivity))
    end.
    read_element E 0.
  - match goal with |- context [join ?sep (?x :: ?y :: ?r)] =>
      destruct (join_second sep x y r) as [tail ->] end.
    rewrite !append_assoc.
    lazymatch goal with
    | |- element _ ?s = _ =>
        pieces_of s (escaped name, escaped kind, tail, tail, tail) ltac:(fun p =>
          assert (E : s = weave (fst p) (combine [escaped name; escaped kind; tail] (snd p)))
            by (vm_compute; reflexivity))
    end.
    read_element E 1.
  - cbn [join]. rewrite !append_assoc.
    lazymatch goal with
    | |- element _ ?s = _ =>
        pieces_of s (escaped name) ltac:(fun p =>
          assert (E : s = weave (fst p) (combine [escaped name] (snd p)))
            by (vm_compute; reflexivity))
    end.
    read_element E 0.
  - lazymatch goal with
    | |- element _ ?s = _ =>
        pieces_of s (escaped name) ltac:(fun p =>
          assert (E : s = weave (fst p) (combine [escaped name] (snd p)))
            by (vm_compute; reflexivity))
    end.
    read_element E 0.
  - set (path := if truthy (get (VObj options) "backupPath") then _ else EmptyString).
    set (images := if truthy (get (VObj options) "includeImages") then "Yes" else "No").
    clearbody path images.
    lazymatch goal with
    | |- element _ ?s = _ =>
        pieces_of s (escaped name, path, images, images, images) ltac:(fun p =>
          assert (E : s = weave (fst p) (combine [escaped name; path; images] (snd p)))
            by (vm_compute; reflexivity))
    end.
    read_element E 0.
Qed.

Lemma fetch_requests_read_back_witness :
  element "LEDGERNAME" (firstRequest (LedgerService.fetchLedger (VStr "Smith & Sons") []))
  = "Smith & Sons"
  /\ element "VOUCHERTYPE"
       (firstRequest (VoucherService.fetchVoucher (VStr "S/1") (VStr "Sales <old>") []))
     = "Sales <old>".
Proof.
  split.
  - exact (proj1 (fetch_requests_read_back "Smith & Sons" "Sales" []
                    ltac:(discriminate) ltac:(discriminate))).
  - exact (proj1 (proj2 (proj2 (proj2
             (fetch_requests_read_back "S/1" "Sales <old>" []
                ltac:(discriminate) ltac:(discriminate)))))).
Defined.

End Requests.

(* ===================================================================== *)
(** * The message of a voucher, read back *)
(* ===================================================================== *)

Module Built.

Import Js Str Numeral Spec StrFacts JsFacts.

(** ** Reading a template that something follows *)

Lemma locate_tail (c : ascii) (p : string) (rest : list (string * string))
    (piece : string) (i : nat) (tail : string) :
  locate (String c p) piece (map snd rest) = Some i ->
  Forall (fun text => free c text = true) (map fst (firstn i rest)) ->
  after (String c p) (weave piece rest ++ tail) = from i rest ++ tail.
Proof.
  revert piece i. induction rest as [| [text next] r IH]; intros piece i.
  - cbn [map locate]. destruct (opens (String c p) piece) eqn:O.
    + intros [= <-] _. cbn [weave]. now apply Reading.opens_after.
    + destruct (clear (String c p) piece); discriminate.
  - cbn [map snd locate]. destruct (opens (String c p) piece) eqn:O.
    + intros [= <-] _. cbn [weave]. rewrite append_assoc.
      rewrite (Reading.opens_after _ _ _ O). unfold from. cbn [skipn].
      now rewrite append_assoc.
    + destruct (clear (String c p) piece) eqn:C; [|discriminate].
      destruct (locate (String c p) next (map snd r)) as [j |] eqn:L; [|discriminate].
      cbn [option_map]. intros [= <-]. cbn [firstn map fst]. intros F.
      apply Forall_cons_iff in F as [F1 F2].
      cbn [weave]. rewrite !append_assoc.
      rewrite (Reading.after_clear _ _ _ C), (Reading.after_free _ _ _ _ F1).
      now apply IH.
Qed.

Lemma element_tail (tag : string) (rest : list (string * string)) (piece : string)
    (i : nat) (value next tail : string) :
  locate ("<" ++ tag ++ ">") piece (map snd rest) = Some i ->
  Forall (fun text => free "<"%char text = true) (map fst (firstn i rest)) ->
  nth_error rest i = Some (escaped value, next) ->
  startsWith "<" next = true ->
  element tag (weave piece rest ++ tail) = value.
Proof.
  intros L F N S. unfold element.
  change ("<" ++ tag ++ ">") with (String "<"%char (tag ++ ">")) in *.
  rewrite (locate_tail _ _ _ _ _ _ L F).
  destruct (Reading.from_nth _ _ _ _ N) as [more ->].
  apply startsWith_split in S as [r ->].
  rewrite !append_assoc.
  change ("<" ++ r ++ more ++ tail) with (String "<"%char (r ++ more ++ tail)).
  rewrite Reading.before_free.
  - apply EscapeXml.unescape_escaped.
  - apply Reading.escaped_free. left. reflexivity.
Qed.

Lemma attribute_tail (name : string) (rest : list (string * string)) (piece : string)
    (i : nat) (value next tail : string) :
  locate (" " ++ name ++ "=" ++ dq) piece (map snd rest) = Some i ->
  Forall (fun text => free " "%char text = true) (map fst (firstn i rest)) ->
  nth_error rest i = Some (escaped value, next) ->
  startsWith dq next = true ->
  attribute name (weave piece rest ++ tail) = value.
Proof.
  intros L F N S. unfold attribute.
  change (" " ++ name ++ "=" ++ dq) with (String " "%char (name ++ "=" ++ dq)) in *.
  rewrite (locate_tail _ _ _ _ _ _ L F).
  destruct (Reading.from_nth _ _ _ _ N) as [more ->].
  apply startsWith_split in S as [r ->].
  rewrite !append_assoc.
  change (dq ++ r ++ more ++ tail) with (String dq_char (r ++ more ++ tail)).
  rewrite Reading.before_free.
  - apply EscapeXml.unescape_escaped.
  - apply UpdateFacts.free_escaped.
Qed.

(** ** The entries of a message *)

Lemma entriesIn_clear (lit r : string) :
  clear "<LEDGERENTRIES.LIST>" lit = true -> entriesIn (lit ++ r) = entriesIn r.
Proof.
  induction lit as [| c l IH]; [reflexivity|].
  intros C. cbn [clear] in C. apply andb_true_iff in C as [N C].
  cbn [append]. cbn [entriesIn].
  destruct (startsWith "<LEDGERENTRIES.LIST>" (String c (l ++ r))) eqn:S; [|now apply IH].
  apply (Scan.startsWith_take "<LEDGERENTRIES.LIST>" (String c l) r) in S.
  rewrite S in N. discriminate N.
Qed.

Lemma entriesIn_free (t r : string) :
  free "<"%char t = true -> entriesIn (t ++ r) = entriesIn r.
Proof.
  induction t as [| x t IH]; [reflexivity|].
  cbn [free]. intros H. apply andb_true_iff in H as [H1 H2].
  cbn [append]. cbn [entriesIn].
  change (startsWith "<LEDGERENTRIES.LIST>" (String x (t ++ r)))
    with (Ascii.eqb "<"%char x && startsWith "LEDGERENTRIES.LIST>" (t ++ r)).
  apply negb_true_iff in H1. rewrite H1. cbn [andb].
  now apply IH.
Qed.

(** A template without the opening tag of an entry holds no entry,
    whatever texts without [<] are put into it. *)
Lemma entriesIn_weave (rest : list (string * string)) (piece tail : string) :
  forallb (clear "<LEDGERENTRIES.LIST>") (piece :: map snd rest) = true ->
  Forall (fun text => free "<"%char text = true) (map fst rest) ->
  entriesIn (weave piece rest ++ tail) = entriesIn tail.
Proof.
  revert piece. induction rest as [| [text next] r IH]; intros piece C F.
  - cbn [forallb map] in C. apply andb_true_iff in C as [C _].
    cbn [weave]. now apply entriesIn_clear.
  - cbn [forallb map snd] in C. apply andb_true_iff in C as [C1 C2].
    cbn [map fst] in F. apply Forall_cons_iff in F as [F1 F2].
    cbn [weave]. rewrite !append_assoc.
    rewrite (entriesIn_clear _ _ C1), (entriesIn_free _ _ F1).
    now apply IH.
Qed.

Lemma drop_succ (k : nat) (s : string) : drop (S k) s = drop 1 (drop k s).
Proof.
  revert s. induction k as [| k IH]; intros [| c s]; try reflexivity.
  change (drop (S (S k)) (String c s)) with (drop (S k) s).
  change (drop (S k) (String c s)) with (drop k s). apply IH.
Qed.

Lemma weave_lead (a b : string) (rest : list (string * string)) :
  weave (a ++ b) rest = a ++ weave b rest.
Proof. destruct rest as [| [text next] r]; cbn [weave]; [reflexivity | apply append_assoc]. Qed.

Lemma entriesIn_here (r : string) :
  entriesIn ("<LEDGERENTRIES.LIST>" ++ r)
  = (element "LEDGERNAME" ("<LEDGERENTRIES.LIST>" ++ r),
     element "ISDEEMEDPOSITIVE" ("<LEDGERENTRIES.LIST>" ++ r),
     element "AMOUNT" ("<LEDGERENTRIES.LIST>" ++ r))
      :: entriesIn ("LEDGERENTRIES.LIST>" ++ r).
Proof.
  change ("<LEDGERENTRIES.LIST>" ++ r) with (String "<"%char ("LEDGERENTRIES.LIST>" ++ r)).
  cbn [entriesIn].
  change (String "<"%char ("LEDGERENTRIES.LIST>" ++ r)) with ("<LEDGERENTRIES.LIST>" ++ r).
  rewrite startsWith_append. reflexivity.
Qed.

(** The first entry of a template that holds the opening tag of an entry
    after [k] characters of its first piece. *)
Lemma entriesIn_opening (piece : string) (rest : list (string * string)) (tail : string)
    (k : nat) :
  clear "<LEDGERENTRIES.LIST>" (take k piece) = true ->
  startsWith "<LEDGERENTRIES.LIST>" (drop k piece) = true ->
  entriesIn (weave piece rest ++ tail)
  = (element "LEDGERNAME" (weave (drop k piece) rest ++ tail),
     element "ISDEEMEDPOSITIVE" (weave (drop k piece) rest ++ tail),
     element "AMOUNT" (weave (drop k piece) rest ++ tail))
      :: entriesIn (weave (drop (S k) piece) rest ++ tail).
Proof.
  intros C W.
  rewrite <- (NumeralFacts.take_drop k piece) at 1.
  rewrite weave_lead, append_assoc, (entriesIn_clear _ _ C).
  rewrite (drop_succ k piece).
  apply startsWith_split in W as [r ->].
  change (drop 1 ("<LEDGERENTRIES.LIST>" ++ r)) with ("LEDGERENTRIES.LIST>" ++ r).
  rewrite !weave_lead, !append_assoc.
  apply entriesIn_here.
Qed.

(** The template of an entry, cut at the places of its texts. *)
Lemma ledgerEntryTemplate_weave (ledgerName deemedPositive amount billName billType : string) :
  XmlBuilder.ledgerEntryTemplate ledgerName deemedPositive amount billName billType
  = let p := pieces mark
               (XmlBuilder.ledgerEntryTemplate marked marked marked marked marked) in
    weave (fst p)
      (combine [ledgerName; deemedPositive; amount; billName; billType; amount] (snd p)).
Proof. vm_compute. reflexivity. Qed.

(** An entry of a message, read back. *)
Lemma entriesIn_entry (name flag amount billName billType tail : string) :
  free "<"%char billName = true -> free "<"%char billType = true ->
  entriesIn (XmlBuilder.ledgerEntryTemplate (escaped name) (escaped flag) (escaped amount)
               billName billType ++ tail)
  = (name, flag, amount) :: entriesIn tail.
Proof.
  intros Fn Ft. rewrite ledgerEntryTemplate_weave.
  match goal with
  | |- context [pieces mark ?t] =>
      let p := eval vm_compute in (pieces mark t) in
      change (pieces mark t) with p
  end.
  cbv zeta. cbn [fst snd combine].
  rewrite (entriesIn_opening _ _ _ 13) by (vm_compute; reflexivity).
  assert (F : Forall (fun text => free "<"%char text = true)
                [escaped name; escaped flag; escaped amount; billName; billType;
                 escaped amount]).
  { repeat (apply Forall_cons;
            [first [apply Reading.escaped_free; left; reflexivity | assumption]|]).
    apply Forall_nil. }
  f_equal; [f_equal; [f_equal|]|].
  - eapply (element_tail _ _ _ 0); [vm_compute; reflexivity | apply Forall_nil
                                    | reflexivity | reflexivity].
  - eapply (element_tail _ _ _ 1);
      [vm_compute; reflexivity
      | cbn [firstn map fst]; apply Forall_cons; [|apply Forall_nil];
        apply Reading.escaped_free; left; reflexivity
      | reflexivity | reflexivity].
  - eapply (element_tail _ _ _ 2);
      [vm_compute; reflexivity
      | cbn [firstn map fst];
        repeat (apply Forall_cons; [apply Reading.escaped_free; left; reflexivity|]);
        apply Forall_nil
      | reflexivity | reflexivity].
  - apply entriesIn_weave; [vm_compute; reflexivity | exact F].
Qed.

(** The elements of an entry, read from its text. *)
Lemma entry_elements (name flag amount billName billType : string) :
  let text :=
    XmlBuilder.ledgerEntryTemplate (escaped name) (escaped flag) (escaped amount)
      billName billType in
  element "LEDGERNAME" text = name
  /\ element "ISDEEMEDPOSITIVE" text = flag
  /\ element "AMOUNT" text = amount.
Proof.
  cbv zeta.
  pose proof (ledgerEntryTemplate_weave (escaped name) (escaped flag) (escaped amount)
                billName billType) as E.
  cbv zeta in E.
  repeat split.
  - Reading.read_element E 0%nat.
  - Reading.read_element E 1%nat.
  - Reading.read_element E 2%nat.
Qed.

(** ** The text of a number *)

Lemma digits_loop_all (f : nat) (n : Z) (acc : string) :
  all_digits acc = true -> all_digits (Num.digits_loop f n acc) = true.
Proof.
  revert n acc. induction f as [| f IH]; intros n acc A; [exact A|].
  cbn [Num.digits_loop].
  assert (D : all_digits (String (Num.digit_char (n mod 10)) acc) = true).
  { cbn [all_digits]. unfold is_digit.
    rewrite NumeralFacts.digit_val_digit_char by (apply Z.mod_pos_bound; lia).
    exact A. }
  destruct (n <? 10)%Z; [exact D | now apply IH].
Qed.

Lemma digits_all (n : Z) : all_digits (Num.digits n) = true.
Proof. apply digits_loop_all. reflexivity. Qed.

(** The five characters that [escapeXml] replaces. *)
Lemma digits_plain (c : ascii) (s : string) :
  In c ["&"%char; "<"%char; ">"%char; dq_char; "'"%char] ->
  all_digits s = true -> free c s = true.
Proof.
  intros I. induction s as [| x r IH]; [reflexivity|].
  cbn [all_digits free]. intros H. apply andb_true_iff in H as [D R].
  rewrite (IH R), andb_true_r.
  destruct (NumeralFacts.digit_cases x D)
    as [<- | [<- | [<- | [<- | [<- | [<- | [<- | [<- | [<- | [<- | []]]]]]]]]]];
    repeat (destruct I as [<- | I]; [reflexivity|]); destruct I.
Qed.

Lemma layout_plain (c : ascii) (ds : string) (n : Z) :
  In c ["&"%char; "<"%char; ">"%char; dq_char; "'"%char] ->
  all_digits ds = true -> free c (Num.layout ds n) = true.
Proof.
  intros I A. unfold Num.layout.
  assert (P : forall s, all_digits s = true -> free c s = true)
    by (intros s; apply digits_plain, I).
  assert (L : forall s : string,
             (s = "." \/ s = "0." \/ s = "e" \/ s = "-" \/ s = "+") -> free c s = true).
  { intros s [-> | [-> | [-> | [-> | ->]]]];
      repeat (destruct I as [<- | I]; [reflexivity|]); destruct I. }
  destruct ((Z.of_nat (length ds) <=? n) && (n <=? 21))%Z.
  { rewrite Scan.free_append, (P ds A), (P _ (NumeralFacts.all_digits_zeros _)).
    reflexivity. }
  destruct ((0 <? n) && (n <=? 21))%Z.
  { rewrite !Scan.free_append, (P _ (NumeralFacts.all_digits_take _ _ A)),
      (P _ (NumeralFacts.all_digits_drop _ _ A)), (L ".") by tauto.
    reflexivity. }
  destruct ((-6 <? n) && (n <=? 0))%Z.
  { rewrite !Scan.free_append, (P ds A), (P _ (NumeralFacts.all_digits_zeros _)),
      (L "0.") by tauto.
    reflexivity. }
  assert (E : free c (if (n - 1 <? 0)%Z then "-" else "+") = true)
    by (destruct (n - 1 <? 0)%Z; apply L; tauto).
  cbv zeta.
  destruct ds as [| d [| d' r]]; [reflexivity | |].
  - change (String d ?t) with (String d EmptyString ++ t).
    rewrite !Scan.free_append, E, (P _ A), (P _ (digits_all _)), (L "e") by tauto.
    reflexivity.
  - change (String d ?t) with (String d EmptyString ++ t).
    assert (R : all_digits (String d' r) = true)
      by (cbn [all_digits] in A; apply andb_true_iff in A as [_ R]; exact R).
    assert (D : is_digit d = true)
      by (cbn [all_digits] in A; apply andb_true_iff in A as [D _]; exact D).
    rewrite !Scan.free_append, E, (L "e"), (L "."), (P _ R), (P _ (digits_all _)) by tauto.
    rewrite P by (cbn [all_digits]; rewrite D; reflexivity). reflexivity.
Qed.

Lemma toString_plain (c : ascii) (x : Num.number) :
  In c ["&"%char; "<"%char; ">"%char; dq_char; "'"%char] ->
  free c (Num.toString x) = true.
Proof.
  intros I. destruct x as [s | s | | s m e]; cbn [Num.toString].
  - repeat (destruct I as [<- | I]; [reflexivity|]); destruct I.
  - destruct s; repeat (destruct I as [<- | I]; [reflexivity|]); destruct I.
  - repeat (destruct I as [<- | I]; [reflexivity|]); destruct I.
  - destruct (Num.exact_decimal m e) as [v d].
    destruct (Num.shortest 17 _ v d _ 1) as [s1 e1].
    rewrite Scan.free_append. apply andb_true_iff. split.
    + destruct s; repeat (destruct I as [<- | I]; [reflexivity|]); destruct I.
    + apply layout_plain; [exact I | apply digits_all].
Qed.

Lemma escaped_plain (s : string) :
  (forall c, In c ["&"%char; "<"%char; ">"%char; dq_char; "'"%char] -> free c s = true) ->
  escaped s = s.
Proof.
  induction s as [| x r IH]; [reflexivity|].
  intros F. cbn [escaped]. rewrite IH.
  - assert (N : forall c, In c ["&"%char; "<"%char; ">"%char; dq_char; "'"%char] ->
                          Ascii.eqb x c = false).
    { intros c I. specialize (F c I). cbn [free] in F.
      apply andb_true_iff in F as [F _]. apply negb_true_iff in F.
      rewrite Ascii.eqb_sym. exact F. }
    unfold entity.
    rewrite (N "&"%char), (N "<"%char), (N ">"%char), (N dq_char), (N "'"%char)
      by (cbn [In]; tauto).
    reflexivity.
  - intros c I. specialize (F c I). cbn [free] in F.
    apply andb_true_iff in F as [_ F]. exact F.
Qed.

Lemma escaped_toString (x : Num.number) : escaped (Num.toString x) = Num.toString x.
Proof. apply escaped_plain. intros c I. apply toString_plain, I. Qed.

(** ** The text of a date *)

Lemma Z_toString_plain (c : ascii) (z : Z) :
  In c ["&"%char; "<"%char; ">"%char; dq_char; "'"%char] ->
  free c (Num.Z_toString z) = true.
Proof.
  intros I. unfold Num.Z_toString. destruct (z <? 0)%Z.
  - rewrite Scan.free_append, (digits_plain c _ I (digits_all _)), andb_true_r.
    repeat (destruct I as [<- | I]; [reflexivity|]); destruct I.
  - apply (digits_plain c _ I (digits_all _)).
Qed.

Lemma formatDate_plain (rt : runtime) (date : value) :
  escaped (XmlBuilder.formatDate rt date) = XmlBuilder.formatDate rt date.
Proof.
  apply escaped_plain. intros c I.
  unfold XmlBuilder.formatDate, padStart.
  assert (N : forall n, free c (XmlBuilder.int_toString n) = true).
  { intros [z |]; [apply Z_toString_plain, I|].
    repeat (destruct I as [<- | I]; [reflexivity|]); destruct I. }
  assert (M : forall i, free c (XmlBuilder.month_text i) = true).
  { intros [m |]; unfold XmlBuilder.month_text.
    - do 12 (destruct m as [| m];
             [repeat (destruct I as [<- | I]; [reflexivity|]); destruct I|]).
      cbn [nth XmlBuilder.months].
      destruct m; repeat (destruct I as [<- | I]; [reflexivity|]); destruct I.
    - repeat (destruct I as [<- | I]; [reflexivity|]); destruct I. }
  rewrite !Scan.free_append, !N, M,
    (digits_plain c _ I (NumeralFacts.all_digits_zeros _)).
  repeat (destruct I as [<- | I]; [reflexivity|]); destruct I.
Qed.

(** ** The message of a voucher *)

Lemma concat_cons (x : string) (r : list string) : concat (x :: r) = x ++ concat r.
Proof.
  unfold concat. destruct r as [| y r]; cbn [join append].
  - now rewrite append_nil_r.
  - reflexivity.
Qed.

Lemma includes_here (pat r : string) : includes pat (pat ++ r) = true.
Proof.
  destruct pat as [| c p]; [destruct r; reflexivity|].
  cbn [append includes]. change (String c (p ++ r)) with (String c p ++ r).
  now rewrite startsWith_append.
Qed.

Lemma includes_middle (pat a b : string) : includes pat (a ++ pat ++ b) = true.
Proof.
  induction a as [| c a IH]; [exact (includes_here pat b)|].
  cbn [append includes]. rewrite IH. now destruct (startsWith pat _).
Qed.

Lemma includes_concat (text : string) (texts : list string) (a b : string) :
  In text texts -> includes text (a ++ concat texts ++ b) = true.
Proof.
  revert a. induction texts as [| t r IH]; intros a I; [destruct I|].
  rewrite concat_cons, append_assoc. destruct I as [-> | I].
  - apply includes_middle.
  - rewrite <- append_assoc. now apply IH.
Qed.

Lemma weave_snoc (piece : string) (rest : list (string * string)) (text next : string) :
  weave piece (rest ++ [(text, next)]) = weave piece rest ++ text ++ next.
Proof.
  revert piece. induction rest as [| [t n] r IH]; intros piece; cbn [app weave].
  - reflexivity.
  - now rewrite IH, !append_assoc.
Qed.

Lemma mapM_defined_entries (rt : runtime) (entries : list value) :
  Forall (fun entry => defined entry = true) entries ->
  exists texts : list string, mapM (XmlBuilder.ledgerEntryXml rt) entries = inr texts.
Proof.
  induction 1 as [| entry rest D _ [texts IH]]; cbn [mapM].
  - eexists. reflexivity.
  - unfold XmlBuilder.ledgerEntryXml at 1. rewrite (getM_defined _ _ D). cbn [bind ret].
    rewrite IH. cbn [bind ret]. eexists. reflexivity.
Qed.

Lemma mapM_In {A B : Type} (f : A -> result B) (l : list A) (ys : list B) (x : A) (y : B) :
  mapM f l = inr ys -> In x l -> f x = inr y -> In y ys.
Proof.
  revert ys. induction l as [| z r IH]; intros ys M I E; [destruct I|].
  cbn [mapM] in M.
  destruct (f z) as [e | w] eqn:Fz; [discriminate M|]. cbn [bind] in M.
  destruct (mapM f r) as [e | ws]; [discriminate M|]. cbn [bind] in M.
  injection M as <-. destruct I as [-> | I].
  - left. congruence.
  - right. now apply IH.
Qed.

Section Engine.

Variable rt : runtime.

(** The message of a voucher is a template that holds, after its last
    text, the entries one after the other and then its ending. *)
Lemma buildVoucherXml_entries (voucherData : obj) (entries : list value)
    (texts : list string) :
  get (VObj voucherData) "ledgerEntries" = VArr entries ->
  mapM (XmlBuilder.ledgerEntryXml rt) entries = inr texts ->
  exists head tail : string,
    XmlBuilder.buildVoucherXml rt voucherData = inr (head ++ concat texts ++ tail).
Proof.
  intros L M. unfold XmlBuilder.buildVoucherXml. rewrite L, M. cbn [bind]. unfold ret.
  generalize (toString (XmlBuilder.escapeXml (get (VObj voucherData) "voucherType"))).
  generalize (XmlBuilder.formatDate rt (get (VObj voucherData) "date")).
  generalize (toString (XmlBuilder.escapeXml
                          (or (get (VObj voucherData) "voucherNumber") (VStr EmptyString)))).
  generalize (toString (XmlBuilder.escapeXml
                          (or (get (VObj voucherData) "narration") (VStr EmptyString)))).
  generalize (concat texts).
  intros body narration number date kind.
  lazymatch goal with
  | |- ex (fun head => ex (fun tail => inr ?s = _)) =>
      Reading.pieces_of s (kind, date, number, narration, body) ltac:(fun p =>
        assert (E : s = weave (fst p)
                          (combine [kind; date; kind; number; narration; kind; date; body]
                             (snd p)))
          by (vm_compute; reflexivity))
  end.
  rewrite E. cbn [fst snd combine].
  match goal with
  | |- context [weave ?p [?a; ?b; ?c; ?d; ?e; ?f; ?g; ?h]] =>
      change (weave p [a; b; c; d; e; f; g; h])
        with (weave p ([a; b; c; d; e; f; g] ++ [h]))
  end.
  rewrite weave_snoc. eexists. eexists. reflexivity.
Qed.

(** The texts of a voucher, read back from its message. *)
Lemma buildVoucherXml_read (voucherData : obj) (entries : list value) (texts : list string)
    (kind date number narration : string) :
  get (VObj voucherData) "ledgerEntries" = VArr entries ->
  mapM (XmlBuilder.ledgerEntryXml rt) entries = inr texts ->
  toString (XmlBuilder.escapeXml (get (VObj voucherData) "voucherType")) = escaped kind ->
  XmlBuilder.formatDate rt (get (VObj voucherData) "date") = escaped date ->
  toString (XmlBuilder.escapeXml
              (or (get (VObj voucherData) "voucherNumber") (VStr EmptyString)))
  = escaped number ->
  toString (XmlBuilder.escapeXml
              (or (get (VObj voucherData) "narration") (VStr EmptyString)))
  = escaped narration ->
  exists voucherXml tail : string,
    XmlBuilder.buildVoucherXml rt voucherData = inr voucherXml
    /\ attribute "VCHTYPE" voucherXml = kind
    /\ element "DATE" voucherXml = date
    /\ element "VOUCHERTYPENAME" voucherXml = kind
    /\ element "VOUCHERNUMBER" voucherXml = number
    /\ element "NARRATION" voucherXml = narration
    /\ entriesIn tail = []
    /\ entriesIn voucherXml = entriesIn (concat texts ++ tail).
Proof.
  intros L M K D N R. unfold XmlBuilder.buildVoucherXml. rewrite L, M. cbn [bind]. unfold ret.
  rewrite K, D, N, R.
  generalize (concat texts). intros body.
  pose proof (Reading.escaped_free "<"%char kind (or_introl eq_refl)) as F1.
  pose proof (Reading.escaped_free "<"%char date (or_introl eq_refl)) as F2.
  pose proof (Reading.escaped_free "<"%char number (or_introl eq_refl)) as F3.
  pose proof (Reading.escaped_free "<"%char narration (or_introl eq_refl)) as F4.
  clear K D N R L M.
  remember (escaped kind) as n1 eqn:E1.
  remember (escaped date) as n2 eqn:E2.
  remember (escaped number) as n3 eqn:E3.
  remember (escaped narration) as n4 eqn:E4.
  lazymatch goal with
  | |- ex (fun xml => ex (fun tail => inr ?s = _ /\ _)) =>
      Reading.pieces_of s (n1, n2, n3, n4, body) ltac:(fun p =>
        assert (E : s = weave (fst p)
                          (combine [n1; n2; n1; n3; n4; n1; n2; body] (snd p)))
          by (vm_compute; reflexivity))
  end.
  rewrite E. cbn [fst snd combine].
  match goal with
  | |- context [weave ?p [?a; ?b; ?c; ?d; ?e; ?f; ?g; ?h]] =>
      change (weave p [a; b; c; d; e; f; g; h])
        with (weave p ([a; b; c; d; e; f; g] ++ [h]))
  end.
  rewrite weave_snoc. clear E. subst n1 n2 n3 n4.
  eexists. eexists. split; [reflexivity|].
  assert (F : Forall (fun text => free "<"%char text = true)
                [escaped kind; escaped date; escaped kind; escaped number;
                 escaped narration; escaped kind; escaped date])
    by (repeat (apply Forall_cons; [assumption|]); apply Forall_nil).
  split; [|split; [|split; [|split; [|split; [|split]]]]].
  7: (apply entriesIn_weave; [vm_compute; reflexivity | exact F]).
  6: (vm_compute; reflexivity).
  - eapply (attribute_tail _ _ _ 0);
      [vm_compute; reflexivity | apply Forall_nil | reflexivity | reflexivity].
  - eapply (element_tail _ _ _ 1);
      [vm_compute; reflexivity
      | cbn [firstn map fst]; repeat (apply Forall_cons; [assumption|]); apply Forall_nil
      | reflexivity | reflexivity].
  - eapply (element_tail _ _ _ 2);
      [vm_compute; reflexivity
      | cbn [firstn map fst]; repeat (apply Forall_cons; [assumption|]); apply Forall_nil
      | reflexivity | reflexivity].
  - eapply (element_tail _ _ _ 3);
      [vm_compute; reflexivity
      | cbn [firstn map fst]; repeat (apply Forall_cons; [assumption|]); apply Forall_nil
      | reflexivity | reflexivity].
  - eapply (element_tail _ _ _ 4);
      [vm_compute; reflexivity
      | cbn [firstn map fst]; repeat (apply Forall_cons; [assumption|]); apply Forall_nil
      | reflexivity | reflexivity].
Qed.

(** The text of a plain entry. *)
Lemma ledgerEntryXml_plain (entry : value) (a : Num.number) :
  plainEntry entry -> get entry "amount" = VNum a ->
  exists billName billType : string,
    XmlBuilder.ledgerEntryXml rt entry
    = inr (XmlBuilder.ledgerEntryTemplate
             (escaped (fst (fst (entryTexts entry))))
             (escaped (snd (fst (entryTexts entry))))
             (escaped (snd (entryTexts entry)))
             billName billType)
    /\ free "<"%char billName = true
    /\ free "<"%char billType = true.
Proof.
  intros [[name Hn] [Hb Ht]] HA.
  destruct entry as [| | b | x | s | d | l | fields]; try discriminate Hn.
  unfold XmlBuilder.ledgerEntryXml, entryTexts. rewrite getM_VObj. cbn [bind].
  rewrite HA, Hn. cbn [XmlBuilder.escapeXml toString XmlBuilder.toNumber fst snd].
  rewrite EscapeXml.escapeXml_string_escaped, escaped_toString.
  replace (escaped (if Num.gt a (S754_zero false) then "Yes" else "No"))
    with (if Num.gt a XmlBuilder.zero then "Yes" else "No")
    by (unfold XmlBuilder.zero; destruct (Num.gt a (S754_zero false)); reflexivity).
  eexists. eexists. split; [reflexivity|]. split.
  - destruct Hb as [-> | [s ->]].
    + reflexivity.
    + rewrite Reading.or_text. cbn [XmlBuilder.escapeXml toString].
      rewrite EscapeXml.escapeXml_string_escaped.
      apply Reading.escaped_free. left. reflexivity.
  - destruct Ht as [-> | [s [-> F]]].
    + reflexivity.
    + unfold or. destruct (truthy (VStr s)); [exact F | reflexivity].
Qed.

(** The entries of a voucher, read back from their texts. *)
Lemma entriesIn_texts (entries : list value) (texts : list string) (tail : string) :
  Forall plainEntry entries ->
  Forall (fun entry => exists a, get entry "amount" = VNum a) entries ->
  mapM (XmlBuilder.ledgerEntryXml rt) entries = inr texts ->
  entriesIn tail = [] ->
  entriesIn (concat texts ++ tail) = map entryTexts entries.
Proof.
  intros P. revert texts. induction P as [| entry rest Hp _ IH]; intros texts A M T.
  - injection M as <-. exact T.
  - apply Forall_cons_iff in A as [[a Ha] A].
    destruct (ledgerEntryXml_plain entry a Hp Ha) as [bn [bt [E [Fn Ft]]]].
    cbn [mapM] in M. rewrite E in M. cbn [bind] in M.
    destruct (mapM (XmlBuilder.ledgerEntryXml rt) rest) as [e | more] eqn:R;
      [discriminate M|].
    injection M as <-. rewrite concat_cons, append_assoc.
    rewrite (entriesIn_entry _ _ _ _ _ _ Fn Ft).
    cbn [map]. rewrite (IH more A eq_refl T).
    destruct (entryTexts entry) as [[n f] t]. reflexivity.
Qed.

End Engine.

End Built.

(* ===================================================================== *)
(** * C1: the validation of a voucher, and the message that is built *)
(* ===================================================================== *)

Module Creating.

Import Js Str Spec TallyConnector XmlBuilder VoucherService StrFacts JsFacts.

Lemma includes_right (pat a b : string) :
  includes pat b = true -> includes pat (a ++ b) = true.
Proof.
  intros H. induction a as [| c a IH]; [exact H|].
  cbn [append includes]. rewrite IH. now destruct (startsWith pat _).
Qed.

Lemma includes_split (pat s : string) :
  includes pat s = true -> exists x y : string, s = x ++ pat ++ y.
Proof.
  induction s as [| c s IH]; cbn [includes].
  - destruct pat; [|discriminate]. intros _. exists EmptyString, EmptyString. reflexivity.
  - destruct (startsWith pat (String c s)) eqn:W.
    + intros _. apply startsWith_split in W as [r E].
      exists EmptyString, r. exact E.
    + intros H. destruct (IH H) as [x [y ->]]. exists (String c x), y. reflexivity.
Qed.

Lemma includes_left (pat a b : string) :
  includes pat a = true -> includes pat (a ++ b) = true.
Proof.
  intros H. destruct (includes_split pat a H) as [x [y ->]].
  rewrite !append_assoc. apply Built.includes_middle.
Qed.

(** The import request holds the message it is made of. *)
Lemma buildImportRequest_holds (env : value) (dataXml : string) (options : obj) :
  includes dataXml (buildImportRequest env dataXml options) = true.
Proof.
  unfold buildImportRequest, buildEnvelope. cbv zeta.
  repeat match goal with
         | |- includes ?p (?p ++ _) = true => apply Built.includes_here
         | |- includes ?p ((_ ++ _) ++ _) = true => apply includes_left
         | |- includes ?p (_ ++ _) = true => apply includes_right
         end.
Qed.

Section Engine.

Variable rt : runtime.
Variable env : value.

Lemma text_or_none (v : value) :
  textOrNone v ->
  toString (escapeXml (or v (VStr EmptyString)))
  = escaped (toString (or v (VStr EmptyString))).
Proof.
  intros [-> | [s ->]].
  - reflexivity.
  - rewrite Reading.or_text. cbn [escapeXml toString].
    apply EscapeXml.escapeXml_string_escaped.
Qed.

(** C1.  [_validateVoucherData] raises exactly on the vouchers that the
    specification wants refused ([invalidVoucher]: a missing type, date or
    entry array, fewer than two entries, an entry without a ledger name or
    with an amount that is zero or not of type number, or amounts whose sum
    exceeds 0.01 in absolute value).  What it raises is an [Error] carrying
    one of its messages, unless an entry is [undefined] or [null].
    [createVoucher] then stops with that error before it builds or sends
    anything.  On every other voucher [buildVoucherXml] succeeds, and
    [createVoucher] posts the import request made of the message, which
    holds the message.  The message holds the text of every entry; and
    when the texts of the voucher are strings ([plainVoucher]) a reader
    of XML finds the voucher in it: the type in the [VCHTYPE] attribute
    and in the [VOUCHERTYPENAME] element, the formatted date in the
    [DATE] element (day, month and year for a calendar date), the number
    and the narration in their elements, and one entry for each entry of
    the voucher, in their order, with the ledger name, the deemed-positive
    flag and the absolute amount of each. *)
Theorem createVoucher_validation (voucherData : obj) :
  ((exists error, _validateVoucherData rt voucherData = inl error)
   <-> invalidVoucher voucherData)
  /\ (forall error,
         _validateVoucherData rt voucherData = inl error ->
         createVoucher rt env voucherData = Done (inl error)
         /\ run (createVoucher rt env voucherData) [] = ([], Some (inl error))
         /\ ((exists text, error = Error text)
             \/ exists entries,
                  get (VObj voucherData) "ledgerEntries" = VArr entries
                  /\ (In VUndef entries \/ In VNull entries)))
  /\ (~ invalidVoucher voucherData ->
      exists (voucherXml : string) (k : reply -> io value) (entries : list value),
        buildVoucherXml rt voucherData = inr voucherXml
        /\ createVoucher rt env voucherData
           = Post (buildImportRequest env voucherXml []) k
        /\ includes voucherXml (buildImportRequest env voucherXml []) = true
        /\ get (VObj voucherData) "ledgerEntries" = VArr entries
        /\ Forall (fun entry =>
                     exists text : string,
                       ledgerEntryXml rt entry = inr text
                       /\ includes text voucherXml = true)
             entries
        /\ (plainVoucher voucherData ->
            attribute "VCHTYPE" voucherXml = toString (get (VObj voucherData) "voucherType")
            /\ element "VOUCHERTYPENAME" voucherXml
               = toString (get (VObj voucherData) "voucherType")
            /\ element "DATE" voucherXml = formatDate rt (get (VObj voucherData) "date")
            /\ (forall (y : Z) (m d : nat) (shown : string),
                   get (VObj voucherData) "date" = VDate (Date y m d shown) ->
                   calendarDate y m d ->
                   element "DATE" voucherXml
                   = twoDigits d ++ "-" ++ abbreviation m ++ "-" ++ Num.Z_toString y)
            /\ element "VOUCHERNUMBER" voucherXml
               = toString (or (get (VObj voucherData) "voucherNumber") (VStr EmptyString))
            /\ element "NARRATION" voucherXml
               = toString (or (get (VObj voucherData) "narration") (VStr EmptyString))
            /\ entriesIn voucherXml = map entryTexts entries)).
Proof.
  pose proof (Validation.validate_spec rt voucherData) as V.
  split; [|split].
  - destruct (_validateVoucherData rt voucherData) as [e|u].
    + split; [intros _; exact V | intros _; eauto].
    + split; [intros [e E]; discriminate E | intros I; now elim V].
  - intros error E. unfold createVoucher. rewrite E. cbn [throw run].
    repeat split. apply (Validation.validate_error rt), E.
  - intros NI.
    destruct (_validateVoucherData rt voucherData) as [e|[]] eqn:E; [now elim NI|].
    destruct (Validation.validated_entries rt voucherData E) as [entries [L G]].
    destruct (Validation.mapM_entries_good rt entries G) as [texts M].
    destruct (Built.buildVoucherXml_entries rt voucherData entries texts L M)
      as [head [tail B]].
    exists (head ++ concat texts ++ tail). eexists. exists entries.
    split; [exact B|].
    split; [unfold createVoucher; rewrite E, B; reflexivity|].
    split; [apply buildImportRequest_holds|].
    split; [exact L|].
    split.
    { apply Forall_forall. intros entry I.
      destruct (Validation.goodEntry_object entry (proj1 (Forall_forall _ _) G entry I))
        as [fields ->].
      assert (X : exists text, ledgerEntryXml rt (VObj fields) = inr text).
      { unfold ledgerEntryXml. rewrite getM_VObj. cbn [bind ret]. eexists. reflexivity. }
      destruct X as [text X]. exists text. split; [exact X|].
      apply Built.includes_concat.
      exact (Built.mapM_In _ _ _ _ _ M I X). }
    intros [[kind K] [Hn [Hr [entries' [L' P]]]]].
    rewrite L in L'. injection L' as <-.
    destruct (Built.buildVoucherXml_read rt voucherData entries texts
                kind (formatDate rt (get (VObj voucherData) "date"))
                (toString (or (get (VObj voucherData) "voucherNumber") (VStr EmptyString)))
                (toString (or (get (VObj voucherData) "narration") (VStr EmptyString)))
                L M)
      as [xml [tail' [B' [R1 [R2 [R3 [R4 [R5 [T R6]]]]]]]]].
    { rewrite K. cbn [escapeXml toString]. apply EscapeXml.escapeXml_string_escaped. }
    { symmetry. apply Built.formatDate_plain. }
    { apply text_or_none, Hn. }
    { apply text_or_none, Hr. }
    rewrite B in B'. injection B' as <-.
    rewrite K. cbn [toString].
    split; [exact R1|]. split; [exact R3|]. split; [exact R2|].
    split.
    { intros y m d shown D C. rewrite R2, D. apply FormatDate.formatDate_Date, C. }
    split; [exact R4|]. split; [exact R5|].
    rewrite R6. apply (Built.entriesIn_texts rt); [exact P | | exact M | exact T].
    apply Forall_forall. intros entry I.
    destruct (Validation.goodEntry_amount entry (proj1 (Forall_forall _ _) G entry I))
      as [a [A _]].
    now exists a.
Qed.

End Engine.

(** The scenario of the specification: the message of the balanced
    voucher, read back. *)
Example balanced_voucher_read_back :
  exists voucherXml : string,
    buildVoucherXml plainEngine balancedVoucher = inr voucherXml
    /\ attribute "VCHTYPE" voucherXml = "Sales"
    /\ element "DATE" voucherXml = "15-Sep-2023"
    /\ entriesIn voucherXml
       = [("A", "Yes", "11800"); ("B", "No", "10000"); ("C", "No", "900");
          ("D", "No", "900")].
Proof. eexists. repeat split; vm_compute; reflexivity. Qed.

End Creating.

(* ===================================================================== *)
(** * C2: the amount of an entry, built and read back *)
(* ===================================================================== *)

Module RoundTrip.

Import Js Str Numeral Spec XmlBuilder VoucherService StrFacts JsFacts.



(** The message of a voucher with two entries holds the text of each. *)
Example entry_text_in_voucher :
  exists text voucherXml : string,
    ledgerEntryXml plainEngine (entryWith "B" "-10000") = inr text
    /\ buildVoucherXml plainEngine balancedVoucher = inr voucherXml
    /\ includes text voucherXml = true
    /\ entriesIn text = [("B", "No", "10000")].
Proof. do 2 eexists. repeat split; vm_compute; reflexivity. Qed.

End RoundTrip.
